(* ===== verification/_CoqProject ===== *)
-Q . S2P
Prelude.v
JsRuntime.v
Json.v
EntityList.v
Validation.v
Students.v
Fees.v
Crud.v
Library.v
Exams.v
Salaries.v
Teachers.v
Notices.v
Gallery.v
Timetable.v
Leave.v
Auth.v
Dashboard.v
Session.v
Site.v
Flows.v
