(* ===== verification/Prelude.v ===== *)
(** * Campus Hub: a verification development of the school-management app

    Campus Hub (src/src) is a Next.js front end for a school.  Behind a
    mock login (src/src/contexts/AuthContext.tsx) a layout with a
    role-filtered sidebar (src/src/components/layout) shows a dashboard
    per role and a dozen management screens under
    src/src/app/(app)/<screen>/page.tsx.  Each screen keeps an in-memory
    array of records in React state and changes it only through its
    event handlers: a form submit that edits the record selected for
    editing (an [Array.prototype.map] keyed on [id]) or adds a record with
    an id built from [Date.now()], a confirmed delete (a [filter] on
    [id]), and screen-specific actions (promote a student, record a fee
    payment, approve a leave request).  Forms are validated by zod
    schemas before a handler runs.  Two server flows (src/src/ai/flows)
    generate study questions with a language model and acknowledge
    enquiries of the public home page (src/src/app/page.tsx).  The spec
    calls the shared list pattern the "Entity List Manager".

    ** Files, in dependency order

    - [Prelude] (this file): the [campus_scope] notations ([=ₛ], [≠ₛ]),
      the tactics [decide_it] and [not_in_it], the hint databases
      [campus] and [campus_rw], the reflexive-transitive closure [star]
      of a step relation and the runs [run] of a labelled one, the bounded loop [all_from] that range checks
      evaluate, and generic lemmas on lists and strings, among them
      [mapM_rows_total]: a table rendered by [mapM] of a row function
      has one row per record when no row throws; [dq], the quotation
      mark of the template literals that quote a value.
    - [JsRuntime]: the JavaScript behaviour the pages rely on, written
      from ECMAScript: the stable [Array.prototype.sort] with a comparator
      ([js_sort], an insertion sort, with its permutation and sortedness
      lemmas), UTF-16 string comparison, [trim], [toUpperCase], [slice],
      [split(c)[0]],
      [Number.prototype.toString] on naturals, [Array.prototype.join],
      date-fns' [parseISO] on [yyyy-MM-dd] strings ([parse_ymd],
      milliseconds since the epoch) and its [format] with the patterns
      [yyyy-MM-dd] ([format_ymd]), [PPP] and [PP] ([format_ppp],
      [format_pp], [None] where date-fns throws on an Invalid Date), and
      [toFixed(2)] on whole amounts.
    - [Json]: [JSON.stringify] and [JSON.parse] (ECMAScript's JSON
      grammar: whitespace, string escapes including [\uXXXX], numbers,
      literals, arrays, objects with the last duplicate key winning),
      JavaScript truthiness and property lookup on parsed values.
    - [EntityList]: the Entity List Manager.  The class [Keyed] is the
      interface a record type offers (its [id]); [update_by_id],
      [remove_by_id], [append_record], [prepend_record] are the idioms of
      the pages; [gen_id] the [`P${Date.now().toString().slice(-4)}`] ids.
      The abstract specification is a [gmap string A] with the spec's
      [NotFound] error, and the refinement theorems relate the two.
    - [Validation]: zod's [min]/[max], the optional-field idiom and the
      phone regular expression, as an executable backtracking matcher
      over the set of suffixes a pattern can leave.
    - [Students], [Fees]: the two screens with their own state machines
      (students/page.tsx, fees/page.tsx): records, schemas, every handler,
      and the page as a step relation [step] whose events are the
      buttons and dialogs, guarded as the markup guards them (admin only,
      one dialog at a time, Pay disabled for paid records); the dialogs'
      form resets, field inputs and texts, and the rendered tables
      ([render_students], [render_structures], [render_records]).
    - [Crud]: the page pattern the other screens share: [CrudPage] (list,
      dialog, record being edited, record to delete), its handlers
      ([editOrAppend], [handleDeleteConfirm]), its [step] relation and the
      generic theorem [crud_reachable_inv]: an invariant that the seed,
      every accepted submit and every delete keep holds in every
      reachable state.  [deleteConfirmToast] (the delete handler with its
      toast), [openAddReset] (the add handler with its form reset) and
      [PageHeader] (the heading with its admin-only "Add" button) are
      what each screen's [Module Page] instantiates, with the dialogs'
      handlers [dialogOpenChange] and [confirmDialog], each of them a
      [step] of the page ([dialogs_are_steps]).
    - [Library], [Exams], [Salaries], [Teachers], [Notices], [Gallery],
      [Timetable]: one Module per screen, each a [CrudPage] instance with
      the screen's record, schema, submit handler and derived views
      (sorted tables, filters, the timetable grid, the active/expired
      notice split), the dialogs' form resets and inputs, and the
      rendered tables, cards and grids ([None] where a date-fns [format]
      call throws).  Gallery and Timetable are also transition systems of
      their own ([gstep], [tstep]): the filter and class selects offer
      only their listed options, and the timetable's Edit and Delete
      buttons exist only in the cells the grid shows.  Each screen's
      [Module Page] holds its own copies of the shared handlers
      ([openAddModal] with its reset values, [handleDeleteConfirm] with
      its toast) and its heading.
    - [Leave]: attendance-leave/page.tsx, the Pending -> Approved |
      Rejected machine, with the render's in-place sort of the state.
    - [Session]: the same session at the level of the text
      [localStorage] holds: [JSON.stringify] of the new user, the mount
      effect's [JSON.parse] and truthy [id]/[role] check, and what the
      sidebar, the layout and [roleDashboards[user.role]] make of any
      parsed value.  It refines [Auth] on the texts [login] writes.
    - [Auth]: the provider state ([AuthState]: user, loading flag,
      [localStorage], route), its mount effect, [login], [logout], the
      context value and [useAuth], which throws outside a provider; the
      login page as a state machine [lstep] together with the session
      (the form's inputs, Sign In disabled while loading, the timer of
      [onSubmit] as an event of its own, the OTP section); the sidebar's
      [navItems] and role filter, the rendered sidebar ([render_sidebar]:
      entries, the highlighted link, the user's name and role) and the
      layout guard.
    - [Dashboard]: dashboard/page.tsx, the card lists of each role.
    - [Site]: the app router's pages, the public home page (sections,
      links, the forms section, the cards of the highlights, events,
      noticeboard and gallery previews, the footer's year), the
      form-admin and transport
      placeholders, and the app header (initials, user menu, theme).
    - [Flows]: the study-question flow and page (the asynchronous handler
      split at its [await] into [start] and [finish], interleaved with
      input in [sq_step], and its render [render_sq]), the enquiry flow, and the enquiry form as a
      state machine ([estep] over runs of events, [run] of the Prelude).

    ** What the theorems show

    - Refinement: the list idioms implement the gmap specification when
      the id is present, and silently do nothing where the spec raises
      [NotFound]; an append with a taken id, which the spec's create
      refuses, stores a second record the map does not show; the payment
      handler's effect is given field by field.
    - Invariants by rule induction on [reachable]: unique ids, sorted
      lists, schema-valid records and consistent statuses for students,
      fees, library, exams, salaries, teachers and leave requests (ids
      fresh at each create being a hypothesis, since [gen_id] collides:
      [create_twice_duplicate_ids]); Paid fee records and decided leave
      requests are final.
    - Functional behaviour of the handlers on every branch, errors
      included (the unknown teacher's early return, the blank document).
    - Equivalences: the ISBN regex equals a declarative description; the
      guardian-phone refinement reduces to a length test.
    - Termination and round trips: promotion reaches "Graduated" in
      thirteen steps; [Number(n.toString()) = n]; [parseISO] and
      [format(d, 'yyyy-MM-dd')] are inverse ([parse_format_ymd] for every
      accepted string, [format_parse_ymd] for every date of the years
      0000-9999), so saving an Exams or Notices edit dialog unchanged
      gives the record back; [JSON.parse] inverts [JSON.stringify] on
      the flat objects [login] stores.
    - Liveness: an administrator can always drive a pending leave
      request to a decision ([pending_can_be_decided], a sequence of
      steps in [star]) and settle any unpaid fee record by submitting
      the payment form as it is reset ([unpaid_record_settles]); a user
      can always sign in with the values typed before Sign In
      ([sign_in_run]); the study-question page always has an enabled
      event and an in-flight request only waits for its answer.
    - The login page calls [login] at most once per visit
      ([login_at_most_once], a potential argument over runs), and its
      OTP section is unreachable ([otp_section_unreachable]).
    - Type and bounds: the stored user's [User] annotation is not
      checked at run time, so a role outside [UserRole] signs in with an
      empty sidebar and the default dashboard ([stored_role_unchecked]);
      [gen_id] has exactly 10000 values ([gen_id_space]).
    - Rendering never throws on reachable states of the exams,
      salaries, students and fees pages ([exams_page_renders],
      [salaries_page_renders], [students_page_renders],
      [fees_records_render]: one row per record, by [mapM_rows_total]),
      and does throw for a notice whose expiry [parseISO] rejects
      ([invalid_expiry_crashes_page]).
    - Dialogs: the timetable's add dialog accepts exactly the forms in
      which a subject, a teacher and a room were picked
      ([add_dialog_valid_iff]).  Saving an edit dialog unchanged gives
      the record back on the library ([library_edit_unchanged]), exams,
      salaries, gallery, teachers, notices and fee-structure dialogs (the round trips above), except where
      the page itself prevents it: seeded teacher phones fail the schema
      (clearing the field is the way out, [seeded_phone_cleared]), and
      a salary record more than five years
      old can never be saved because its year input is disabled while
      the schema checks the year against the clock
      ([old_record_edit_rejected]).
    - States the pages reach but should not: a timetable entry booked at
      lunch is stored, never shown and can never be edited or deleted
      ([lunch_entry_stuck], by an invariant of [tstep] and induction on
      sequences of steps); the gallery's filter can keep a tag that no
      item has any more ([stale_filter_hides_items]); a gallery card
      shows the day before its date west of Greenwich
      ([gallery_card_date]); after a successful admission enquiry the
      class Select still shows a class the form no longer holds, so the
      next enquiry is refused for a missing class
      ([stale_class_after_success]).
    - Navigation and the public site: the sidebar highlights at most
      one entry whatever the path ([sidebar_one_active]: no nav href is
      a prefix of another); every list of the home page has distinct
      React keys ([home_keys_distinct]); the public noticeboard dates
      its notices a day early west of Greenwich
      ([public_notice_posted_day]); the gallery preview's link sends a
      visitor to the login page ([gallery_preview_link_needs_login]).
      A confirmed delete shows its toast exactly when a record is
      removed, and names it ([deleteConfirmToast_spec]); a question's
      preview has at most 103 characters ([question_preview_bounds]).
    - Findings proved as theorems: dead [Overdue] branch, negative net
      salaries, seeded phones that fail the schema, Date.parse/parseISO
      disagreement, hidden double bookings, routes not guarded by role,
      dashboard metrics that disagree with the data, sections stored
      longer than the schema allows, broken anchors of
      the home page, stray-space initials.

    ** Parameters, bounds and fuel

    - The clock and the date functions the pages import ([Date.now],
      [isPast], [Date.parse], [toISOString], [isValid]), [localeCompare]
      and zod's [email] check are parameters (Section [Variable]s) of the
      definitions that use them; where a theorem needs a property of them
      (antisymmetry, transitivity of the collation) it is a hypothesis and
      the witness instantiates it with code-unit comparison and
      [parse_ymd].
    - A string is a sequence of UTF-16 code units; the model's
      characters ([ascii]) are the code units 0-255 (Latin-1), which
      covers every literal of the sources.  [String.prototype.toUpperCase]
      (Unicode's full case mapping, whose capitals can leave Latin-1 and
      can be longer than the original) is a parameter of the student
      page, with the two properties its invariant uses: a non-empty
      string stays non-empty and grows at most threefold.
    - Numbers used as money or counts are [Z] (the code only adds,
      subtracts and compares whole amounts); ids from [Date.now()] are
      [N].  Floating point is not modelled.
    - [js_number_to_string] runs [digits_fuel] with [1 + size_nat n]
      steps; the binary size bounds the decimal length, so the fuel never
      runs out ([js_number_to_string] is total and
      [js_Number_roundtrip] holds for every [n]).  [JSON.parse] runs the
      mutually recursive [parse_value] with fuel [length + 1], one unit
      per value, element and member; each of them starts at a character
      of its own, so the length bounds what a text needs.  That the
      fuel suffices is proved for the texts of objects whose values are
      strings or [null], the shape of every stored user (the round trip
      [stringify_parse_opt_obj] runs at exactly this fuel), not for
      every text.  The regex
      matchers and all other definitions are structural.
    - One range check is evaluated by [vm_compute]
      ([gregorian_cycle_check], about 9 seconds): every valid date of
      the 400-year Gregorian cycle of years 0 to 399 comes back from its
      day count.  The day count and the civil date both shift by
      146097 days per 400 years ([days_from_civil_period],
      [civil_from_days_period]), so the check covers every year.

    ** Not modelled

    Presentation (styling, icons, the shadcn/ui components), toasts'
    appearance, the length of the login form's delay (its timer is an
    event that may fire at any later point), the language model itself
    (any answer is an input), and the fixed paragraphs of the hero,
    admission and contact sections (only their links are modelled).
    No file under src mounts [AuthProvider] (the root layout is not
    among the sources): every page is taken to render inside one, where
    [useAuth] returns the provider's value rather than throwing.
    PROJECT.json lists every component with its status.
*)

From stdpp Require Export base list strings.
From stdpp Require Import list_monad.
From Stdlib Require Export String Ascii ZArith Lia.

(** [String] shadows the list [length]; the development means the list one
    unless it writes [String.length]. *)
Abbreviation length := Datatypes.length (only parsing).

Declare Scope campus_scope.
Delimit Scope campus_scope with campus.
Open Scope campus_scope.

(** JavaScript's [===] on strings. *)
Notation "a =ₛ b" := (String.eqb a b) (at level 70, no associativity) : campus_scope.
(** JavaScript's [!==] on strings. *)
Notation "a ≠ₛ b" := (negb (String.eqb a b)) (at level 70, no associativity) : campus_scope.

(** A double quotation mark, for the template literals that quote a
    value ([`Book "${b.title}" ...`]). *)
Definition dq : string := String (Ascii.ascii_of_nat 34) EmptyString.

Create HintDb campus.
Create Rewrite HintDb campus_rw.

(** Case analysis on a string comparison of the code. *)
Ltac str_cases a b :=
  destruct (String.eqb_spec a b) as [<-|?].

(** Rewrite away every decided string comparison in goal and context. *)
Ltac simpl_streq :=
  repeat match goal with
  | H : (?a =? ?b)%string = true |- _ => apply String.eqb_eq in H; subst
  | |- context [(?a =? ?a)%string] => rewrite String.eqb_refl
  | H : ?a <> ?b |- context [(?a =? ?b)%string] =>
      rewrite (proj2 (String.eqb_neq a b) H)
  | H : ?b <> ?a |- context [(?a =? ?b)%string] =>
      rewrite (proj2 (String.eqb_neq a b) (not_eq_sym H))
  end.

(** Close a decidable goal on concrete data by evaluation. *)
Ltac decide_it := apply (bool_decide_unpack _); vm_compute; exact I.

(** Refute membership of a concrete string in a concrete list. *)
Ltac not_in_it :=
  let H := fresh in intro H; repeat (destruct H as [H|H]; [discriminate H|]); exact H.

(** Finite sequences of transitions: the reflexive and transitive
    closure of a relation, as in Leroy's [Sequences] library.  A page's
    liveness is stated with it: some sequence of events reaches a state. *)
(** A bounded loop over the integers [z], [z+1], ..., [z+n-1]: the range
    checks that [vm_compute] decides. *)
Fixpoint all_from (f : Z -> bool) (n : nat) (z : Z) : bool :=
  match n with
  | O => true
  | S n' => f z && all_from f n' (z + 1)
  end.

Section Star.
Context {S : Type} (R : S -> S -> Prop).

Inductive star : S -> S -> Prop :=
  | star_refl s : star s s
  | star_step s1 s2 s3 : R s1 s2 -> star s2 s3 -> star s1 s3.
End Star.

(** A run of a labelled step relation: the events in order.  A page's
    safety over whole runs (how often a handler can fire) is stated
    with it. *)
Section Run.
Context {S E : Type} (step : S -> E -> S -> Prop).

Inductive run : S -> list E -> S -> Prop :=
  | run_nil s : run s [] s
  | run_cons s e es s' s'' : step s e s' -> run s' es s'' -> run s (e :: es) s''.
End Run.

#[export] Hint Constructors star : campus.
#[export] Hint Constructors run : campus.

Lemma streq_true_iff (a b : string) : (a =? b)%string = true <-> a = b.
Proof. apply String.eqb_eq. Qed.

Lemma streq_false_iff (a b : string) : (a =? b)%string = false <-> a <> b.
Proof. apply String.eqb_neq. Qed.

Lemma streq_sym (a b : string) : (a =? b)%string = (b =? a)%string.
Proof. apply String.eqb_sym. Qed.

(** stdpp makes [String.append] opaque to [simpl]; these are its
    defining equations. *)
Lemma string_app_nil (b : string) : ("" ++ b)%string = b.
Proof. reflexivity. Qed.

Lemma string_app_cons (x : ascii) (a b : string) : (String x a ++ b)%string = String x (a ++ b).
Proof. reflexivity. Qed.

Lemma string_append_assoc (a b c : string) : ((a ++ b) ++ c = a ++ (b ++ c))%string.
Proof. induction a as [|x a IH]; [done|]. by rewrite !string_app_cons, IH. Qed.

Lemma string_app_nil_r (s : string) : (s ++ "")%string = s.
Proof. induction s as [|c s IH]; [done|]. rewrite string_app_cons. by rewrite IH. Qed.

Lemma string_length_app (p x : string) :
  String.length (p ++ x) = String.length p + String.length x.
Proof. induction p as [|c p IH]; [done|]. rewrite string_app_cons. simpl. by rewrite IH. Qed.

Lemma string_length_list (s : string) : String.length s = length (list_ascii_of_string s).
Proof. induction s as [|c s IH]; simpl; congruence. Qed.

#[export] Hint Rewrite String.eqb_refl string_app_nil string_app_cons : campus_rw.

(** ** Generic list lemmas shared by the components *)

Lemma filter_all_true {A} (f : A -> bool) (l : list A) :
  (forall x, In x l -> f x = true) -> List.filter f l = l.
Proof.
  induction l as [|x l IH]; intros Hall; simpl; [done|].
  rewrite (Hall x) by (left; done). f_equal. apply IH. intros y Hy. apply Hall. by right.
Qed.

Lemma filter_length_le {A} (f : A -> bool) (l : list A) :
  length (List.filter f l) <= length l.
Proof. induction l as [|x l IH]; simpl; [lia|]. destruct (f x); simpl; lia. Qed.

Lemma map_ext_in_id {A} (f : A -> A) (l : list A) :
  (forall x, In x l -> f x = x) -> List.map f l = l.
Proof.
  induction l as [|x l IH]; intros Hall; simpl; [done|].
  rewrite (Hall x) by (left; done). f_equal. apply IH. intros y Hy. apply Hall. by right.
Qed.

#[export] Hint Resolve filter_length_le : campus.

(** ** Sequences of transitions *)

Lemma star_one {S} (R : S -> S -> Prop) a b : R a b -> star R a b.
Proof. eauto with campus. Qed.

Lemma star_trans {S} (R : S -> S -> Prop) a b c : star R a b -> star R b c -> star R a c.
Proof. induction 1; eauto with campus. Qed.

#[export] Hint Resolve star_one star_trans : campus.

(** A table whose rows are [mapM row] of a reordering of the records
    renders, one row per record, when every record has a row. *)
Lemma mapM_rows_total {A B} (row : A -> option B) (l sorted : list A) :
  Permutation sorted l -> (forall x, In x l -> is_Some (row x)) ->
  exists k, mapM row sorted = Some k /\ length k = length l.
Proof.
  intros Hp Hrow. destruct (mapM_is_Some_2 row sorted) as [k Hk].
  { apply List.Forall_forall. intros x Hx. apply Hrow. by rewrite <- Hp. }
  exists k. split; [done|]. apply mapM_Some_1, Forall2_length in Hk. rewrite <- Hk.
  by apply Permutation_length.
Qed.

Lemma all_from_spec f n z0 z :
  all_from f n z0 = true -> (z0 <= z < z0 + Z.of_nat n)%Z -> f z = true.
Proof.
  revert z0. induction n as [|n IH]; intros z0 H Hz; simpl in *; [lia|].
  apply andb_true_iff in H as [Hf Hn].
  destruct (Z.eq_dec z z0) as [->|Hne]; [done|]. apply (IH (z0 + 1)%Z); [done|lia].
Qed.
