(* ===== verification/JsRuntime.v ===== *)
(** * The JavaScript runtime functions the pages call

    Models of the ECMAScript built-ins the handlers rely on, written from
    their specified behaviour: [Array.prototype.sort] with a comparator
    (stable since ES2019), [String.prototype.trim], [toUpperCase] on ASCII
    letters, [String.prototype.slice] with a negative start, and
    [Number.prototype.toString] on non-negative integers.  Each comes with
    the lemmas the components use. *)

From S2P Require Import Prelude.
From Stdlib Require Import Sorted Permutation.

(** ** [Array.prototype.sort(comparefn)] *)

Section JsSort.
Context {A : Type} (cmp : A -> A -> Z).

(** Insertion step of a stable sort: [x] goes before the first element
    that compares strictly greater, hence after every element equal to
    it. *)
Fixpoint sort_insert (x : A) (l : list A) : list A :=
  match l with
  | [] => [x]
  | y :: ys => if (cmp x y <? 0)%Z then x :: y :: ys else y :: sort_insert x ys
  end.

(** [arr.sort(cmp)] on a copy: elements are inserted in array order, so
    elements the comparator deems equal keep their relative order (the
    stability ES2019 requires).  For a consistent comparator every
    stable sort returns this list. *)
Definition js_sort (l : list A) : list A :=
  fold_left (fun acc x => sort_insert x acc) l [].

Definition cmp_le (x y : A) : Prop := (cmp x y <= 0)%Z.

End JsSort.


(** The comparison [a < b] of JavaScript strings (code-unit order), as a
    comparator: the fallback collation the witnesses use for
    [localeCompare]. *)
Definition code_unit_compare (a b : string) : Z :=
  match String.compare a b with Lt => -1 | Eq => 0 | Gt => 1 end.

(** ** Strings *)

(** The whitespace [String.prototype.trim] removes, restricted to 8-bit
    code units: TAB, LF, VT, FF, CR, SPACE and NO-BREAK SPACE. *)
Definition is_js_space (c : ascii) : bool :=
  let n := nat_of_ascii c in
  (n =? 9) || (n =? 10) || (n =? 11) || (n =? 12) || (n =? 13) || (n =? 32) || (n =? 160).

Fixpoint drop_spaces (l : list ascii) : list ascii :=
  match l with
  | [] => []
  | c :: l' => if is_js_space c then drop_spaces l' else l
  end.

(** [s.trim()]: whitespace removed at both ends. *)
Definition js_trim (s : string) : string :=
  string_of_list_ascii (rev (drop_spaces (rev (drop_spaces (list_ascii_of_string s))))).

(** Upper-casing on ASCII: a-z become A-Z, every other code unit stays.
    JavaScript's [toUpperCase] is Unicode's full case mapping and differs
    outside ASCII ('ß' becomes "SS"), so the pages take it as a
    parameter; this function and [latin1_toUpperCase] are instances the
    examples use, exact on the strings they pass. *)
Definition js_upper_char (c : ascii) : ascii :=
  let n := nat_of_ascii c in
  if (97 <=? n) && (n <=? 122) then ascii_of_nat (n - 32) else c.

Fixpoint js_toUpperCase (s : string) : string :=
  match s with
  | EmptyString => EmptyString
  | String c s' => String (js_upper_char c) (js_toUpperCase s')
  end.

(** Upper-casing on Latin-1 code units as Unicode's full mapping does it
    for every one whose capital is again Latin-1: a-z and à-þ (but ÷)
    move up by 32, 'ß' becomes "SS".  'µ' and 'ÿ', whose capitals lie
    outside Latin-1, are left as they are. *)
Definition latin1_upper_char (c : ascii) : string :=
  let n := nat_of_ascii c in
  if ((97 <=? n) && (n <=? 122)) || ((224 <=? n) && (n <=? 254) && negb (n =? 247))
  then String (ascii_of_nat (n - 32)) EmptyString
  else if n =? 223 then "SS" else String c EmptyString.

Fixpoint latin1_toUpperCase (s : string) : string :=
  match s with
  | EmptyString => EmptyString
  | String c s' => latin1_upper_char c ++ latin1_toUpperCase s'
  end.

(** [s.split(c)[0]]: the text before the first [c], or all of [s]
    when it has none. *)
Fixpoint js_split_first (c : ascii) (s : string) : string :=
  match s with
  | EmptyString => EmptyString
  | String a s' => if Ascii.eqb a c then EmptyString else String a (js_split_first c s')
  end.

(** [s.slice(-k)]: the last [k] characters, or all of [s] when it is
    shorter (the start index [length - k] is clamped to 0). *)
Definition js_slice_last (k : nat) (s : string) : string :=
  substring (String.length s - k) k s.

(** ** [Number.prototype.toString()] on non-negative integers *)

Definition digit_char (d : N) : ascii := ascii_of_N (48 + d).

(** Decimal digits of [n] prepended to [acc], most significant first;
    [fuel] bounds the number of digits. *)
Fixpoint digits_fuel (fuel : nat) (n : N) (acc : string) : string :=
  match fuel with
  | O => acc
  | S f =>
      let acc' := String (digit_char (n mod 10)) acc in
      if (n <? 10)%N then acc' else digits_fuel f (n / 10) acc'
  end.

(** [n.toString()]: an integer has at most as many decimal digits as
    binary ones, so [1 + size_nat n] is enough fuel ([number_fuel_enough]). *)
Definition js_number_to_string (n : N) : string :=
  digits_fuel (S (N.size_nat n)) n "".

(** [Number.prototype.toString()] and [toFixed(2)] on whole numbers of
    either sign. *)
Definition js_int_to_string (z : Z) : string :=
  if (z <? 0)%Z then ("-" ++ js_number_to_string (Z.to_N (- z)))%string
  else js_number_to_string (Z.to_N z).

Definition js_to_fixed2 (z : Z) : string := (js_int_to_string z ++ ".00")%string.

(** ** Calendar dates

    [parseISO(s).getTime()] of date-fns for the date-only strings
    [yyyy-MM-dd] the pages' date pickers produce: the time value of that
    day's midnight (UTC; a fixed time zone shifts every value by the same
    amount), or [None] for an Invalid Date.  [days_from_civil] is the
    proleptic Gregorian day count from 1970-01-01. *)

Definition digit_val (c : ascii) : option Z :=
  let n := nat_of_ascii c in
  if (48 <=? n) && (n <=? 57) then Some (Z.of_nat (n - 48)) else None.

Fixpoint digits_val (l : list ascii) (acc : Z) : option Z :=
  match l with
  | [] => Some acc
  | c :: l' => match digit_val c with Some d => digits_val l' (acc * 10 + d) | None => None end
  end.

Definition is_leap_year (y : Z) : bool :=
  (Z.eqb (y mod 4) 0 && negb (Z.eqb (y mod 100) 0)) || Z.eqb (y mod 400) 0.

Definition days_in_month (y m : Z) : Z :=
  if Z.eqb m 2 then (if is_leap_year y then 29 else 28)
  else if existsb (Z.eqb m) [4; 6; 9; 11]%Z then 30 else 31.

Definition days_from_civil (y m d : Z) : Z :=
  (let y' := if (m <=? 2)%Z then y - 1 else y in
   let era := y' / 400 in
   let yoe := y' - era * 400 in
   let doy := (153 * (if (2 <? m)%Z then m - 3 else m + 9) + 2) / 5 + d - 1 in
   let doe := yoe * 365 + yoe / 4 - yoe / 100 + doy in
   era * 146097 + doe - 719468)%Z.

(** The year, month and day digits of a [yyyy-MM-dd] string. *)
Definition ymd_fields (s : string) : option (Z * Z * Z) :=
  match list_ascii_of_string s with
  | [y1; y2; y3; y4; h1; m1; m2; h2; d1; d2] =>
      if (nat_of_ascii h1 =? 45) && (nat_of_ascii h2 =? 45) then
        match digits_val [y1; y2; y3; y4] 0, digits_val [m1; m2] 0, digits_val [d1; d2] 0 with
        | Some y, Some m, Some d => Some (y, m, d)
        | _, _, _ => None
        end
      else None
  | _ => None
  end.

Definition valid_ymd (y m d : Z) : bool :=
  (1 <=? m)%Z && (m <=? 12)%Z && (1 <=? d)%Z && (d <=? days_in_month y m)%Z.

Definition parse_ymd (s : string) : option Z :=
  match ymd_fields s with
  | Some (y, m, d) => if valid_ymd y m d then Some (days_from_civil y m d * 86400000)%Z else None
  | None => None
  end.

(** The inverse direction, for date-fns' [format]: the civil date of a
    day count (Hinnant's [civil_from_days]), and the time value's day. *)
Definition civil_from_days (z : Z) : Z * Z * Z :=
  (let z' := z + 719468 in
   let era := z' / 146097 in
   let doe := z' - era * 146097 in
   let yoe := (doe - doe / 1460 + doe / 36524 - doe / 146096) / 365 in
   let doy := doe - (365 * yoe + yoe / 4 - yoe / 100) in
   let mp := (5 * doy + 2) / 153 in
   let d := doy - (153 * mp + 2) / 5 + 1 in
   let m := if mp <? 10 then mp + 3 else mp - 9 in
   let y := yoe + era * 400 in
   (if m <=? 2 then y + 1 else y, m, d))%Z.

Definition digit_of (d : Z) : ascii := ascii_of_nat (48 + Z.to_nat d).

(** A number written with [w] digits, zero-padded. *)
Fixpoint pad_digits (w : nat) (n : Z) (acc : string) : string :=
  match w with
  | O => acc
  | S w' => pad_digits w' (n / 10) (String (digit_of (n mod 10)) acc)
  end.

Arguments digit_of : simpl never.

(** The [yyyy-MM-dd] text of a civil date. *)
Definition ymd_text (y m d : Z) : string :=
  (pad_digits 4 y "" ++ "-" ++ pad_digits 2 m "" ++ "-" ++ pad_digits 2 d "")%string.

(** [format(date, 'yyyy-MM-dd')] of date-fns. *)
Definition format_ymd (t : Z) : string :=
  let '(y, m, d) := civil_from_days (t / 86400000) in ymd_text y m d.

Definition month_name (m : Z) : string :=
  nth (Z.to_nat (m - 1))
    ["January"; "February"; "March"; "April"; "May"; "June"; "July"; "August";
     "September"; "October"; "November"; "December"]%string "".

(** The English ordinal suffix of date-fns' [do] token. *)
Definition ordinal_suffix (d : Z) : string :=
  let r100 := (d mod 100)%Z in
  if ((r100 >? 20) || (r100 <? 10))%Z then
    match (d mod 10)%Z with 1%Z => "st" | 2%Z => "nd" | 3%Z => "rd" | _ => "th" end
  else "th".

(** [format(date, 'PPP')] of date-fns in the en-US locale
    ([MMMM do, y], e.g. July 25th, 2024); [None] for an Invalid Date,
    where date-fns throws [RangeError: Invalid time value]. *)
Definition format_ppp (t : option Z) : option string :=
  match t with
  | None => None
  | Some t =>
      let '(y, m, d) := civil_from_days (t / 86400000) in
      Some (month_name m ++ " " ++ js_number_to_string (Z.to_N d) ++ ordinal_suffix d ++ ", " ++
            js_number_to_string (Z.to_N y))%string
  end.

(** [format(date, 'PP')] in the en-US locale ([MMM d, y], e.g.
    Jun 28, 2024); [None] for an Invalid Date. *)
Definition format_pp (t : option Z) : option string :=
  match t with
  | None => None
  | Some t =>
      let '(y, m, d) := civil_from_days (t / 86400000) in
      Some (substring 0 3 (month_name m) ++ " " ++ js_number_to_string (Z.to_N d) ++ ", " ++
            js_number_to_string (Z.to_N y))%string
  end.

(** The en-US short date [M/D/YYYY] of a civil date. *)
Definition us_date (ymd : Z * Z * Z) : string :=
  let '(y, m, d) := ymd in
  (js_int_to_string m ++ "/" ++ js_int_to_string d ++ "/" ++ js_int_to_string y)%string.

(** [Date.prototype.toLocaleDateString()] in the en-US locale: the local
    date, local time being UTC shifted by [offset] milliseconds (negative
    west of Greenwich); [Invalid Date] for [NaN]. *)
Definition to_locale_date_string (offset : Z) (t : option Z) : string :=
  match t with
  | None => "Invalid Date"
  | Some t => us_date (civil_from_days ((t + offset) / 86400000))
  end.

(** The calendar fact the date round trips rest on, as a boolean the
    range check [gregorian_cycle_check] evaluates on each valid date of
    the 400-year Gregorian cycle of years 0 to 399: the date comes back
    from its day count unchanged.  The cycle is exactly 146097 days long,
    so the check covers every year. *)
Definition date_back_ok (y m d : Z) : bool :=
  let '(y', m', d') := civil_from_days (days_from_civil y m d) in
  (y =? y')%Z && (m =? m')%Z && (d =? d')%Z.

(** [Array.prototype.join(sep)] on a list of strings. *)
Fixpoint js_join (sep : string) (l : list string) : string :=
  match l with
  | [] => ""
  | [x] => x
  | x :: l' => x ++ sep ++ js_join sep l'
  end.

(** ** Facts about the runtime models *)

Lemma Sorted_weaken {A} (R S : A -> A -> Prop) l :
  (forall x y, R x y -> S x y) -> Sorted R l -> Sorted S l.
Proof.
  intros HRS Hs. induction Hs as [|x l Hs IH Hhd]; constructor; [done|].
  destruct Hhd; constructor. by apply HRS.
Qed.

(** Removing elements keeps a list sorted for a transitive order. *)
Lemma Sorted_filter {A} (R : A -> A -> Prop) (f : A -> bool) l :
  (forall x y z, R x y -> R y z -> R x z) -> Sorted R l -> Sorted R (List.filter f l).
Proof.
  intros Htr Hs. apply StronglySorted_Sorted.
  apply Sorted_StronglySorted in Hs; [|exact Htr].
  induction Hs as [|x l _ IH Hx]; simpl; [constructor|].
  destruct (f x); [|done]. constructor; [done|].
  apply List.Forall_forall. intros y Hy. apply filter_In in Hy as [Hy _].
  by eapply List.Forall_forall in Hx.
Qed.

Section JsSortFacts.
Context {A : Type} (cmp : A -> A -> Z).

Lemma sort_insert_perm x l : Permutation (sort_insert cmp x l) (x :: l).
Proof.
  induction l as [|y ys IH]; simpl; [done|].
  destruct (cmp x y <? 0)%Z; [done|].
  rewrite IH. apply perm_swap.
Qed.

Lemma js_sort_perm_acc l acc :
  Permutation (fold_left (fun acc x => sort_insert cmp x acc) l acc) (rev l ++ acc).
Proof.
  revert acc. induction l as [|x l IH]; intros acc; simpl; [done|].
  by rewrite IH, sort_insert_perm, <- app_assoc.
Qed.

Lemma js_sort_perm l : Permutation (js_sort cmp l) l.
Proof.
  unfold js_sort. rewrite js_sort_perm_acc, app_nil_r. symmetry. apply Permutation_rev.
Qed.

Lemma js_sort_length l : length (js_sort cmp l) = length l.
Proof. apply Permutation_length, js_sort_perm. Qed.

Lemma js_sort_In x l : In x (js_sort cmp l) <-> In x l.
Proof. split; apply Permutation_in; [|symmetry]; apply js_sort_perm. Qed.

(** A comparator as [localeCompare] returns: its sign is antisymmetric. *)
Hypothesis cmp_antisym : forall x y, Z.sgn (cmp x y) = (- Z.sgn (cmp y x))%Z.

Lemma cmp_not_lt_le x y : (cmp x y <? 0)%Z = false -> cmp_le cmp y x.
Proof.
  unfold cmp_le. intros H. apply Z.ltb_ge in H.
  pose proof (cmp_antisym x y) as E.
  destruct (Z.sgn_spec (cmp x y)) as [[? Hs]|[[? Hs]|[? Hs]]];
    destruct (Z.sgn_spec (cmp y x)) as [[? Hs']|[[? Hs']|[? Hs']]]; lia.
Qed.

Lemma sort_insert_sorted x l :
  Sorted (cmp_le cmp) l -> Sorted (cmp_le cmp) (sort_insert cmp x l).
Proof.
  induction 1 as [|y ys Hs IH Hhd]; simpl; [by repeat constructor|].
  destruct (cmp x y <? 0)%Z eqn:E.
  - constructor; [by constructor|]. constructor. apply Z.ltb_lt in E. unfold cmp_le. lia.
  - constructor; [done|]. apply cmp_not_lt_le in E.
    destruct ys as [|z zs]; simpl; [by constructor|].
    destruct (cmp x z <? 0)%Z; constructor; [done|by inversion Hhd].
Qed.

Lemma js_sort_sorted l : Sorted (cmp_le cmp) (js_sort cmp l).
Proof.
  unfold js_sort. cut (forall acc, Sorted (cmp_le cmp) acc ->
    Sorted (cmp_le cmp) (fold_left (fun acc x => sort_insert cmp x acc) l acc)).
  { intros H. apply H. constructor. }
  induction l as [|x l IH]; intros acc Hacc; simpl; [done|].
  apply IH, sort_insert_sorted, Hacc.
Qed.
Lemma sort_insert_last x l :
  (forall y, In y l -> cmp_le cmp y x) -> sort_insert cmp x l = l ++ [x].
Proof.
  induction l as [|y l IH]; intros Hle; [done|]. simpl.
  assert (Hy : (cmp x y <? 0)%Z = false).
  { specialize (Hle y (in_eq _ _)). unfold cmp_le in Hle.
    pose proof (cmp_antisym x y). pose proof (Z.sgn_spec (cmp x y)).
    pose proof (Z.sgn_spec (cmp y x)). apply Z.ltb_ge. lia. }
  rewrite Hy, IH; [done|]. intros z Hz. apply Hle. by right.
Qed.

Lemma js_sort_strongly_sorted_id l :
  StronglySorted (cmp_le cmp) l -> js_sort cmp l = l.
Proof.
  intros Hs0. unfold js_sort.
  enough (Hgen : forall acc, StronglySorted (cmp_le cmp) (acc ++ l) ->
    fold_left (fun acc x => sort_insert cmp x acc) l acc = acc ++ l) by (by apply (Hgen [])).
  clear Hs0. induction l as [|x l IH]; intros acc Hs; simpl; [by rewrite app_nil_r|].
  assert (Hx : forall y, In y acc -> cmp_le cmp y x).
  { clear IH. induction acc as [|a acc IHa]; [done|]. simpl in Hs.
    apply StronglySorted_inv in Hs as [Hs Ha]. intros y [<-|Hy]; [|by apply IHa].
    eapply List.Forall_forall; [exact Ha|]. apply in_or_app. right. by left. }
  rewrite sort_insert_last by done. rewrite IH; [by rewrite <- app_assoc|].
  by rewrite <- app_assoc.
Qed.

End JsSortFacts.

(** [Sorted] for a relation transitive on the list's elements. *)
Lemma Sorted_StronglySorted_in {A} (R : A -> A -> Prop) l :
  (forall x y z, In x l -> In y l -> In z l -> R x y -> R y z -> R x z) ->
  Sorted R l -> StronglySorted R l.
Proof.
  induction l as [|a l IH]; intros Htr Hs; [constructor|].
  apply Sorted_inv in Hs as [Hs Hhd].
  assert (Hl : StronglySorted R l) by (apply IH; [intros x y z ??? ; apply Htr; by right|done]).
  constructor; [done|]. destruct l as [|b l]; [constructor|].
  apply HdRel_inv in Hhd. apply StronglySorted_inv in Hl as [Hl Hb].
  constructor; [done|]. apply List.Forall_forall. intros z Hz.
  apply (Htr a b z); [by left|right; left; done|right; right; done|done|].
  by eapply List.Forall_forall in Hb.
Qed.


#[export] Hint Resolve js_sort_perm js_sort_sorted : campus.
Lemma code_unit_compare_antisym a b :
  Z.sgn (code_unit_compare a b) = (- Z.sgn (code_unit_compare b a))%Z.
Proof.
  unfold code_unit_compare. rewrite (String.compare_antisym a b).
  by destruct (String.compare b a).
Qed.

Lemma string_compare_le_trans a b c :
  String.compare a b <> Gt -> String.compare b c <> Gt -> String.compare a c <> Gt.
Proof.
  revert b c. induction a as [|x a IH]; intros [|y b] [|z c]; simpl; try done.
  unfold Ascii.compare.
  destruct (N.compare_spec (N_of_ascii x) (N_of_ascii y)) as [Hxy|Hxy|Hxy],
    (N.compare_spec (N_of_ascii y) (N_of_ascii z)) as [Hyz|Hyz|Hyz]; try done;
    intros H1 H2.
  - rewrite Hxy, Hyz, N.compare_refl. by apply (IH b).
  - rewrite Hxy. by rewrite (proj2 (N.compare_lt_iff _ _) Hyz).
  - rewrite <- Hyz. by rewrite (proj2 (N.compare_lt_iff _ _) Hxy).
  - by rewrite (proj2 (N.compare_lt_iff _ _) (N.lt_trans _ _ _ Hxy Hyz)).
Qed.

Lemma code_unit_compare_trans a b c :
  (code_unit_compare a b <= 0)%Z -> (code_unit_compare b c <= 0)%Z -> (code_unit_compare a c <= 0)%Z.
Proof.
  unfold code_unit_compare. intros H1 H2.
  assert (Hab : String.compare a b <> Gt) by (destruct (String.compare a b); done || lia).
  assert (Hbc : String.compare b c <> Gt) by (destruct (String.compare b c); done || lia).
  pose proof (string_compare_le_trans a b c Hab Hbc) as Hac.
  destruct (String.compare a c); done || lia.
Qed.

Lemma js_toUpperCase_length s : String.length (js_toUpperCase s) = String.length s.
Proof. induction s; simpl; auto. Qed.

Lemma latin1_upper_char_length c :
  (1 <= String.length (latin1_upper_char c) <= 2)%nat.
Proof.
  unfold latin1_upper_char.
  destruct (_ || _); [simpl; lia|]. destruct (_ =? 223); simpl; lia.
Qed.

(** Latin-1 upper-casing at most doubles a string and keeps it non-empty. *)
Lemma latin1_toUpperCase_length s :
  (String.length s <= String.length (latin1_toUpperCase s) <= 2 * String.length s)%nat.
Proof.
  induction s as [|c s IH]; [simpl; lia|]. simpl.
  rewrite string_length_app. pose proof (latin1_upper_char_length c). lia.
Qed.

Lemma drop_spaces_nil_iff l :
  drop_spaces l = [] <-> forall c, In c l -> is_js_space c = true.
Proof.
  induction l as [|c l IH]; simpl; [split; [intros _ c []|done]|].
  destruct (is_js_space c) eqn:Ec.
  - rewrite IH. split; [intros H d [<-|Hd]; auto|intros H d Hd; auto].
  - split; [discriminate|]. intros H. rewrite (H c (or_introl eq_refl)) in Ec. discriminate.
Qed.

Lemma drop_spaces_head l c l' : drop_spaces l = c :: l' -> is_js_space c = false.
Proof.
  induction l as [|x l IH]; simpl; [discriminate|].
  destruct (is_js_space x) eqn:Ex; [done|]. by intros [= -> ->].
Qed.

(** [trim] returns the empty string exactly when the input is blank. *)
Lemma js_trim_empty_iff s :
  js_trim s = ""%string <-> forall c, In c (list_ascii_of_string s) -> is_js_space c = true.
Proof.
  unfold js_trim. rewrite <- drop_spaces_nil_iff.
  remember (drop_spaces (list_ascii_of_string s)) as d eqn:Ed.
  split.
  - intros H. destruct d as [|c d]; [done|]. exfalso.
    assert (Hr : drop_spaces (rev (c :: d)) = []).
    { revert H. destruct (rev (drop_spaces (rev (c :: d)))) as [|x r] eqn:E; [|discriminate].
      intros _. apply (f_equal (@rev ascii)) in E. by rewrite rev_involutive in E. }
    apply drop_spaces_nil_iff with (c := c) in Hr; [|apply in_rev; rewrite rev_involutive; by left].
    symmetry in Ed. apply drop_spaces_head in Ed. congruence.
  - intros ->. reflexivity.
Qed.

Lemma digits_fuel_app f n a b :
  digits_fuel f n (a ++ b) = (digits_fuel f n a ++ b)%string.
Proof.
  revert n a. induction f as [|f IH]; intros n a; simpl; [done|].
  destruct (n <? 10)%N; [done|]. apply (IH _ (String _ a)).
Qed.

Lemma digits_fuel_step f n acc :
  (10 <= n)%N ->
  digits_fuel (S f) n acc = digits_fuel f (n / 10) (String (digit_char (n mod 10)) acc).
Proof. intros Hn. simpl. destruct (N.ltb_spec n 10); [lia|done]. Qed.

(** Any fuel above the number of digits gives the same string. *)
Lemma digits_fuel_stable f g n acc :
  (n < 10 ^ N.of_nat f)%N -> f <= g -> digits_fuel (S f) n acc = digits_fuel (S g) n acc.
Proof.
  revert g n acc. induction f as [|f IH]; intros g n acc Hn Hfg.
  - simpl in Hn. destruct g; simpl; destruct (N.ltb_spec n 10); try done; lia.
  - destruct g as [|g]; [lia|]. cbn [digits_fuel].
    destruct (N.ltb_spec n 10); [done|]. apply IH; [|lia].
    rewrite Nat2N.inj_succ, N.pow_succ_r' in Hn.
    apply N.Div0.div_lt_upper_bound. lia.
Qed.

Lemma size_nat_bound2 n : (n < 2 ^ N.of_nat (N.size_nat n))%N.
Proof.
  destruct n as [|p]; simpl; [lia|].
  induction p as [p IH|p IH|]; simpl; try lia;
    rewrite Nat2N.inj_succ, N.pow_succ_r'; lia.
Qed.

Lemma size_nat_bound n : (n < 10 ^ N.of_nat (N.size_nat n))%N.
Proof.
  eapply N.lt_le_trans; [apply size_nat_bound2|].
  apply N.pow_le_mono_l. lia.
Qed.

(** The last digit of [n >= 10] is printed after the digits of [n / 10]. *)
Lemma js_number_to_string_snoc n :
  (10 <= n)%N ->
  js_number_to_string n =
  (js_number_to_string (n / 10) ++ String (digit_char (n mod 10)) "")%string.
Proof.
  intros Hn. unfold js_number_to_string.
  destruct (N.size_nat n) as [|m] eqn:Hs.
  { pose proof (size_nat_bound2 n) as B. rewrite Hs in B. simpl in B. lia. }
  rewrite (digits_fuel_step (S m) n "") by done.
  rewrite <- (digits_fuel_app _ _ "" (String _ "")). cbn [append].
  assert (Hm : (n / 10 < 10 ^ N.of_nat m)%N).
  { pose proof (size_nat_bound2 n) as B. rewrite Hs, Nat2N.inj_succ, N.pow_succ_r' in B.
    apply N.Div0.div_lt_upper_bound.
    assert (2 ^ N.of_nat m <= 10 ^ N.of_nat m)%N by (apply N.pow_le_mono_l; lia). lia. }
  pose proof (size_nat_bound (n / 10)) as Hq.
  destruct (Nat.le_ge_cases m (N.size_nat (n / 10))) as [Hle|Hle].
  - by apply digits_fuel_stable.
  - symmetry. by apply digits_fuel_stable.
Qed.

Lemma js_number_to_string_last_digit m :
  (1 <= m)%N -> exists p, js_number_to_string m = (p ++ String (digit_char (m mod 10)) "")%string.
Proof.
  intros Hm. destruct (N.ltb_spec m 10) as [Hlt|Hge].
  - exists ""%string. rewrite N.mod_small by done. unfold js_number_to_string.
    destruct (N.size_nat m) eqn:Hs; simpl; destruct (N.ltb_spec m 10); try lia;
      rewrite N.mod_small by done; done.
  - eexists. by apply js_number_to_string_snoc.
Qed.

Lemma substring_app_length p x k :
  substring (String.length p) k (p ++ x) = substring 0 k x.
Proof. induction p as [|c p IH]; [done|]. rewrite string_app_cons. apply IH. Qed.

(** The last four characters of [n.toString()] for [n >= 1000] are its
    four low-order decimal digits. *)
Lemma js_number_to_string_last4 n :
  (1000 <= n)%N ->
  js_slice_last 4 (js_number_to_string n) =
  String (digit_char ((n / 1000) mod 10)) (String (digit_char ((n / 100) mod 10))
    (String (digit_char ((n / 10) mod 10)) (String (digit_char (n mod 10)) ""))).
Proof.
  intros Hn.
  rewrite (js_number_to_string_snoc n), (js_number_to_string_snoc (n / 10)),
    (js_number_to_string_snoc (n / 10 / 10)) by
    (try apply N.div_le_lower_bound; try apply N.div_le_lower_bound; lia).
  assert (E3 : (n / 10 / 10 / 10 = n / 1000)%N) by (rewrite !N.Div0.div_div; reflexivity).
  assert (E2 : (n / 10 / 10 = n / 100)%N) by (rewrite !N.Div0.div_div; reflexivity).
  rewrite E3, E2.
  destruct (js_number_to_string_last_digit (n / 1000)) as [p Hp];
    [apply N.div_le_lower_bound; lia|].
  rewrite Hp, !string_append_assoc. unfold js_slice_last. simpl.
  rewrite string_length_app. simpl. rewrite Nat.add_sub.
  by rewrite substring_app_length.
Qed.

Lemma digits_fuel_length f n acc :
  String.length acc <= String.length (digits_fuel f n acc).
Proof.
  revert n acc. induction f as [|f IH]; intros n acc; simpl; [done|].
  destruct (n <? 10)%N; simpl; [lia|]. specialize (IH (n / 10)%N (String (digit_char (n mod 10)) acc)).
  simpl in IH. lia.
Qed.

Lemma js_number_to_string_nonempty n : 1 <= String.length (js_number_to_string n).
Proof.
  unfold js_number_to_string. simpl. destruct (n <? 10)%N; simpl; [lia|].
  pose proof (digits_fuel_length (N.size_nat n) (n / 10)%N
    (String (digit_char (n mod 10)) "")) as H. simpl in H. lia.
Qed.

(** ** Dates: [parseISO] and [format] are inverse *)

Section Dates.
Local Open Scope Z_scope.

Lemma mod_period y k c : c <> 0 -> (400 mod c = 0) -> (y + 400 * k) mod c = y mod c.
Proof. intros Hc H. rewrite Z.add_mod, Z.mul_mod, H by done. rewrite Z.mul_0_l, Z.mod_0_l, Z.add_0_r by done. apply Z.mod_mod; done. Qed.

Lemma is_leap_year_period y k : is_leap_year (y + 400 * k) = is_leap_year y.
Proof. unfold is_leap_year. rewrite !mod_period by done. reflexivity. Qed.

Lemma days_in_month_period y m k : days_in_month (y + 400 * k) m = days_in_month y m.
Proof. unfold days_in_month. by rewrite is_leap_year_period. Qed.

Lemma valid_ymd_period y m d k : valid_ymd (y + 400 * k) m d = valid_ymd y m d.
Proof. unfold valid_ymd. by rewrite days_in_month_period. Qed.

Lemma days_from_civil_period y m d k :
  days_from_civil (y + 400 * k) m d = days_from_civil y m d + 146097 * k.
Proof.
  unfold days_from_civil. cbv zeta.
  set (y' := if m <=? 2 then y else y + 1).
  replace (if m <=? 2 then y + 400 * k - 1 else y + 400 * k) with (y' - 1 + k * 400)
    by (subst y'; destruct (m <=? 2); ring).
  replace (if m <=? 2 then y - 1 else y) with (y' - 1) by (subst y'; destruct (m <=? 2); ring).
  rewrite Z.div_add by done.
  replace (y' - 1 + k * 400 - ((y' - 1) / 400 + k) * 400) with (y' - 1 - (y' - 1) / 400 * 400) by ring.
  ring.
Qed.

Lemma civil_from_days_period z k :
  civil_from_days (z + 146097 * k) =
  let '(y, m, d) := civil_from_days z in (y + 400 * k, m, d).
Proof.
  unfold civil_from_days.
  replace (z + 146097 * k + 719468) with (z + 719468 + k * 146097) by ring.
  rewrite Z.div_add by done.
  replace (z + 719468 + k * 146097 - ((z + 719468) / 146097 + k) * 146097)
    with (z + 719468 - (z + 719468) / 146097 * 146097) by ring.
  set (doe := z + 719468 - (z + 719468) / 146097 * 146097).
  cbv zeta. destruct (_ <? 10), (_ <=? 2); f_equal; f_equal; ring.
Qed.

(** The range check, by [vm_compute] over the 146097 days of one cycle. *)
Lemma gregorian_cycle_check : all_from (fun y => all_from (fun m =>
    all_from (fun d => date_back_ok y m d) (Z.to_nat (days_in_month y m)) 1) 12 1) 400 0 = true.
Proof. vm_compute. reflexivity. Qed.

Lemma date_back_ok_spec y m d :
  date_back_ok y m d = true -> civil_from_days (days_from_civil y m d) = (y, m, d).
Proof.
  unfold date_back_ok. destruct (civil_from_days _) as [[y' m'] d'].
  rewrite !andb_true_iff, !Z.eqb_eq. intros [[-> ->] ->]. reflexivity.
Qed.

Lemma valid_ymd_iff y m d :
  valid_ymd y m d = true <-> 1 <= m <= 12 /\ 1 <= d <= days_in_month y m.
Proof. unfold valid_ymd. rewrite !andb_true_iff, !Z.leb_le. tauto. Qed.

Lemma days_in_month_bound y m : 28 <= days_in_month y m <= 31.
Proof. unfold days_in_month. destruct (m =? 2), (is_leap_year y), (existsb (Z.eqb m) [4; 6; 9; 11]); lia. Qed.

Lemma cycle_back y m d : 0 <= y < 400 -> valid_ymd y m d = true -> date_back_ok y m d = true.
Proof.
  intros Hy Hv. apply valid_ymd_iff in Hv as [Hm Hd].
  pose proof gregorian_cycle_check as H.
  apply (all_from_spec _ 400 0 y) in H; [|lia].
  apply (all_from_spec _ 12 1 m) in H; [|lia].
  apply (all_from_spec _ _ 1 d) in H; [exact H|].
  rewrite Z2Nat.id; pose proof (days_in_month_bound y m); lia.
Qed.


Theorem civil_from_days_from_civil y m d :
  valid_ymd y m d = true -> civil_from_days (days_from_civil y m d) = (y, m, d).
Proof.
  intros Hv. pose proof (Z.div_mod y 400 ltac:(done)) as Hy.
  pose proof (Z.mod_pos_bound y 400 ltac:(done)) as Hr.
  remember (y mod 400) as r eqn:Er. remember (y / 400) as q eqn:Eq.
  replace y with (r + 400 * q) in Hv |- * by lia. rewrite valid_ymd_period in Hv.
  rewrite days_from_civil_period, civil_from_days_period, date_back_ok_spec by (apply cycle_back; done).
  reflexivity.
Qed.

Lemma digit_val_of k : 0 <= k < 10 -> digit_val (digit_of k) = Some k.
Proof.
  intros Hk. unfold digit_val, digit_of.
  rewrite nat_ascii_embedding by lia.
  replace (48 <=? 48 + Z.to_nat k)%nat with true by (symmetry; apply Nat.leb_le; lia).
  replace (48 + Z.to_nat k <=? 57)%nat with true by (symmetry; apply Nat.leb_le; lia).
  f_equal. lia.
Qed.

Lemma digit_val_inv c k : digit_val c = Some k -> 0 <= k < 10 /\ digit_of k = c.
Proof.
  unfold digit_val, digit_of.
  destruct (Nat.leb_spec 48 (nat_of_ascii c)), (Nat.leb_spec (nat_of_ascii c) 57); try discriminate.
  intros [= <-]. split; [lia|]. rewrite Nat2Z.id.
  replace (48 + (nat_of_ascii c - 48))%nat with (nat_of_ascii c) by lia.
  apply ascii_nat_embedding.
Qed.

Lemma pad_digits_2 n :
  pad_digits 2 n "" = String (digit_of (n / 10 mod 10)) (String (digit_of (n mod 10)) "").
Proof. reflexivity. Qed.

Lemma pad_digits_4 n :
  pad_digits 4 n "" = String (digit_of (n / 10 / 10 / 10 mod 10)) (String (digit_of (n / 10 / 10 mod 10))
    (String (digit_of (n / 10 mod 10)) (String (digit_of (n mod 10)) ""))).
Proof. reflexivity. Qed.

Lemma digits2 n : 0 <= n < 100 ->
  digits_val [digit_of (n / 10 mod 10); digit_of (n mod 10)] 0 = Some n.
Proof.
  intros Hn. cbn [digits_val]. rewrite !digit_val_of by (apply Z.mod_pos_bound; lia).
  f_equal. Z.to_euclidean_division_equations. lia.
Qed.

Lemma digits4 n : 0 <= n < 10000 ->
  digits_val [digit_of (n / 10 / 10 / 10 mod 10); digit_of (n / 10 / 10 mod 10);
              digit_of (n / 10 mod 10); digit_of (n mod 10)] 0 = Some n.
Proof.
  intros Hn. cbn [digits_val]. rewrite !digit_val_of by (apply Z.mod_pos_bound; lia).
  f_equal. Z.to_euclidean_division_equations. lia.
Qed.


Ltac digit_cases :=
  repeat match goal with
  | H : context [digit_val ?c] |- _ =>
      let E := fresh in let B := fresh in
      destruct (digit_val c) eqn:E; [apply digit_val_inv in E as [B <-]|discriminate]
  end.

Lemma digits2_inv a b n :
  digits_val [a; b] 0 = Some n -> 0 <= n < 100 /\ [a; b] = [digit_of (n / 10 mod 10); digit_of (n mod 10)].
Proof.
  cbn [digits_val]. intros H. digit_cases. injection H as <-.
  split; [lia|]. do 2 f_equal; f_equal; Z.to_euclidean_division_equations; lia.
Qed.

Lemma digits4_inv a b c e n :
  digits_val [a; b; c; e] 0 = Some n -> 0 <= n < 10000 /\
  [a; b; c; e] = [digit_of (n / 10 / 10 / 10 mod 10); digit_of (n / 10 / 10 mod 10);
                  digit_of (n / 10 mod 10); digit_of (n mod 10)].
Proof.
  cbn [digits_val]. intros H. digit_cases. injection H as <-.
  split; [lia|]. repeat f_equal; Z.to_euclidean_division_equations; lia.
Qed.

Lemma hyphen_inv h : (nat_of_ascii h =? 45)%nat = true -> h = "-"%char.
Proof. intros H. apply Nat.eqb_eq in H. rewrite <- (ascii_nat_embedding h), H. reflexivity. Qed.

Lemma ymd_text_chars y m d :
  list_ascii_of_string (ymd_text y m d) =
  [digit_of (y / 10 / 10 / 10 mod 10); digit_of (y / 10 / 10 mod 10); digit_of (y / 10 mod 10);
   digit_of (y mod 10); "-"; digit_of (m / 10 mod 10); digit_of (m mod 10); "-";
   digit_of (d / 10 mod 10); digit_of (d mod 10)]%char.
Proof. reflexivity. Qed.

Lemma ymd_fields_text y m d :
  0 <= y < 10000 -> 0 <= m < 100 -> 0 <= d < 100 -> ymd_fields (ymd_text y m d) = Some (y, m, d).
Proof.
  intros Hy Hm Hd. unfold ymd_fields. rewrite ymd_text_chars.
  rewrite digits4, !digits2 by done. reflexivity.
Qed.

Lemma ymd_fields_inv s y m d : ymd_fields s = Some (y, m, d) -> s = ymd_text y m d.
Proof.
  unfold ymd_fields, ymd_text. rewrite <- (string_of_list_ascii_of_string s) at 2.
  destruct (list_ascii_of_string s) as [|y1 [|y2 [|y3 [|y4 [|h1 [|m1 [|m2 [|h2 [|d1 [|d2 [|]]]]]]]]]]];
    try discriminate.
  destruct (_ && _) eqn:Hh; [|discriminate]. apply andb_true_iff in Hh as [H1 H2].
  apply hyphen_inv in H1 as ->. apply hyphen_inv in H2 as ->.
  destruct (digits_val [y1; y2; y3; y4] 0) eqn:Ey; [|discriminate].
  destruct (digits_val [m1; m2] 0) eqn:Em; [|discriminate].
  destruct (digits_val [d1; d2] 0) eqn:Ed; [|discriminate]. intros [= <- <- <-].
  apply digits4_inv in Ey as [_ Ey]. apply digits2_inv in Em as [_ Em]. apply digits2_inv in Ed as [_ Ed].
  injection Ey as -> -> -> ->. injection Em as -> ->. injection Ed as -> ->.
  rewrite pad_digits_4, !pad_digits_2. reflexivity.
Qed.

(** date-fns' [parseISO] followed by [format(date, 'yyyy-MM-dd')] gives
    back every date-only string that [parseISO] accepts. *)
Theorem parse_format_ymd s t : parse_ymd s = Some t -> format_ymd t = s.
Proof.
  unfold parse_ymd. destruct (ymd_fields s) as [[[y m] d]|] eqn:E; [|discriminate].
  destruct (valid_ymd y m d) eqn:Hv; [|discriminate]. intros [= <-].
  unfold format_ymd. rewrite Z.div_mul, civil_from_days_from_civil by done.
  symmetry. by apply ymd_fields_inv.
Qed.

(** The [yyyy-MM-dd] text of a valid date of the years 0000 to 9999 is
    read by [parseISO] as that date's midnight. *)
Lemma parse_ymd_text y m d :
  0 <= y < 10000 -> valid_ymd y m d = true ->
  parse_ymd (ymd_text y m d) = Some (days_from_civil y m d * 86400000).
Proof.
  intros Hy Hv. pose proof Hv as Hb. apply valid_ymd_iff in Hb as [Hm Hd].
  pose proof (days_in_month_bound y m).
  unfold parse_ymd. rewrite ymd_fields_text, Hv by lia. reflexivity.
Qed.

(** [format(date, 'yyyy-MM-dd')] followed by [parseISO] gives back the
    midnight of every date of the years 0000 to 9999. *)
Theorem format_parse_ymd y m d :
  0 <= y < 10000 -> valid_ymd y m d = true ->
  parse_ymd (format_ymd (days_from_civil y m d * 86400000)) = Some (days_from_civil y m d * 86400000).
Proof.
  intros Hy Hv. unfold format_ymd. rewrite Z.div_mul, civil_from_days_from_civil by done.
  by apply parse_ymd_text.
Qed.

Lemma format_ppp_valid t : is_Some (format_ppp (Some t)).
Proof. unfold format_ppp. destruct (civil_from_days (t / 86400000)) as [[y m] d]. by eexists. Qed.

(** [parseISO] of a date-only string is a UTC midnight. *)
Lemma parse_ymd_midnight s t : parse_ymd s = Some t -> t = t / 86400000 * 86400000.
Proof.
  unfold parse_ymd. destruct (ymd_fields s) as [[[y m] d]|]; [|discriminate].
  destruct (valid_ymd y m d); [|discriminate]. intros [= <-]. by rewrite Z.div_mul.
Qed.

(** The local day of a UTC midnight: the day before west of Greenwich,
    the same day east of it (within a day's offset). *)
Lemma local_day_of_midnight k offset :
  -86400000 <= offset < 86400000 ->
  (k * 86400000 + offset) / 86400000 = k + (if offset <? 0 then -1 else 0).
Proof.
  intros Ho. rewrite Z.add_comm, Z.div_add by done.
  destruct (Z.ltb_spec offset 0).
  - replace (offset / 86400000) with (-1) by (apply Z.div_unique with (offset + 86400000); lia). ring.
  - rewrite Z.div_small by lia. ring.
Qed.

Lemma format_pp_valid t : is_Some (format_pp (Some t)).
Proof. unfold format_pp. destruct (civil_from_days (t / 86400000)) as [[y m] d]. by eexists. Qed.

End Dates.
