(* ===== verification/Json.v ===== *)
(** * JSON text, as [JSON.stringify] writes it and [JSON.parse] reads it

    The mock session of src/src/contexts/AuthContext.tsx is kept in
    [localStorage] as the text [JSON.stringify(newUser)] and read back with
    [JSON.parse].  This file models both from ECMAScript's JSON grammar:
    values ([json]), the printer [json_stringify] (no white space; a
    backslash escape for the quotation mark, the backslash, backspace,
    form feed, line feed, carriage return and tab, and the six-character
    u00XX escape for the other control characters) and the parser
    [json_parse] (white space, literals, numbers kept as their source
    text, strings with every escape, arrays and objects).  Strings are
    byte strings: a u-escape above 0xFF is outside the model and does not
    parse.
    The parser runs on fuel: one unit per value and per element or member,
    which the length of the text always bounds; [json_parse] gives it the
    length plus one.

    [get_prop] and [truthy] are the property read and the truth value of
    JavaScript on parsed values.  [stringify_parse_opt_obj] proves the
    round trip for objects whose values are strings or [null], the shape
    of every session the application writes. *)

From S2P Require Import Prelude.

#[local] Set Warnings "-register-all".

Module Json.

Inductive json :=
  | JNull
  | JBool (b : bool)
  | JNum (lexeme : string)
  | JStr (s : string)
  | JArr (elems : list json)
  | JObj (members : list (string * json)).

(** Characters by their code. *)
Definition chr (n : nat) : ascii := ascii_of_nat n.
Definition quote_ch : ascii := chr 34.
Definition backslash : ascii := chr 92.

Definition is_json_ws (c : ascii) : bool :=
  let n := nat_of_ascii c in (n =? 32) || (n =? 9) || (n =? 10) || (n =? 13).

Fixpoint skip_ws (l : list ascii) : list ascii :=
  match l with
  | c :: l' => if is_json_ws c then skip_ws l' else l
  | [] => []
  end.

(** ** Printing *)

(** A lower-case hexadecimal digit. *)
Definition hex_char (d : nat) : ascii := if d <? 10 then chr (48 + d) else chr (87 + d).

(** [QuoteJSONString] on one character. *)
Definition escape_char (c : ascii) : list ascii :=
  let n := nat_of_ascii c in
  if n =? 34 then [backslash; quote_ch]
  else if n =? 92 then [backslash; backslash]
  else if n =? 8 then [backslash; chr 98]
  else if n =? 12 then [backslash; chr 102]
  else if n =? 10 then [backslash; chr 110]
  else if n =? 13 then [backslash; chr 114]
  else if n =? 9 then [backslash; chr 116]
  else if n <? 32 then [backslash; chr 117; chr 48; chr 48; hex_char (n / 16); hex_char (n mod 16)]
  else [c].

Definition quote_string (s : string) : list ascii :=
  quote_ch :: flat_map escape_char (list_ascii_of_string s) ++ [quote_ch].

(** [JSON.stringify(v)] without indentation. *)
Fixpoint json_stringify (j : json) : list ascii :=
  match j with
  | JNull => list_ascii_of_string "null"
  | JBool true => list_ascii_of_string "true"
  | JBool false => list_ascii_of_string "false"
  | JNum t => list_ascii_of_string t
  | JStr s => quote_string s
  | JArr l =>
      chr 91 :: (fix go (l : list json) : list ascii :=
                   match l with
                   | [] => []
                   | [x] => json_stringify x
                   | x :: l' => json_stringify x ++ chr 44 :: go l'
                   end) l ++ [chr 93]
  | JObj kvs =>
      chr 123 :: (fix go (kvs : list (string * json)) : list ascii :=
                    match kvs with
                    | [] => []
                    | [(k, v)] => quote_string k ++ chr 58 :: json_stringify v
                    | (k, v) :: kvs' => quote_string k ++ chr 58 :: json_stringify v ++ chr 44 :: go kvs'
                    end) kvs ++ [chr 125]
  end.

(** ** Parsing *)

Definition hex_digit_val (c : ascii) : option nat :=
  let n := nat_of_ascii c in
  if (48 <=? n) && (n <=? 57) then Some (n - 48)
  else if (97 <=? n) && (n <=? 102) then Some (n - 87)
  else if (65 <=? n) && (n <=? 70) then Some (n - 55)
  else None.

Definition hex4 (a b c d : ascii) : option nat :=
  match hex_digit_val a, hex_digit_val b, hex_digit_val c, hex_digit_val d with
  | Some x, Some y, Some z, Some w => Some (((x * 16 + y) * 16 + z) * 16 + w)
  | _, _, _, _ => None
  end.

(** The one-character escapes of a JSON string. *)
Definition unescape (e : ascii) : option ascii :=
  let n := nat_of_ascii e in
  if n =? 34 then Some quote_ch
  else if n =? 92 then Some backslash
  else if n =? 47 then Some (chr 47)
  else if n =? 98 then Some (chr 8)
  else if n =? 102 then Some (chr 12)
  else if n =? 110 then Some (chr 10)
  else if n =? 114 then Some (chr 13)
  else if n =? 116 then Some (chr 9)
  else None.

(** The characters of a string literal after its opening quote, up to
    the closing quote; an unescaped control character is an error. *)
Fixpoint parse_chars (l : list ascii) (acc : list ascii) : option (list ascii * list ascii) :=
  match l with
  | [] => None
  | c :: l' =>
      let n := nat_of_ascii c in
      if n =? 34 then Some (rev acc, l')
      else if n =? 92 then
        match l' with
        | [] => None
        | e :: l'' =>
            if nat_of_ascii e =? 117 then
              match l'' with
              | a :: b :: c2 :: d :: l3 =>
                  match hex4 a b c2 d with
                  | Some code => if code <? 256 then parse_chars l3 (chr code :: acc) else None
                  | None => None
                  end
              | _ => None
              end
            else match unescape e with
                 | Some x => parse_chars l'' (x :: acc)
                 | None => None
                 end
        end
      else if n <? 32 then None
      else parse_chars l' (c :: acc)
  end.

Definition is_digit_ch (c : ascii) : bool :=
  let n := nat_of_ascii c in (48 <=? n) && (n <=? 57).

Fixpoint take_digits (l : list ascii) : list ascii * list ascii :=
  match l with
  | c :: l' => if is_digit_ch c then let '(ds, r) := take_digits l' in (c :: ds, r) else ([], l)
  | [] => ([], [])
  end.

(** At least one digit. *)
Definition digits1 (l : list ascii) : option (list ascii * list ascii) :=
  match take_digits l with
  | ([], _) => None
  | (ds, r) => Some (ds, r)
  end.

(** A JSON number, kept as its text: an optional minus sign, 0 or a
    digit string not starting with 0, an optional fraction and an
    optional exponent. *)
Definition parse_number (l : list ascii) : option (list ascii * list ascii) :=
  let '(sign, l1) := match l with
                     | c :: l' => if nat_of_ascii c =? 45 then ([c], l') else ([], l)
                     | [] => ([], [])
                     end in
  let int_part :=
    match l1 with
    | c :: l' => if nat_of_ascii c =? 48 then Some ([c], l')
                 else if is_digit_ch c then let '(ds, r) := take_digits l' in Some (c :: ds, r)
                 else None
    | [] => None
    end in
  match int_part with
  | None => None
  | Some (ip, l2) =>
      let frac :=
        match l2 with
        | c :: l' => if nat_of_ascii c =? 46 then
                       match digits1 l' with Some (ds, r) => Some (c :: ds, r) | None => None end
                     else Some ([], l2)
        | [] => Some ([], [])
        end in
      match frac with
      | None => None
      | Some (fp, l3) =>
          let ex :=
            match l3 with
            | c :: l' =>
                let n := nat_of_ascii c in
                if (n =? 101) || (n =? 69) then
                  let '(sg, l4) := match l' with
                                   | s :: l'' => if (nat_of_ascii s =? 43) || (nat_of_ascii s =? 45)
                                                 then ([s], l'') else ([], l')
                                   | [] => ([], [])
                                   end in
                  match digits1 l4 with Some (ds, r) => Some (c :: sg ++ ds, r) | None => None end
                else Some ([], l3)
            | [] => Some ([], [])
            end in
          match ex with
          | Some (ep, l5) => Some (sign ++ ip ++ fp ++ ep, l5)
          | None => None
          end
      end
  end.

(** The rest of [l] after the word [w]. *)
Fixpoint expect (w l : list ascii) : option (list ascii) :=
  match w, l with
  | [], _ => Some l
  | c :: w', d :: l' => if Ascii.eqb c d then expect w' l' else None
  | _ :: _, [] => None
  end.

(** A value, the elements of an array after its first one starts, and
    the members of an object after the first one starts; each consumes
    one unit of fuel. *)
Fixpoint parse_value (fuel : nat) (l : list ascii) : option (json * list ascii) :=
  match fuel with
  | O => None
  | S f =>
      match l with
      | [] => None
      | c :: l' =>
          let n := nat_of_ascii c in
          if n =? 110 then
            match expect (list_ascii_of_string "ull") l' with Some r => Some (JNull, r) | None => None end
          else if n =? 116 then
            match expect (list_ascii_of_string "rue") l' with Some r => Some (JBool true, r) | None => None end
          else if n =? 102 then
            match expect (list_ascii_of_string "alse") l' with Some r => Some (JBool false, r) | None => None end
          else if n =? 34 then
            match parse_chars l' [] with
            | Some (s, r) => Some (JStr (string_of_list_ascii s), r)
            | None => None
            end
          else if n =? 91 then
            match skip_ws l' with
            | d :: r => if nat_of_ascii d =? 93 then Some (JArr [], r)
                        else match parse_elems f (d :: r) with
                             | Some (vs, r') => Some (JArr vs, r')
                             | None => None
                             end
            | [] => None
            end
          else if n =? 123 then
            match skip_ws l' with
            | d :: r => if nat_of_ascii d =? 125 then Some (JObj [], r)
                        else match parse_members f (d :: r) with
                             | Some (kvs, r') => Some (JObj kvs, r')
                             | None => None
                             end
            | [] => None
            end
          else match parse_number l with
               | Some (t, r) => Some (JNum (string_of_list_ascii t), r)
               | None => None
               end
      end
  end
with parse_elems (fuel : nat) (l : list ascii) : option (list json * list ascii) :=
  match fuel with
  | O => None
  | S f =>
      match parse_value f l with
      | Some (v, r) =>
          match skip_ws r with
          | d :: r' =>
              if nat_of_ascii d =? 44 then
                match parse_elems f (skip_ws r') with
                | Some (vs, r'') => Some (v :: vs, r'')
                | None => None
                end
              else if nat_of_ascii d =? 93 then Some ([v], r')
              else None
          | [] => None
          end
      | None => None
      end
  end
with parse_members (fuel : nat) (l : list ascii) : option (list (string * json) * list ascii) :=
  match fuel with
  | O => None
  | S f =>
      match l with
      | q :: l1 =>
          if nat_of_ascii q =? 34 then
            match parse_chars l1 [] with
            | Some (k, r) =>
                match skip_ws r with
                | d :: r1 =>
                    if nat_of_ascii d =? 58 then
                      match parse_value f (skip_ws r1) with
                      | Some (v, r2) =>
                          match skip_ws r2 with
                          | e :: r3 =>
                              if nat_of_ascii e =? 44 then
                                match parse_members f (skip_ws r3) with
                                | Some (kvs, r4) => Some ((string_of_list_ascii k, v) :: kvs, r4)
                                | None => None
                                end
                              else if nat_of_ascii e =? 125 then Some ([(string_of_list_ascii k, v)], r3)
                              else None
                          | [] => None
                          end
                      | None => None
                      end
                    else None
                | [] => None
                end
            | None => None
            end
          else None
      | [] => None
      end
  end.

(** [JSON.parse(text)]: [None] where it throws a [SyntaxError]. *)
Definition json_parse (text : string) : option json :=
  let l := list_ascii_of_string text in
  match parse_value (S (length l)) (skip_ws l) with
  | Some (v, r) => match skip_ws r with [] => Some v | _ => None end
  | None => None
  end.

(** ** JavaScript on parsed values *)

(** A number is falsy when it is zero: every digit of its mantissa (the
    text before an exponent) is 0. *)
Fixpoint mantissa_zero (l : list ascii) : bool :=
  match l with
  | [] => true
  | c :: l' =>
      let n := nat_of_ascii c in
      if (n =? 101) || (n =? 69) then true
      else ((n =? 48) || (n =? 46) || (n =? 45)) && mantissa_zero l'
  end.

(** JavaScript's [ToBoolean] on a parsed value. *)
Definition truthy (j : json) : bool :=
  match j with
  | JNull => false
  | JBool b => b
  | JNum t => negb (mantissa_zero (list_ascii_of_string t))
  | JStr s => negb (s =ₛ "")
  | JArr _ | JObj _ => true
  end.

(** [v.k] for the keys the session reads ([id], [role]): the value of the
    last member named [k] of an object ([JSON.parse] lets a later
    duplicate win), [undefined] ([None]) otherwise; strings, numbers and
    arrays have no own or inherited property of these names. *)
Definition get_prop (j : json) (k : string) : option json :=
  match j with
  | JObj kvs => fold_left (fun acc kv => if fst kv =ₛ k then Some (snd kv) else acc) kvs None
  | _ => None
  end.

Definition truthy_opt (o : option json) : bool :=
  match o with Some j => truthy j | None => false end.

(** An object whose members are all strings. *)
Definition str_obj (kvs : list (string * string)) : json :=
  JObj (List.map (fun kv => (fst kv, JStr (snd kv))) kvs).

(** A member's value: a string, or [null]. *)
Definition opt_json (v : option string) : json :=
  match v with Some s => JStr s | None => JNull end.

(** An object whose members are strings or [null]. *)
Definition opt_obj (kvs : list (string * option string)) : json :=
  JObj (List.map (fun kv => (fst kv, opt_json (snd kv))) kvs).

(** The members of [opt_obj kvs] as [JSON.stringify] writes them. *)
Fixpoint opt_members_text (kvs : list (string * option string)) : list ascii :=
  match kvs with
  | [] => []
  | [(k, v)] => quote_string k ++ chr 58 :: json_stringify (opt_json v)
  | (k, v) :: kvs' =>
      quote_string k ++ chr 58 :: json_stringify (opt_json v) ++ chr 44 :: opt_members_text kvs'
  end.

(** ** Round trip *)

Lemma str_obj_opt kvs : str_obj kvs = opt_obj (List.map (fun kv => (fst kv, Some (snd kv))) kvs).
Proof. unfold str_obj, opt_obj. f_equal. by rewrite List.map_map. Qed.

Lemma escape_char_parse c l acc :
  parse_chars (escape_char c ++ l) acc = parse_chars l (c :: acc).
Proof. destruct c as [[] [] [] [] [] [] [] []]; reflexivity. Qed.

Lemma parse_chars_escaped cs l acc :
  parse_chars (flat_map escape_char cs ++ quote_ch :: l) acc = Some (rev acc ++ cs, l).
Proof.
  revert acc. induction cs as [|c cs IH]; intros acc; simpl.
  - by rewrite app_nil_r.
  - rewrite <- app_assoc, escape_char_parse, IH. simpl. by rewrite <- app_assoc.
Qed.

Lemma parse_quoted k l :
  parse_chars (flat_map escape_char (list_ascii_of_string k) ++ quote_ch :: l) [] =
  Some (list_ascii_of_string k, l).
Proof. by rewrite parse_chars_escaped. Qed.

Lemma quote_string_app k l :
  quote_string k ++ l = quote_ch :: flat_map escape_char (list_ascii_of_string k) ++ quote_ch :: l.
Proof. unfold quote_string. simpl. by rewrite <- app_assoc. Qed.

Lemma stringify_opt_obj kvs :
  json_stringify (opt_obj kvs) = chr 123 :: opt_members_text kvs ++ [chr 125].
Proof.
  unfold opt_obj. simpl. f_equal. f_equal.
  induction kvs as [|[k v] kvs IH]; [done|].
  destruct kvs as [|[k' v'] kvs]; [done|]. simpl in *. by rewrite IH.
Qed.

Lemma stringify_str_obj_text kvs :
  json_stringify (str_obj kvs) = chr 123 :: opt_members_text (List.map (fun kv => (fst kv, Some (snd kv))) kvs) ++ [chr 125].
Proof. by rewrite str_obj_opt, stringify_opt_obj. Qed.

Lemma opt_members_text_one k v :
  opt_members_text [(k, v)] = quote_string k ++ chr 58 :: json_stringify (opt_json v).
Proof. reflexivity. Qed.

Lemma opt_members_text_cons2 k v kv kvs :
  opt_members_text ((k, v) :: kv :: kvs) =
  quote_string k ++ chr 58 :: json_stringify (opt_json v) ++ chr 44 :: opt_members_text (kv :: kvs).
Proof. reflexivity. Qed.

Lemma opt_members_text_length kvs : length kvs <= length (opt_members_text kvs).
Proof.
  induction kvs as [|[k v] kvs IH]; [simpl; lia|].
  destruct kvs as [|kv kvs]; [simpl; lia|].
  rewrite opt_members_text_cons2, !length_app. cbn [length]. rewrite length_app. cbn [length] in *. lia.
Qed.

Lemma code_quote : nat_of_ascii quote_ch = 34.
Proof. reflexivity. Qed.

Lemma code_chr n : n < 256 -> nat_of_ascii (chr n) = n.
Proof. apply nat_ascii_embedding. Qed.

Lemma ws_quote : is_json_ws quote_ch = false.
Proof. reflexivity. Qed.

Lemma ws_chr n : n < 256 -> n <> 32 -> n <> 9 -> n <> 10 -> n <> 13 -> is_json_ws (chr n) = false.
Proof.
  intros. unfold is_json_ws. rewrite code_chr by done.
  repeat (rewrite (proj2 (Nat.eqb_neq _ _)) by done). done.
Qed.

Lemma skip_ws_quote l : skip_ws (quote_ch :: l) = quote_ch :: l.
Proof. reflexivity. Qed.

Lemma opt_members_text_quote kv kvs : exists T, opt_members_text (kv :: kvs) = quote_ch :: T.
Proof.
  destruct kv as [k v]. destruct kvs as [|kv' kvs];
    [rewrite opt_members_text_one|rewrite opt_members_text_cons2]; rewrite quote_string_app; eauto.
Qed.

(** A member's value, a string or [null], read back. *)
Lemma parse_opt_value f v rest :
  parse_value (S f) (skip_ws (json_stringify (opt_json v) ++ rest)) = Some (opt_json v, rest).
Proof.
  destruct v as [s|]; cbn [opt_json json_stringify].
  - rewrite quote_string_app, skip_ws_quote. cbn [parse_value]. rewrite code_quote. cbn [Nat.eqb].
    by rewrite parse_quoted, string_of_list_ascii_of_string.
  - reflexivity.
Qed.

(** One member [k:v], then what follows it. *)
Lemma parse_member_step f k v rest :
  parse_members (S (S f)) (quote_string k ++ chr 58 :: json_stringify (opt_json v) ++ rest) =
  match skip_ws rest with
  | e :: r3 =>
      if nat_of_ascii e =? 44 then
        match parse_members (S f) (skip_ws r3) with
        | Some (kvs, r4) => Some ((k, opt_json v) :: kvs, r4)
        | None => None
        end
      else if nat_of_ascii e =? 125 then Some ([(k, opt_json v)], r3)
      else None
  | [] => None
  end.
Proof.
  rewrite quote_string_app. cbn [parse_members]. rewrite code_quote. cbn [Nat.eqb].
  rewrite parse_quoted. cbn [skip_ws]. rewrite ws_chr, code_chr by lia. cbn [Nat.eqb].
  rewrite parse_opt_value, string_of_list_ascii_of_string. reflexivity.
Qed.

Lemma parse_opt_members kvs r f :
  kvs <> [] -> length kvs < f ->
  parse_members f (opt_members_text kvs ++ chr 125 :: r) =
  Some (List.map (fun kv => (fst kv, opt_json (snd kv))) kvs, r).
Proof.
  revert f. induction kvs as [|[k v] kvs IH]; intros f Hne Hf; [done|].
  destruct f as [|f]; [simpl in Hf; lia|]. destruct f as [|f]; [simpl in Hf; lia|].
  destruct kvs as [|kv kvs].
  - rewrite opt_members_text_one, <- app_assoc. cbn [app]. rewrite <- ?app_assoc.
    rewrite parse_member_step. cbn [skip_ws]. rewrite ws_chr, code_chr by lia. reflexivity.
  - rewrite opt_members_text_cons2, <- app_assoc. cbn [app]. rewrite <- ?app_assoc. cbn [app].
    rewrite parse_member_step. cbn [skip_ws]. rewrite ws_chr, code_chr by lia. cbn [Nat.eqb].
    destruct (opt_members_text_quote kv kvs) as [T HT].
    rewrite HT. cbn [app]. rewrite skip_ws_quote, app_comm_cons, <- HT.
    rewrite (IH (S f)); [reflexivity|discriminate|simpl in *; lia].
Qed.

(** [JSON.parse(JSON.stringify(o))] gives back [o] for every object
    whose values are strings or [null]. *)
Theorem stringify_parse_opt_obj kvs :
  json_parse (string_of_list_ascii (json_stringify (opt_obj kvs))) = Some (opt_obj kvs).
Proof.
  unfold json_parse. rewrite list_ascii_of_string_of_list_ascii, stringify_opt_obj.
  pose proof (opt_members_text_length kvs) as Hlen.
  destruct kvs as [|kv kvs]; [reflexivity|].
  destruct (opt_members_text_quote kv kvs) as [T HT].
  cbn [skip_ws]. rewrite ws_chr by lia. cbn [length parse_value]. rewrite code_chr by lia.
  cbn [Nat.eqb]. rewrite HT. cbn [app]. rewrite skip_ws_quote, code_quote. cbn [Nat.eqb].
  rewrite app_comm_cons, <- HT, parse_opt_members; [reflexivity|discriminate|].
  rewrite length_app. cbn [length] in *. lia.
Qed.

(** The same for objects whose values are all strings. *)
Corollary stringify_parse_str_obj kvs :
  json_parse (string_of_list_ascii (json_stringify (str_obj kvs))) = Some (str_obj kvs).
Proof. rewrite str_obj_opt. apply stringify_parse_opt_obj. Qed.

End Json.
