(* ===== verification/EntityList.v ===== *)
(** * The Entity List Manager

    The list idioms every management page applies to its [useState] array,
    over any record type with an [id] field (the class [Keyed]):
    - [update_by_id]: [prev.map(r => r.id === id ? f r : r)], the edit branch
      of every [handleFormSubmit];
    - [remove_by_id]: [prev.filter(r => r.id !== id)], every
      [handleDeleteConfirm];
    - [append_record], [prepend_record]: [[...prev, x]] and [[x, ...prev]],
      the create branch;
    - [gen_id]: the [`P${Date.now().toString().slice(-4)}`] identifiers.

    The abstract specification (the spec's section 4.1) is a finite map
    from identifiers to records with [NotFound] errors ([spec_update],
    [spec_delete], [spec_create]); [to_map] abstracts a list, and the
    refinement theorems show each list operation implements its map
    operation whenever the ids are unique ([unique_ids]). *)

From S2P Require Import Prelude JsRuntime.
From stdpp Require Import gmap.
From Stdlib Require Import Permutation.

(** The interface a screen's record type offers the list manager. *)
Class Keyed (A : Type) := record_id : A -> string.
#[global] Arguments record_id {_ _} _.

(** A two-field record for the examples below: [{ id, title }]. *)
Record Row := mkRow { row_id : string; row_title : string }.
#[global] Instance row_keyed : Keyed Row := row_id.

Definition sample_rows : list Row :=
  [mkRow "BK001" "The Great Gatsby"; mkRow "BK002" "To Kill a Mockingbird";
   mkRow "BK003" "1984"]%string.

(** [{ ...r, title: t }] *)
Definition retitle (t : string) (r : Row) : Row := mkRow (row_id r) t.

Module EntityList.

Section Ops.
Context {A : Type} `{Keyed A}.

(** [prev.map(r => (r.id === id ? f r : r))] *)
Definition update_by_id (id : string) (f : A -> A) (l : list A) : list A :=
  List.map (fun r => if record_id r =ₛ id then f r else r) l.

(** [prev.filter(r => r.id !== id)] *)
Definition remove_by_id (id : string) (l : list A) : list A :=
  List.filter (fun r => record_id r ≠ₛ id) l.

(** [[...prev, x]] *)
Definition append_record (l : list A) (x : A) : list A := l ++ [x].

(** [[x, ...prev]] *)
Definition prepend_record (x : A) (l : list A) : list A := x :: l.

(** [list.find(r => r.id === id)] *)
Definition find_by_id (id : string) (l : list A) : option A :=
  List.find (fun r => record_id r =ₛ id) l.

Definition ids (l : list A) : list string := List.map record_id l.

(** [`${prefix}${Date.now().toString().slice(-4)}`]: the identifier a
    create branch gives a new record, [now] being [Date.now()] in
    milliseconds. *)
Definition gen_id (prefix : string) (now : N) : string :=
  prefix ++ js_slice_last 4 (js_number_to_string now).

(** The spec's data-model invariant: no two records share an id. *)
Definition unique_ids (l : list A) : Prop := NoDup (ids l).

#[global] Instance unique_ids_dec (l : list A) : Decision (unique_ids l).
Proof. unfold unique_ids. apply _. Defined.

(** An edit keeps the identifier: [{...r, ...values}] where [values] has
    no [id] field. *)
Definition keeps_id (f : A -> A) : Prop := forall r, record_id (f r) = record_id r.

(** ** The abstract specification: a finite map with NotFound *)

Inductive manager_error := NotFound.

Definition to_map (l : list A) : gmap string A :=
  list_to_map (List.map (fun r => (record_id r, r)) l).

Definition spec_update (id : string) (f : A -> A) (m : gmap string A)
    : manager_error + gmap string A :=
  match m !! id with None => inl NotFound | Some _ => inr (alter f id m) end.

Definition spec_delete (id : string) (m : gmap string A)
    : manager_error + gmap string A :=
  match m !! id with None => inl NotFound | Some _ => inr (delete id m) end.

Definition spec_create (x : A) (m : gmap string A) : option (gmap string A) :=
  match m !! record_id x with None => Some (<[record_id x := x]> m) | Some _ => None end.

(** ** Lemmas on the list operations *)

Lemma update_by_id_cons id f r l :
  update_by_id id f (r :: l) = (if record_id r =ₛ id then f r else r) :: update_by_id id f l.
Proof. reflexivity. Qed.

Lemma remove_by_id_cons id r l :
  remove_by_id id (r :: l) =
  if record_id r ≠ₛ id then r :: remove_by_id id l else remove_by_id id l.
Proof. reflexivity. Qed.

Lemma ids_update_by_id id f l : keeps_id f -> ids (update_by_id id f l) = ids l.
Proof.
  intros Hf. unfold ids, update_by_id. rewrite map_map.
  apply map_ext. intros r. by destruct (record_id r =ₛ id).
Qed.

Lemma In_remove_by_id id l x : In x (remove_by_id id l) <-> In x l /\ record_id x <> id.
Proof.
  unfold remove_by_id. rewrite filter_In, negb_true_iff, streq_false_iff. done.
Qed.

Lemma ids_remove_by_id id l :
  ids (remove_by_id id l) = List.filter (fun k => k ≠ₛ id) (ids l).
Proof.
  unfold ids, remove_by_id. induction l as [|r l IH]; [done|]. simpl.
  destruct (record_id r =ₛ id); simpl; by rewrite IH.
Qed.

Lemma In_ids r l : In r l -> record_id r ∈ ids l.
Proof. intros Hr. apply list_elem_of_In, in_map, Hr. Qed.

Lemma update_by_id_absent id f l : id ∉ ids l -> update_by_id id f l = l.
Proof.
  intros Hn. apply map_ext_in_id. intros r Hr.
  destruct (String.eqb_spec (record_id r) id) as [<-|]; [|done].
  exfalso. by apply Hn, In_ids.
Qed.

Lemma remove_by_id_absent id l : id ∉ ids l -> remove_by_id id l = l.
Proof.
  intros Hn. apply filter_all_true. intros r Hr.
  destruct (String.eqb_spec (record_id r) id) as [<-|]; [|done].
  exfalso. by apply Hn, In_ids.
Qed.

Lemma unique_ids_cons x l :
  unique_ids (x :: l) <-> (record_id x ∉ ids l) /\ unique_ids l.
Proof. apply NoDup_cons. Qed.

Lemma unique_ids_perm l l' : Permutation l l' -> unique_ids l -> unique_ids l'.
Proof. intros Hp. unfold unique_ids, ids. by rewrite Hp. Qed.

Lemma to_map_cons x l : to_map (x :: l) = <[record_id x := x]> (to_map l).
Proof. reflexivity. Qed.

Lemma to_map_lookup_None id l : id ∉ ids l -> to_map l !! id = None.
Proof.
  induction l as [|r l IH]; intros Hn; [done|].
  assert (Hn' : id ∉ record_id r :: ids l) by exact Hn.
  apply not_elem_of_cons in Hn' as [Hne Hl].
  rewrite to_map_cons, lookup_insert_ne by congruence. by apply IH.
Qed.

Lemma to_map_lookup_Some id l : id ∈ ids l -> exists r, to_map l !! id = Some r /\ In r l.
Proof.
  induction l as [|r l IH]; intros Hin; [by apply not_elem_of_nil in Hin|].
  rewrite to_map_cons.
  destruct (decide (record_id r = id)) as [<-|Hne];
    [rewrite lookup_insert_eq; exists r; split; [done|by left]|].
  rewrite lookup_insert_ne by done. unfold ids in Hin; simpl in Hin.
  apply elem_of_cons in Hin as [->|Hin]; [done|].
  destruct (IH Hin) as (r' & ? & ?). exists r'. split; [done|by right].
Qed.

Lemma to_map_lookup_iff id l : is_Some (to_map l !! id) <-> id ∈ ids l.
Proof.
  split.
  - intros [r Hr]. destruct (decide (id ∈ ids l)) as [|Hn]; [done|].
    rewrite to_map_lookup_None in Hr by done. discriminate.
  - intros Hin. destruct (to_map_lookup_Some id l Hin) as (r & -> & _). eauto.
Qed.

Lemma to_map_app_fresh l x :
  record_id x ∉ ids l -> to_map (l ++ [x]) = <[record_id x := x]> (to_map l).
Proof.
  induction l as [|r l IH]; intros Hn; [done|].
  unfold ids in Hn; simpl in Hn. apply not_elem_of_cons in Hn as [Hne Hn].
  simpl. rewrite !to_map_cons, IH by done. by apply insert_insert_ne.
Qed.

(** An appended record whose id is taken is shadowed: the map is the
    list's, the first record with an id being the one it denotes. *)
Lemma to_map_app_dup l x :
  record_id x ∈ ids l -> to_map (l ++ [x]) = to_map l.
Proof.
  induction l as [|r l IH]; intros Hin; [by apply not_elem_of_nil in Hin|].
  simpl. rewrite !to_map_cons.
  destruct (decide (record_id x ∈ ids l)) as [Hl|Hl]; [by rewrite IH|].
  unfold ids in Hin; simpl in Hin. apply elem_of_cons in Hin as [Heq|Hin]; [|done].
  rewrite to_map_app_fresh by done. rewrite Heq. apply insert_insert_eq.
Qed.

Lemma append_record_dup l x :
  record_id x ∈ ids l -> ~ unique_ids (append_record l x).
Proof.
  intros Hin Hu. unfold unique_ids, ids, append_record in Hu. rewrite map_app in Hu.
  apply NoDup_app in Hu as (_ & Hd & _). by apply (Hd (record_id x)); [|left].
Qed.

Lemma to_map_fst l : (List.map (fun r => (record_id r, r)) l).*1 = ids l.
Proof. induction l as [|r l IH]; [done|]. simpl. f_equal. exact IH. Qed.

Lemma append_record_unique l x :
  unique_ids l -> record_id x ∉ ids l -> unique_ids (append_record l x).
Proof.
  intros Hu Hn. unfold unique_ids, ids, append_record. rewrite map_app. simpl.
  apply NoDup_app. split; [done|]. split; [|apply NoDup_singleton].
  intros k Hk Hk'. apply list_elem_of_singleton in Hk'. by subst.
Qed.

Lemma Forall_update_by_id (P : A -> Prop) id f l :
  (forall r, P r -> P (f r)) -> Forall P l -> Forall P (update_by_id id f l).
Proof.
  intros Hf Hl. unfold update_by_id. apply Forall_map.
  eapply Forall_impl; [exact Hl|]. intros r Hr. simpl. destruct (record_id r =ₛ id); auto.
Qed.

Lemma Forall_remove_by_id (P : A -> Prop) id l : Forall P l -> Forall P (remove_by_id id l).
Proof.
  rewrite !List.Forall_forall. intros Hl r Hr. apply In_remove_by_id in Hr as [Hr _]. by apply Hl.
Qed.

Lemma unique_ids_In_eq l x r :
  unique_ids l -> In x l -> In r l -> record_id x = record_id r -> x = r.
Proof.
  unfold unique_ids, ids. induction l as [|y l IH]; [done|]. simpl.
  intros Hu Hx Hr Heq. apply NoDup_cons in Hu as [Hn Hu].
  destruct Hx as [<-|Hx], Hr as [<-|Hr]; try done.
  - exfalso. apply Hn. rewrite Heq. by apply In_ids.
  - exfalso. apply Hn. rewrite <- Heq. by apply In_ids.
  - by apply IH.
Qed.

(** A record of a list with unique ids is what the map holds at its id. *)
Lemma to_map_lookup_In l r : unique_ids l -> In r l -> to_map l !! record_id r = Some r.
Proof.
  intros Hu Hr. induction l as [|y l IH]; [done|]. rewrite to_map_cons.
  destruct (decide (record_id y = record_id r)) as [E|E].
  - rewrite E, lookup_insert_eq. f_equal. apply (unique_ids_In_eq (y :: l)); [done|by left|done|done].
  - rewrite lookup_insert_ne by done. apply unique_ids_cons in Hu as [_ Hu].
    destruct Hr as [<-|Hr]; [done|by apply IH].
Qed.

Lemma Forall_update_by_id_in (P : A -> Prop) id f l :
  (forall r, In r l -> record_id r = id -> P (f r)) -> Forall P l ->
  Forall P (update_by_id id f l).
Proof.
  intros Hf Hl. unfold update_by_id. apply Forall_map. rewrite List.Forall_forall in *.
  intros r Hr. destruct (String.eqb_spec (record_id r) id); auto.
Qed.

Lemma In_update_by_id_other id f l r :
  In r l -> record_id r <> id -> In r (update_by_id id f l).
Proof.
  intros Hr Hne. unfold update_by_id. apply in_map_iff. exists r. split; [|done].
  by destruct (String.eqb_spec (record_id r) id).
Qed.

(** The record with the id being updated is replaced by its image. *)
Lemma In_update_by_id_self f l r :
  In r l -> In (f r) (update_by_id (record_id r) f l).
Proof.
  intros Hr. unfold update_by_id. apply in_map_iff. exists r. split; [|done].
  by rewrite String.eqb_refl.
Qed.

(** With unique ids, an update that gives the record with that id back
    leaves the list unchanged. *)
Lemma update_by_id_fixed f l e :
  unique_ids l -> In e l -> f e = e -> update_by_id (record_id e) f l = l.
Proof.
  intros Hu He Hf. unfold update_by_id. rewrite <- (List.map_id l) at 2.
  apply map_ext_in. intros r Hr.
  destruct (String.eqb_spec (record_id r) (record_id e)) as [Heq|]; [|done].
  by rewrite (unique_ids_In_eq l r e Hu Hr He Heq).
Qed.

(** With unique ids, an update by the id of a record depends only on
    what the function does to that record. *)
Lemma update_by_id_ext_unique f g l e :
  unique_ids l -> In e l -> f e = g e ->
  update_by_id (record_id e) f l = update_by_id (record_id e) g l.
Proof.
  intros Hu He Hfg. unfold update_by_id. apply map_ext_in. intros r Hr.
  destruct (String.eqb_spec (record_id r) (record_id e)) as [Heq|]; [|done].
  by rewrite (unique_ids_In_eq l r e Hu Hr He Heq).
Qed.

Lemma update_by_id_unique id f l :
  keeps_id f -> unique_ids l -> unique_ids (update_by_id id f l).
Proof. intros Hf Hu. unfold unique_ids. by rewrite ids_update_by_id. Qed.

Lemma remove_by_id_unique id l : unique_ids l -> unique_ids (remove_by_id id l).
Proof.
  unfold unique_ids. rewrite ids_remove_by_id. intros Hu.
  apply NoDup_ListNoDup, List.NoDup_filter, NoDup_ListNoDup, Hu.
Qed.
End Ops.

Lemma digit_shift (t k d : N) :
  d <> 0%N -> (((t + k * 10 * d) / d) mod 10 = (t / d) mod 10)%N.
Proof.
  intros Hd. rewrite N.div_add by done. apply N.Div0.mod_add.
Qed.

(** Identifiers repeat: [gen_id] keeps only the last four decimal digits
    of the millisecond clock, so two records created ten seconds apart
    receive the same id (for every clock reading past one second since
    the epoch). *)
Theorem gen_id_collision (prefix : string) (t : N) :
  (1000 <= t)%N -> gen_id prefix (t + 10000) = gen_id prefix t.
Proof.
  intros Ht. unfold gen_id.
  rewrite !js_number_to_string_last4 by lia.
  assert (E3 : (((t + 10000) / 1000) mod 10 = (t / 1000) mod 10)%N)
    by exact (digit_shift t 1 1000 ltac:(lia)).
  assert (E2 : (((t + 10000) / 100) mod 10 = (t / 100) mod 10)%N)
    by exact (digit_shift t 10 100 ltac:(lia)).
  assert (E1 : (((t + 10000) / 10) mod 10 = (t / 10) mod 10)%N)
    by exact (digit_shift t 100 10 ltac:(lia)).
  assert (E0 : ((t + 10000) mod 10 = t mod 10)%N) by exact (N.Div0.mod_add t 1000 10).
  by rewrite E3, E2, E1, E0.
Qed.


Lemma mod10000_digits n :
  (n mod 10000 = ((n / 1000) mod 10) * 1000 + ((n / 100) mod 10) * 100 +
                 ((n / 10) mod 10) * 10 + n mod 10)%N.
Proof.
  change 10000%N with (1000 * 10)%N. rewrite N.Div0.mod_mul_r.
  change 1000%N with (100 * 10)%N at 1. rewrite N.Div0.mod_mul_r.
  change 100%N with (10 * 10)%N at 1. rewrite N.Div0.mod_mul_r. lia.
Qed.

Lemma digit_char_inj a b : (a < 10)%N -> (b < 10)%N -> digit_char a = digit_char b -> a = b.
Proof.
  intros Ha Hb H. apply (f_equal N_of_ascii) in H. unfold digit_char in H.
  rewrite !N_ascii_embedding in H by lia. lia.
Qed.

Lemma string_app_inv_l (p a b : string) : (p ++ a = p ++ b)%string -> a = b.
Proof. induction p as [|c p IH]; [done|]. rewrite !string_app_cons. intros [= H]. by apply IH. Qed.

(** C19: the identifier space is bounded: for clock readings past one
    second after the epoch, two creations get the same id exactly when
    their clocks agree modulo 10000, so a page can tell at most ten
    thousand created records apart. *)
Theorem gen_id_space (prefix : string) (n m : N) :
  (1000 <= n)%N -> (1000 <= m)%N ->
  gen_id prefix n = gen_id prefix m <-> (n mod 10000 = m mod 10000)%N.
Proof.
  intros Hn Hm. unfold gen_id. rewrite !js_number_to_string_last4 by done.
  rewrite (mod10000_digits n), (mod10000_digits m).
  pose proof (N.mod_lt (n / 1000) 10 ltac:(discriminate)) as a1. pose proof (N.mod_lt (n / 100) 10 ltac:(discriminate)) as a2.
  pose proof (N.mod_lt (n / 10) 10 ltac:(discriminate)) as a3. pose proof (N.mod_lt n 10 ltac:(discriminate)) as a4.
  pose proof (N.mod_lt (m / 1000) 10 ltac:(discriminate)) as b1. pose proof (N.mod_lt (m / 100) 10 ltac:(discriminate)) as b2.
  pose proof (N.mod_lt (m / 10) 10 ltac:(discriminate)) as b3. pose proof (N.mod_lt m 10 ltac:(discriminate)) as b4.
  split.
  - intros H. apply string_app_inv_l in H. injection H as H1 H2 H3 H4.
    apply digit_char_inj in H1, H2, H3, H4; lia.
  - remember ((n / 1000) mod 10)%N as x1. remember ((n / 100) mod 10)%N as x2.
    remember ((n / 10) mod 10)%N as x3. remember (n mod 10)%N as x4.
    remember ((m / 1000) mod 10)%N as y1. remember ((m / 100) mod 10)%N as y2.
    remember ((m / 10) mod 10)%N as y3. remember (m mod 10)%N as y4.
    intros H. assert (x1 = y1 /\ x2 = y2 /\ x3 = y3 /\ x4 = y4) as (-> & -> & -> & ->) by lia.
    reflexivity.
Qed.

Section Refinement.
Context {A : Type} `{Keyed A}.

(** Reordering a list with unique ids does not change the map it
    denotes: the sorts the pages apply after a change are invisible to
    the specification. *)
Lemma to_map_perm (l l' : list A) :
  unique_ids l -> Permutation l l' -> to_map l = to_map l'.
Proof.
  intros Hu Hp. unfold to_map. apply list_to_map_proper.
  - rewrite to_map_fst. apply Hu.
  - by apply Permutation_map.
Qed.

Lemma to_map_update_by_id (id : string) (f : A -> A) (l : list A) :
  unique_ids l -> keeps_id f -> to_map (update_by_id id f l) = alter f id (to_map l).
Proof.
  intros Hu Hf. induction l as [|r l IH]; [done|].
  apply unique_ids_cons in Hu as [Hn Hu].
  rewrite update_by_id_cons, !to_map_cons.
  destruct (String.eqb_spec (record_id r) id) as [<-|Hne]; rewrite IH by done.
  - rewrite Hf, alter_insert_eq. by rewrite alter_id' by (by apply to_map_lookup_None).
  - by rewrite alter_insert_ne by congruence.
Qed.

Lemma to_map_remove_by_id (id : string) (l : list A) :
  unique_ids l -> to_map (remove_by_id id l) = delete id (to_map l).
Proof.
  intros Hu. induction l as [|r l IH]; [unfold to_map; simpl; by rewrite delete_empty|].
  apply unique_ids_cons in Hu as [Hn Hu]. rewrite remove_by_id_cons, to_map_cons.
  destruct (String.eqb_spec (record_id r) id) as [<-|Hne]; simpl.
  - rewrite delete_insert_eq, delete_id by (by apply to_map_lookup_None).
    by rewrite remove_by_id_absent.
  - rewrite to_map_cons, delete_insert_ne by congruence. f_equal. by apply IH.
Qed.

(** C2: the edit branch of a submit handler refines the specification's
    [update]: when the id is present the list denotes [alter f id] of
    the map; when it is absent the specification raises [NotFound] and
    the code leaves the list unchanged. *)
Theorem update_by_id_refines (id : string) (f : A -> A) (l : list A) :
  unique_ids l -> keeps_id f ->
  match spec_update id f (to_map l) with
  | inr m' => to_map (update_by_id id f l) = m'
  | inl NotFound => update_by_id id f l = l
  end.
Proof.
  intros Hu Hf. unfold spec_update.
  destruct (to_map l !! id) as [r|] eqn:Hl; [by apply to_map_update_by_id|].
  apply update_by_id_absent. intros Hin. apply to_map_lookup_iff in Hin.
  rewrite Hl in Hin. by destruct Hin.
Qed.

(** C3: the delete confirmation refines the specification's [delete],
    and deleting an absent id (where the specification raises
    [NotFound]) leaves the list unchanged. *)
Theorem remove_by_id_refines (id : string) (l : list A) :
  unique_ids l ->
  match spec_delete id (to_map l) with
  | inr m' => to_map (remove_by_id id l) = m'
  | inl NotFound => remove_by_id id l = l
  end.
Proof.
  intros Hu. unfold spec_delete.
  destruct (to_map l !! id) as [r|] eqn:Hl; [by apply to_map_remove_by_id|].
  apply remove_by_id_absent. intros Hin. apply to_map_lookup_iff in Hin.
  rewrite Hl in Hin. by destruct Hin.
Qed.

(** C4: appending a record against the specification's [create], on
    both of its branches.  When the id is fresh, the list denotes the
    map [create] returns and its ids stay unique.  When the id is taken,
    [create] refuses, but the code appends anyway: the list now holds two
    records with that id, and the map it denotes is unchanged, the new
    record being shadowed by the old one. *)
Theorem append_record_refines (l : list A) (x : A) :
  unique_ids l ->
  match spec_create x (to_map l) with
  | Some m' => to_map (append_record l x) = m' /\ unique_ids (append_record l x)
  | None => to_map (append_record l x) = to_map l /\ ~ unique_ids (append_record l x)
  end.
Proof.
  intros Hu. unfold spec_create.
  destruct (decide (record_id x ∈ ids l)) as [Hin|Hn].
  - destruct (to_map_lookup_Some _ _ Hin) as (r & -> & _).
    split; [by apply to_map_app_dup|by apply append_record_dup].
  - rewrite to_map_lookup_None by done. unfold append_record.
    rewrite to_map_app_fresh by done. split; [done|]. by apply append_record_unique.
Qed.
End Refinement.

Lemma update_by_id_refines_witness :
  unique_ids sample_rows /\ keeps_id (retitle "Animal Farm") /\
  match spec_update "BK003" (retitle "Animal Farm") (to_map sample_rows) with
  | inr m' => to_map (update_by_id "BK003" (retitle "Animal Farm") sample_rows) = m'
  | inl NotFound => update_by_id "BK003" (retitle "Animal Farm") sample_rows = sample_rows
  end.
Proof.
  split; [decide_it|]. split; [intros r; reflexivity|].
  apply update_by_id_refines; [decide_it|intros r; reflexivity].
Defined.

Lemma remove_by_id_refines_witness :
  unique_ids sample_rows /\
  match spec_delete "BK002" (to_map sample_rows) with
  | inr m' => to_map (remove_by_id "BK002" sample_rows) = m'
  | inl NotFound => remove_by_id "BK002" sample_rows = sample_rows
  end.
Proof. split; [decide_it|]. apply remove_by_id_refines. decide_it. Defined.

(** The duplicate branch: a second "BK001". *)
Lemma append_record_refines_witness :
  unique_ids sample_rows /\
  to_map (append_record sample_rows (mkRow "BK001" "Emma")) = to_map sample_rows /\
  ~ unique_ids (append_record sample_rows (mkRow "BK001" "Emma")).
Proof.
  assert (Hu : unique_ids sample_rows) by decide_it.
  split; [exact Hu|].
  exact (append_record_refines sample_rows (mkRow "BK001" "Emma") Hu).
Defined.

Lemma gen_id_space_witness :
  (1000 <= 1718000012345)%N /\ (1000 <= 1718000022345)%N /\
  (gen_id "BK" 1718000012345 = gen_id "BK" 1718000022345 <->
   (1718000012345 mod 10000 = 1718000022345 mod 10000)%N).
Proof.
  assert (H1 : (1000 <= 1718000012345)%N) by lia.
  assert (H2 : (1000 <= 1718000022345)%N) by lia.
  split; [exact H1|]. split; [exact H2|]. exact (gen_id_space "BK" _ _ H1 H2).
Defined.

#[export] Hint Resolve ids_update_by_id unique_ids_perm : campus.

End EntityList.
