(* ===== verification/Validation.v ===== *)
(** * Form validation rules shared by the zod schemas

    The string constraints of the page schemas: [.min(n)], [.max(n)],
    the optional-field idiom [!val || ...], and the phone-number regular
    expression of students/page.tsx and teachers/page.tsx,
    [/^[+]?[(]?[0-9]{3}[)]?[-\s.]?[0-9]{3}[-\s.]?[0-9]{4,6}$/], as a
    backtracking matcher that keeps every suffix the pattern read so far
    can leave.  [phone_regex_min_length] shows that a match has at least
    ten characters. *)

From S2P Require Import Prelude JsRuntime.

Module Validation.

(** [z.string().min(n)] *)
Definition min_len (n : nat) (s : string) : bool := n <=? String.length s.

(** [z.string().max(n)] *)
Definition max_len (n : nat) (s : string) : bool := String.length s <=? n.

(** [!val] on an optional string: [undefined] and [""] are falsy. *)
Definition js_falsy (v : option string) : bool :=
  match v with None => true | Some s => (s =? "")%string end.

(** ** The phone-number pattern *)

Definition is_digit (c : ascii) : bool :=
  let n := nat_of_ascii c in (48 <=? n) && (n <=? 57).

Definition is_char (k : nat) (c : ascii) : bool := nat_of_ascii c =? k.

(** [[-\s.]]: a hyphen, a full stop or whitespace. *)
Definition is_sep (c : ascii) : bool := is_char 45 c || is_char 46 c || is_js_space c.

(** One character class read once: the suffixes after it. *)
Definition re_one (p : ascii -> bool) (l : list (list ascii)) : list (list ascii) :=
  flat_map (fun s => match s with c :: s' => if p c then [s'] else [] | [] => [] end) l.

(** [p?]: the suffix as it is, or after one character of class [p]. *)
Definition re_opt (p : ascii -> bool) (l : list (list ascii)) : list (list ascii) :=
  l ++ re_one p l.

(** [p{n}] *)
Definition re_rep (p : ascii -> bool) (n : nat) (l : list (list ascii)) : list (list ascii) :=
  Nat.iter n (re_one p) l.

(** [p{lo,hi}] with [hi = lo + extra]. *)
Fixpoint re_upto (p : ascii -> bool) (extra : nat) (l : list (list ascii)) : list (list ascii) :=
  match extra with
  | O => l
  | S e => l ++ re_upto p e (re_one p l)
  end.

Definition re_range (p : ascii -> bool) (lo extra : nat) (l : list (list ascii)) :=
  re_upto p extra (re_rep p lo l).

(** [/^[+]?[(]?[0-9]{3}[)]?[-\s.]?[0-9]{3}[-\s.]?[0-9]{4,6}$/.test(s)]:
    some way of reading the pattern consumes the whole input. *)
Definition phone_regex_test (s : string) : bool :=
  let r := re_range is_digit 4 2
           (re_opt is_sep (re_rep is_digit 3
           (re_opt is_sep (re_opt (is_char 41) (re_rep is_digit 3
           (re_opt (is_char 40) (re_opt (is_char 43) [list_ascii_of_string s]))))))) in
  existsb (fun rest => match rest with [] => true | _ => false end) r.

(** Every suffix in [l] leaves at least [k] characters of [s0] read. *)
Definition read_at_least (k : nat) (s0 : list ascii) (l : list (list ascii)) : Prop :=
  forall s, In s l -> length s + k <= length s0.

Lemma read_one p k s0 l : read_at_least k s0 l -> read_at_least (S k) s0 (re_one p l).
Proof.
  intros H s Hs. unfold re_one in Hs. apply in_flat_map in Hs as [t [Ht Hs]].
  specialize (H t Ht). destruct t as [|c t]; [done|].
  destruct (p c); [|done]. destruct Hs as [<-|[]]. simpl in H. lia.
Qed.

Lemma read_opt p k s0 l : read_at_least k s0 l -> read_at_least k s0 (re_opt p l).
Proof.
  intros H s Hs. apply in_app_or in Hs as [Hs|Hs]; [by apply H|].
  apply (read_one p) in H. specialize (H s Hs). lia.
Qed.

Lemma read_rep p n k s0 l : read_at_least k s0 l -> read_at_least (n + k) s0 (re_rep p n l).
Proof.
  induction n as [|n IH]; intros H; [done|]. simpl. by apply read_one, IH.
Qed.

Lemma read_upto p e k s0 l : read_at_least k s0 l -> read_at_least k s0 (re_upto p e l).
Proof.
  revert l k. induction e as [|e IH]; intros l k H; [done|]. simpl.
  intros s Hs. apply in_app_or in Hs as [Hs|Hs]; [by apply H|].
  apply (IH (re_one p l) (S k)) in Hs; [lia|]. by apply read_one.
Qed.

(** A string the phone pattern accepts has at least ten characters. *)
Lemma phone_regex_min_length s : phone_regex_test s = true -> 10 <= String.length s.
Proof.
  unfold phone_regex_test. intros Hm. apply existsb_exists in Hm as [rest [Hin Hnil]].
  destruct rest; [|discriminate].
  assert (Hr : read_at_least 10 (list_ascii_of_string s)
    (re_range is_digit 4 2 (re_opt is_sep (re_rep is_digit 3 (re_opt is_sep
      (re_opt (is_char 41) (re_rep is_digit 3 (re_opt (is_char 40)
      (re_opt (is_char 43) [list_ascii_of_string s]))))))))).
  { apply read_upto. change 10 with (4 + (3 + (3 + 0))).
    apply read_rep, read_opt, read_rep, read_opt, read_opt, read_rep, read_opt, read_opt.
    intros t [<-|[]]. lia. }
  specialize (Hr [] Hin). simpl in Hr.
  rewrite string_length_list. lia.
Qed.

(** ** Facts on the matcher's combinators *)

Lemma re_one_app p l1 l2 : re_one p (l1 ++ l2) = re_one p l1 ++ re_one p l2.
Proof. apply flat_map_app. Qed.

Lemma re_one_single p c s : re_one p [c :: s] = if p c then [s] else [].
Proof. unfold re_one. simpl. by destruct (p c). Qed.

Lemma re_upto_nil p e : re_upto p e [] = [].
Proof. induction e as [|e IH]; [done|]. simpl. exact IH. Qed.

Lemma In_re_upto_app p e l1 l2 x :
  In x (re_upto p e (l1 ++ l2)) <-> In x (re_upto p e l1) \/ In x (re_upto p e l2).
Proof.
  revert l1 l2. induction e as [|e IH]; intros l1 l2; simpl; [apply in_app_iff|].
  rewrite re_one_app, !in_app_iff, IH. tauto.
Qed.

End Validation.
