(* ===== verification/Students.v ===== *)
(** * Student management (src/src/app/(app)/students/page.tsx)

    The [Student] record and its form values, the zod schema
    [studentFormSchema] ([validate_student]), the page state
    ([StudentPage]) and its handlers: [handleFormSubmit] (edit or create,
    then sort by name), [handleDeleteConfirm], [handlePromoteStudent] with
    the class ladder [nextClass], and the derived [filteredStudents].
    [step] is the page as a transition system whose events are the
    buttons of the page; [page_inv] is its invariant.  The dialog's
    [resetFormFields] ([reset_form_fields]), its field inputs and texts,
    and the Student List card ([render_students]) are modelled as well;
    [students_page_renders] shows the list renders on every reachable
    state.  [String.prototype.toUpperCase], which the submit handler
    applies to the section after the schema checked its length, is the
    parameter [toUpperCase]: Unicode's full case mapping is not
    length-preserving, and [section_exceeds_schema] shows a section typed
    as "ßß" is stored as "SSSS". *)

From S2P Require Import Prelude JsRuntime EntityList Validation.
From Stdlib Require Import Sorted Permutation.
From stdpp Require Import list_monad.
Import EntityList Validation.

Module Students.

Inductive Gender := Male | Female | Other.

#[global] Instance gender_eq_dec : EqDecision Gender.
Proof. solve_decision. Defined.

(** [interface Student] (lines 52-64). *)
Record Student := mkStudent {
  id : string;
  name : string;
  className : string;
  section : string;
  admissionDate : string;
  rollNumber : option string;
  dateOfBirth : option string;
  gender : option Gender;
  guardianName : option string;
  guardianPhone : option string;
  address : option string;
}.

#[global] Instance student_keyed : Keyed Student := id.

Module Values.
(** [StudentFormValues = z.infer<typeof studentFormSchema>]. *)
Record StudentFormValues := mkValues {
  name : string;
  className : string;
  section : string;
  admissionDate : string;
  rollNumber : option string;
  dateOfBirth : option string;
  gender : option Gender;
  guardianName : option string;
  guardianPhone : option string;
  address : option string;
}.
End Values.
Import Values (StudentFormValues, mkValues).

(** [CLASS_FORM_OPTIONS] (line 93). *)
Definition CLASS_FORM_OPTIONS : list string :=
  ["NC"; "1"; "2"; "3"; "4"; "5"; "6"; "7"; "8"; "9"; "10"; "11"; "12"]%string.

(** ** The schema [studentFormSchema] (lines 66-79) *)

Section Schema.
(** [isValid(parseISO(s))] of date-fns. *)
Variable isValidDate : string -> bool.

(** The [guardianPhone] refinement (line 75):
    [!val || phoneRegex.test(val) || val.length >= 7]. *)
Definition guardian_phone_ok (v : option string) : bool :=
  js_falsy v ||
  match v with
  | Some s => phone_regex_test s || (7 <=? String.length s)
  | None => false
  end.

(** The fields whose check fails, in schema order; the form calls the
    submit handler only when the list is empty. *)
Definition validate_student (v : StudentFormValues) : list string :=
  ((if min_len 2 (Values.name v) then [] else ["name"]) ++
  (if min_len 1 (Values.className v) then [] else ["className"]) ++
  (if min_len 1 (Values.section v) && max_len 2 (Values.section v) then [] else ["section"]) ++
  (if isValidDate (Values.admissionDate v) then [] else ["admissionDate"]) ++
  (if js_falsy (Values.dateOfBirth v) ||
      match Values.dateOfBirth v with Some d => isValidDate d | None => false end
   then [] else ["dateOfBirth"]) ++
  (if guardian_phone_ok (Values.guardianPhone v) then [] else ["guardianPhone"]))%list%string.

(** The length constraints a stored record satisfies: the schema's on
    the name and the class, and on the section the schema's one or two
    characters once upper-cased, which can triple them (Unicode's
    SpecialCasing maps one code unit to at most three: 'ß' to "SS",
    'ΐ' to three). *)
Definition valid_student (s : Student) : Prop :=
  (2 <= String.length (name s) /\ 1 <= String.length (className s) /\
   1 <= String.length (section s) <= 6)%nat.
End Schema.

(** ** Records built by the submit handler *)

Section Records.
(** [String.prototype.toUpperCase]: Unicode's full case mapping, which
    is not length-preserving ('ß' becomes "SS"); a parameter of the
    definitions that call it. *)
Variable toUpperCase : string -> string.

(** [{ ...s, ...values, section: values.section.toUpperCase() }] (line 156):
    every field of the form overrides the record's, the id is kept. *)
Definition merge_values (v : StudentFormValues) (s : Student) : Student :=
  {| id := id s;
     name := Values.name v;
     className := Values.className v;
     section := toUpperCase (Values.section v);
     admissionDate := Values.admissionDate v;
     rollNumber := Values.rollNumber v;
     dateOfBirth := Values.dateOfBirth v;
     gender := Values.gender v;
     guardianName := Values.guardianName v;
     guardianPhone := Values.guardianPhone v;
     address := Values.address v |}.

(** [{ id: `S${Date.now().toString().slice(-4)}`, ...values,
       section: values.section.toUpperCase() }] (lines 164-168). *)
Definition new_student (now : N) (v : StudentFormValues) : Student :=
  merge_values v {| id := gen_id "S" now; name := ""; className := ""; section := "";
                    admissionDate := ""; rollNumber := None; dateOfBirth := None;
                    gender := None; guardianName := None; guardianPhone := None;
                    address := None |}.
End Records.

(** What the proofs need of [toUpperCase], both true of JavaScript's:
    a non-empty string stays non-empty and grows at most threefold. *)
Definition upper_bounded (toUpperCase : string -> string) : Prop :=
  forall s, (1 <= String.length s -> 1 <= String.length (toUpperCase s)) /\
            String.length (toUpperCase s) <= 3 * String.length s.


(** The literal array of [initialStudents] (lines 83-89), before its
    [.sort(...)] (line 90, [initialStudents] below). *)
Definition initialStudents_seed : list Student :=
  [ mkStudent "S1001" "Alice Johnson" "10" "A" "2023-04-15" (Some "10A01") (Some "2008-03-10")
      (Some Female) (Some "John Johnson") (Some "555-1111") (Some "123 Main St, Anytown");
    mkStudent "S1002" "Bob Williams" "9" "B" "2023-05-01" (Some "09B05") (Some "2009-07-22")
      (Some Male) (Some "Sarah Williams") (Some "555-2222") (Some "456 Oak Ave, Anytown");
    mkStudent "S1003" "Charlie Brown" "11" "C" "2022-08-20" (Some "11C12") (Some "2007-01-15")
      (Some Male) (Some "James Brown") (Some "555-3333") (Some "789 Pine Ln, Anytown");
    mkStudent "S1004" "Diana Miller" "NC" "A" "2024-03-01" (Some "NCA03") (Some "2020-05-01")
      (Some Female) (Some "Laura Miller") (Some "555-4444") (Some "321 Maple Dr, Anytown");
    mkStudent "S1005" "Edward Davis" "12" "B" "2021-07-10" (Some "12B08") (Some "2006-11-30")
      (Some Male) (Some "Robert Davis") (Some "555-5555") (Some "654 Willow Rd, Anytown");
    mkStudent "S1006" "Fiona Garcia" "Graduated" "A" "2020-06-01" (Some "GRADA01") (Some "2002-09-05")
      (Some Female) (Some "Maria Garcia") (Some "555-6666") (Some "987 Birch Ct, Anytown") ]%string.

(** The seed student in class 12, used by the examples. *)
Definition edward : Student :=
  mkStudent "S1005" "Edward Davis" "12" "B" "2021-07-10" (Some "12B08") (Some "2006-11-30")
    (Some Male) (Some "Robert Davis") (Some "555-5555") (Some "654 Willow Rd, Anytown").

(** ** Promotion (lines 202-230) *)

(** [Number(s)] on the class labels: a string of decimal digits denotes
    its value, every other label is [NaN] ([None]).  [Number] accepts more
    spellings (blanks, signs, exponents), but the promotion also requires
    [CLASS_FORM_OPTIONS.includes(s)], which no such spelling satisfies
    ([nextClass_outside]). *)
Fixpoint decimal_value (l : list ascii) (acc : N) : option N :=
  match l with
  | [] => Some acc
  | c :: l' =>
      if is_digit c then decimal_value l' (10 * acc + (N.of_nat (nat_of_ascii c) - 48))%N
      else None
  end.

Definition js_Number (s : string) : option N :=
  match list_ascii_of_string s with
  | [] => None
  | l => decimal_value l 0
  end.

(** The next class of [handlePromoteStudent]:
    [if (c === "NC") "1" else if (c === "12") "Graduated"
     else if (!isNaN(Number(c)) && Number(c) < 12 && CLASS_FORM_OPTIONS.includes(c))
       (Number(c) + 1).toString() else c]. *)
Definition nextClass (c : string) : string :=
  if c =ₛ "NC" then "1"
  else if c =ₛ "12" then "Graduated"
  else match js_Number c with
       | Some n =>
           if (n <? 12)%N && existsb (String.eqb c) CLASS_FORM_OPTIONS
           then js_number_to_string (n + 1) else c
       | None => c
       end.

(** [{ ...s, className: nextClass }] *)
Definition promote (s : Student) : Student :=
  {| id := id s; name := name s; className := nextClass (className s);
     section := section s; admissionDate := admissionDate s;
     rollNumber := rollNumber s; dateOfBirth := dateOfBirth s; gender := gender s;
     guardianName := guardianName s; guardianPhone := guardianPhone s;
     address := address s |}.

(** ** The page *)

Record StudentPage := mkPage {
  students : list Student;
  showStudentModal : bool;
  editingStudent : option Student;
  studentToDelete : option Student;
  classFilter : string;
}.

Section Handlers.
(** [a.localeCompare(b)]: the collation is the browser's. *)
Variable localeCompare : string -> string -> Z.
Variable toUpperCase : string -> string.

(** [(a, b) => a.name.localeCompare(b.name)] *)
Definition by_name (a b : Student) : Z := localeCompare (name a) (name b).

Definition sort_by_name (l : list Student) : list Student := js_sort by_name l.

(** [initialStudents] (lines 83-90) and the page's first state
    (lines 100-104). *)
Definition initialStudents : list Student := sort_by_name initialStudents_seed.

Definition initialPage : StudentPage :=
  {| students := initialStudents; showStudentModal := false; editingStudent := None;
     studentToDelete := None; classFilter := "All" |}.

(** [handleFormSubmit] (lines 152-177), after zod accepted [v]. *)
Definition handleFormSubmit (now : N) (v : StudentFormValues) (p : StudentPage) : StudentPage :=
  let students' :=
    match editingStudent p with
    | Some e => sort_by_name (update_by_id (id e) (merge_values toUpperCase v) (students p))
    | None => sort_by_name (append_record (students p) (new_student toUpperCase now v))
    end in
  {| students := students'; showStudentModal := false; editingStudent := None;
     studentToDelete := studentToDelete p; classFilter := classFilter p |}.

(** [handleDeleteConfirm] (lines 190-200). *)
Definition handleDeleteConfirm (p : StudentPage) : StudentPage :=
  match studentToDelete p with
  | Some d =>
      {| students := sort_by_name (remove_by_id (id d) (students p));
         showStudentModal := showStudentModal p; editingStudent := editingStudent p;
         studentToDelete := None; classFilter := classFilter p |}
  | None => p
  end.

(** [handlePromoteStudent(studentId)] (lines 202-230). *)
Definition handlePromoteStudent (sid : string) (p : StudentPage) : StudentPage :=
  {| students := sort_by_name (update_by_id sid promote (students p));
     showStudentModal := showStudentModal p; editingStudent := editingStudent p;
     studentToDelete := studentToDelete p; classFilter := classFilter p |}.
End Handlers.

(** [filteredStudents] (lines 145-150). *)
Definition filteredStudents (p : StudentPage) : list Student :=
  if classFilter p =ₛ "All" then students p
  else List.filter (fun s => className s =ₛ classFilter p) (students p).

(** The rank of a class label on the ladder NC, 1, ..., 12, Graduated. *)
Fixpoint index_of (c : string) (l : list string) : option nat :=
  match l with
  | [] => None
  | x :: l' => if c =ₛ x then Some 0 else option_map S (index_of c l')
  end.

Definition class_rank (c : string) : option nat :=
  index_of c (CLASS_FORM_OPTIONS ++ ["Graduated"%string]).

(** ** The page as a transition system *)

(** [CLASS_FILTER_OPTIONS] (line 92). *)
Definition CLASS_FILTER_OPTIONS : list string := "All"%string :: CLASS_FORM_OPTIONS ++ ["Graduated"%string].

Inductive event :=
  | OpenAdd                                  (* "Add Student" *)
  | OpenEdit (s : Student)                   (* "Edit" on a row *)
  | CloseModal                               (* Cancel, or the dialog closed *)
  | Submit (now : N) (v : StudentFormValues) (* the form, accepted by zod *)
  | AskDelete (s : Student)                  (* "Delete" on a row *)
  | CancelDelete
  | ConfirmDelete
  | Promote (sid : string)                   (* "Promote" on a row *)
  | SetFilter (f : string).

(** [openAddModal] (lines 179-183) and [openEditModal] (lines 185-188). *)
Definition openAddModal (p : StudentPage) : StudentPage :=
  {| students := students p; showStudentModal := true; editingStudent := None;
     studentToDelete := studentToDelete p; classFilter := classFilter p |}.

Definition openEditModal (s : Student) (p : StudentPage) : StudentPage :=
  {| students := students p; showStudentModal := true; editingStudent := Some s;
     studentToDelete := studentToDelete p; classFilter := classFilter p |}.

(** The dialog's [onOpenChange(false)] (lines 266-269). *)
Definition closeModal (p : StudentPage) : StudentPage :=
  {| students := students p; showStudentModal := false; editingStudent := None;
     studentToDelete := studentToDelete p; classFilter := classFilter p |}.

Definition setStudentToDelete (d : option Student) (p : StudentPage) : StudentPage :=
  {| students := students p; showStudentModal := showStudentModal p;
     editingStudent := editingStudent p; studentToDelete := d; classFilter := classFilter p |}.

Definition setClassFilter (f : string) (p : StudentPage) : StudentPage :=
  {| students := students p; showStudentModal := showStudentModal p;
     editingStudent := editingStudent p; studentToDelete := studentToDelete p; classFilter := f |}.

(** No dialog is open, so the rows' buttons can be clicked. *)
Definition no_dialog (p : StudentPage) : Prop :=
  showStudentModal p = false /\ studentToDelete p = None.

Section Step.
Variable localeCompare : string -> string -> Z.
Variable toUpperCase : string -> string.
Variable isValidDate : string -> bool.
(** [user?.role === 'admin']: the buttons that change data are rendered
    for administrators only. *)
Variable isAdmin : bool.

Inductive step : StudentPage -> event -> StudentPage -> Prop :=
| step_open_add p :
    isAdmin = true -> no_dialog p -> step p OpenAdd (openAddModal p)
| step_open_edit p s :
    isAdmin = true -> no_dialog p -> In s (filteredStudents p) ->
    step p (OpenEdit s) (openEditModal s p)
| step_close p :
    showStudentModal p = true -> step p CloseModal (closeModal p)
| step_submit p now v :
    showStudentModal p = true -> validate_student isValidDate v = [] ->
    step p (Submit now v) (handleFormSubmit localeCompare toUpperCase now v p)
| step_ask_delete p s :
    isAdmin = true -> no_dialog p -> In s (filteredStudents p) ->
    step p (AskDelete s) (setStudentToDelete (Some s) p)
| step_cancel_delete p :
    studentToDelete p <> None -> step p CancelDelete (setStudentToDelete None p)
| step_confirm_delete p :
    studentToDelete p <> None -> step p ConfirmDelete (handleDeleteConfirm localeCompare p)
| step_promote p s :
    isAdmin = true -> no_dialog p -> In s (filteredStudents p) ->
    className s <> "Graduated"%string ->
    step p (Promote (id s)) (handlePromoteStudent localeCompare (id s) p)
| step_filter p f :
    no_dialog p -> In f CLASS_FILTER_OPTIONS -> step p (SetFilter f) (setClassFilter f p).

(** A submit in create mode at clock [now] draws a fresh id. *)
Definition fresh_create (p : StudentPage) (e : event) : Prop :=
  forall now v, e = Submit now v -> editingStudent p = None -> gen_id "S" now ∉ ids (students p).

(** The page invariant: unique ids, the list sorted by name, every
    record satisfying the schema's length constraints. *)
Definition page_inv (p : StudentPage) : Prop :=
  unique_ids (students p) /\
  Sorted (cmp_le (by_name localeCompare)) (students p) /\
  Forall valid_student (students p).

(** The states the page reaches from [initialPage] when every create
    draws a fresh id. *)
Inductive reachable : StudentPage -> Prop :=
  | reach_init : reachable (initialPage localeCompare)
  | reach_step p e p' : reachable p -> step p e p' -> fresh_create p e -> reachable p'.
End Step.

(** ** The dialog *)

(** [GENDER_OPTIONS] (line 94). *)
Definition GENDER_OPTIONS : list Gender := [Male; Female; Other].

Definition gender_text (g : Gender) : string :=
  match g with Male => "Male" | Female => "Female" | Other => "Other" end.

(** [x || '']: an optional text field as the form holds it. *)
Definition or_empty (o : option string) : string :=
  match o with Some x => x | None => "" end.

(** [resetFormFields(studentData?)] (lines 122-135), called by the effect
    on [editingStudent] and [showStudentModal] (lines 137-143) with the
    edited student or nothing; its values for nothing are also the
    form's [defaultValues] (lines 106-120).  [today] is
    [new Date().toISOString().split('T')[0]].  A truthy admission date is
    cut at its first [T]; an empty one is replaced by today. *)
Definition reset_form_fields (today : string) (d : option Student) : StudentFormValues :=
  match d with
  | Some s =>
      mkValues (name s) (className s) (section s)
        (if admissionDate s =ₛ "" then today else js_split_first "T" (admissionDate s))
        (Some (or_empty (rollNumber s)))
        (Some (match dateOfBirth s with
               | Some b => if b =ₛ "" then "" else js_split_first "T" b
               | None => "" end))
        (gender s) (Some (or_empty (guardianName s))) (Some (or_empty (guardianPhone s)))
        (Some (or_empty (address s)))
  | None =>
      mkValues "" "" "" today (Some "") (Some "") None (Some "") (Some "") (Some "")
  end.

(** The value an [<Input type="date">] hands to [field.onChange]: the
    [yyyy-MM-dd] text of the picked day, or [""] once it is cleared. *)
Definition date_input_value (d : option (Z * Z * Z)) : string :=
  match d with Some (y, m, dd) => ymd_text y m dd | None => "" end.

(** What the user can do in the dialog (lines 281-434): type the name,
    pick a class of [CLASS_FORM_OPTIONS], type the section and the roll
    number, pick the two dates, pick a gender, type the guardian's name
    and phone and the address. *)
Inductive StudentInput :=
  | SetName (s : string)
  | SelectClass (c : string)
  | SetSection (s : string)
  | SetRollNumber (s : string)
  | PickAdmissionDate (d : option (Z * Z * Z))
  | PickDateOfBirth (d : option (Z * Z * Z))
  | SelectGender (g : Gender)
  | SetGuardianName (s : string)
  | SetGuardianPhone (s : string)
  | SetAddress (s : string).

(** The class Select offers [CLASS_FORM_OPTIONS] only (lines 308-310). *)
Definition student_input_offered (i : StudentInput) : bool :=
  match i with SelectClass c => existsb (String.eqb c) CLASS_FORM_OPTIONS | _ => true end.

Definition set_student_field (i : StudentInput) (v : StudentFormValues) : StudentFormValues :=
  let 'mkValues n c s a r b g gn gp ad := v in
  match i with
  | SetName x => mkValues x c s a r b g gn gp ad
  | SelectClass x => mkValues n x s a r b g gn gp ad
  | SetSection x => mkValues n c x a r b g gn gp ad
  | SetRollNumber x => mkValues n c s a (Some x) b g gn gp ad
  | PickAdmissionDate d => mkValues n c s (date_input_value d) r b g gn gp ad
  | PickDateOfBirth d => mkValues n c s a r (Some (date_input_value d)) g gn gp ad
  | SelectGender x => mkValues n c s a r b (Some x) gn gp ad
  | SetGuardianName x => mkValues n c s a r b g (Some x) gp ad
  | SetGuardianPhone x => mkValues n c s a r b g gn (Some x) ad
  | SetAddress x => mkValues n c s a r b g gn gp (Some x)
  end.

(** The dialog's title, description and submit label (lines 272-277
    and 442), and the delete confirmation (line 454). *)
Definition dialog_title (editing : option Student) : string :=
  match editing with Some _ => "Edit Student Details" | None => "Add New Student" end.

Definition dialog_description (editing : option Student) : string :=
  match editing with
  | Some _ => "Update the student's information below."
  | None => "Fill in the details to register a new student."
  end.

Definition submit_label (editing : option Student) : string :=
  match editing with Some _ => "Save Changes" | None => "Add Student" end.

Definition delete_description (s : Student) : string :=
  "This action cannot be undone. This will permanently delete " ++ name s ++ "'s record.".

(** ** The student list *)

(** A filter option's label (line 253). *)
Definition filter_option_label (o : string) : string :=
  if o =ₛ "All" then "All Classes" else "Class " ++ o.

(** The card's description (line 469). *)
Definition list_description (f : string) : string :=
  "Currently enrolled students. " ++ (if f =ₛ "All" then "" else "(Class " ++ f ++ ")").

(** [x || '-'] (lines 500 and 502). *)
Definition or_dash (o : option string) : string :=
  match o with Some x => if x =ₛ "" then "-" else x | None => "-" end.

(** A table row (lines 495-523): the admission date is printed with
    [format(dateFnsParseISO(admissionDate), 'PPP')] when it is truthy, and
    the actions cell, for an administrator, holds the Promote button
    (disabled for a graduate, with its title) and Edit and Delete. *)
Record StudentRow := mkStudentRow {
  row_id : string;
  row_name : string;
  row_className : string;
  row_section : string;
  row_rollNumber : string;
  row_admissionDate : string;
  row_guardian : string;
  row_promote : option (bool * string);
}.

Inductive StudentsView :=
  | NoStudents (message : string)
  | StudentTable (actions : bool) (rows : list StudentRow).

Section Render.
(** [dateFnsParseISO(s)]: its time value, [None] for an Invalid Date. *)
Variable parseISO : string -> option Z.

Definition admission_text (d : string) : option string :=
  if d =ₛ "" then Some "-" else format_ppp (parseISO d).

Definition promote_button (s : Student) : bool * string :=
  let graduated := className s =ₛ "Graduated" in
  (graduated, if graduated then "Cannot promote graduated student" else "Promote to next class").

Definition student_row (isAdmin : bool) (s : Student) : option StudentRow :=
  match admission_text (admissionDate s) with
  | Some a =>
      Some (mkStudentRow (id s) (name s) (className s) (section s) (or_dash (rollNumber s)) a
              (or_dash (guardianName s)) (if isAdmin then Some (promote_button s) else None))
  | None => None
  end.

(** The Student List card (lines 466-530): the empty message or the
    table of [filteredStudents]; [None] when a date cell throws. *)
Definition render_students (isAdmin : bool) (p : StudentPage) : option StudentsView :=
  match filteredStudents p with
  | [] => Some (NoStudents (if classFilter p =ₛ "All" then "Start by adding students to the system."
                          else "No students found for Class " ++ classFilter p ++ "."))
  | l => StudentTable isAdmin <$> mapM (student_row isAdmin) l
  end.
End Render.

(** ** Lemmas *)

Lemma merge_values_keeps_id u v : keeps_id (merge_values u v).
Proof. intros s. reflexivity. Qed.

Lemma promote_keeps_id : keeps_id promote.
Proof. intros s. reflexivity. Qed.

#[export] Hint Resolve merge_values_keeps_id promote_keeps_id : campus.

Lemma in_class_options c :
  In c CLASS_FORM_OPTIONS <-> existsb (String.eqb c) CLASS_FORM_OPTIONS = true.
Proof.
  rewrite existsb_exists. split.
  - intros Hc. exists c. by rewrite String.eqb_refl.
  - intros [c' [Hc' E]]. apply String.eqb_eq in E. by subst.
Qed.

(** Promotion climbs the ladder one rung at a time: every label of
    [CLASS_FORM_OPTIONS] moves to the next rank (NC to 1, ..., 11 to 12,
    12 to Graduated). *)
Theorem nextClass_ladder (c : string) :
  In c CLASS_FORM_OPTIONS ->
  exists r, class_rank c = Some r /\ class_rank (nextClass c) = Some (S r).
Proof.
  intros Hc. repeat (destruct Hc as [<-|Hc]; [eexists; split; vm_compute; reflexivity|]).
  destruct Hc.
Qed.

(** Promotion terminates: "Graduated" is a fixed point and thirteen
    promotions bring every class of the form to it. *)
Theorem promotion_terminates (c : string) :
  In c (CLASS_FORM_OPTIONS ++ ["Graduated"%string]) ->
  Nat.iter 13 nextClass c = "Graduated"%string /\ nextClass "Graduated" = "Graduated"%string.
Proof.
  intros Hc. split; [|reflexivity].
  repeat (destruct Hc as [<-|Hc]; [vm_compute; reflexivity|]). destruct Hc.
Qed.

(** A class label outside [CLASS_FORM_OPTIONS] is never changed by a
    promotion, whatever [Number] makes of it. *)
Theorem nextClass_outside (c : string) :
  ~ In c CLASS_FORM_OPTIONS -> nextClass c = c.
Proof.
  intros Hc. unfold nextClass.
  destruct (String.eqb_spec c "NC") as [->|_]; [exfalso; apply Hc; by left|].
  destruct (String.eqb_spec c "12") as [->|_]; [exfalso; apply Hc; vm_compute; tauto|].
  rewrite in_class_options in Hc. apply not_true_is_false in Hc. rewrite Hc.
  destruct (js_Number c); [by rewrite andb_false_r|done].
Qed.

(** C35: the [guardianPhone] check never looks at the format: the
    regular expression only matches strings of ten characters or more,
    which the [val.length >= 7] disjunct already accepts, so the field
    accepts exactly the blank values and the strings of at least seven
    characters of any kind (the message says "min 7 digits"). *)
Theorem guardian_phone_ok_iff (v : option string) :
  guardian_phone_ok v =
  js_falsy v || match v with Some s => 7 <=? String.length s | None => false end.
Proof.
  unfold guardian_phone_ok. destruct v as [s|]; [|done]. f_equal.
  destruct (phone_regex_test s) eqn:E; [|done].
  apply phone_regex_min_length in E. symmetry. cbn [orb]. apply Nat.leb_le. lia.
Qed.

Lemma nextClass_nonempty c :
  1 <= String.length c -> 1 <= String.length (nextClass c).
Proof.
  intros Hc. unfold nextClass.
  destruct (c =ₛ "NC"); [simpl; lia|]. destruct (c =ₛ "12"); [simpl; lia|].
  destruct (js_Number c) as [n|]; [|done].
  destruct (_ && _); [apply js_number_to_string_nonempty|done].
Qed.

Lemma valid_promote s : valid_student s -> valid_student (promote s).
Proof. intros (Hn & Hc & Hs). split; [done|]. split; [by apply nextClass_nonempty|done]. Qed.

Lemma valid_merge_values toUpperCase isValidDate v s :
  upper_bounded toUpperCase ->
  validate_student isValidDate v = [] -> valid_student (merge_values toUpperCase v s).
Proof.
  unfold validate_student. intros Hup H.
  destruct (min_len 2 (Values.name v)) eqn:E1; [|discriminate].
  destruct (min_len 1 (Values.className v)) eqn:E2; [|discriminate].
  destruct (min_len 1 (Values.section v) && max_len 2 (Values.section v)) eqn:E3; [|discriminate].
  apply andb_true_iff in E3 as [E3 E4]. unfold min_len, max_len in *.
  apply Nat.leb_le in E1, E2, E3, E4.
  unfold valid_student; simpl. destruct (Hup (Values.section v)) as [Hl Hg].
  specialize (Hl E3). lia.
Qed.

(** The ASCII upper-casing of [JsRuntime] meets [upper_bounded]. *)
Lemma js_toUpperCase_bounded : upper_bounded js_toUpperCase.
Proof. intros s. rewrite js_toUpperCase_length. lia. Qed.

#[export] Hint Resolve valid_promote : campus.

Section PageTheorems.
Variable localeCompare : string -> string -> Z.
Variable toUpperCase : string -> string.

Lemma sort_by_name_perm l : Permutation (sort_by_name localeCompare l) l.
Proof. apply js_sort_perm. Qed.

Lemma sort_by_name_to_map l :
  unique_ids l -> to_map (sort_by_name localeCompare l) = to_map l.
Proof. intros Hu. symmetry. apply to_map_perm; [done|]. symmetry. apply sort_by_name_perm. Qed.

Lemma sort_by_name_unique l : unique_ids l -> unique_ids (sort_by_name localeCompare l).
Proof. intros Hu. eapply unique_ids_perm; [symmetry; apply sort_by_name_perm|done]. Qed.

(** [handlePromoteStudent] changes exactly the record with the
    given id, replacing its class by [nextClass] and keeping every other
    field; the other records are untouched and the ids stay unique. *)
Theorem handlePromoteStudent_refines (sid : string) (p : StudentPage) :
  unique_ids (students p) ->
  to_map (students (handlePromoteStudent localeCompare sid p)) =
    alter promote sid (to_map (students p)) /\
  unique_ids (students (handlePromoteStudent localeCompare sid p)).
Proof.
  intros Hu. simpl. split.
  - rewrite sort_by_name_to_map by (apply update_by_id_unique; auto with campus).
    apply to_map_update_by_id; auto with campus.
  - apply sort_by_name_unique, update_by_id_unique; auto with campus.
Qed.

(** The edit branch of [handleFormSubmit] replaces the edited
    record by the form values (section upper-cased), keeps its id and
    every other record, and closes the dialog. *)
Theorem handleFormSubmit_edit (now : N) (v : StudentFormValues) (p : StudentPage) (e : Student) :
  editingStudent p = Some e -> unique_ids (students p) ->
  to_map (students (handleFormSubmit localeCompare toUpperCase now v p)) =
    alter (merge_values toUpperCase v) (id e) (to_map (students p)) /\
  unique_ids (students (handleFormSubmit localeCompare toUpperCase now v p)) /\
  showStudentModal (handleFormSubmit localeCompare toUpperCase now v p) = false /\
  editingStudent (handleFormSubmit localeCompare toUpperCase now v p) = None.
Proof.
  intros He Hu. unfold handleFormSubmit. rewrite He. simpl.
  split; [|split; [|done]].
  - rewrite sort_by_name_to_map by (apply update_by_id_unique; auto with campus).
    apply to_map_update_by_id; auto with campus.
  - apply sort_by_name_unique, update_by_id_unique; auto with campus.
Qed.

(** C1: two students added ten seconds apart get the same id: after
    the second submit the list holds two records with the id
    [gen_id "S" t], whatever the list held before. *)
Theorem create_twice_duplicate_ids (t : N) (v1 v2 : StudentFormValues) (p : StudentPage) :
  (1000 <= t)%N -> editingStudent p = None ->
  ~ unique_ids (students (handleFormSubmit localeCompare toUpperCase (t + 10000) v2
                           (handleFormSubmit localeCompare toUpperCase t v1 p))).
Proof.
  intros Ht He Hu. unfold handleFormSubmit in Hu. rewrite He in Hu. simpl in Hu.
  eapply unique_ids_perm in Hu; [|apply sort_by_name_perm].
  unfold append_record in Hu.
  eapply unique_ids_perm in Hu; [|apply Permutation_app; [apply sort_by_name_perm|done]].
  unfold unique_ids, ids in Hu. rewrite !map_app in Hu. simpl in Hu.
  rewrite <- app_assoc in Hu. apply NoDup_app in Hu as (_ & _ & Hu).
  apply NoDup_cons in Hu as [Hn _]. apply Hn.
  unfold new_student, merge_values. simpl. rewrite gen_id_collision by done. by left.
Qed.

(** The schema checks the section's length before the submit
    handler upper-cases it: with JavaScript's case mapping, which turns
    "ßß" into "SSSS", a create whose section is "ßß" passes [.max(2)] and
    stores a student whose section has four characters, a value the
    schema itself rejects. *)
Theorem section_exceeds_schema isValidDate (now : N) (v : StudentFormValues) (p : StudentPage) :
  toUpperCase (Values.section v) = "SSSS"%string ->
  validate_student isValidDate v = [] -> editingStudent p = None ->
  exists s, In s (students (handleFormSubmit localeCompare toUpperCase now v p)) /\
    section s = "SSSS"%string /\ max_len 2 (section s) = false.
Proof.
  intros Hup _ He. unfold handleFormSubmit. rewrite He. cbn [students].
  exists (new_student toUpperCase now v). split; [|cbn [new_student merge_values section]; rewrite Hup; split; reflexivity].
  eapply Permutation_in; [symmetry; apply sort_by_name_perm|].
  apply in_or_app. right. by left.
Qed.
End PageTheorems.


Section StepFacts.
Variable localeCompare : string -> string -> Z.
Variable toUpperCase : string -> string.
Hypothesis toUpperCase_bounded : upper_bounded toUpperCase.
Variable isValidDate : string -> bool.
Variable isAdmin : bool.

Hypothesis localeCompare_antisym :
  forall a b, Z.sgn (localeCompare a b) = (- Z.sgn (localeCompare b a))%Z.

Lemma by_name_antisym x y :
  Z.sgn (by_name localeCompare x y) = (- Z.sgn (by_name localeCompare y x))%Z.
Proof. apply localeCompare_antisym. Qed.

Lemma page_inv_sorted_list l :
  unique_ids l -> Forall valid_student l ->
  page_inv localeCompare (setClassFilter "All" {| students := sort_by_name localeCompare l;
    showStudentModal := false; editingStudent := None; studentToDelete := None;
    classFilter := "All" |}).
Proof.
  intros Hu Hv. split; [by apply sort_by_name_unique|]. split.
  - apply js_sort_sorted, by_name_antisym.
  - eapply Permutation_Forall; [symmetry; apply sort_by_name_perm|done].
Qed.

Lemma page_inv_new_list p l :
  unique_ids l -> Forall valid_student l ->
  page_inv localeCompare {| students := sort_by_name localeCompare l; showStudentModal := showStudentModal p;
    editingStudent := editingStudent p; studentToDelete := studentToDelete p;
    classFilter := classFilter p |} /\
  page_inv localeCompare {| students := sort_by_name localeCompare l; showStudentModal := false;
    editingStudent := None; studentToDelete := studentToDelete p;
    classFilter := classFilter p |} /\
  page_inv localeCompare {| students := sort_by_name localeCompare l; showStudentModal := showStudentModal p;
    editingStudent := editingStudent p; studentToDelete := None;
    classFilter := classFilter p |}.
Proof.
  intros Hu Hv.
  assert (Hs : Sorted (cmp_le (by_name localeCompare)) (sort_by_name localeCompare l))
    by (apply js_sort_sorted, by_name_antisym).
  assert (Hf : Forall valid_student (sort_by_name localeCompare l))
    by (eapply Permutation_Forall; [symmetry; apply sort_by_name_perm|done]).
  assert (Hu' := sort_by_name_unique localeCompare l Hu).
  repeat split; done.
Qed.

Lemma step_preserves_inv (p : StudentPage) (e : event) (p' : StudentPage) :
  page_inv localeCompare p -> step localeCompare toUpperCase isValidDate isAdmin p e p' -> fresh_create p e -> page_inv localeCompare p'.
Proof.
  intros (Hu & Hs & Hv) Hstep Hfresh.
  destruct Hstep as [p0|p0 s0|p0|p0 now v Hopen Hval|p0 s0|p0|p0 Hd|p0 s0|p0 f];
    try (repeat split; done).
  - unfold handleFormSubmit. destruct (editingStudent p0) as [e0|] eqn:He.
    + apply page_inv_new_list.
      * by apply update_by_id_unique; auto with campus.
      * apply Forall_update_by_id; [intros r _; by eapply valid_merge_values|done].
    + apply page_inv_new_list.
      * apply append_record_unique; [done|]. by apply (Hfresh now v).
      * apply Forall_app. split; [done|]. constructor; [|done]. by eapply valid_merge_values.
  - unfold handleDeleteConfirm. destruct (studentToDelete p0) as [d|]; [|done].
    apply page_inv_new_list; [by apply remove_by_id_unique|by apply Forall_remove_by_id].
  - apply page_inv_new_list.
    + apply update_by_id_unique; auto with campus.
    + apply Forall_update_by_id; auto with campus.
Qed.
Lemma initialPage_inv : page_inv localeCompare (initialPage localeCompare).
Proof.
  split; [|split].
  - eapply unique_ids_perm; [symmetry; apply sort_by_name_perm|]. decide_it.
  - apply js_sort_sorted, by_name_antisym.
  - eapply Permutation_Forall; [symmetry; apply sort_by_name_perm|].
    repeat constructor; simpl; lia.
Qed.

(** C10: every state the page reaches keeps the invariant (ids unique,
    list sorted by name, names and classes of the schema's lengths,
    sections of 1 to 6 characters: the schema's 1 or 2, upper-cased), for
    any upper-casing that keeps a string non-empty and at most triples
    it, as JavaScript's does, provided the clock gives each create a
    fresh id, which [create_twice_duplicate_ids] shows the code does not
    ensure. *)
Theorem reachable_inv (p : StudentPage) :
  reachable localeCompare toUpperCase isValidDate isAdmin p -> page_inv localeCompare p.
Proof.
  induction 1 as [|p e p' _ IH Hstep Hfresh]; [apply initialPage_inv|].
  by eapply step_preserves_inv.
Qed.
End StepFacts.

(** ** The student list renders *)

Lemma validate_student_admission isValidDate v :
  validate_student isValidDate v = [] -> isValidDate (Values.admissionDate v) = true.
Proof.
  intros H. destruct (isValidDate (Values.admissionDate v)) eqn:E; [done|].
  apply (f_equal length) in H. unfold validate_student in H. rewrite E in H.
  rewrite !length_app in H. simpl in H. lia.
Qed.

Lemma Forall_filteredStudents (P : Student -> Prop) p :
  Forall P (students p) -> Forall P (filteredStudents p).
Proof.
  intros H. unfold filteredStudents. destruct (classFilter p =ₛ "All"); [done|].
  apply List.Forall_forall. intros x Hx. apply filter_In in Hx as [Hx _].
  exact (proj1 (List.Forall_forall _ _) H x Hx).
Qed.

Section RenderFacts.
Variable localeCompare : string -> string -> Z.
Variable toUpperCase : string -> string.
Variable isValidDate : string -> bool.
Variable isAdmin : bool.
Variable parseISO : string -> option Z.
(** The schema's [isValid(dateFnsParseISO(d))] holds only of a date
    [dateFnsParseISO] reads. *)
Hypothesis valid_parse : forall d, isValidDate d = true -> is_Some (parseISO d).
(** The seeded admission dates pass the schema's check. *)
Hypothesis seed_dates : Forall (fun s => isValidDate (admissionDate s) = true) initialStudents_seed.

Lemma student_row_ok viewer s :
  isValidDate (admissionDate s) = true -> is_Some (student_row parseISO viewer s).
Proof.
  intros Hv. unfold student_row, admission_text.
  destruct (admissionDate s =ₛ ""); [by eexists|].
  destruct (valid_parse _ Hv) as [t ->]. destruct (format_ppp_valid t) as [a ->]. by eexists.
Qed.

(** Every admission date the page stores passes the schema's check:
    the seeds do, a submit passed zod, and promotion keeps the date. *)
Lemma students_admission_inv p :
  reachable localeCompare toUpperCase isValidDate isAdmin p ->
  Forall (fun s => isValidDate (admissionDate s) = true) (students p).
Proof.
  induction 1 as [|p e p' _ IH Hstep _].
  - eapply Permutation_Forall; [symmetry; apply sort_by_name_perm|exact seed_dates].
  - destruct Hstep as [p0|p0 s0|p0|p0 now v Hopen Hval|p0 s0|p0|p0 Hd|p0 s0|p0 f]; try done;
      simpl; [unfold handleFormSubmit; destruct (editingStudent p0)|
              unfold handleDeleteConfirm; destruct (studentToDelete p0); [|done]|]; simpl;
      (eapply Permutation_Forall; [symmetry; apply sort_by_name_perm|]).
    + apply Forall_update_by_id; [|done]. intros r _. by apply validate_student_admission.
    + apply Forall_app. split; [done|]. constructor; [|done]. by apply validate_student_admission.
    + by apply Forall_remove_by_id.
    + by apply Forall_update_by_id.
Qed.

(** C33: on every reachable state of the student page the Student List
    card renders: no admission-date cell throws in [format], and the
    table has one row per student of the selected class, with the
    actions column exactly for an administrator. *)
Theorem students_page_renders (p : StudentPage) (viewer : bool) :
  reachable localeCompare toUpperCase isValidDate isAdmin p ->
  exists view, render_students parseISO viewer p = Some view /\
    match view with
    | NoStudents _ => filteredStudents p = []
    | StudentTable a rows => a = viewer /\ length rows = length (filteredStudents p)
    end.
Proof.
  intros Hr. pose proof (Forall_filteredStudents _ p (students_admission_inv p Hr)) as Hf.
  unfold render_students. destruct (filteredStudents p) as [|s0 l] eqn:E; [by eexists|].
  destruct (mapM_rows_total (student_row parseISO viewer) (s0 :: l) (s0 :: l)) as (rows & Hrows & Hl);
    [reflexivity|intros s Hin; apply student_row_ok; exact (proj1 (List.Forall_forall _ _) Hf s Hin)|].
  rewrite Hrows. eexists. split; [reflexivity|]. done.
Qed.
End RenderFacts.

(** ** Witnesses *)

Lemma nextClass_ladder_witness :
  In "11"%string CLASS_FORM_OPTIONS /\
  exists r, class_rank "11" = Some r /\ class_rank (nextClass "11") = Some (S r).
Proof. split; [simpl; tauto|]. apply nextClass_ladder. simpl; tauto. Defined.

Lemma promotion_terminates_witness :
  In "NC"%string (CLASS_FORM_OPTIONS ++ ["Graduated"%string]) /\
  Nat.iter 13 nextClass "NC" = "Graduated"%string /\ nextClass "Graduated" = "Graduated"%string.
Proof. split; [simpl; tauto|]. apply promotion_terminates. simpl; tauto. Defined.

Lemma nextClass_outside_witness :
  ~ In "Graduated"%string CLASS_FORM_OPTIONS /\ nextClass "Graduated" = "Graduated"%string.
Proof. split; [not_in_it|]. apply nextClass_outside. not_in_it. Defined.

Lemma handlePromoteStudent_refines_witness :
  unique_ids (students (initialPage code_unit_compare)) /\
  to_map (students (handlePromoteStudent code_unit_compare "S1005" (initialPage code_unit_compare))) =
    alter promote "S1005" (to_map (students (initialPage code_unit_compare))) /\
  unique_ids (students (handlePromoteStudent code_unit_compare "S1005" (initialPage code_unit_compare))).
Proof.
  split; [decide_it|]. apply handlePromoteStudent_refines. decide_it.
Defined.

Lemma handleFormSubmit_edit_witness :
  let p := openEditModal edward (initialPage code_unit_compare) in
  let v := mkValues "Edward Davis" "12" "c" "2021-07-10" None None None None None None in
  editingStudent p = Some edward /\ unique_ids (students p) /\
  to_map (students (handleFormSubmit code_unit_compare js_toUpperCase 0 v p)) =
    alter (merge_values js_toUpperCase v) (id edward) (to_map (students p)) /\
  unique_ids (students (handleFormSubmit code_unit_compare js_toUpperCase 0 v p)) /\
  showStudentModal (handleFormSubmit code_unit_compare js_toUpperCase 0 v p) = false /\
  editingStudent (handleFormSubmit code_unit_compare js_toUpperCase 0 v p) = None.
Proof.
  intros p v. split; [reflexivity|]. split; [decide_it|].
  apply handleFormSubmit_edit; [reflexivity|decide_it].
Defined.

Lemma create_twice_duplicate_ids_witness :
  let v := mkValues "Gina Park" "3" "A" "2024-06-01" None None None None None None in
  (1000 <= 1731110400000)%N /\ editingStudent (initialPage code_unit_compare) = None /\
  ~ unique_ids (students (handleFormSubmit code_unit_compare js_toUpperCase (1731110400000 + 10000) v
                           (handleFormSubmit code_unit_compare js_toUpperCase 1731110400000 v
                              (initialPage code_unit_compare)))).
Proof.
  intros v. split; [lia|]. split; [reflexivity|].
  apply create_twice_duplicate_ids; [lia|reflexivity].
Defined.

(** The section "ßß", as Latin-1 code units. *)
Lemma section_exceeds_schema_witness :
  let ss := String (ascii_of_nat 223) (String (ascii_of_nat 223) EmptyString) in
  let v := mkValues "Gina Park" "3" ss "2024-06-01" None None None None None None in
  latin1_toUpperCase (Values.section v) = "SSSS"%string /\
  validate_student (fun _ => true) v = [] /\
  editingStudent (openAddModal (initialPage code_unit_compare)) = None /\
  exists s, In s (students (handleFormSubmit code_unit_compare latin1_toUpperCase 1731110400000 v
                              (openAddModal (initialPage code_unit_compare)))) /\
    section s = "SSSS"%string /\ max_len 2 (section s) = false.
Proof.
  intros ss v.
  assert (H1 : latin1_toUpperCase (Values.section v) = "SSSS"%string) by reflexivity.
  assert (H2 : validate_student (fun _ => true) v = []) by (vm_compute; reflexivity).
  assert (H3 : editingStudent (openAddModal (initialPage code_unit_compare)) = None) by reflexivity.
  split; [exact H1|]. split; [exact H2|]. split; [exact H3|].
  exact (section_exceeds_schema code_unit_compare latin1_toUpperCase (fun _ => true) _ v _ H1 H2 H3).
Defined.

Lemma reachable_inv_witness :
  upper_bounded js_toUpperCase /\
  (forall a b, Z.sgn (code_unit_compare a b) = (- Z.sgn (code_unit_compare b a))%Z) /\
  reachable code_unit_compare js_toUpperCase (fun _ => true) true
    (handlePromoteStudent code_unit_compare "S1005" (initialPage code_unit_compare)) /\
  page_inv code_unit_compare
    (handlePromoteStudent code_unit_compare "S1005" (initialPage code_unit_compare)).
Proof.
  assert (Hr : reachable code_unit_compare js_toUpperCase (fun _ => true) true
    (handlePromoteStudent code_unit_compare "S1005" (initialPage code_unit_compare))).
  { change "S1005"%string with (id edward).
    apply (reach_step code_unit_compare js_toUpperCase (fun _ => true) true
      (initialPage code_unit_compare) (Promote (id edward))); [apply reach_init| |intros ? ? [=]].
    apply step_promote; [done|split; done| |discriminate].
    unfold filteredStudents. simpl. repeat (first [left; reflexivity | right]). }
  split; [exact js_toUpperCase_bounded|].
  split; [apply code_unit_compare_antisym|]. split; [exact Hr|].
  apply (reachable_inv code_unit_compare js_toUpperCase js_toUpperCase_bounded (fun _ => true) true
    code_unit_compare_antisym). exact Hr.
Defined.

Lemma students_page_renders_witness :
  let ok := fun d => match parse_ymd d with Some _ => true | None => false end in
  (forall d, ok d = true -> is_Some (parse_ymd d)) /\
  Forall (fun s => ok (admissionDate s) = true) initialStudents_seed /\
  reachable code_unit_compare js_toUpperCase ok true (initialPage code_unit_compare) /\
  exists view, render_students parse_ymd true (initialPage code_unit_compare) = Some view /\
    match view with
    | NoStudents _ => filteredStudents (initialPage code_unit_compare) = []
    | StudentTable a rows =>
        a = true /\ length rows = length (filteredStudents (initialPage code_unit_compare))
    end.
Proof.
  intros ok.
  assert (H1 : forall d, ok d = true -> is_Some (parse_ymd d)).
  { intros d. unfold ok. destruct (parse_ymd d); [by eexists|discriminate]. }
  assert (H2 : Forall (fun s => ok (admissionDate s) = true) initialStudents_seed).
  { repeat (apply List.Forall_cons; [vm_compute; reflexivity|]). apply List.Forall_nil. }
  assert (H3 : reachable code_unit_compare js_toUpperCase ok true (initialPage code_unit_compare)) by constructor.
  split; [exact H1|]. split; [exact H2|]. split; [exact H3|].
  exact (students_page_renders code_unit_compare js_toUpperCase ok true parse_ymd H1 H2 _ true H3).
Defined.

(** ** [Number] reads back what [toString] prints *)

Lemma list_ascii_of_string_snoc s c :
  list_ascii_of_string (s ++ String c "") = list_ascii_of_string s ++ [c].
Proof. induction s as [|a s IH]; [done|]. rewrite string_app_cons. simpl. by rewrite IH. Qed.

Lemma decimal_value_snoc l c acc :
  decimal_value (l ++ [c]) acc =
  match decimal_value l acc with
  | Some v => if is_digit c then Some (10 * v + (N.of_nat (nat_of_ascii c) - 48))%N else None
  | None => None
  end.
Proof.
  revert acc. induction l as [|a l IH]; intros acc; [done|]. simpl.
  destruct (is_digit a); [apply IH|done].
Qed.

Lemma digit_char_value d :
  (d < 10)%N -> is_digit (digit_char d) = true /\ (N.of_nat (nat_of_ascii (digit_char d)) - 48 = d)%N.
Proof.
  intros Hd. assert (Hc : (d = 0 \/ d = 1 \/ d = 2 \/ d = 3 \/ d = 4 \/ d = 5 \/ d = 6 \/
    d = 7 \/ d = 8 \/ d = 9)%N) by lia.
  repeat destruct Hc as [->|Hc]; try (subst d); split; reflexivity.
Qed.

Lemma js_number_to_string_small n :
  (n < 10)%N -> js_number_to_string n = String (digit_char n) "".
Proof.
  intros Hn. unfold js_number_to_string. simpl.
  rewrite (proj2 (N.ltb_lt _ _) Hn), N.mod_small by done. reflexivity.
Qed.

Lemma js_Number_to_string n : js_Number (js_number_to_string n) = Some n.
Proof.
  remember (N.to_nat n) as k eqn:Hk. revert n Hk.
  induction k as [k IH] using lt_wf_ind. intros n Hk.
  destruct (N.ltb_spec n 10) as [Hlt|Hge].
  - rewrite js_number_to_string_small by done. unfold js_Number. simpl.
    destruct (digit_char_value n Hlt) as [-> Hv]. simpl. f_equal. lia.
  - rewrite js_number_to_string_snoc by done. unfold js_Number.
    rewrite list_ascii_of_string_snoc.
    assert (Hq : js_Number (js_number_to_string (n / 10)) = Some (n / 10)%N).
    { apply (IH (N.to_nat (n / 10))); [|done]. subst k.
      assert (n / 10 < n)%N by (apply N.div_lt; lia). lia. }
    unfold js_Number in Hq.
    destruct (list_ascii_of_string (js_number_to_string (n / 10))) as [|a l] eqn:E; [done|].
    rewrite <- app_comm_cons. change (decimal_value ((a :: l) ++ [digit_char (n mod 10)]) 0 = Some n).
    rewrite decimal_value_snoc, Hq.
    destruct (digit_char_value (n mod 10)) as [-> Hv]; [apply N.mod_lt; lia|].
    rewrite Hv. f_equal. pose proof (N.div_mod n 10). lia.
Qed.

Lemma js_number_to_string_inj m n : js_number_to_string m = js_number_to_string n -> m = n.
Proof.
  intros H. pose proof (js_Number_to_string m) as Hm. rewrite H, js_Number_to_string in Hm.
  by injection Hm.
Qed.

(** [Number(n.toString())] is [n] for every non-negative integer,
    and two different integers print differently: the promotion's
    [(Number(c) + 1).toString()] and the notices' [Date.now().toString()]
    ids read back the number they were made from. *)
Theorem js_Number_roundtrip n :
  js_Number (js_number_to_string n) = Some n /\
  forall m, js_number_to_string m = js_number_to_string n -> m = n.
Proof. split; [apply js_Number_to_string|intros m; apply js_number_to_string_inj]. Qed.

End Students.
