(* ===== verification/Fees.v ===== *)
(** * Fees management (src/src/app/(app)/fees/page.tsx)

    Two lists live on the page: the fee structures (a plain Entity List
    Manager: add, edit, delete) and the student fee records, which change
    only through [handlePaymentFormSubmit].  That handler adds the payment
    to the record captured by [openPaymentModal] and recomputes its status
    ([payment_status]).  [step] is the page as a transition system whose
    events are its buttons (the "Manage Payment" button is disabled on a
    paid record); [fees_inv] is its invariant.  The two dialogs are
    modelled with their form resets ([structure_form_reset],
    [payment_form_reset]), field inputs and texts, and the two tables
    with their cells ([render_structures], [render_records]); the
    theorems show that every unpaid record can be settled, that the
    records table renders on every reachable state and that saving a
    structure's edit dialog unchanged keeps the list. *)

From S2P Require Import Prelude JsRuntime EntityList Validation.
From stdpp Require Import list_monad.
Import EntityList Validation.

Module Fees.

(** [FeeStructure['frequency']] (line 57). *)
Inductive Frequency := Monthly | Quarterly | Annually | OneTime.

(** [StudentFeeStatus] (line 60). *)
Inductive StudentFeeStatus := Paid | Pending | Overdue | PartiallyPaid.

#[global] Instance frequency_eq_dec : EqDecision Frequency.
Proof. solve_decision. Defined.
#[global] Instance status_eq_dec : EqDecision StudentFeeStatus.
Proof. solve_decision. Defined.

(** [interface FeeStructure] (lines 52-58). *)
Record FeeStructure := mkFeeStructure {
  fs_id : string;
  fs_className : string;
  feeType : string;
  amount : Z;
  frequency : Frequency;
}.

(** [interface StudentFeeRecord] (lines 62-73). *)
Record StudentFeeRecord := mkFeeRecord {
  id : string;
  studentName : string;
  className : string;
  feeTypeDescription : string;
  amountDue : Z;
  amountPaid : Z;
  dueDate : string;
  status : StudentFeeStatus;
  lastPaymentDate : option string;
  notes : option string;
}.

#[global] Instance fee_structure_keyed : Keyed FeeStructure := fs_id.
#[global] Instance fee_record_keyed : Keyed StudentFeeRecord := id.

(** [FeeStructureFormValues] (line 82). *)
Record FeeStructureFormValues := mkStructureValues {
  v_className : string;
  v_feeType : string;
  v_amount : Z;
  v_frequency : Frequency;
}.

(** [PaymentFormValues] (line 89). *)
Record PaymentFormValues := mkPaymentValues {
  paymentAmount : Z;
  paymentDate : string;
  paymentNotes : option string;
}.

(** ** Schemas (lines 75-89) *)

(** [feeStructureFormSchema]: the failing fields. *)
Definition validate_structure (v : FeeStructureFormValues) : list string :=
  ((if min_len 1 (v_className v) then [] else ["className"]) ++
   (if min_len 3 (v_feeType v) then [] else ["feeType"]) ++
   (if (0 <? v_amount v)%Z then [] else ["amount"]))%list%string.

(** [paymentFormSchema]; [dateParses] is [!isNaN(Date.parse(date))]. *)
Definition validate_payment (dateParses : string -> bool) (v : PaymentFormValues) : list string :=
  ((if (0 <? paymentAmount v)%Z then [] else ["paymentAmount"]) ++
   (if dateParses (paymentDate v) then [] else ["paymentDate"]))%list%string.

(** ** Seed data (lines 92-105) *)

Definition initialFeeStructures : list FeeStructure :=
  [ mkFeeStructure "FS1" "10" "Tuition Fee" 15000 Quarterly;
    mkFeeStructure "FS2" "5" "Activity Fee" 2000 Annually;
    mkFeeStructure "FS3" "NC" "Admission Fee" 5000 OneTime;
    mkFeeStructure "FS4" "12" "Lab Fee" 3000 Annually ]%string.

Definition initialStudentFeeRecords : list StudentFeeRecord :=
  [ mkFeeRecord "SFR001" "Alice Johnson" "10" "Tuition Fee - Q1" 15000 15000 "2024-04-15" Paid
      (Some "2024-04-10") (Some "Full payment received.");
    mkFeeRecord "SFR002" "Bob Williams" "9" "Activity Fee" 1800 0 "2024-05-01" Pending
      None (Some "");
    mkFeeRecord "SFR003" "Charlie Brown" "11" "Transport Fee - Term 1" 7500 3000 "2024-04-20"
      PartiallyPaid (Some "2024-04-18") (Some "First installment paid.");
    mkFeeRecord "SFR004" "Diana Miller" "NC" "Admission Fee" 5000 0 "2024-03-01" Overdue
      None None;
    mkFeeRecord "SFR005" "Edward Davis" "12" "Lab Fee" 3000 3000 "2024-06-10" Paid
      (Some "2024-06-08") None ]%string.

(** The seed records the examples use: SFR004 (5000 due, nothing paid,
    Overdue), SFR001 (Paid) and SFR002 (1800 due, Pending). *)
Definition sfr004 : StudentFeeRecord :=
  mkFeeRecord "SFR004" "Diana Miller" "NC" "Admission Fee" 5000 0 "2024-03-01" Overdue None None.
Definition sfr001 : StudentFeeRecord :=
  mkFeeRecord "SFR001" "Alice Johnson" "10" "Tuition Fee - Q1" 15000 15000 "2024-04-15" Paid
    (Some "2024-04-10") (Some "Full payment received.").
Definition sfr002 : StudentFeeRecord :=
  mkFeeRecord "SFR002" "Bob Williams" "9" "Activity Fee" 1800 0 "2024-05-01" Pending None (Some "").

(** ** Handlers *)

(** [{ ...s, ...values }] (line 154). *)
Definition merge_structure (v : FeeStructureFormValues) (s : FeeStructure) : FeeStructure :=
  mkFeeStructure (fs_id s) (v_className v) (v_feeType v) (v_amount v) (v_frequency v).

(** [{ id: `FS${Date.now().toString().slice(-4)}`, ...values }] (lines 161-164). *)
Definition new_structure (now : N) (v : FeeStructureFormValues) : FeeStructure :=
  mkFeeStructure (gen_id "FS" now) (v_className v) (v_feeType v) (v_amount v) (v_frequency v).

(** The status [handlePaymentFormSubmit] computes (lines 207-215):
    [newAmountPaid >= amountDue] gives Paid, [newAmountPaid > 0] gives
    Partially Paid, otherwise Overdue when the due date is past and
    Pending when it is not. *)
Definition payment_status (amountDue newAmountPaid : Z) (duePast : bool) : StudentFeeStatus :=
  if (amountDue <=? newAmountPaid)%Z then Paid
  else if (0 <? newAmountPaid)%Z then PartiallyPaid
  else if duePast then Overdue else Pending.

(** The record [setStudentFeeRecords] writes back (lines 217-229):
    [{ ...r, amountPaid: newAmountPaid, lastPaymentDate: values.paymentDate,
       notes: values.notes, status: newStatus }], with the new amount and
    status computed from the captured record [rec]. *)
Definition apply_payment (isPast : string -> bool) (rec : StudentFeeRecord)
    (v : PaymentFormValues) (r : StudentFeeRecord) : StudentFeeRecord :=
  let newAmountPaid := (amountPaid rec + paymentAmount v)%Z in
  {| id := id r; studentName := studentName r; className := className r;
     feeTypeDescription := feeTypeDescription r; amountDue := amountDue r;
     amountPaid := newAmountPaid;
     dueDate := dueDate r;
     status := payment_status (amountDue rec) newAmountPaid (isPast (dueDate rec));
     lastPaymentDate := Some (paymentDate v);
     notes := paymentNotes v |}.

(** The amount the payment form proposes (lines 141-149). *)
Definition default_payment_amount (r : StudentFeeRecord) : Z :=
  if (0 <? amountDue r - amountPaid r)%Z then (amountDue r - amountPaid r)%Z else 0%Z.

(** The page state (lines 114-121). *)
Record FeesPage := mkFeesPage {
  feeStructures : list FeeStructure;
  showStructureModal : bool;
  editingStructure : option FeeStructure;
  structureToDelete : option FeeStructure;
  studentFeeRecords : list StudentFeeRecord;
  showPaymentModal : bool;
  processingFeeRecord : option StudentFeeRecord;
}.

Definition initialFeesPage : FeesPage :=
  mkFeesPage initialFeeStructures false None None initialStudentFeeRecords false None.

(** [handleStructureFormSubmit] (lines 151-173). *)
Definition handleStructureFormSubmit (now : N) (v : FeeStructureFormValues) (p : FeesPage) : FeesPage :=
  let structures :=
    match editingStructure p with
    | Some e => update_by_id (fs_id e) (merge_structure v) (feeStructures p)
    | None => append_record (feeStructures p) (new_structure now v)
    end in
  mkFeesPage structures false None (structureToDelete p) (studentFeeRecords p)
    (showPaymentModal p) (processingFeeRecord p).

(** [openAddStructureModal] (lines 175-179). *)
Definition openAddStructureModal (p : FeesPage) : FeesPage :=
  mkFeesPage (feeStructures p) true None (structureToDelete p) (studentFeeRecords p)
    (showPaymentModal p) (processingFeeRecord p).

(** [openEditStructureModal] (lines 181-184). *)
Definition openEditStructureModal (s : FeeStructure) (p : FeesPage) : FeesPage :=
  mkFeesPage (feeStructures p) true (Some s) (structureToDelete p) (studentFeeRecords p)
    (showPaymentModal p) (processingFeeRecord p).

(** The structure dialog closed (lines 322-325, 385). *)
Definition closeStructureModal (p : FeesPage) : FeesPage :=
  mkFeesPage (feeStructures p) false None (structureToDelete p) (studentFeeRecords p)
    (showPaymentModal p) (processingFeeRecord p).

(** [setStructureToDelete] (lines 307, 394, 403). *)
Definition setStructureToDelete (d : option FeeStructure) (p : FeesPage) : FeesPage :=
  mkFeesPage (feeStructures p) (showStructureModal p) (editingStructure p) d
    (studentFeeRecords p) (showPaymentModal p) (processingFeeRecord p).

(** [handleDeleteStructureConfirm] (lines 186-196). *)
Definition handleDeleteStructureConfirm (p : FeesPage) : FeesPage :=
  match structureToDelete p with
  | Some d =>
      mkFeesPage (remove_by_id (fs_id d) (feeStructures p)) (showStructureModal p)
        (editingStructure p) None (studentFeeRecords p) (showPaymentModal p)
        (processingFeeRecord p)
  | None => p
  end.

(** [openPaymentModal] (lines 198-201). *)
Definition openPaymentModal (r : StudentFeeRecord) (p : FeesPage) : FeesPage :=
  mkFeesPage (feeStructures p) (showStructureModal p) (editingStructure p)
    (structureToDelete p) (studentFeeRecords p) true (Some r).

(** The payment dialog closed (lines 476-479, 527). *)
Definition closePaymentModal (p : FeesPage) : FeesPage :=
  mkFeesPage (feeStructures p) (showStructureModal p) (editingStructure p)
    (structureToDelete p) (studentFeeRecords p) false None.

(** [handlePaymentFormSubmit] (lines 203-237). *)
Definition handlePaymentFormSubmit (isPast : string -> bool) (v : PaymentFormValues)
    (p : FeesPage) : FeesPage :=
  match processingFeeRecord p with
  | None => p
  | Some rec =>
      mkFeesPage (feeStructures p) (showStructureModal p) (editingStructure p)
        (structureToDelete p)
        (update_by_id (id rec) (apply_payment isPast rec v) (studentFeeRecords p))
        false None
  end.

(** [getStatusBadgeVariant] (lines 239-247). *)
Definition getStatusBadgeVariant (s : StudentFeeStatus) : string :=
  match s with
  | Paid => "default" | PartiallyPaid => "secondary" | Pending => "outline"
  | Overdue => "destructive"
  end.

(** The text of a status and of a frequency, as the tables show them
    (lines 60, 57, 301, 451). *)
Definition status_text (s : StudentFeeStatus) : string :=
  match s with
  | Paid => "Paid" | Pending => "Pending" | Overdue => "Overdue"
  | PartiallyPaid => "Partially Paid"
  end.

Definition frequency_text (f : Frequency) : string :=
  match f with
  | Monthly => "Monthly" | Quarterly => "Quarterly" | Annually => "Annually"
  | OneTime => "One-time"
  end.

(** ** The dialogs *)

(** [CLASS_OPTIONS] and [FREQUENCY_OPTIONS] (lines 108-109): what the
    two Selects of the structure dialog offer. *)
Definition CLASS_OPTIONS : list string :=
  ["NC"; "1"; "2"; "3"; "4"; "5"; "6"; "7"; "8"; "9"; "10"; "11"; "12"]%string.

Definition FREQUENCY_OPTIONS : list Frequency := [Monthly; Quarterly; Annually; OneTime].

(** The structure form's [defaultValues] (line 125), also the values
    of the resets on line 137 and in [openAddStructureModal] (line 177). *)
Definition structure_defaults : FeeStructureFormValues :=
  mkStructureValues "" "" 0 Monthly.

(** [structureForm.reset(editingStructure)] (line 135).  The spread
    also copies [id] into the form state; zod's object schema strips it
    from the submitted values. *)
Definition structure_values (s : FeeStructure) : FeeStructureFormValues :=
  mkStructureValues (fs_className s) (feeType s) (amount s) (frequency s).

(** The effect on [editingStructure] and [showStructureModal]
    (lines 133-139). *)
Definition structure_form_reset (editing : option FeeStructure) : FeeStructureFormValues :=
  match editing with Some s => structure_values s | None => structure_defaults end.

(** The payment form's [defaultValues] (line 130); [today] is
    [new Date().toISOString().split('T')[0]]. *)
Definition payment_defaults (today : string) : PaymentFormValues :=
  mkPaymentValues 0 today (Some "").

(** The effect on [processingFeeRecord] (lines 141-149): once a record
    is captured, the remaining amount when positive (else 0), today, and
    [processingFeeRecord.notes || '']; when the dialog releases the
    record the form keeps its values. *)
Definition payment_form_reset (today : string) (proc : option StudentFeeRecord)
    (cur : PaymentFormValues) : PaymentFormValues :=
  match proc with
  | Some r =>
      mkPaymentValues (default_payment_amount r) today
        (Some (match notes r with Some s => s | None => "" end))
  | None => cur
  end.

(** What the user can do in the structure dialog (lines 334-383): pick
    a class among [CLASS_OPTIONS], type the fee type, type the amount
    (coerced to a number by zod), pick a frequency. *)
Inductive StructureInput :=
  | SelectClass (c : string)
  | SetFeeType (s : string)
  | SetAmount (a : Z)
  | SelectFrequency (f : Frequency).

(** The class Select offers [CLASS_OPTIONS] only (line 342). *)
Definition structure_input_offered (i : StructureInput) : bool :=
  match i with SelectClass c => existsb (String.eqb c) CLASS_OPTIONS | _ => true end.

Definition set_structure_field (i : StructureInput) (v : FeeStructureFormValues) : FeeStructureFormValues :=
  match i with
  | SelectClass c => mkStructureValues c (v_feeType v) (v_amount v) (v_frequency v)
  | SetFeeType s => mkStructureValues (v_className v) s (v_amount v) (v_frequency v)
  | SetAmount a => mkStructureValues (v_className v) (v_feeType v) a (v_frequency v)
  | SelectFrequency f => mkStructureValues (v_className v) (v_feeType v) (v_amount v) f
  end.

(** What the user can do in the payment dialog (lines 493-525). *)
Inductive PaymentInput :=
  | SetPaymentAmount (a : Z)
  | SetPaymentDate (s : string)
  | SetPaymentNotes (s : string).

Definition set_payment_field (i : PaymentInput) (v : PaymentFormValues) : PaymentFormValues :=
  match i with
  | SetPaymentAmount a => mkPaymentValues a (paymentDate v) (paymentNotes v)
  | SetPaymentDate s => mkPaymentValues (paymentAmount v) s (paymentNotes v)
  | SetPaymentNotes s => mkPaymentValues (paymentAmount v) (paymentDate v) (Some s)
  end.

(** The structure dialog's title and submit label (lines 328-330 and
    386), and the delete confirmation (line 399). *)
Definition structure_dialog_title (editing : option FeeStructure) : string :=
  match editing with Some _ => "Edit Fee Structure" | None => "Add New Fee Structure" end.

Definition structure_submit_label (editing : option FeeStructure) : string :=
  match editing with Some _ => "Save Changes" | None => "Add Structure" end.

Definition structure_delete_description (s : FeeStructure) : string :=
  "This action cannot be undone. This will permanently delete the fee structure: " ++
  feeType s ++ " for Class " ++ fs_className s ++ ".".

(** The payment dialog's description (lines 483-489), its two lines. *)
Definition payment_description (r : StudentFeeRecord) : string * string :=
  ("Recording payment for " ++ studentName r ++ " (Class " ++ className r ++ ") - " ++
     feeTypeDescription r ++ ".",
   "Amount Due: $" ++ js_to_fixed2 (amountDue r) ++ " | Already Paid: $" ++
     js_to_fixed2 (amountPaid r) ++ " | Remaining: $" ++
     js_to_fixed2 (amountDue r - amountPaid r))%string.

(** ** The tables *)

(** A row of the fee structures table (lines 297-312); the actions cell
    is rendered for an administrator. *)
Record StructureRow := mkStructureRow {
  sr_className : string;
  sr_feeType : string;
  sr_amount : string;
  sr_frequency : string;
  sr_actions : bool;
}.

Definition structure_row (isAdmin : bool) (s : FeeStructure) : StructureRow :=
  mkStructureRow (fs_className s) (feeType s) ("$" ++ js_to_fixed2 (amount s))
    (frequency_text (frequency s)) isAdmin.

Inductive StructuresView :=
  | NoStructures (message : string)
  | StructureTable (actions : bool) (rows : list StructureRow).

(** The fee structures card (lines 277-317). *)
Definition render_structures (isAdmin : bool) (l : list FeeStructure) : StructuresView :=
  match l with
  | [] => NoStructures (if isAdmin then "Start by adding fee structures."
                        else "No fee structures are currently defined.")
  | _ => StructureTable isAdmin (map (structure_row isAdmin) l)
  end.

(** A row of the student fee records table (lines 442-466): the amounts
    with [toFixed(2)], the due date as [format(parseISO(dueDate), 'PP')],
    the status badge and, for an administrator, the payment button with
    its text and whether it is disabled.  [parse_ymd] is [parseISO] on
    the [yyyy-MM-dd] strings the due dates are; [None] when the date cell
    throws. *)
Record RecordRow := mkRecordRow {
  rr_studentName : string;
  rr_className : string;
  rr_description : string;
  rr_amountDue : string;
  rr_amountPaid : string;
  rr_dueDate : string;
  rr_badge : string;
  rr_status : string;
  rr_button : option (string * bool);
}.

Definition record_row (isAdmin : bool) (r : StudentFeeRecord) : option RecordRow :=
  match format_pp (parse_ymd (dueDate r)) with
  | Some d =>
      Some (mkRecordRow (studentName r) (className r) (feeTypeDescription r)
              ("$" ++ js_to_fixed2 (amountDue r)) ("$" ++ js_to_fixed2 (amountPaid r)) d
              (getStatusBadgeVariant (status r)) (status_text (status r))
              (if isAdmin then
                 Some (if bool_decide (status r = Paid) then "Paid" else "Manage Payment",
                       bool_decide (status r = Paid))
               else None))
  | None => None
  end.

Inductive RecordsView :=
  | NoRecords
  | RecordTable (actions : bool) (rows : list RecordRow).

(** The student fee records card (lines 419-471). *)
Definition render_records (isAdmin : bool) (l : list StudentFeeRecord) : option RecordsView :=
  match l with
  | [] => Some NoRecords
  | _ => RecordTable isAdmin <$> mapM (record_row isAdmin) l
  end.

(** ** The page as a transition system *)

Inductive event :=
  | OpenAddStructure                          (* "Add Fee Structure" *)
  | OpenEditStructure (s : FeeStructure)      (* "Edit" on a structure row *)
  | CloseStructure                            (* Cancel, or the dialog closed *)
  | SubmitStructure (now : N) (v : FeeStructureFormValues)
  | AskDeleteStructure (s : FeeStructure)     (* "Delete" on a structure row *)
  | CancelDeleteStructure
  | ConfirmDeleteStructure
  | OpenPayment (r : StudentFeeRecord)        (* "Manage Payment" on a record row *)
  | ClosePayment
  | SubmitPayment (v : PaymentFormValues).    (* "Record Payment", accepted by zod *)

Definition no_dialog (p : FeesPage) : Prop :=
  showStructureModal p = false /\ structureToDelete p = None /\ showPaymentModal p = false.

Section Step.
(** [isPast(parseISO(dueDate))] at the time of the payment. *)
Variable isPast : string -> bool.
(** [!isNaN(Date.parse(date))]. *)
Variable dateParses : string -> bool.
(** [user?.role === 'admin'] (lines 270, 302, 454). *)
Variable isAdmin : bool.

Inductive step : FeesPage -> event -> FeesPage -> Prop :=
  | step_open_add p :
      isAdmin = true -> no_dialog p -> step p OpenAddStructure (openAddStructureModal p)
  | step_open_edit p s :
      isAdmin = true -> no_dialog p -> In s (feeStructures p) ->
      step p (OpenEditStructure s) (openEditStructureModal s p)
  | step_close_structure p :
      showStructureModal p = true -> step p CloseStructure (closeStructureModal p)
  | step_submit_structure p now v :
      showStructureModal p = true -> validate_structure v = [] ->
      step p (SubmitStructure now v) (handleStructureFormSubmit now v p)
  | step_ask_delete p s :
      isAdmin = true -> no_dialog p -> In s (feeStructures p) ->
      step p (AskDeleteStructure s) (setStructureToDelete (Some s) p)
  | step_cancel_delete p :
      structureToDelete p <> None -> step p CancelDeleteStructure (setStructureToDelete None p)
  | step_confirm_delete p :
      structureToDelete p <> None -> step p ConfirmDeleteStructure (handleDeleteStructureConfirm p)
  | step_open_payment p r :
      isAdmin = true -> no_dialog p -> In r (studentFeeRecords p) ->
      (* [disabled={record.status === 'Paid'}] (line 460) *)
      status r <> Paid ->
      step p (OpenPayment r) (openPaymentModal r p)
  | step_close_payment p :
      showPaymentModal p = true -> step p ClosePayment (closePaymentModal p)
  | step_submit_payment p v :
      showPaymentModal p = true -> validate_payment dateParses v = [] ->
      step p (SubmitPayment v) (handlePaymentFormSubmit isPast v p).

Inductive reachable : FeesPage -> Prop :=
  | reach_init : reachable initialFeesPage
  | reach_step p e p' : reachable p -> step p e p' -> reachable p'.
End Step.

(** The status of a record agrees with its amounts. *)
Definition status_consistent (r : StudentFeeRecord) : Prop :=
  match status r with
  | Paid => (amountDue r <= amountPaid r)%Z
  | PartiallyPaid => (0 < amountPaid r < amountDue r)%Z
  | Pending | Overdue => amountPaid r = 0%Z /\ (0 < amountDue r)%Z
  end.

Definition fee_record_ok (r : StudentFeeRecord) : Prop :=
  (0 <= amountPaid r)%Z /\ status_consistent r.

Definition structure_ok (s : FeeStructure) : Prop :=
  (1 <= String.length (fs_className s) /\ 3 <= String.length (feeType s))%nat /\
  (0 < amount s)%Z.

(** The page invariant: record ids unique, every record's status
    consistent with its amounts, every structure valid for the schema,
    and the record captured by the payment dialog is a current, unpaid
    record of the list. *)
Definition fees_inv (p : FeesPage) : Prop :=
  unique_ids (studentFeeRecords p) /\
  Forall fee_record_ok (studentFeeRecords p) /\
  Forall structure_ok (feeStructures p) /\
  (forall rec, processingFeeRecord p = Some rec ->
     In rec (studentFeeRecords p) /\ status rec <> Paid).

(** Every due date of the records is a [yyyy-MM-dd] string [parseISO]
    reads, so the due-date cell of the records table renders. *)
Definition due_dates_parse (l : list StudentFeeRecord) : Prop :=
  Forall (fun r => is_Some (parse_ymd (dueDate r))) l.

(** ** Lemmas *)

Lemma apply_payment_keeps_id isPast rec v : keeps_id (apply_payment isPast rec v).
Proof. intros r. reflexivity. Qed.

Lemma merge_structure_keeps_id v : keeps_id (merge_structure v).
Proof. intros r. reflexivity. Qed.

#[export] Hint Resolve apply_payment_keeps_id merge_structure_keeps_id : campus.

Lemma validate_payment_amount dateParses v :
  validate_payment dateParses v = [] -> (0 < paymentAmount v)%Z.
Proof.
  unfold validate_payment. destruct (Z.ltb_spec 0 (paymentAmount v)); [done|discriminate].
Qed.

Lemma validate_structure_ok now v :
  validate_structure v = [] -> structure_ok (new_structure now v) /\
  forall s, structure_ok (merge_structure v s).
Proof.
  unfold validate_structure, min_len.
  destruct (Nat.leb_spec 1 (String.length (v_className v))); [|discriminate].
  destruct (Nat.leb_spec 3 (String.length (v_feeType v))); [|discriminate].
  destruct (Z.ltb_spec 0 (v_amount v)); [|discriminate].
  intros _. split; [|intros s]; repeat split; simpl; lia.
Qed.

(** A positive payment on a record with a non-negative paid amount
    leaves it Paid or Partially Paid, consistent with its amounts. *)
Lemma apply_payment_ok isPast rec v :
  (0 <= amountPaid rec)%Z -> (0 < paymentAmount v)%Z ->
  fee_record_ok (apply_payment isPast rec v rec) /\
  (status (apply_payment isPast rec v rec) = Paid \/
   status (apply_payment isPast rec v rec) = PartiallyPaid).
Proof.
  intros H0 Hpos. unfold apply_payment, fee_record_ok, status_consistent, payment_status. simpl.
  destruct (Z.leb_spec (amountDue rec) (amountPaid rec + paymentAmount v)).
  - repeat split; auto; lia.
  - destruct (Z.ltb_spec 0 (amountPaid rec + paymentAmount v)); [|lia].
    repeat split; auto; lia.
Qed.

Lemma record_row_ok isAdmin r :
  is_Some (parse_ymd (dueDate r)) -> is_Some (record_row isAdmin r).
Proof.
  intros [t Ht]. unfold record_row. rewrite Ht.
  destruct (format_pp_valid t) as [d ->]. by eexists.
Qed.

Lemma structure_values_valid s : structure_ok s -> validate_structure (structure_values s) = [].
Proof.
  intros ((H1 & H3) & Ha). unfold validate_structure, min_len. cbn [structure_values v_className v_feeType v_amount].
  destruct (Nat.leb_spec 1 (String.length (fs_className s))); [|lia].
  destruct (Nat.leb_spec 3 (String.length (feeType s))); [|lia].
  destruct (Z.ltb_spec 0 (amount s)); [done|lia].
Qed.

Lemma merge_structure_values s : merge_structure (structure_values s) s = s.
Proof. by destruct s. Qed.

(** A record that is not Paid still has a positive amount to pay. *)
Lemma unpaid_remaining r :
  fee_record_ok r -> status r <> Paid -> (0 < amountDue r - amountPaid r)%Z.
Proof.
  intros [_ Hc] Hnp. unfold status_consistent in Hc.
  destruct (status r); [done|lia..].
Qed.

Section FeesFacts.
Variable isPast : string -> bool.
Variable dateParses : string -> bool.
Variable isAdmin : bool.

Lemma initialFeesPage_inv : fees_inv initialFeesPage.
Proof.
  split; [decide_it|]. split; [|split].
  - simpl. repeat (apply List.Forall_cons; [unfold fee_record_ok, status_consistent; simpl; lia|]).
    apply List.Forall_nil.
  - simpl. repeat (apply List.Forall_cons; [unfold structure_ok; simpl; lia|]).
    apply List.Forall_nil.
  - intros rec [=].
Qed.

Lemma records_unchanged_inv p p' :
  fees_inv p -> studentFeeRecords p' = studentFeeRecords p ->
  Forall structure_ok (feeStructures p') ->
  (forall rec, processingFeeRecord p' = Some rec -> processingFeeRecord p = Some rec) ->
  fees_inv p'.
Proof.
  intros (Hu & Hr & Hs & Hp) Heq Hs' Hp'. unfold fees_inv. rewrite Heq.
  split; [done|]. split; [done|]. split; [done|]. intros rec Hrec. apply Hp, Hp', Hrec.
Qed.

Lemma step_preserves_fees_inv p e p' :
  fees_inv p -> step isPast dateParses isAdmin p e p' -> fees_inv p'.
Proof.
  intros Hinv Hstep. pose proof Hinv as (Hu & Hr & Hs & Hp).
  destruct Hstep as [p0|p0 s0|p0|p0 now v Hopen Hval|p0 s0|p0|p0 Hd|p0 r Ha Hnd Hin Hnp|p0|p0 v Hopen Hval].
  - by apply (records_unchanged_inv p0).
  - by apply (records_unchanged_inv p0).
  - by apply (records_unchanged_inv p0).
  - apply (records_unchanged_inv p0); simpl; auto.
    destruct (validate_structure_ok now v Hval) as [Hn Hm].
    destruct (editingStructure p0).
    + apply Forall_update_by_id; auto.
    + apply Forall_app. split; [done|]. by constructor.
  - by apply (records_unchanged_inv p0).
  - by apply (records_unchanged_inv p0).
  - unfold handleDeleteStructureConfirm. destruct (structureToDelete p0); [|done].
    apply (records_unchanged_inv p0); auto. by apply Forall_remove_by_id.
  - split; [done|]. split; [done|]. split; [done|]. intros rec [= <-]. done.
  - apply (records_unchanged_inv p0); auto. intros rec [=].
  - unfold handlePaymentFormSubmit. destruct (processingFeeRecord p0) as [rec|] eqn:Hrec; [|done].
    destruct (Hp rec eq_refl) as [Hin Hnp].
    assert (Hok : fee_record_ok rec) by (eapply List.Forall_forall; eauto).
    split; [apply update_by_id_unique; auto with campus|]. split; [|split; [done|intros ? [=]]].
    apply Forall_update_by_id_in; [|done].
    intros r Hr' Hid. rewrite (unique_ids_In_eq _ r rec Hu Hr' Hin Hid).
    apply apply_payment_ok; [apply Hok|]. by eapply validate_payment_amount.
Qed.

Lemma fees_inv_reachable p : reachable isPast dateParses isAdmin p -> fees_inv p.
Proof.
  induction 1 as [|p e p' _ IH Hstep]; [apply initialFeesPage_inv|].
  by eapply step_preserves_fees_inv.
Qed.

(** The records change only by the payment handler's update. *)
Lemma step_records p e p' :
  step isPast dateParses isAdmin p e p' ->
  studentFeeRecords p' = studentFeeRecords p \/
  exists rec v, studentFeeRecords p' = update_by_id (id rec) (apply_payment isPast rec v) (studentFeeRecords p).
Proof.
  destruct 1; simpl; auto.
  - unfold handleDeleteStructureConfirm. destruct (structureToDelete p); auto.
  - unfold handlePaymentFormSubmit. destruct (processingFeeRecord p) as [rec|]; simpl; eauto.
Qed.

Lemma due_dates_reachable p :
  reachable isPast dateParses isAdmin p -> due_dates_parse (studentFeeRecords p).
Proof.
  induction 1 as [|p e p' _ IH Hstep].
  - repeat constructor; eexists; vm_compute; reflexivity.
  - destruct (step_records p e p' Hstep) as [->|(rec & v & ->)]; [done|].
    by apply Forall_update_by_id.
Qed.

(** C5: the payment handler's effect, field by field: the record the
    dialog was opened on now has its amount paid increased by the
    payment, the status [payment_status] gives for the new total and its
    due date, the payment date and the notes of the form, and every other
    field as before; every other record is untouched, the structures too,
    and the dialog is closed. *)
Theorem handlePaymentFormSubmit_refines (v : PaymentFormValues) (p : FeesPage)
    (rec : StudentFeeRecord) :
  unique_ids (studentFeeRecords p) -> processingFeeRecord p = Some rec ->
  In rec (studentFeeRecords p) ->
  to_map (studentFeeRecords (handlePaymentFormSubmit isPast v p)) !! id rec =
    Some {| id := id rec; studentName := studentName rec; className := className rec;
            feeTypeDescription := feeTypeDescription rec; amountDue := amountDue rec;
            amountPaid := amountPaid rec + paymentAmount v; dueDate := dueDate rec;
            status := payment_status (amountDue rec) (amountPaid rec + paymentAmount v)
                        (isPast (dueDate rec));
            lastPaymentDate := Some (paymentDate v); notes := paymentNotes v |} /\
  (forall k, k <> id rec ->
     to_map (studentFeeRecords (handlePaymentFormSubmit isPast v p)) !! k =
     to_map (studentFeeRecords p) !! k) /\
  feeStructures (handlePaymentFormSubmit isPast v p) = feeStructures p /\
  showPaymentModal (handlePaymentFormSubmit isPast v p) = false /\
  processingFeeRecord (handlePaymentFormSubmit isPast v p) = None.
Proof.
  intros Hu Hrec Hin. unfold handlePaymentFormSubmit. rewrite Hrec. cbn [studentFeeRecords
    feeStructures showPaymentModal processingFeeRecord].
  rewrite to_map_update_by_id by auto with campus.
  split; [|split; [|done]].
  - rewrite stdpp.fin_maps.lookup_alter_eq. change (id rec) with (record_id rec).
    by rewrite (to_map_lookup_In _ rec Hu Hin).
  - intros k Hk. by rewrite stdpp.fin_maps.lookup_alter_ne by congruence.
Qed.

(** C7: the Overdue and Pending branches of the payment handler are
    dead: a payment the form accepts is positive, so on any record with a
    non-negative paid amount the new status is Paid or Partially Paid,
    whatever the due date.  A record never becomes Overdue. *)
Theorem payment_never_overdue (v : PaymentFormValues) (rec r : StudentFeeRecord) :
  (0 <= amountPaid rec)%Z -> validate_payment dateParses v = [] ->
  status (apply_payment isPast rec v r) <> Overdue /\
  status (apply_payment isPast rec v r) <> Pending.
Proof.
  intros H0 Hv. apply validate_payment_amount in Hv.
  unfold apply_payment, payment_status. simpl.
  destruct (amountDue rec <=? _)%Z; [done|].
  destruct (Z.ltb_spec 0 (amountPaid rec + paymentAmount v)); [done|lia].
Qed.

(** C8: every reachable state of the fees page satisfies [fees_inv]. *)
Theorem fees_reachable_inv (p : FeesPage) :
  reachable isPast dateParses isAdmin p -> fees_inv p.
Proof.
  apply fees_inv_reachable.
Qed.

(** C9: Paid is final: from a reachable state no event changes or
    removes a record whose status is Paid. *)
Theorem paid_is_final (p : FeesPage) (e : event) (p' : FeesPage) (r : StudentFeeRecord) :
  reachable isPast dateParses isAdmin p -> step isPast dateParses isAdmin p e p' ->
  In r (studentFeeRecords p) -> status r = Paid -> In r (studentFeeRecords p').
Proof.
  intros Hreach Hstep Hin Hpaid.
  destruct (fees_inv_reachable p Hreach) as (Hu & _ & _ & Hp).
  destruct Hstep; simpl; try done;
    try (unfold handleDeleteStructureConfirm; destruct (structureToDelete p); done).
  unfold handlePaymentFormSubmit. destruct (processingFeeRecord p) as [rec|] eqn:Hrec; [|done].
  simpl. destruct (Hp rec eq_refl) as [Hrin Hnp].
  apply In_update_by_id_other; [done|]. intros Hid.
  apply Hnp. by rewrite <- (unique_ids_In_eq _ r rec Hu Hin Hrin Hid).
Qed.

(** Overpayment is recorded: a payment larger than the remaining
    amount is added in full, so the paid amount exceeds the amount due
    (the form proposes the remaining amount but does not cap it). *)
Theorem overpayment_recorded (v : PaymentFormValues) (rec : StudentFeeRecord) :
  validate_payment dateParses v = [] ->
  (amountDue rec - amountPaid rec < paymentAmount v)%Z ->
  (amountDue rec < amountPaid (apply_payment isPast rec v rec))%Z /\
  status (apply_payment isPast rec v rec) = Paid.
Proof.
  intros _ Hover. unfold apply_payment, payment_status. simpl. split; [lia|].
  destruct (Z.leb_spec (amountDue rec) (amountPaid rec + paymentAmount v)); [done|lia].
Qed.

Lemma find_record_after_payment p v rec :
  processingFeeRecord p = Some rec -> unique_ids (studentFeeRecords p) ->
  In rec (studentFeeRecords p) ->
  In (apply_payment isPast rec v rec) (studentFeeRecords (handlePaymentFormSubmit isPast v p)).
Proof.
  intros Hrec Hu Hin. unfold handlePaymentFormSubmit. rewrite Hrec. simpl.
  unfold update_by_id. apply in_map_iff. exists rec. by rewrite String.eqb_refl.
Qed.

(** Every reachable state of the fees page renders its records
    table: no due-date cell throws, the table has one row per record, and
    the Actions column follows the viewer's role. *)
Theorem fees_records_render (p : FeesPage) (viewerIsAdmin : bool) :
  reachable isPast dateParses isAdmin p ->
  exists view, render_records viewerIsAdmin (studentFeeRecords p) = Some view /\
    match view with
    | NoRecords => studentFeeRecords p = []
    | RecordTable a rows => a = viewerIsAdmin /\ length rows = length (studentFeeRecords p)
    end.
Proof.
  intros Hr. pose proof (due_dates_reachable p Hr) as Hd. unfold render_records.
  destruct (studentFeeRecords p) as [|r0 l] eqn:E; [by eexists|].
  destruct (mapM_rows_total (record_row viewerIsAdmin) (r0 :: l) (r0 :: l)) as (rows & Hrows & Hl);
    [reflexivity|intros r Hin; apply record_row_ok; exact (proj1 (List.Forall_forall _ _) Hd r Hin)|].
  rewrite Hrows. eexists. split; [reflexivity|]. done.
Qed.

(** C39: every unpaid record can be settled: on a reachable page an
    administrator can open "Manage Payment" on it and submit the form as
    it is reset (the remaining amount, today's date), which the schema
    accepts; the record becomes Paid with exactly the amount due paid. *)
Theorem unpaid_record_settles (p : FeesPage) (r : StudentFeeRecord) (today : string) :
  isAdmin = true -> reachable isPast dateParses isAdmin p -> no_dialog p -> In r (studentFeeRecords p) ->
  status r <> Paid -> dateParses today = true ->
  let p1 := openPaymentModal r p in
  let v := payment_form_reset today (processingFeeRecord p1) (payment_defaults today) in
  let p2 := handlePaymentFormSubmit isPast v p1 in
  step isPast dateParses isAdmin p (OpenPayment r) p1 /\
  step isPast dateParses isAdmin p1 (SubmitPayment v) p2 /\
  exists r', In r' (studentFeeRecords p2) /\ id r' = id r /\
    status r' = Paid /\ amountPaid r' = amountDue r.
Proof.
  intros Ha Hr Hnd Hin Hnp Hdate p1 v p2.
  destruct (fees_inv_reachable p Hr) as (Hu & Hok & _).
  pose proof (unpaid_remaining r (proj1 (List.Forall_forall _ _) Hok r Hin) Hnp) as Hrem.
  assert (Hv : paymentAmount v = (amountDue r - amountPaid r)%Z).
  { cbn. unfold default_payment_amount. destruct (Z.ltb_spec 0 (amountDue r - amountPaid r)); lia. }
  split; [by apply step_open_payment|]. split.
  - apply step_submit_payment; [done|]. unfold validate_payment. rewrite Hv.
    change (paymentDate v) with today. rewrite Hdate.
    destruct (Z.ltb_spec 0 (amountDue r - amountPaid r)); [done|lia].
  - exists (apply_payment isPast r v r). split; [by apply find_record_after_payment|].
    split; [done|]. unfold apply_payment, payment_status. cbn [status amountPaid]. rewrite Hv.
    destruct (Z.leb_spec (amountDue r) (amountPaid r + (amountDue r - amountPaid r))); [|lia].
    split; [done|lia].
Qed.

(** On a reachable page whose structure ids are unique, opening
    Edit on a structure and saving the form as it is reset passes the
    schema and leaves the structure list unchanged. *)
Theorem structure_edit_unchanged (p : FeesPage) (s : FeeStructure) (now : N) :
  isAdmin = true -> reachable isPast dateParses isAdmin p -> no_dialog p -> unique_ids (feeStructures p) ->
  In s (feeStructures p) ->
  let p1 := openEditStructureModal s p in
  let v := structure_form_reset (editingStructure p1) in
  step isPast dateParses isAdmin p (OpenEditStructure s) p1 /\
  step isPast dateParses isAdmin p1 (SubmitStructure now v) (handleStructureFormSubmit now v p1) /\
  feeStructures (handleStructureFormSubmit now v p1) = feeStructures p.
Proof.
  intros Ha Hr Hnd Hu Hin p1 v.
  destruct (fees_inv_reachable p Hr) as (_ & _ & Hs & _).
  split; [by apply step_open_edit|]. split.
  - apply step_submit_structure; [done|]. apply structure_values_valid.
    by eapply List.Forall_forall.
  - cbn. apply (update_by_id_fixed (merge_structure (structure_values s))); [done|done|].
    apply merge_structure_values.
Qed.
End FeesFacts.

(** C6: the scenario of the spec, run on the page: on the overdue record
    SFR004 (5000 due, nothing paid) a payment of 3000 gives Partially Paid
    with 3000 paid, a further payment of 2000 gives Paid with 5000 paid,
    and then "Manage Payment" is disabled for it: no event opens its
    payment dialog. *)
Theorem fee_payment_scenario (isPast dateParses : string -> bool) :
  dateParses "2024-07-01"%string = true ->
  let v1 := mkPaymentValues 3000 "2024-07-01" None in
  let v2 := mkPaymentValues 2000 "2024-07-01" None in
  let p1 := handlePaymentFormSubmit isPast v1 (openPaymentModal sfr004 initialFeesPage) in
  let r1 := apply_payment isPast sfr004 v1 sfr004 in
  let p2 := handlePaymentFormSubmit isPast v2 (openPaymentModal r1 p1) in
  let r2 := apply_payment isPast r1 v2 r1 in
  (amountPaid r1 = 3000%Z /\ status r1 = PartiallyPaid /\ In r1 (studentFeeRecords p1)) /\
  (amountPaid r2 = 5000%Z /\ status r2 = Paid /\ In r2 (studentFeeRecords p2)) /\
  forall p', ~ step isPast dateParses true p2 (OpenPayment r2) p'.
Proof.
  intros Hdate v1 v2 p1 r1 p2 r2.
  assert (H1 : In r1 (studentFeeRecords p1)).
  { apply find_record_after_payment; [done|decide_it|simpl; tauto]. }
  split; [split; [done|split; [done|exact H1]]|]. split.
  - split; [done|split; [done|]]. apply find_record_after_payment; [done|decide_it|done].
  - intros p' Hstep. inversion Hstep; subst. done.
Qed.

(** ** Witnesses *)

Lemma handlePaymentFormSubmit_refines_witness :
  let v := mkPaymentValues 3000 "2024-07-01" None in
  let p := openPaymentModal sfr004 initialFeesPage in
  unique_ids (studentFeeRecords p) /\ processingFeeRecord p = Some sfr004 /\
  In sfr004 (studentFeeRecords p) /\
  showPaymentModal (handlePaymentFormSubmit (fun _ => true) v p) = false.
Proof.
  intros v p.
  assert (H1 : unique_ids (studentFeeRecords p)) by decide_it.
  assert (H2 : processingFeeRecord p = Some sfr004) by reflexivity.
  assert (H3 : In sfr004 (studentFeeRecords p)) by (simpl; repeat (first [left; reflexivity | right])).
  split; [exact H1|]. split; [exact H2|]. split; [exact H3|].
  exact (proj1 (proj2 (proj2 (proj2 (handlePaymentFormSubmit_refines (fun _ => true) v p sfr004 H1 H2 H3))))).
Defined.

Lemma payment_never_overdue_witness :
  let v := mkPaymentValues 3000 "2024-07-01" None in
  (0 <= amountPaid sfr004)%Z /\ validate_payment (fun _ => true) v = [] /\
  status (apply_payment (fun _ => true) sfr004 v sfr004) <> Overdue /\
  status (apply_payment (fun _ => true) sfr004 v sfr004) <> Pending.
Proof.
  intros v. split; [simpl; lia|]. split; [reflexivity|].
  apply (payment_never_overdue (fun _ => true) (fun _ => true)); [simpl; lia|reflexivity].
Defined.

Lemma fees_reachable_inv_witness :
  reachable (fun _ => true) (fun _ => true) true (openPaymentModal sfr004 initialFeesPage) /\
  fees_inv (openPaymentModal sfr004 initialFeesPage).
Proof.
  assert (Hr : reachable (fun _ => true) (fun _ => true) true (openPaymentModal sfr004 initialFeesPage)).
  { eapply reach_step; [apply reach_init|]. apply step_open_payment; [done|repeat split|simpl; tauto|discriminate]. }
  split; [exact Hr|]. exact (fees_reachable_inv _ _ _ _ Hr).
Defined.

Lemma paid_is_final_witness :
  reachable (fun _ => true) (fun _ => true) true initialFeesPage /\
  step (fun _ => true) (fun _ => true) true initialFeesPage (OpenPayment sfr004)
    (openPaymentModal sfr004 initialFeesPage) /\
  In sfr001 (studentFeeRecords initialFeesPage) /\ status sfr001 = Paid /\
  In sfr001 (studentFeeRecords (openPaymentModal sfr004 initialFeesPage)).
Proof.
  assert (Hs : step (fun _ => true) (fun _ => true) true initialFeesPage (OpenPayment sfr004)
    (openPaymentModal sfr004 initialFeesPage)).
  { apply step_open_payment; [done|repeat split|simpl; tauto|discriminate]. }
  split; [apply reach_init|]. split; [exact Hs|]. split; [simpl; tauto|]. split; [reflexivity|].
  apply (paid_is_final _ _ _ _ _ _ _ (reach_init _ _ _) Hs); [simpl; tauto|reflexivity].
Defined.

Lemma overpayment_recorded_witness :
  let v := mkPaymentValues 2000 "2024-07-01" None in
  validate_payment (fun _ => true) v = [] /\
  (amountDue sfr002 - amountPaid sfr002 < paymentAmount v)%Z /\
  (amountDue sfr002 < amountPaid (apply_payment (fun _ => true) sfr002 v sfr002))%Z /\
  status (apply_payment (fun _ => true) sfr002 v sfr002) = Paid.
Proof.
  intros v. split; [reflexivity|]. split; [simpl; lia|].
  apply (overpayment_recorded (fun _ => true) (fun _ => true)); [reflexivity|simpl; lia].
Defined.

Lemma fee_payment_scenario_witness :
  (fun _ : string => true) "2024-07-01"%string = true /\
  let v1 := mkPaymentValues 3000 "2024-07-01" None in
  let v2 := mkPaymentValues 2000 "2024-07-01" None in
  let p1 := handlePaymentFormSubmit (fun _ => true) v1 (openPaymentModal sfr004 initialFeesPage) in
  let r1 := apply_payment (fun _ => true) sfr004 v1 sfr004 in
  let p2 := handlePaymentFormSubmit (fun _ => true) v2 (openPaymentModal r1 p1) in
  let r2 := apply_payment (fun _ => true) r1 v2 r1 in
  (amountPaid r1 = 3000%Z /\ status r1 = PartiallyPaid /\ In r1 (studentFeeRecords p1)) /\
  (amountPaid r2 = 5000%Z /\ status r2 = Paid /\ In r2 (studentFeeRecords p2)) /\
  forall p', ~ step (fun _ => true) (fun _ => true) true p2 (OpenPayment r2) p'.
Proof.
  split; [reflexivity|]. apply (fee_payment_scenario (fun _ => true) (fun _ => true)). reflexivity.
Defined.

Lemma fees_records_render_witness :
  reachable (fun _ => true) (fun _ => true) true initialFeesPage /\
  exists view, render_records true (studentFeeRecords initialFeesPage) = Some view /\
    match view with
    | NoRecords => studentFeeRecords initialFeesPage = []
    | RecordTable a rows => a = true /\ length rows = length (studentFeeRecords initialFeesPage)
    end.
Proof.
  split; [apply reach_init|].
  exact (fees_records_render (fun _ => true) (fun _ => true) true initialFeesPage true (reach_init _ _ _)).
Defined.

Lemma unpaid_record_settles_witness :
  reachable (fun _ => true) (fun _ => true) true initialFeesPage /\ no_dialog initialFeesPage /\
  In sfr004 (studentFeeRecords initialFeesPage) /\ status sfr004 <> Paid /\
  let p1 := openPaymentModal sfr004 initialFeesPage in
  let v := payment_form_reset "2024-07-01" (processingFeeRecord p1) (payment_defaults "2024-07-01") in
  let p2 := handlePaymentFormSubmit (fun _ => true) v p1 in
  step (fun _ => true) (fun _ => true) true initialFeesPage (OpenPayment sfr004) p1 /\
  step (fun _ => true) (fun _ => true) true p1 (SubmitPayment v) p2 /\
  exists r', In r' (studentFeeRecords p2) /\ id r' = id sfr004 /\
    status r' = Paid /\ amountPaid r' = amountDue sfr004.
Proof.
  split; [apply reach_init|]. split; [repeat split|]. split; [simpl; tauto|]. split; [discriminate|].
  exact (unpaid_record_settles (fun _ => true) (fun _ => true) true initialFeesPage sfr004
    "2024-07-01" eq_refl (reach_init _ _ _) ltac:(repeat split) ltac:(simpl; tauto)
    ltac:(discriminate) eq_refl).
Defined.

Lemma structure_edit_unchanged_witness :
  let s := mkFeeStructure "FS1" "10" "Tuition Fee" 15000 Quarterly in
  reachable (fun _ => true) (fun _ => true) true initialFeesPage /\ no_dialog initialFeesPage /\
  unique_ids (feeStructures initialFeesPage) /\ In s (feeStructures initialFeesPage) /\
  let p1 := openEditStructureModal s initialFeesPage in
  let v := structure_form_reset (editingStructure p1) in
  step (fun _ => true) (fun _ => true) true initialFeesPage (OpenEditStructure s) p1 /\
  step (fun _ => true) (fun _ => true) true p1 (SubmitStructure 1718000000000 v)
    (handleStructureFormSubmit 1718000000000 v p1) /\
  feeStructures (handleStructureFormSubmit 1718000000000 v p1) = feeStructures initialFeesPage.
Proof.
  intros s. split; [apply reach_init|]. split; [repeat split|]. split; [decide_it|].
  split; [simpl; tauto|].
  exact (structure_edit_unchanged (fun _ => true) (fun _ => true) true initialFeesPage s
    1718000000000 eq_refl (reach_init _ _ _) ltac:(repeat split) ltac:(decide_it) ltac:(simpl; tauto)).
Defined.

End Fees.
