(* ===== verification/Crud.v ===== *)
(** * The management page pattern

    Library, Exams, Salaries, Teachers, Timetable, Notices and Gallery keep
    the same four pieces of React state: the records, whether the
    create/edit dialog is open, the record being edited ([null] when the
    dialog creates) and the record awaiting delete confirmation.  Their
    dialog and delete handlers are the same code with different names:
    - [openAddModal]: [setEditingX(null); form.reset(...); setShowModal(true)];
    - [openEditModal(x)]: [setEditingX(x); setShowModal(true)];
    - the dialog's [onOpenChange(false)] and Cancel: [setShowModal(false);
      setEditingX(null)];
    - [handleDeleteConfirm]: [if (xToDelete) { setXs(prev =>
      prev.filter(r => r.id !== xToDelete.id)); setXToDelete(null) }].
    Only [handleFormSubmit] differs from page to page; each page file
    defines its own and this file takes it as a parameter.  The toast of
    the delete handler, the values of the add handler's [form.reset] and
    the heading differ only in their texts: [deleteConfirmToast],
    [openAddReset] and [PageHeader] take them as arguments, and each
    page's [Module Page] supplies them; [dialogOpenChange] and
    [confirmDialog] are the two dialogs' handlers, and
    [dialogs_are_steps] shows [step] covers every one of them.

    [step] is the page as a transition system over the buttons an
    administrator can press, and [crud_reachable_inv] proves, once and for
    all pages, that an invariant of the record list holds on every
    reachable state as soon as the initial list has it, the page's submit
    keeps it (for a form zod accepted and an id not yet taken) and
    deleting a record keeps it. *)

From S2P Require Import Prelude JsRuntime EntityList.
From stdpp Require Import list_monad.
Import EntityList.

Module Crud.

Record CrudPage (A : Type) := mkCrud {
  items : list A;
  showModal : bool;
  editing : option A;
  toDelete : option A;
}.
Arguments mkCrud {_} _ _ _ _.
Arguments items {_} _.
Arguments showModal {_} _.
Arguments editing {_} _.
Arguments toDelete {_} _.

(** What the delete confirmation offers: its [onOpenChange], Cancel and
    Delete. *)
Inductive AlertAction := AlertOpenChange (isOpen : bool) | AlertCancel | AlertDelete.

Section Handlers.
Context {A : Type} `{Keyed A}.

(** The first render: [useState(initialXs)], the dialogs closed. *)
Definition initialCrud (l : list A) : CrudPage A := mkCrud l false None None.

(** [setEditingX(null); form.reset(defaults); setShowModal(true)] *)
Definition openAddModal (p : CrudPage A) : CrudPage A :=
  mkCrud (items p) true None (toDelete p).

(** [setEditingX(x); setShowModal(true)] *)
Definition openEditModal (x : A) (p : CrudPage A) : CrudPage A :=
  mkCrud (items p) true (Some x) (toDelete p).

(** [onOpenChange(false)] and Cancel: [setShowModal(false); setEditingX(null)] *)
Definition closeModal (p : CrudPage A) : CrudPage A :=
  mkCrud (items p) false None (toDelete p).

(** [setXToDelete(x)] and [setXToDelete(null)] *)
Definition setToDelete (d : option A) (p : CrudPage A) : CrudPage A :=
  mkCrud (items p) (showModal p) (editing p) d.

(** The common tail of every [handleFormSubmit]:
    [setXs(...); setShowModal(false); setEditingX(null)]. *)
Definition afterSubmit (l : list A) (p : CrudPage A) : CrudPage A :=
  mkCrud l false None (toDelete p).

(** The [handleFormSubmit] of Library, Exams and Timetable:
    [if (editingX) setXs(prev => prev.map(r => r.id === editingX.id ?
    { ...r, ...values } : r)) else setXs(prev => [...prev, newX])],
    then the common tail. *)
Definition editOrAppend (merge : A -> A) (created : A) (p : CrudPage A) : CrudPage A :=
  afterSubmit
    (match editing p with
     | Some e => update_by_id (record_id e) merge (items p)
     | None => append_record (items p) created
     end) p.

(** [handleDeleteConfirm] *)
Definition handleDeleteConfirm (p : CrudPage A) : CrudPage A :=
  match toDelete p with
  | Some d => mkCrud (remove_by_id (record_id d) (items p)) (showModal p) (editing p) None
  | None => p
  end.

(** Neither the dialog nor the confirmation is open, so the page's
    buttons can be clicked. *)
Definition no_dialog (p : CrudPage A) : Prop :=
  showModal p = false /\ toDelete p = None.

(** The dialog's [onOpenChange]: [setShowModal(isOpen); if (!isOpen)
    setEditingX(null)]. *)
Definition dialogOpenChange (isOpen : bool) (p : CrudPage A) : CrudPage A :=
  if isOpen then mkCrud (items p) true (editing p) (toDelete p) else closeModal p.

(** The confirmation [<AlertDialog open={!!xToDelete}>]: closing it and
    Cancel clear the record awaiting deletion, Delete runs
    [handleDeleteConfirm]. *)
Definition confirmDialog (a : AlertAction) (p : CrudPage A) : CrudPage A :=
  match a with
  | AlertOpenChange true => p
  | AlertOpenChange false | AlertCancel => setToDelete None p
  | AlertDelete => handleDeleteConfirm p
  end.

(** A page's [handleDeleteConfirm] with the toast it shows for the
    removed record; no toast when no record awaits confirmation. *)
Definition deleteConfirmToast (toast : A -> string * string) (p : CrudPage A)
    : CrudPage A * option (string * string) :=
  match toDelete p with
  | Some d => (handleDeleteConfirm p, Some (toast d))
  | None => (p, None)
  end.

(** A page's [openAddModal] with the values its [form.reset] puts in the
    form. *)
Definition openAddReset {V} (defaults : V) (p : CrudPage A) : CrudPage A * V :=
  (openAddModal p, defaults).

End Handlers.

(** The heading of a management page: its [<h1>], the line under it and
    the label of its "Add" button, which is rendered for
    [user?.role === 'admin'] only. *)
Record PageHeader := mkPageHeader {
  page_title : string;
  page_subtitle : string;
  add_label : string;
}.

Definition header_add_button (h : PageHeader) (isAdmin : bool) : option string :=
  if isAdmin then Some (add_label h) else None.

(** What the user does on a management page. *)
Inductive event (A V : Type) :=
  | OpenAdd                          (* "Add ..." *)
  | OpenEdit (x : A)                 (* "Edit" on a row *)
  | CloseModal                       (* Cancel, or the dialog closed *)
  | Submit (now : N) (v : V)         (* the form, accepted by zod, at clock [now] *)
  | AskDelete (x : A)                (* "Delete" on a row *)
  | CancelDelete
  | ConfirmDelete.
Arguments OpenAdd {_ _}.
Arguments OpenEdit {_ _} _.
Arguments CloseModal {_ _}.
Arguments Submit {_ _} _ _.
Arguments AskDelete {_ _} _.
Arguments CancelDelete {_ _}.
Arguments ConfirmDelete {_ _}.

Section Step.
Context {A V : Type} `{Keyed A}.
(** The page's own [handleFormSubmit], its zod schema, and whether the
    user is an administrator (the add, edit and delete buttons are
    rendered for [user?.role === 'admin'] only). *)
Variable submit : N -> V -> CrudPage A -> CrudPage A.
Variable valid : V -> bool.
Variable isAdmin : bool.

Inductive step : CrudPage A -> event A V -> CrudPage A -> Prop :=
| step_open_add p :
    isAdmin = true -> no_dialog p -> step p OpenAdd (openAddModal p)
| step_open_edit p x :
    isAdmin = true -> no_dialog p -> In x (items p) -> step p (OpenEdit x) (openEditModal x p)
| step_close p :
    showModal p = true -> step p CloseModal (closeModal p)
| step_submit p now v :
    showModal p = true -> valid v = true -> step p (Submit now v) (submit now v p)
| step_ask_delete p x :
    isAdmin = true -> no_dialog p -> In x (items p) -> step p (AskDelete x) (setToDelete (Some x) p)
| step_cancel_delete p :
    toDelete p <> None -> step p CancelDelete (setToDelete None p)
| step_confirm_delete p :
    toDelete p <> None -> step p ConfirmDelete (handleDeleteConfirm p).

(** The id drawn by a submit is not taken: [fresh p e] restricts the
    clock of a create to values whose generated id is new. *)
Variable fresh : CrudPage A -> event A V -> Prop.

Inductive reachable (init : list A) : CrudPage A -> Prop :=
| reach_init : reachable init (initialCrud init)
| reach_step p e p' : reachable init p -> fresh p e -> step p e p' -> reachable init p'.

End Step.

(** ** Lemmas *)

Section Facts.
Context {A : Type} `{Keyed A}.

Lemma handleDeleteConfirm_items (p : CrudPage A) :
  items (handleDeleteConfirm p) = items p \/
  exists d, items (handleDeleteConfirm p) = remove_by_id (record_id d) (items p).
Proof. unfold handleDeleteConfirm. destruct (toDelete p) as [d|]; eauto. Qed.

Lemma handleDeleteConfirm_closes (p : CrudPage A) :
  toDelete (handleDeleteConfirm p) = None.
Proof. unfold handleDeleteConfirm. by destruct (toDelete p) eqn:E. Qed.

Lemma remove_by_id_gone id (l : list A) : id ∉ ids (remove_by_id id l).
Proof.
  rewrite ids_remove_by_id, list_elem_of_In, filter_In, String.eqb_refl. by intros [_ ?].
Qed.

(** Confirming a delete shows a toast exactly when a record awaited
    confirmation: the toast is that record's, no record with its id is
    left and the confirmation closes; otherwise nothing changes. *)
Lemma deleteConfirmToast_spec toast (p : CrudPage A) :
  match snd (deleteConfirmToast toast p) with
  | Some m => exists d, toDelete p = Some d /\ m = toast d /\
              (record_id d ∉ ids (items (fst (deleteConfirmToast toast p)))) /\
              toDelete (fst (deleteConfirmToast toast p)) = None
  | None => toDelete p = None /\ fst (deleteConfirmToast toast p) = p
  end.
Proof.
  unfold deleteConfirmToast. destruct (toDelete p) as [d|] eqn:E; [|done]. simpl.
  exists d. split_and!; [done|done| |by apply handleDeleteConfirm_closes].
  unfold handleDeleteConfirm. rewrite E. apply remove_by_id_gone.
Qed.

End Facts.

Section Invariant.
Context {A V : Type} `{Keyed A}.
Variable submit : N -> V -> CrudPage A -> CrudPage A.
Variable valid : V -> bool.
Variable isAdmin : bool.
Variable fresh : CrudPage A -> event A V -> Prop.
Variable init : list A.

(** An invariant of the record list, and what each handler must do for it. *)
Variable inv : list A -> Prop.
Hypothesis inv_init : inv init.
Hypothesis inv_submit : forall p now v,
  inv (items p) -> valid v = true -> fresh p (Submit now v) -> inv (items (submit now v p)).
Hypothesis inv_remove : forall id l, inv l -> inv (remove_by_id id l).

Lemma step_preserves_crud_inv p e p' :
  inv (items p) -> fresh p e -> step submit valid isAdmin p e p' -> inv (items p').
Proof.
  intros Hi Hf Hs. destruct Hs; simpl; auto.
  destruct (handleDeleteConfirm_items p) as [->|[d ->]]; auto.
Qed.

Lemma crud_reachable_inv p :
  reachable submit valid isAdmin fresh init p -> inv (items p).
Proof.
  induction 1 as [|p e p' _ IH Hf Hs]; [done|].
  by eapply step_preserves_crud_inv.
Qed.

End Invariant.

(** Closing the dialog, and every answer to the confirmation but the
    no-op [onOpenChange(true)], is a step of the page: the transition
    system leaves none of the dialogs' handlers out. *)
Lemma dialogs_are_steps {A V} `{Keyed A} submit valid isAdmin (p : CrudPage A) :
  (showModal p = true -> step (V:=V) submit valid isAdmin p CloseModal (dialogOpenChange false p)) /\
  (forall a, toDelete p <> None -> a <> AlertOpenChange true ->
     exists e, step (V:=V) submit valid isAdmin p e (confirmDialog a p)).
Proof.
  split; [intros; by constructor|].
  intros a Hd Ha. destruct a as [[]| |]; [done|..]; eexists; by constructor.
Qed.

(** The header's "Add" button is rendered exactly when the page accepts
    the [OpenAdd] event, as long as no dialog covers the page. *)
Lemma add_button_iff_open_add {A V} `{Keyed A} submit valid isAdmin h (p : CrudPage A) :
  no_dialog p ->
  (exists p', step (V:=V) submit valid isAdmin p OpenAdd p') <-> header_add_button h isAdmin <> None.
Proof.
  intros Hd. unfold header_add_button. destruct isAdmin; split; try done.
  - intros _. eexists. by constructor.
  - intros [p' Hs]. inversion Hs; congruence.
Qed.

(** The invariants every page uses: unique ids, and a property of each record. *)
Lemma unique_forall_remove {A} `{Keyed A} (ok : A -> Prop) id l :
  unique_ids l /\ Forall ok l -> unique_ids (remove_by_id id l) /\ Forall ok (remove_by_id id l).
Proof. intros [Hu Hf]. split; [by apply remove_by_id_unique|by apply Forall_remove_by_id]. Qed.

(** [editOrAppend] keeps unique ids and a property of the records when
    the merge keeps the id and the property, and the created record has
    it and a fresh id. *)
Lemma editOrAppend_inv {A} `{Keyed A} (ok : A -> Prop) merge created (p : CrudPage A) :
  keeps_id merge -> (forall r, ok r -> ok (merge r)) -> ok created ->
  (editing p = None -> record_id created ∉ ids (items p)) ->
  unique_ids (items p) /\ Forall ok (items p) ->
  unique_ids (items (editOrAppend merge created p)) /\ Forall ok (items (editOrAppend merge created p)).
Proof.
  intros Hk Hm Hc Hf [Hu Ho]. unfold editOrAppend, afterSubmit. simpl.
  destruct (editing p) as [e|].
  - split; [by apply update_by_id_unique|]. apply Forall_update_by_id; auto.
  - split; [by apply append_record_unique, Hf|]. apply Forall_app; auto.
Qed.

#[export] Hint Resolve unique_forall_remove : campus.

End Crud.
