(* ===== verification/Library.v ===== *)
(** * Library management (src/src/app/(app)/library/page.tsx)

    The [Book] record, the zod schema [bookFormSchema] ([validate_book],
    with the ISBN pattern as [isbn_regex_test]), the seeded catalogue, the
    page's [handleFormSubmit] on the management page pattern of [Crud],
    and the catalogue sorted by title, the dialog's form reset and the
    page's own handlers and heading ([Module Page]).
    [library_reachable_inv] shows that no reachable catalogue has a book
    with more available than total copies, or a negative count;
    [library_edit_unchanged] that saving an edit dialog unchanged keeps
    the catalogue as it was. *)

From S2P Require Import Prelude JsRuntime EntityList Validation Crud.
Import EntityList Validation Crud.

Module Library.

(** [interface Book] (lines 49-56); the counts are whole numbers. *)
Record Book := mkBook {
  id : string;
  title : string;
  author : string;
  isbn : option string;
  totalCopies : Z;
  availableCopies : Z;
}.

#[global] Instance book_keyed : Keyed Book := id.

(** [BookFormValues = z.infer<typeof bookFormSchema>] (line 71). *)
Record BookFormValues := mkBookValues {
  v_title : string;
  v_author : string;
  v_isbn : option string;
  v_totalCopies : Z;
  v_availableCopies : Z;
}.

(** ** The ISBN pattern [/^(?=(?:\D*\d){10}(?:(?:\D*\d){3})?$)[\d-]+$/]

    The look-ahead reads ten digits, each after any run of non-digits,
    then optionally three more, and must then be at the end; the body is
    one or more digits or hyphens up to the end.  [\D*] reads at most the
    whole input, so a run of at most [length s] characters is every run. *)

(** [(?:\D*\d)] from each suffix in [l]; [n] bounds the run. *)
Definition digit_group (n : nat) (l : list (list ascii)) : list (list ascii) :=
  re_one is_digit (re_upto (fun c => negb (is_digit c)) n l).

Definition is_digit_or_hyphen (c : ascii) : bool := is_digit c || is_char 45 c.

Definition isbn_regex_test (s : string) : bool :=
  let cs := list_ascii_of_string s in
  let n := length cs in
  let ten := Nat.iter 10 (digit_group n) [cs] in
  let look := ten ++ Nat.iter 3 (digit_group n) ten in
  existsb (fun rest => match rest with [] => true | _ => false end) look &&
  negb (String.eqb s "") && forallb is_digit_or_hyphen cs.

(** The reading the pattern describes: the characters are digits and
    hyphens, there are ten or thirteen digits, and the last character is a
    digit. *)
Fixpoint skip_digit (s : list ascii) : option (list ascii) :=
  match s with
  | [] => None
  | c :: s' => if is_digit c then Some s' else skip_digit s'
  end.

Fixpoint skip_digits (k : nat) (s : list ascii) : option (list ascii) :=
  match k with
  | O => Some s
  | S k' => match skip_digit s with Some u => skip_digits k' u | None => None end
  end.

Definition digit_count (cs : list ascii) : nat := length (List.filter is_digit cs).

Definition ends_in_digit (cs : list ascii) : Prop :=
  exists pre c, cs = pre ++ [c] /\ is_digit c = true.

Definition isbn_spec (s : string) : Prop :=
  let cs := list_ascii_of_string s in
  Forall (fun c => is_digit_or_hyphen c = true) cs /\
  (digit_count cs = 10 \/ digit_count cs = 13) /\ ends_in_digit cs.

(** ** The schema [bookFormSchema] (lines 58-69) *)

(** The checks of [bookFormSchema] in order: title, author, ISBN, the two
    counts, and the object-level refinement [availableCopies <= totalCopies]. *)
Definition validate_book (v : BookFormValues) : list string :=
  ((if min_len 3 (v_title v) then [] else ["title"]) ++
  (if min_len 2 (v_author v) then [] else ["author"]) ++
  (if js_falsy (v_isbn v) ||
      match v_isbn v with Some s => isbn_regex_test s | None => false end
   then [] else ["isbn"]) ++
  (if (0 <? v_totalCopies v)%Z then [] else ["totalCopies"]) ++
  (if (0 <=? v_availableCopies v)%Z then [] else ["availableCopies"]) ++
  (if (v_availableCopies v <=? v_totalCopies v)%Z then [] else ["availableCopies"]))%list%string.

Definition valid_book_values (v : BookFormValues) : bool :=
  match validate_book v with [] => true | _ => false end.

(** ** Seed data and handlers *)

(** [initialBooks] (lines 73-78). *)
Definition initialBooks : list Book :=
  [mkBook "BK001" "The Great Gatsby" "F. Scott Fitzgerald" (Some "978-0743273565") 10 7;
   mkBook "BK002" "To Kill a Mockingbird" "Harper Lee" (Some "978-0061120084") 15 12;
   mkBook "BK003" "1984" "George Orwell" (Some "978-0451524935") 8 5;
   mkBook "BK004" "Pride and Prejudice" "Jane Austen" (Some "978-0141439518") 12 12]%string.

(** [{ ...b, ...values }] (line 116): every form field overwrites. *)
Definition merge_book (v : BookFormValues) (b : Book) : Book :=
  mkBook (id b) (v_title v) (v_author v) (v_isbn v) (v_totalCopies v) (v_availableCopies v).

(** [{ id: `BK${Date.now().toString().slice(-4)}`, ...values }] (lines 123-126). *)
Definition new_book (now : N) (v : BookFormValues) : Book :=
  mkBook (gen_id "BK" now) (v_title v) (v_author v) (v_isbn v) (v_totalCopies v) (v_availableCopies v).

(** [handleFormSubmit] (lines 113-135). *)
Definition handleFormSubmit (now : N) (v : BookFormValues) (p : CrudPage Book) : CrudPage Book :=
  editOrAppend (merge_book v) (new_book now v) p.

(** [sortedBooks] (lines 160-162):
    [[...books].sort((a,b) => a.title.localeCompare(b.title))]. *)
Definition sortedBooks (localeCompare : string -> string -> Z) (books : list Book) : list Book :=
  js_sort (fun a b => localeCompare (title a) (title b)) books.

(** The page's transition system; a create draws a fresh id. *)
Definition fresh_book (p : CrudPage Book) (e : event Book BookFormValues) : Prop :=
  forall now v, e = Submit now v -> editing p = None -> gen_id "BK" now ∉ ids (items p).

Definition library_reachable (isAdmin : bool) : CrudPage Book -> Prop :=
  reachable handleFormSubmit valid_book_values isAdmin fresh_book initialBooks.

(** The counts of a book are consistent. *)
Definition book_ok (b : Book) : Prop :=
  (0 < totalCopies b)%Z /\ (0 <= availableCopies b <= totalCopies b)%Z.

Definition sample_book_values : BookFormValues :=
  mkBookValues "Dune" "Frank Herbert" (Some "978-0441172719") 6 6.

(** ** The page's own handlers and heading

    The page's copies of the shared handlers (see [Crud]), with the form
    values [openAddModal] resets and the toast [handleDeleteConfirm]
    shows, and the heading with its "Add" button. *)

(** [form.reset(editingBook)] puts the book itself in the form. *)
Definition values_of_book (b : Book) : BookFormValues :=
  mkBookValues (title b) (author b) (isbn b) (totalCopies b) (availableCopies b).

(** The create values of [defaultValues] and of both resets (lines 90-96,
    103-109 and 139). *)
Definition add_form_defaults : BookFormValues := mkBookValues "" "" (Some "") 1 1.

(** The effect of lines 99-111, run when the dialog opens or closes. *)
Definition form_reset (editing : option Book) : BookFormValues :=
  match editing with Some b => values_of_book b | None => add_form_defaults end.

Module Page.

(** [openAddModal] (lines 137-141). *)
Definition openAddModal (p : CrudPage Book) : CrudPage Book * BookFormValues :=
  openAddReset add_form_defaults p.

(** The toast of [handleDeleteConfirm] (lines 151-155). *)
Definition delete_toast (b : Book) : string * string :=
  ("Book Deleted", "Book " ++ dq ++ title b ++ dq ++ " has been removed from the catalog.")%string.

(** [handleDeleteConfirm] (lines 148-158). *)
Definition handleDeleteConfirm (p : CrudPage Book) : CrudPage Book * option (string * string) :=
  deleteConfirmToast delete_toast p.

(** The heading and its "Add New Book" button (lines 166-180). *)
Definition header : PageHeader :=
  mkPageHeader "Library Management" "Manage book catalog, track issues/returns, and member activity."
    "Add New Book".

End Page.

(** ** The dialog's texts and the catalogue *)

(** The dialog's title (lines 185-187) and its submit button (line 250). *)
Definition dialog_title (editing : option Book) : string :=
  match editing with Some _ => "Edit Book Details" | None => "Add New Book to Catalog" end.

Definition submit_label (editing : option Book) : string :=
  match editing with Some _ => "Save Changes" | None => "Add Book" end.

(** The confirmation's text (lines 261-263). *)
Definition delete_description (b : Book) : string :=
  "This action cannot be undone. This will permanently delete the book: " ++ dq ++ title b ++ dq ++ ".".

(** A row of the catalogue (lines 299-315): title, author,
    [book.isbn || '-'], the two counts as React prints the numbers, and
    the Edit and Delete buttons for an administrator. *)
Record BookRow := mkBookRow {
  row_title : string;
  row_author : string;
  row_isbn : string;
  row_total : Z;
  row_available : Z;
  row_actions : bool;
}.

Definition book_row (isAdmin : bool) (b : Book) : BookRow :=
  mkBookRow (title b) (author b)
    (match isbn b with Some s => if s =ₛ "" then "-" else s | None => "-" end)
    (totalCopies b) (availableCopies b) isAdmin.

Inductive LibraryView :=
  | NoBooks (hint : string)
  | BookTable (actionsColumn : bool) (rows : list BookRow).

(** The catalogue card (lines 272-322): the empty message, or the table
    of [sortedBooks] with the Actions column for an administrator. *)
Definition render_library (localeCompare : string -> string -> Z) (isAdmin : bool)
    (books : list Book) : LibraryView :=
  match sortedBooks localeCompare books with
  | [] => NoBooks (if isAdmin then "Start by adding new books to the catalog."
                   else "The library catalog is currently empty.")
  | sorted => BookTable isAdmin (List.map (book_row isAdmin) sorted)
  end.

(** ** Lemmas *)

Lemma validate_book_counts v :
  valid_book_values v = true ->
  (0 < v_totalCopies v)%Z /\ (0 <= v_availableCopies v <= v_totalCopies v)%Z.
Proof.
  unfold valid_book_values, validate_book.
  destruct (min_len 3 _), (min_len 2 _), (_ || _),
    (Z.ltb_spec 0 (v_totalCopies v)), (Z.leb_spec 0 (v_availableCopies v)),
    (Z.leb_spec (v_availableCopies v) (v_totalCopies v)); simpl; done || lia.
Qed.

(** *** The ISBN matcher against [isbn_spec] *)

Lemma skip_digit_length s t : skip_digit s = Some t -> length t < length s.
Proof.
  induction s as [|c s IH]; simpl; [done|].
  destruct (is_digit c); [intros [= ->]; lia|]. intros H. specialize (IH H). lia.
Qed.

Lemma skip_digits_length k s t : skip_digits k s = Some t -> length t <= length s.
Proof.
  revert s. induction k as [|k IH]; intros s; simpl; [by intros [= ->]|].
  destruct (skip_digit s) as [u|] eqn:E; [|done].
  intros H. apply IH in H. apply skip_digit_length in E. lia.
Qed.

Lemma skip_digits_add a b s :
  skip_digits (a + b) s = match skip_digits a s with Some u => skip_digits b u | None => None end.
Proof.
  revert s. induction a as [|a IH]; intros s; [done|]. simpl.
  destruct (skip_digit s); [apply IH|done].
Qed.

Lemma In_digit_group_single n s t :
  length s <= n -> In t (digit_group n [s]) <-> skip_digit s = Some t.
Proof.
  revert n. induction s as [|c s IH]; intros n Hn.
  - unfold digit_group. destruct n; simpl; [split; done|].
    rewrite re_upto_nil. simpl. split; done.
  - destruct n as [|m]; simpl in Hn; [lia|].
    unfold digit_group. cbn [re_upto]. rewrite re_one_app, !re_one_single. simpl.
    destruct (is_digit c) eqn:Hd; simpl.
    + rewrite re_upto_nil. simpl. split; [intros [->|[]]|intros [= ->]; left]; done.
    + apply IH. lia.
Qed.

Lemma In_digit_group_app n l1 l2 t :
  In t (digit_group n (l1 ++ l2)) <-> In t (digit_group n l1) \/ In t (digit_group n l2).
Proof.
  unfold digit_group, re_one. rewrite !in_flat_map.
  setoid_rewrite In_re_upto_app. firstorder.
Qed.

Lemma In_digit_group n l t :
  Forall (fun s => length s <= n) l ->
  In t (digit_group n l) <-> exists s, In s l /\ skip_digit s = Some t.
Proof.
  induction l as [|s l IH]; intros Hl.
  - unfold digit_group. rewrite re_upto_nil. simpl. firstorder.
  - apply List.Forall_cons_iff in Hl as [Hs Hl].
    change (s :: l) with ([s] ++ l). rewrite In_digit_group_app, In_digit_group_single, IH by done.
    split; [intros [H|[u [Hu H]]]; eauto using in_eq, in_cons|].
    intros [u [[<-|Hu] H]]; eauto.
Qed.

Lemma In_iter_digit_group k n l t :
  Forall (fun s => length s <= n) l ->
  In t (Nat.iter k (digit_group n) l) <-> exists s, In s l /\ skip_digits k s = Some t.
Proof.
  revert l. induction k as [|k IH]; intros l Hl.
  - simpl. split; [eauto|intros [s [Hs [= ->]]]; done].
  - rewrite Nat.iter_succ_r, IH.
    + split.
      * intros [u [Hu Ht]]. apply In_digit_group in Hu as [s [Hs Hsu]]; [|done].
        exists s. simpl. rewrite Hsu. done.
      * intros [s [Hs Ht]]. simpl in Ht. destruct (skip_digit s) as [u|] eqn:E; [|done].
        exists u. split; [|done]. apply In_digit_group; eauto.
    + apply List.Forall_forall. intros u Hu. apply In_digit_group in Hu as [s [Hs Hsu]]; [|done].
      apply skip_digit_length in Hsu. eapply List.Forall_forall in Hl; [|exact Hs]. lia.
Qed.

Lemma ends_in_digit_cons c s :
  ends_in_digit (c :: s) <-> (s = [] /\ is_digit c = true) \/ ends_in_digit s.
Proof.
  split.
  - intros [[|a pre] [d [Heq Hd]]]; simpl in Heq; injection Heq as -> ->; [by left|].
    right. by exists pre, d.
  - intros [[-> Hd]|[pre [d [-> Hd]]]]; [by exists [], c|]. by exists (c :: pre), d.
Qed.

Lemma ends_in_digit_count cs : ends_in_digit cs -> 1 <= digit_count cs.
Proof.
  intros [pre [c [-> Hc]]]. unfold digit_count. rewrite List.filter_app, length_app.
  simpl. rewrite Hc. simpl. lia.
Qed.

Lemma skip_digits_nil_iff k cs :
  skip_digits k cs = Some [] <-> digit_count cs = k /\ (cs = [] \/ ends_in_digit cs).
Proof.
  revert k. induction cs as [|c s IH]; intros k.
  - destruct k; simpl; [split; auto|]. split; [done|]. intros [H _]. done.
  - destruct k as [|k].
    + split; [done|]. intros [H [?|He]]; [done|]. apply ends_in_digit_count in He. lia.
    + rewrite ends_in_digit_cons. unfold digit_count in *. simpl.
      destruct (is_digit c) eqn:Hd; simpl.
      * rewrite IH. split; [intros [-> [->|He]]; split; auto|].
        intros [[= Hk] [?|[[-> _]|He]]]; [done| |]; auto.
      * change (match skip_digit s with Some u => skip_digits k u | None => None end)
          with (skip_digits (S k) s). rewrite IH.
        split; [intros [Hk [->|He]]; [done|auto]|].
        intros [Hk [?|[[_ ?]|He]]]; [done|congruence|auto].
Qed.

Lemma merge_book_keeps_id v : keeps_id (merge_book v).
Proof. done. Qed.

(** C25: the ISBN pattern accepts exactly the strings of digits and
    hyphens with ten or thirteen digits whose last character is a digit:
    hyphens may lead or repeat but may not trail. *)
Theorem isbn_regex_test_iff s : isbn_regex_test s = true <-> isbn_spec s.
Proof.
  unfold isbn_regex_test, isbn_spec. set (cs := list_ascii_of_string s).
  assert (Hlen : Forall (fun u => length u <= length cs) [cs]) by (repeat constructor).
  assert (Hlook : existsb (fun rest => match rest with [] => true | _ => false end)
     (Nat.iter 10 (digit_group (length cs)) [cs] ++
      Nat.iter 3 (digit_group (length cs)) (Nat.iter 10 (digit_group (length cs)) [cs])) = true
    <-> skip_digits 10 cs = Some [] \/ skip_digits 13 cs = Some []).
  { rewrite existsb_exists. split.
    - intros [[|? ?] [Hin Hm]]; [|discriminate Hm]. apply in_app_or in Hin as [Hin|Hin].
      + left. apply In_iter_digit_group in Hin as [u [[<-|[]] H]]; done.
      + right. apply In_iter_digit_group in Hin as [u [Hu H]].
        * apply In_iter_digit_group in Hu as [w [[<-|[]] Hw]]; [|done].
          change 13 with (10 + 3). by rewrite skip_digits_add, Hw.
        * apply List.Forall_forall. intros u Hu.
          apply In_iter_digit_group in Hu as [w [[<-|[]] Hw]]; [|done].
          by apply skip_digits_length in Hw.
    - intros H. exists []. split; [|done]. apply in_or_app. destruct H as [H|H].
      + left. apply In_iter_digit_group; [done|]. eauto using in_eq.
      + right. change 13 with (10 + 3) in H. rewrite skip_digits_add in H.
        destruct (skip_digits 10 cs) as [u|] eqn:E; [|done].
        apply In_iter_digit_group.
        * apply List.Forall_forall. intros w Hw.
          apply In_iter_digit_group in Hw as [x [[<-|[]] Hx]]; [|done].
          by apply skip_digits_length in Hx.
        * exists u. split; [|done]. apply In_iter_digit_group; [done|]. eauto using in_eq. }
  rewrite !andb_true_iff, Hlook, negb_true_iff, forallb_forall, !skip_digits_nil_iff.
  rewrite <- List.Forall_forall. split.
  - intros [[Hc _] Hf]. split; [done|].
    assert (He : ends_in_digit cs)
      by (destruct Hc as [[H [Hs|Hs]]|[H [Hs|Hs]]]; try done; rewrite Hs in H; discriminate).
    split; [destruct Hc as [[H _]|[H _]]; auto|done].
  - intros [Hf [Hc He]]. split; [split|done].
    + destruct Hc; [left|right]; auto.
    + apply String.eqb_neq. intros ->. destruct He as [pre [c [Heq _]]].
      by destruct pre.
Qed.

(** The invariant of the catalogue, by [crud_reachable_inv]. *)
Lemma library_inv_holds isAdmin p :
  library_reachable isAdmin p -> unique_ids (items p) /\ Forall book_ok (items p).
Proof.
  apply (crud_reachable_inv _ _ _ _ _ (fun l => unique_ids l /\ Forall book_ok l)).
  - split; [decide_it|repeat constructor; simpl; lia].
  - intros q now v Hi Hv Hf. apply validate_book_counts in Hv.
    apply editOrAppend_inv; [apply merge_book_keeps_id|intros r _; exact Hv|exact Hv| |done].
    by apply (Hf now v).
  - eauto with campus.
Qed.

(** C21: every catalogue the page reaches has unique ids and books
    whose counts satisfy [0 < totalCopies] and [0 <= availableCopies <=
    totalCopies], whatever an administrator does, when each create draws
    a fresh id. *)
Theorem library_reachable_inv isAdmin p :
  library_reachable isAdmin p -> unique_ids (items p) /\ Forall book_ok (items p).
Proof. apply library_inv_holds. Qed.

(** On every reachable state the catalogue shows its empty message
    exactly when there is no book, and otherwise one row per book, each
    with a positive total and an available count between 0 and the
    total. *)
Theorem library_table_counts localeCompare isAdmin p :
  library_reachable isAdmin p ->
  match render_library localeCompare isAdmin (items p) with
  | NoBooks _ => items p = []
  | BookTable a rows =>
      a = isAdmin /\ length rows = length (items p) /\
      Forall (fun r => 0 < row_total r /\ 0 <= row_available r <= row_total r)%Z rows
  end.
Proof.
  intros Hr. destruct (library_inv_holds _ _ Hr) as [_ Hok].
  unfold render_library, sortedBooks.
  set (cmp := fun a b : Book => localeCompare (title a) (title b)).
  destruct (js_sort cmp (items p)) as [|b l] eqn:E.
  - apply length_zero_iff_nil. by rewrite <- (js_sort_length cmp), E.
  - rewrite <- E. split_and!; [done|by rewrite length_map, js_sort_length|].
    rewrite Forall_forall. intros r Hin. apply list_elem_of_In, in_map_iff in Hin as [b' [<- Hb]].
    apply js_sort_In, list_elem_of_In in Hb. rewrite Forall_forall in Hok. exact (Hok _ Hb).
Qed.

(** C40: On a reachable library page, opening Edit on a book, whose form
    [form.reset(editingBook)] fills with the book itself, and saving it
    unchanged leaves the catalogue exactly as it was. *)
Theorem library_edit_unchanged isAdmin p b now :
  library_reachable isAdmin p -> In b (items p) ->
  valid_book_values (form_reset (Some b)) = true ->
  items (handleFormSubmit now (form_reset (Some b)) (openEditModal b p)) = items p.
Proof.
  intros Hr Hin _. destruct (library_inv_holds isAdmin p Hr) as [Hu _].
  unfold handleFormSubmit, editOrAppend, afterSubmit. cbn [items editing openEditModal].
  apply (update_by_id_fixed _ _ b Hu Hin). by destruct b.
Qed.

Lemma library_reachable_inv_witness :
  let p := handleFormSubmit 1718000012345 sample_book_values (openAddModal (initialCrud initialBooks)) in
  library_reachable true p /\ (unique_ids (items p) /\ Forall book_ok (items p)).
Proof.
  assert (H0 : library_reachable true (openAddModal (initialCrud initialBooks))).
  { eapply (reach_step _ _ _ _ _ _ OpenAdd); [constructor| |constructor; [done|split; done]].
    intros now v Habs. discriminate Habs. }
  assert (H1 : library_reachable true
     (handleFormSubmit 1718000012345 sample_book_values (openAddModal (initialCrud initialBooks)))).
  { eapply (reach_step _ _ _ _ _ _ (Submit 1718000012345 sample_book_values)); [exact H0| |].
    - intros now v [= <- <-] _. decide_it.
    - constructor; vm_compute; reflexivity. }
  split; [exact H1|]. exact (library_reachable_inv true _ H1).
Defined.

Lemma library_edit_unchanged_witness :
  let b := mkBook "BK001" "The Great Gatsby" "F. Scott Fitzgerald" (Some "978-0743273565") 10 7 in
  library_reachable true (initialCrud initialBooks) /\ In b initialBooks /\
  valid_book_values (form_reset (Some b)) = true /\
  items (handleFormSubmit 0 (form_reset (Some b)) (openEditModal b (initialCrud initialBooks))) = initialBooks.
Proof.
  intros b. assert (H0 : library_reachable true (initialCrud initialBooks)) by constructor.
  assert (H1 : In b initialBooks) by (left; reflexivity).
  assert (H2 : valid_book_values (form_reset (Some b)) = true) by (vm_compute; reflexivity).
  split_and!; [exact H0|exact H1|exact H2|].
  exact (library_edit_unchanged true (initialCrud initialBooks) b 0 H0 H1 H2).
Defined.

End Library.
