(* ===== verification/Exams.v ===== *)
(** * Exam schedules (src/src/app/(app)/exams/page.tsx)

    The [ExamSchedule] record, the zod schema [examScheduleFormSchema]
    ([validate_exam], with its object-level refinement that the end date
    is not before the start date), the seeded schedules, the page's
    [handleFormSubmit] on the management page pattern of [Crud], and the
    table order [sortedSchedules] (latest start first).  date-fns'
    [parseISO(s).getTime()] is the parameter [parseISO] ([None] for an
    Invalid Date); the witnesses use [parse_ymd].
    [Module Page] holds the page's [openAddModal] with the values it resets
    the form to, [handleDeleteConfirm] with its toast, the delete
    confirmation and the heading. *)

From S2P Require Import Prelude JsRuntime EntityList Validation Crud.
From Stdlib Require Import Sorted.
From stdpp Require Import list_monad.
Import EntityList Validation Crud.

Module Exams.

Inductive ExamStatus := Upcoming | Ongoing | Completed | ResultsDeclared.

#[global] Instance exam_status_eq_dec : EqDecision ExamStatus.
Proof. solve_decision. Defined.

(** [interface ExamSchedule] (lines 55-62). *)
Record ExamSchedule := mkExam {
  id : string;
  examName : string;
  applicableClasses : list string;
  startDate : string;
  endDate : string;
  status : ExamStatus;
}.

#[global] Instance exam_keyed : Keyed ExamSchedule := id.

(** [ExamScheduleFormValues] (line 78). *)
Record ExamScheduleFormValues := mkExamValues {
  v_examName : string;
  v_applicableClasses : list string;
  v_startDate : string;
  v_endDate : string;
  v_status : ExamStatus;
}.

Section Schema.
(** [parseISO(s).getTime()]: [None] is an Invalid Date, whose time value
    is [NaN]. *)
Variable parseISO : string -> option Z.

(** [isValid(parseISO(date))] *)
Definition isValidISO (s : string) : bool :=
  match parseISO s with Some _ => true | None => false end.

(** [parseISO(data.endDate) >= parseISO(data.startDate)]: a comparison
    with [NaN] is false. *)
Definition date_ge (a b : string) : bool :=
  match parseISO a, parseISO b with
  | Some x, Some y => (y <=? x)%Z
  | _, _ => false
  end.

(** [examScheduleFormSchema] (lines 67-76): the failing checks in order;
    [status] is [z.enum(STATUS_OPTIONS)], which the type enforces. *)
Definition validate_exam (v : ExamScheduleFormValues) : list string :=
  ((if min_len 3 (v_examName v) then [] else ["examName"]) ++
  (if (1 <=? length (v_applicableClasses v))%nat then [] else ["applicableClasses"]) ++
  (if isValidISO (v_startDate v) then [] else ["startDate"]) ++
  (if isValidISO (v_endDate v) then [] else ["endDate"]) ++
  (if date_ge (v_endDate v) (v_startDate v) then [] else ["endDate"]))%list%string.

Definition valid_exam_values (v : ExamScheduleFormValues) : bool :=
  match validate_exam v with [] => true | _ => false end.

(** [sortedSchedules] (lines 176-178): [[...examSchedules].sort((a,b) =>
    parseISO(b.startDate).getTime() - parseISO(a.startDate).getTime())];
    a [NaN] difference counts as [+0]. *)
Definition by_start_desc (a b : ExamSchedule) : Z :=
  match parseISO (startDate b), parseISO (startDate a) with
  | Some x, Some y => (x - y)%Z
  | _, _ => 0%Z
  end.

Definition sortedSchedules (l : list ExamSchedule) : list ExamSchedule :=
  js_sort by_start_desc l.

(** A schedule has a name the schema accepts, a class, valid dates and
    ends no earlier than it starts. *)
Definition exam_ok (e : ExamSchedule) : Prop :=
  min_len 3 (examName e) = true /\ 1 <= length (applicableClasses e) /\
  exists x y, parseISO (startDate e) = Some x /\ parseISO (endDate e) = Some y /\ (x <= y)%Z.

(** In the table, [a] is listed before [b] only if it does not start later. *)
Definition starts_no_earlier (a b : ExamSchedule) : Prop :=
  match parseISO (startDate a), parseISO (startDate b) with
  | Some x, Some y => (y <= x)%Z
  | _, _ => True
  end.

(** ** The dialog *)

(** [format(parseISO(d), 'yyyy-MM-dd')]: [None] where [format] throws on
    an Invalid Date. *)
Definition format_iso (d : string) : option string :=
  match parseISO d with Some t => Some (format_ymd t) | None => None end.

(** The [form.reset] of an edited schedule (lines 106-111): its fields,
    both dates reformatted.  The spread also copies [id] into the form
    state; zod's object schema strips it from the submitted values. *)
Definition edit_form_values (e : ExamSchedule) : option ExamScheduleFormValues :=
  match format_iso (startDate e), format_iso (endDate e) with
  | Some s, Some t => Some (mkExamValues (examName e) (applicableClasses e) s t (status e))
  | _, _ => None
  end.

(** The [defaultValues] and the create [form.reset] (lines 96-102, 113-119
    and 149-155): today's date, [format(new Date(), 'yyyy-MM-dd')]. *)
Definition add_form_defaults (now : Z) : ExamScheduleFormValues :=
  mkExamValues "" [] (format_ymd now) (format_ymd now) Upcoming.

(** The effect of lines 105-121, run when the dialog opens. *)
Definition form_reset (now : Z) (editing : option ExamSchedule) : option ExamScheduleFormValues :=
  match editing with
  | Some e => edit_form_values e
  | None => Some (add_form_defaults now)
  end.

(** The date buttons (lines 270 and 304): [field.value ?
    format(parseISO(field.value), 'PPP') : 'Pick a date']. *)
Definition date_button_text (v : string) : option string :=
  if v =ₛ "" then Some "Pick a date" else format_ppp (parseISO v).

(** A class checkbox (lines 230-238): [checked={field.value?.includes(c)}]
    and [onCheckedChange]. *)
Definition class_checked (c : string) (l : list string) : bool := existsb (String.eqb c) l.

Definition toggle_class (checked : bool) (c : string) (l : list string) : list string :=
  if checked then l ++ [c] else List.filter (fun v => negb (v =ₛ c)) l.

(** What the user can do in the dialog (lines 207-337): type the name,
    tick or untick a class, pick a day in a calendar (a [Date], its time
    value here) or clear it, choose a status. *)
Inductive ExamInput :=
  | SetExamName (s : string)
  | CheckClass (checked : bool) (c : string)
  | PickStart (d : option Z)
  | PickEnd (d : option Z)
  | SetStatus (st : ExamStatus).

(** A calendar's [onSelect={(date) => field.onChange(date ?
    format(date, 'yyyy-MM-dd') : '')}] (lines 279 and 313). *)
Definition picked_text (d : option Z) : string :=
  match d with Some t => format_ymd t | None => "" end.

Definition set_exam_field (i : ExamInput) (v : ExamScheduleFormValues) : ExamScheduleFormValues :=
  match i with
  | SetExamName s => mkExamValues s (v_applicableClasses v) (v_startDate v) (v_endDate v) (v_status v)
  | CheckClass b c => mkExamValues (v_examName v) (toggle_class b c (v_applicableClasses v))
                        (v_startDate v) (v_endDate v) (v_status v)
  | PickStart d => mkExamValues (v_examName v) (v_applicableClasses v) (picked_text d) (v_endDate v) (v_status v)
  | PickEnd d => mkExamValues (v_examName v) (v_applicableClasses v) (v_startDate v) (picked_text d) (v_status v)
  | SetStatus st => mkExamValues (v_examName v) (v_applicableClasses v) (v_startDate v) (v_endDate v) st
  end.

(** The dialog's title and submit label (lines 201-203 and 341), and the
    delete confirmation (line 353). *)
Definition dialog_title (editing : option ExamSchedule) : string :=
  match editing with Some _ => "Edit Exam Schedule" | None => "Add New Exam Schedule" end.

Definition submit_label (editing : option ExamSchedule) : string :=
  match editing with Some _ => "Save Changes" | None => "Add Schedule" end.

Definition delete_description (e : ExamSchedule) : string :=
  "This action cannot be undone. This will permanently delete the exam schedule: " ++
  String (ascii_of_nat 34) (examName e ++ String (ascii_of_nat 34) ".").

(** ** The table *)

Definition status_text (st : ExamStatus) : string :=
  match st with
  | Upcoming => "Upcoming" | Ongoing => "Ongoing" | Completed => "Completed"
  | ResultsDeclared => "Results Declared"
  end.

(** The status badge's colour classes (lines 396-402). *)
Definition status_class (st : ExamStatus) : string :=
  match st with
  | Upcoming => "bg-blue-100 text-blue-700" | Ongoing => "bg-yellow-100 text-yellow-700"
  | Completed => "bg-green-100 text-green-700" | ResultsDeclared => "bg-purple-100 text-purple-700"
  end.

(** A table row (lines 390-416). *)
Record ExamRow := mkExamRow {
  row_name : string;
  row_classes : string;
  row_start : string;
  row_end : string;
  row_status : string;
  row_badge : string;
  row_actions : bool;
}.

Definition exam_row (isAdmin : bool) (e : ExamSchedule) : option ExamRow :=
  match format_ppp (parseISO (startDate e)), format_ppp (parseISO (endDate e)) with
  | Some s, Some t =>
      Some (mkExamRow (examName e) (js_join ", " (applicableClasses e)) s t
              (status_text (status e)) (status_class (status e)) isAdmin)
  | _, _ => None
  end.

Inductive ExamsView :=
  | NoSchedules (hint : string)
  | ScheduleTable (actionsColumn : bool) (rows : list ExamRow).

(** The card of lines 369-421; [None] when a cell's [format] throws. *)
Definition render_exams (isAdmin : bool) (l : list ExamSchedule) : option ExamsView :=
  match sortedSchedules l with
  | [] => Some (NoSchedules (if isAdmin then "Start by adding new exam schedules."
                             else "No exam schedules are currently defined."))
  | sorted => ScheduleTable isAdmin <$> mapM (exam_row isAdmin) sorted
  end.
End Schema.

(** [initialExamSchedules] (lines 80-84). *)
Definition initialExamSchedules : list ExamSchedule :=
  [mkExam "EXM001" "Mid-Term Exams 2024" ["10"; "11"; "12"] "2024-09-15" "2024-09-30" Upcoming;
   mkExam "EXM002" "Annual Exams 2024 - Junior Wing" ["NC"; "1"; "2"; "3"; "4"; "5"]
     "2024-03-01" "2024-03-15" Completed;
   mkExam "EXM003" "Unit Test 1 - Seniors" ["9"; "10"] "2024-07-20" "2024-07-25" Ongoing]%string.

(** [{ ...s, ...values }] (line 126). *)
Definition merge_exam (v : ExamScheduleFormValues) (e : ExamSchedule) : ExamSchedule :=
  mkExam (id e) (v_examName v) (v_applicableClasses v) (v_startDate v) (v_endDate v) (v_status v).

(** [{ id: `EXM${Date.now().toString().slice(-4)}`, ...values }] (lines 133-136). *)
Definition new_exam (now : N) (v : ExamScheduleFormValues) : ExamSchedule :=
  mkExam (gen_id "EXM" now) (v_examName v) (v_applicableClasses v) (v_startDate v)
    (v_endDate v) (v_status v).

(** [handleFormSubmit] (lines 123-145). *)
Definition handleFormSubmit (now : N) (v : ExamScheduleFormValues)
    (p : CrudPage ExamSchedule) : CrudPage ExamSchedule :=
  editOrAppend (merge_exam v) (new_exam now v) p.

Definition fresh_exam (p : CrudPage ExamSchedule) (e : event ExamSchedule ExamScheduleFormValues) : Prop :=
  forall now v, e = Submit now v -> editing p = None -> gen_id "EXM" now ∉ ids (items p).

Definition exams_reachable (parseISO : string -> option Z) (isAdmin : bool) :=
  reachable handleFormSubmit (valid_exam_values parseISO) isAdmin fresh_exam initialExamSchedules.

(** ** The page's own handlers and heading

    The page's copies of the shared handlers (see [Crud]), with the form
    values [openAddModal] resets and the toast [handleDeleteConfirm]
    shows, and the heading with its "Add" button. *)

Module Page.

(** [openAddModal] (lines 147-157): the form is reset to today's
    create values. *)
Definition openAddModal (now : Z) (p : CrudPage ExamSchedule) : CrudPage ExamSchedule * ExamScheduleFormValues :=
  openAddReset (add_form_defaults now) p.

(** The toast of [handleDeleteConfirm] (lines 167-171). *)
Definition delete_toast (s : ExamSchedule) : string * string :=
  ("Exam Schedule Deleted", "Schedule " ++ dq ++ examName s ++ dq ++ " has been removed.")%string.

(** [handleDeleteConfirm] (lines 164-174). *)
Definition handleDeleteConfirm (p : CrudPage ExamSchedule) : CrudPage ExamSchedule * option (string * string) :=
  deleteConfirmToast delete_toast p.

(** The heading and its "Add Exam Schedule" button (lines 182-196). *)
Definition header : PageHeader :=
  mkPageHeader "Exam Schedule Management" "Define and manage exam schedules for various classes."
    "Add Exam Schedule".


(** The delete confirmation (lines 348-361). *)
Definition confirm_dialog (a : AlertAction) (p : CrudPage ExamSchedule) : CrudPage ExamSchedule :=
  confirmDialog a p.

End Page.

(** ** Lemmas *)

Section Facts.
Variable parseISO : string -> option Z.

Lemma validate_exam_ok v :
  valid_exam_values parseISO v = true ->
  min_len 3 (v_examName v) = true /\ 1 <= length (v_applicableClasses v) /\
  exists x y, parseISO (v_startDate v) = Some x /\ parseISO (v_endDate v) = Some y /\ (x <= y)%Z.
Proof.
  unfold valid_exam_values, validate_exam, date_ge, isValidISO.
  destruct (parseISO (v_startDate v)) as [x|], (parseISO (v_endDate v)) as [y|];
    destruct (min_len 3 _), (Nat.leb_spec 1 (length (v_applicableClasses v)));
    try destruct (Z.leb_spec x y); simpl; try discriminate; intros _; split; [done|]; eauto 6.
Qed.

Lemma by_start_desc_antisym a b :
  Z.sgn (by_start_desc parseISO a b) = (- Z.sgn (by_start_desc parseISO b a))%Z.
Proof.
  unfold by_start_desc.
  destruct (parseISO (startDate a)), (parseISO (startDate b)); try reflexivity.
  rewrite <- Z.sgn_opp. f_equal. lia.
Qed.

Lemma exams_inv isAdmin p :
  Forall (exam_ok parseISO) initialExamSchedules ->
  exams_reachable parseISO isAdmin p ->
  unique_ids (items p) /\ Forall (exam_ok parseISO) (items p).
Proof.
  intros Hseed.
  apply (crud_reachable_inv _ _ _ _ _ (fun l => unique_ids l /\ Forall (exam_ok parseISO) l)).
  - split; [decide_it|exact Hseed].
  - intros q now v Hi Hv Hf. apply validate_exam_ok in Hv.
    apply editOrAppend_inv; [done|intros r _; exact Hv|exact Hv| |done].
    by apply (Hf now v).
  - eauto with campus.
Qed.

Lemma exam_row_ok isAdmin e : exam_ok parseISO e -> is_Some (exam_row parseISO isAdmin e).
Proof.
  intros (_ & _ & x & y & Hx & Hy & _). unfold exam_row. rewrite Hx, Hy.
  destruct (format_ppp_valid x) as [s ->], (format_ppp_valid y) as [t ->]. by eexists.
Qed.

(** C22: if the seeded schedules are valid for the date parser,
    every schedule list the page reaches has unique ids and schedules
    with a valid name, a class and an end date no earlier than the start
    date. *)
Theorem exams_reachable_inv isAdmin p :
  Forall (exam_ok parseISO) initialExamSchedules ->
  exams_reachable parseISO isAdmin p ->
  unique_ids (items p) /\ Forall (exam_ok parseISO) (items p).
Proof. apply exams_inv. Qed.

(** The schedule card renders on every reachable state: no date cell
    throws, the empty message shows exactly when there is no schedule,
    and otherwise the table has one row per schedule and the Actions
    column exactly for an administrator. *)
Theorem exams_page_renders isAdmin p :
  Forall (exam_ok parseISO) initialExamSchedules ->
  exams_reachable parseISO isAdmin p ->
  exists v, render_exams parseISO isAdmin (items p) = Some v /\
    match v with
    | NoSchedules _ => items p = []
    | ScheduleTable a rows => a = isAdmin /\ length rows = length (items p)
    end.
Proof.
  intros Hseed Hr. destruct (exams_inv isAdmin p Hseed Hr) as [_ Hok].
  pose proof (js_sort_perm (by_start_desc parseISO) (items p)) as Hp.
  unfold render_exams, sortedSchedules in *.
  destruct (js_sort _ (items p)) as [|e l] eqn:Es.
  - eexists. split; [reflexivity|]. by apply Permutation_nil.
  - destruct (mapM_rows_total (exam_row parseISO isAdmin) (items p) (e :: l) Hp) as (k & Hk & Hl).
    { intros r Hin. apply exam_row_ok. by eapply List.Forall_forall. }
    rewrite Hk. by eexists.
Qed.

(** The table lists the schedules latest start first, and
    lists each schedule once. *)
Theorem sortedSchedules_order l :
  Sorted (starts_no_earlier parseISO) (sortedSchedules parseISO l) /\
  Permutation (sortedSchedules parseISO l) l.
Proof.
  split; [|apply js_sort_perm].
  eapply Sorted_weaken; [|apply js_sort_sorted, by_start_desc_antisym].
  intros a b. unfold cmp_le, by_start_desc, starts_no_earlier.
  destruct (parseISO (startDate a)), (parseISO (startDate b)); lia.
Qed.
End Facts.

(** The calendars and the schema agree: a name of three or more
    characters, a ticked class and two days picked in the calendars, the
    start not after the end, pass the schema, since the picked days are
    written as [yyyy-MM-dd] strings that [parseISO] reads back; clearing
    the start date makes the schema report it. *)
Theorem exam_form_calendar v ys ms ds ye me de :
  (0 <= ys < 10000)%Z -> valid_ymd ys ms ds = true ->
  (0 <= ye < 10000)%Z -> valid_ymd ye me de = true ->
  (days_from_civil ys ms ds <= days_from_civil ye me de)%Z ->
  min_len 3 (v_examName v) = true -> 1 <= length (v_applicableClasses v) ->
  valid_exam_values parse_ymd
    (set_exam_field (PickEnd (Some (days_from_civil ye me de * 86400000)%Z))
       (set_exam_field (PickStart (Some (days_from_civil ys ms ds * 86400000)%Z)) v)) = true /\
  In "startDate"%string (validate_exam parse_ymd (set_exam_field (PickStart None) v)).
Proof.
  intros Hys Hs Hye He Hle Hn Hc. split.
  - unfold valid_exam_values, validate_exam, isValidISO, date_ge. cbn [set_exam_field picked_text
      v_examName v_applicableClasses v_startDate v_endDate].
    rewrite Hn, !format_parse_ymd by done.
    destruct (Nat.leb_spec 1 (length (v_applicableClasses v))); [|lia].
    replace (days_from_civil ys ms ds * 86400000 <=? days_from_civil ye me de * 86400000)%Z with true
      by (symmetry; apply Z.leb_le; lia).
    reflexivity.
  - unfold validate_exam, isValidISO. cbn [set_exam_field picked_text v_startDate].
    replace (parse_ymd "") with (@None Z) by reflexivity.
    apply in_or_app. right. apply in_or_app. right. apply in_or_app. left. by left.
Qed.

Lemma exams_seed_ok : Forall (exam_ok parse_ymd) initialExamSchedules.
Proof.
  unfold initialExamSchedules. repeat (apply List.Forall_cons;
    [split; [reflexivity|split; [simpl; lia|eexists _, _; split; [vm_compute; reflexivity|]]];
     split; [vm_compute; reflexivity|lia]|]).
  apply List.Forall_nil.
Qed.

(** C14: opening Edit on any schedule of a reachable state and saving the
    form unchanged passes the schema and leaves the schedule list as it
    was: the dialog's [format(parseISO(d), 'yyyy-MM-dd')] gives back each
    stored date. *)
Theorem exam_edit_unchanged isAdmin p e now clock :
  exams_reachable parse_ymd isAdmin p -> In e (items p) ->
  exists v, form_reset parse_ymd clock (Some e) = Some v /\
    valid_exam_values parse_ymd v = true /\
    items (handleFormSubmit now v (openEditModal e p)) = items p.
Proof.
  intros Hr Hin. destruct (exams_inv parse_ymd isAdmin p exams_seed_ok Hr) as [Hu Hok].
  rewrite List.Forall_forall in Hok.
  destruct (Hok e Hin) as (Hn & Hc & x & y & Hx & Hy & Hxy).
  eexists. split.
  { unfold form_reset, edit_form_values, format_iso.
    rewrite Hx, Hy, (parse_format_ymd _ _ Hx), (parse_format_ymd _ _ Hy). reflexivity. }
  split.
  - unfold valid_exam_values, validate_exam, isValidISO, date_ge. cbn [v_examName v_applicableClasses
      v_startDate v_endDate]. rewrite Hn, Hx, Hy.
    destruct (Nat.leb_spec 1 (length (applicableClasses e))); [|lia].
    rewrite (proj2 (Z.leb_le x y) Hxy). reflexivity.
  - unfold handleFormSubmit, editOrAppend, afterSubmit. cbn [items editing openEditModal].
    apply update_by_id_fixed; [done|done|]. by destruct e.
Qed.

Lemma exams_reachable_inv_witness :
  let p := handleFormSubmit 1718000012345
             (mkExamValues "Final Exams 2024" ["12"] "2024-11-01" "2024-11-20" Upcoming)
             (openAddModal (initialCrud initialExamSchedules)) in
  Forall (exam_ok parse_ymd) initialExamSchedules /\ exams_reachable parse_ymd true p /\
  (unique_ids (items p) /\ Forall (exam_ok parse_ymd) (items p)).
Proof.
  pose proof exams_seed_ok as Hseed.
  assert (H0 : exams_reachable parse_ymd true (openAddModal (initialCrud initialExamSchedules))).
  { eapply (reach_step _ _ _ _ _ _ OpenAdd); [constructor| |constructor; [done|split; done]].
    intros now v Habs. discriminate Habs. }
  assert (H1 : exams_reachable parse_ymd true
     (handleFormSubmit 1718000012345
        (mkExamValues "Final Exams 2024" ["12"] "2024-11-01" "2024-11-20" Upcoming)
        (openAddModal (initialCrud initialExamSchedules)))).
  { eapply (reach_step _ _ _ _ _ _ (Submit 1718000012345 _)); [exact H0| |].
    - intros now v [= <- <-] _. decide_it.
    - constructor; vm_compute; reflexivity. }
  split; [exact Hseed|]. split; [exact H1|]. exact (exams_reachable_inv parse_ymd true _ Hseed H1).
Defined.

Lemma exams_page_renders_witness :
  Forall (exam_ok parse_ymd) initialExamSchedules /\
  exams_reachable parse_ymd true (initialCrud initialExamSchedules) /\
  exists v, render_exams parse_ymd true (items (initialCrud initialExamSchedules)) = Some v /\
    match v with
    | NoSchedules _ => items (initialCrud initialExamSchedules) = []
    | ScheduleTable a rows => a = true /\ length rows = length (items (initialCrud initialExamSchedules))
    end.
Proof.
  pose proof exams_seed_ok as Hseed.
  assert (H0 : exams_reachable parse_ymd true (initialCrud initialExamSchedules)) by constructor.
  split; [exact Hseed|]. split; [exact H0|].
  exact (exams_page_renders parse_ymd true _ Hseed H0).
Defined.

Lemma exam_edit_unchanged_witness :
  let p := initialCrud initialExamSchedules in
  let e := hd (mkExam "" "" [] "" "" Upcoming) initialExamSchedules in
  exams_reachable parse_ymd true p /\ In e (items p) /\
  exists v, form_reset parse_ymd 1731110400000 (Some e) = Some v /\
    valid_exam_values parse_ymd v = true /\
    items (handleFormSubmit 1731110412345 v (openEditModal e p)) = items p.
Proof.
  intros p e.
  assert (H0 : exams_reachable parse_ymd true p) by constructor.
  assert (H1 : In e (items p)) by (left; reflexivity).
  split; [exact H0|]. split; [exact H1|].
  exact (exam_edit_unchanged true p e 1731110412345 1731110400000 H0 H1).
Defined.

Lemma exam_form_calendar_witness :
  let v := mkExamValues "Final Exams 2024" ["12"] "" "" Upcoming in
  (0 <= 2024 < 10000)%Z /\ valid_ymd 2024 11 1 = true /\ (0 <= 2024 < 10000)%Z /\
  valid_ymd 2024 11 20 = true /\ (days_from_civil 2024 11 1 <= days_from_civil 2024 11 20)%Z /\
  min_len 3 (v_examName v) = true /\ 1 <= length (v_applicableClasses v) /\
  valid_exam_values parse_ymd
    (set_exam_field (PickEnd (Some (days_from_civil 2024 11 20 * 86400000)%Z))
       (set_exam_field (PickStart (Some (days_from_civil 2024 11 1 * 86400000)%Z)) v)) = true /\
  In "startDate"%string (validate_exam parse_ymd (set_exam_field (PickStart None) v)).
Proof.
  intros v.
  assert (H1 : (0 <= 2024 < 10000)%Z) by lia.
  assert (H2 : valid_ymd 2024 11 1 = true) by reflexivity.
  assert (H3 : valid_ymd 2024 11 20 = true) by reflexivity.
  assert (H4 : (days_from_civil 2024 11 1 <= days_from_civil 2024 11 20)%Z) by (vm_compute; discriminate).
  assert (H5 : min_len 3 (v_examName v) = true) by reflexivity.
  assert (H6 : 1 <= length (v_applicableClasses v)) by (simpl; lia).
  do 7 (split; [assumption|]).
  exact (exam_form_calendar v 2024 11 1 2024 11 20 H1 H2 H1 H3 H4 H5 H6).
Defined.

End Exams.
