(* ===== verification/Salaries.v ===== *)
(** * Salary management (src/src/app/(app)/salaries/page.tsx)

    The [SalaryRecord] record, the zod schema [salaryRecordFormSchema]
    ([validate_salary]), the teacher list [sampleTeachersForSalary], the
    page's [handleFormSubmit] (which returns early, leaving the dialog open,
    when the selected teacher is not in the list, computes [netSalary], and
    sets or keeps [paymentDate] for a paid record), the table order
    [sortedSalaryRecords], the dialog (its form reset, the teacher, month
    and year inputs disabled while editing, the inputs a user can make,
    the net salary preview) and the table with its [toFixed(2)] amounts
    and [format(.., 'PP')] payment dates.

    [salaries_reachable_inv] shows that every record the page reaches
    has [netSalary = basic + allowances - deductions], a known teacher, a
    payment date exactly when it is paid, and a month and amounts in the
    schema's bounds; [negative_net_salary_accepted] shows the schema lets
    the net salary go below zero.  Saving an edit unchanged gives the
    records back ([salary_edit_unchanged]) as long as the record's year is
    inside the schema's window around the current year, and never once
    it is not ([old_record_edit_rejected]): the year input is disabled in
    the edit dialog.  The table renders on every reachable state
    ([salaries_page_renders]).
    [Module Page] holds the page's [openAddModal] with the values it resets
    the form to, [handleDeleteConfirm] with its toast, the delete
    confirmation and the heading. *)

From S2P Require Import Prelude JsRuntime EntityList Validation Crud.
From Stdlib Require Import Sorted.
From stdpp Require Import list_monad.
Import EntityList Validation Crud.

Module Salaries.

Inductive PaymentStatus := Paid | Pending.

#[global] Instance payment_status_eq_dec : EqDecision PaymentStatus.
Proof. solve_decision. Defined.

(** [interface SalaryRecord] (lines 51-63); the amounts are whole numbers. *)
Record SalaryRecord := mkSalary {
  id : string;
  teacherId : string;
  teacherName : string;
  month : Z;
  year : Z;
  basicSalary : Z;
  totalAllowances : Z;
  totalDeductions : Z;
  netSalary : Z;
  paymentStatus : PaymentStatus;
  paymentDate : option string;
}.

#[global] Instance salary_keyed : Keyed SalaryRecord := id.

(** [SalaryRecordFormValues] (line 83). *)
Record SalaryRecordFormValues := mkSalaryValues {
  v_teacherId : string;
  v_month : Z;
  v_year : Z;
  v_basicSalary : Z;
  v_totalAllowances : Z;
  v_totalDeductions : Z;
  v_paymentStatus : PaymentStatus;
}.

Record TeacherRef := mkTeacherRef { t_id : string; t_name : string }.

(** [sampleTeachersForSalary] (lines 66-71). *)
Definition sampleTeachersForSalary : list TeacherRef :=
  [mkTeacherRef "T2001" "Dr. Eleanor Vance"; mkTeacherRef "T2002" "Mr. Samuel Green";
   mkTeacherRef "T2003" "Ms. Olivia Chen"; mkTeacherRef "T2004" "Mr. David Lee"]%string.

(** [sampleTeachersForSalary.find(t => t.id === values.teacherId)] (line 150). *)
Definition find_teacher (tid : string) : option TeacherRef :=
  List.find (fun t => t_id t =ₛ tid) sampleTeachersForSalary.

(** [salaryRecordFormSchema] (lines 73-81); [currentYear] is
    [new Date().getFullYear()]. *)
Definition validate_salary (currentYear : Z) (v : SalaryRecordFormValues) : list string :=
  ((if min_len 1 (v_teacherId v) then [] else ["teacherId"]) ++
  (if (1 <=? v_month v)%Z && (v_month v <=? 12)%Z then [] else ["month"]) ++
  (if (currentYear - 5 <=? v_year v)%Z && (v_year v <=? currentYear + 1)%Z then [] else ["year"]) ++
  (if (0 <? v_basicSalary v)%Z then [] else ["basicSalary"]) ++
  (if (0 <=? v_totalAllowances v)%Z then [] else ["totalAllowances"]) ++
  (if (0 <=? v_totalDeductions v)%Z then [] else ["totalDeductions"]))%list%string.

Definition valid_salary_values (currentYear : Z) (v : SalaryRecordFormValues) : bool :=
  match validate_salary currentYear v with [] => true | _ => false end.

(** [values.basicSalary + values.totalAllowances - values.totalDeductions] (line 156). *)
Definition net_of (v : SalaryRecordFormValues) : Z :=
  v_basicSalary v + v_totalAllowances v - v_totalDeductions v.

(** [initialSalaryRecords] (lines 85-89); [new Date(2024,5,28).toISOString()]
    is written for a UTC clock. *)
Definition initialSalaryRecords : list SalaryRecord :=
  [mkSalary "SR1" "T2001" "Dr. Eleanor Vance" 6 2024 50000 5000 2000 53000 Paid
     (Some "2024-06-28T00:00:00.000Z");
   mkSalary "SR2" "T2002" "Mr. Samuel Green" 6 2024 55000 6000 2500 58500 Pending None;
   mkSalary "SR3" "T2001" "Dr. Eleanor Vance" 5 2024 50000 5000 2000 53000 Paid
     (Some "2024-05-30T00:00:00.000Z")]%string.

Section Handlers.
(** [new Date().toISOString()] at the clock [now]. *)
Variable toISOString : N -> string.

(** The edit branch's record (lines 161-167): [{ ...r, ...values,
    teacherName, netSalary, paymentDate: values.paymentStatus === 'Paid'
    ? (r.paymentDate || new Date().toISOString()) : undefined }]. *)
Definition merge_salary (now : N) (t : TeacherRef) (v : SalaryRecordFormValues)
    (r : SalaryRecord) : SalaryRecord :=
  mkSalary (id r) (v_teacherId v) (t_name t) (v_month v) (v_year v) (v_basicSalary v)
    (v_totalAllowances v) (v_totalDeductions v) (net_of v) (v_paymentStatus v)
    (match v_paymentStatus v with
     | Paid => match paymentDate r with
               | Some d => if d =ₛ "" then Some (toISOString now) else Some d
               | None => Some (toISOString now)
               end
     | Pending => None
     end).

(** The create branch's record (lines 175-181). *)
Definition new_salary (now : N) (t : TeacherRef) (v : SalaryRecordFormValues) : SalaryRecord :=
  mkSalary (gen_id "SR" now) (v_teacherId v) (t_name t) (v_month v) (v_year v)
    (v_basicSalary v) (v_totalAllowances v) (v_totalDeductions v) (net_of v)
    (v_paymentStatus v)
    (match v_paymentStatus v with Paid => Some (toISOString now) | Pending => None end).

(** [handleFormSubmit] (lines 149-190): an unknown teacher returns before
    any state is set, so the dialog stays open. *)
Definition handleFormSubmit (now : N) (v : SalaryRecordFormValues)
    (p : CrudPage SalaryRecord) : CrudPage SalaryRecord :=
  match find_teacher (v_teacherId v) with
  | None => p
  | Some t => editOrAppend (merge_salary now t v) (new_salary now t v) p
  end.
End Handlers.

(** [sortedSalaryRecords] (lines 223-225): [b.year - a.year || b.month -
    a.month || a.teacherName.localeCompare(b.teacherName)]; [||] goes on
    when the difference is [0]. *)
Definition by_period_desc (localeCompare : string -> string -> Z) (a b : SalaryRecord) : Z :=
  let dy := (year b - year a)%Z in
  if negb (dy =? 0)%Z then dy
  else let dm := (month b - month a)%Z in
  if negb (dm =? 0)%Z then dm
  else localeCompare (teacherName a) (teacherName b).

Definition sortedSalaryRecords localeCompare (l : list SalaryRecord) : list SalaryRecord :=
  js_sort (by_period_desc localeCompare) l.

Definition fresh_salary (p : CrudPage SalaryRecord)
    (e : event SalaryRecord SalaryRecordFormValues) : Prop :=
  forall now v, e = Submit now v -> editing p = None -> gen_id "SR" now ∉ ids (items p).

Definition salaries_reachable toISOString currentYear isAdmin :=
  reachable (handleFormSubmit toISOString) (valid_salary_values currentYear) isAdmin
    fresh_salary initialSalaryRecords.

(** The fields the schema bounds independently of the clock. *)
Definition fields_ok (r : SalaryRecord) : Prop :=
  (1 <= month r <= 12)%Z /\ (0 < basicSalary r)%Z /\ (0 <= totalAllowances r)%Z /\
  (0 <= totalDeductions r)%Z.

(** A record is consistent: its net salary is computed from its parts,
    its teacher is in the list under its name, it has a (non-empty)
    payment date exactly when it is paid, and its month and amounts are
    in the schema's bounds. *)
Definition salary_ok (r : SalaryRecord) : Prop :=
  netSalary r = (basicSalary r + totalAllowances r - totalDeductions r)%Z /\
  find_teacher (teacherId r) = Some (mkTeacherRef (teacherId r) (teacherName r)) /\
  match paymentStatus r with
  | Paid => exists d, paymentDate r = Some d /\ d <> ""%string
  | Pending => paymentDate r = None
  end /\ fields_ok r.

(** ** The dialog *)

(** The [form.reset] of an edited record (lines 127-135). *)
Definition edit_form_values (r : SalaryRecord) : SalaryRecordFormValues :=
  mkSalaryValues (teacherId r) (month r) (year r) (basicSalary r) (totalAllowances r)
    (totalDeductions r) (paymentStatus r).

(** The [defaultValues] and the create [form.reset] (lines 103-111,
    137-145 and 194-202): [new Date().getMonth() + 1] and
    [new Date().getFullYear()]. *)
Definition add_form_defaults (currentMonth currentYear : Z) : SalaryRecordFormValues :=
  mkSalaryValues "" currentMonth currentYear 0 0 0 Pending.

(** The effect of lines 125-147. *)
Definition form_reset (currentMonth currentYear : Z) (editing : option SalaryRecord)
    : SalaryRecordFormValues :=
  match editing with
  | Some r => edit_form_values r
  | None => add_form_defaults currentMonth currentYear
  end.

(** [disabled={!!editingRecord}] on the teacher, month and year inputs
    (lines 264, 281 and 297). *)
Definition period_locked (editing : option SalaryRecord) : bool :=
  match editing with Some _ => true | None => false end.

(** What the user can change in the dialog. *)
Inductive SalaryInput :=
  | SetTeacher (tid : string) | SetMonth (m : Z) | SetYear (y : Z)
  | SetBasic (z : Z) | SetAllowances (z : Z) | SetDeductions (z : Z)
  | SetStatus (st : PaymentStatus).

(** A change of one field; a disabled input takes no input. *)
Definition set_field (locked : bool) (i : SalaryInput) (v : SalaryRecordFormValues)
    : SalaryRecordFormValues :=
  match i with
  | SetTeacher t => if locked then v else
      mkSalaryValues t (v_month v) (v_year v) (v_basicSalary v) (v_totalAllowances v)
        (v_totalDeductions v) (v_paymentStatus v)
  | SetMonth m => if locked then v else
      mkSalaryValues (v_teacherId v) m (v_year v) (v_basicSalary v) (v_totalAllowances v)
        (v_totalDeductions v) (v_paymentStatus v)
  | SetYear y => if locked then v else
      mkSalaryValues (v_teacherId v) (v_month v) y (v_basicSalary v) (v_totalAllowances v)
        (v_totalDeductions v) (v_paymentStatus v)
  | SetBasic z => mkSalaryValues (v_teacherId v) (v_month v) (v_year v) z
      (v_totalAllowances v) (v_totalDeductions v) (v_paymentStatus v)
  | SetAllowances z => mkSalaryValues (v_teacherId v) (v_month v) (v_year v) (v_basicSalary v)
      z (v_totalDeductions v) (v_paymentStatus v)
  | SetDeductions z => mkSalaryValues (v_teacherId v) (v_month v) (v_year v) (v_basicSalary v)
      (v_totalAllowances v) z (v_paymentStatus v)
  | SetStatus st => mkSalaryValues (v_teacherId v) (v_month v) (v_year v) (v_basicSalary v)
      (v_totalAllowances v) (v_totalDeductions v) st
  end.

(** The form after a sequence of inputs. *)
Definition fill_form (locked : bool) (inputs : list SalaryInput) (v : SalaryRecordFormValues)
    : SalaryRecordFormValues :=
  fold_left (fun acc i => set_field locked i acc) inputs v.

(** [calculatedNetSalary] (lines 118-123): [Number(x) || 0] of each
    watched amount, [None] standing for [NaN]. *)
Definition calculatedNetSalary (basic allowances deductions : option Z) : Z :=
  (default 0 basic + default 0 allowances - default 0 deductions)%Z.

(** ** The table *)

(** [MONTH_NAMES] (line 91). *)
Definition MONTH_NAMES : list string :=
  ["January"; "February"; "March"; "April"; "May"; "June"; "July"; "August";
   "September"; "October"; "November"; "December"]%string.

(** [MONTH_NAMES[m-1]]; an index outside the array is [undefined],
    which JSX renders as nothing. *)
Definition month_label (m : Z) : string :=
  if (1 <=? m)%Z && (m <=? 12)%Z then nth (Z.to_nat (m - 1)) MONTH_NAMES "" else "".

Definition status_text (st : PaymentStatus) : string :=
  match st with Paid => "Paid" | Pending => "Pending" end.

(** The badge classes (line 426). *)
Definition status_class (st : PaymentStatus) : string :=
  match st with
  | Paid => "bg-green-100 text-green-700 dark:bg-green-700 dark:text-green-100"
  | Pending => "bg-yellow-100 text-yellow-700 dark:bg-yellow-700 dark:text-yellow-100"
  end.

Record SalaryRow := mkSalaryRow {
  sr_teacher : string;
  sr_period : string;
  sr_basic : string;
  sr_allowances : string;
  sr_deductions : string;
  sr_net : string;
  sr_status : string;
  sr_badge : string;
  sr_paid_on : string;
  sr_actions : bool;
}.

Section Render.
(** [new Date(s).getTime()] on a payment date string. *)
Variable dateParse : string -> option Z.

(** [record.paymentDate ? format(new Date(record.paymentDate), 'PP') : '-']
    (line 430). *)
Definition paid_on_text (d : option string) : option string :=
  match d with
  | Some s => if s =ₛ "" then Some "-" else format_pp (dateParse s)
  | None => Some "-"
  end.

(** A table row (lines 418-441); [None] when the date cell throws. *)
Definition salary_row (isAdmin : bool) (r : SalaryRecord) : option SalaryRow :=
  match paid_on_text (paymentDate r) with
  | Some pd =>
      Some (mkSalaryRow (teacherName r) (month_label (month r) ++ " " ++ js_int_to_string (year r))
              ("$" ++ js_to_fixed2 (basicSalary r)) ("$" ++ js_to_fixed2 (totalAllowances r))
              ("$" ++ js_to_fixed2 (totalDeductions r)) ("$" ++ js_to_fixed2 (netSalary r))
              (status_text (paymentStatus r)) (status_class (paymentStatus r)) pd isAdmin)
  | None => None
  end.

Inductive SalariesView :=
  | NoSalaryRecords (hint : string)
  | SalaryTable (actionsColumn : bool) (rows : list SalaryRow).

(** The card of lines 394-446. *)
Definition render_salaries (localeCompare : string -> string -> Z) (isAdmin : bool)
    (l : list SalaryRecord) : option SalariesView :=
  match sortedSalaryRecords localeCompare l with
  | [] => Some (NoSalaryRecords (if isAdmin then "Start by adding salary records."
                                 else "No salary records are currently available."))
  | sorted => SalaryTable isAdmin <$> mapM (salary_row isAdmin) sorted
  end.
End Render.

(** The dialog's title and submit label (lines 252-254 and 366). *)
Definition dialog_title (editing : option SalaryRecord) : string :=
  match editing with Some _ => "Edit Salary Record" | None => "Add New Salary Record" end.

Definition submit_label (editing : option SalaryRecord) : string :=
  match editing with Some _ => "Save Changes" | None => "Add Record" end.

(** The delete confirmation (line 378). *)
Definition delete_description (r : SalaryRecord) : string :=
  "This action cannot be undone. This will permanently delete the salary record for " ++
  teacherName r ++ " (" ++ month_label (month r) ++ " " ++ js_int_to_string (year r) ++ ").".

(** [a] is listed before [b] only if its period (year, then month) is
    not earlier. *)
Definition period_no_earlier (a b : SalaryRecord) : Prop :=
  (year b < year a)%Z \/ (year b = year a /\ (month b <= month a)%Z).

Definition sample_iso (_ : N) : string := "2024-06-30T10:00:00.000Z".

(** The day of an ISO timestamp, read as [parseISO] reads its date part. *)
Definition iso_day_parse (s : string) : option Z := parse_ymd (substring 0 10 s).

Definition sample_salary_values : SalaryRecordFormValues :=
  mkSalaryValues "T2003" 6 2024 52000 4000 1500 Paid.

(** ** The page's own handlers and heading

    The page's copies of the shared handlers (see [Crud]), with the form
    values [openAddModal] resets and the toast [handleDeleteConfirm]
    shows, and the heading with its "Add" button. *)

Module Page.

(** [openAddModal] (lines 192-204): the create values of the current
    month and year. *)
Definition openAddModal (currentMonth currentYear : Z) (p : CrudPage SalaryRecord)
    : CrudPage SalaryRecord * SalaryRecordFormValues :=
  openAddReset (add_form_defaults currentMonth currentYear) p.

(** The toast of [handleDeleteConfirm] (lines 214-218). *)
Definition delete_toast (r : SalaryRecord) : string * string :=
  ("Salary Record Deleted", "Salary record for " ++ teacherName r ++ " has been removed.")%string.

(** [handleDeleteConfirm] (lines 211-221). *)
Definition handleDeleteConfirm (p : CrudPage SalaryRecord) : CrudPage SalaryRecord * option (string * string) :=
  deleteConfirmToast delete_toast p.

(** The heading and its "Add Salary Record" button (lines 230-244). *)
Definition header : PageHeader :=
  mkPageHeader "Teacher Salary Management" "Manage monthly salary records for teachers." "Add Salary Record".


(** The delete confirmation (lines 373-386). *)
Definition confirm_dialog (a : AlertAction) (p : CrudPage SalaryRecord) : CrudPage SalaryRecord :=
  confirmDialog a p.

End Page.

(** ** Lemmas *)

Lemma find_teacher_Some tid t :
  find_teacher tid = Some t -> t = mkTeacherRef tid (t_name t).
Proof.
  unfold find_teacher. intros H. apply find_some in H as [_ H].
  apply streq_true_iff in H. destruct t; simpl in *; by subst.
Qed.

(** What the schema guarantees of accepted values. *)
Lemma validate_salary_ok currentYear v :
  valid_salary_values currentYear v = true ->
  min_len 1 (v_teacherId v) = true /\ (1 <= v_month v <= 12)%Z /\
  (currentYear - 5 <= v_year v <= currentYear + 1)%Z /\
  (0 < v_basicSalary v)%Z /\ (0 <= v_totalAllowances v)%Z /\ (0 <= v_totalDeductions v)%Z.
Proof.
  unfold valid_salary_values, validate_salary.
  destruct (min_len 1 _), (Z.leb_spec 1 (v_month v)), (Z.leb_spec (v_month v) 12),
    (Z.leb_spec (currentYear - 5) (v_year v)), (Z.leb_spec (v_year v) (currentYear + 1)),
    (Z.ltb_spec 0 (v_basicSalary v)), (Z.leb_spec 0 (v_totalAllowances v)),
    (Z.leb_spec 0 (v_totalDeductions v)); simpl; try discriminate; intros _; lia.
Qed.

Lemma fields_ok_of_values currentYear v r :
  valid_salary_values currentYear v = true ->
  month r = v_month v -> basicSalary r = v_basicSalary v ->
  totalAllowances r = v_totalAllowances v -> totalDeductions r = v_totalDeductions v ->
  fields_ok r.
Proof.
  unfold fields_ok. intros Hv -> -> -> ->. apply validate_salary_ok in Hv. lia.
Qed.

Section Facts.
Variable toISOString : N -> string.
Hypothesis toISOString_nonempty : forall n, toISOString n <> ""%string.

Lemma merge_salary_ok currentYear now t v r :
  find_teacher (v_teacherId v) = Some t -> valid_salary_values currentYear v = true ->
  salary_ok (merge_salary toISOString now t v r).
Proof.
  intros Ht Hv. apply find_teacher_Some in Ht as Heq. split; [reflexivity|split; [|split]].
  - simpl. rewrite Ht, Heq at 1. by rewrite Heq.
  - simpl. destruct (v_paymentStatus v); [|done].
    destruct (paymentDate r) as [d|]; [destruct (String.eqb_spec d "")|]; eauto.
  - by eapply fields_ok_of_values.
Qed.

Lemma new_salary_ok currentYear now t v :
  find_teacher (v_teacherId v) = Some t -> valid_salary_values currentYear v = true ->
  salary_ok (new_salary toISOString now t v).
Proof.
  intros Ht Hv. apply find_teacher_Some in Ht as Heq. split; [reflexivity|split; [|split]].
  - simpl. rewrite Ht, Heq at 1. by rewrite Heq.
  - simpl. destruct (v_paymentStatus v); eauto.
  - by eapply fields_ok_of_values.
Qed.

Lemma salaries_inv currentYear isAdmin p :
  salaries_reachable toISOString currentYear isAdmin p ->
  unique_ids (items p) /\ Forall salary_ok (items p).
Proof.
  apply (crud_reachable_inv _ _ _ _ _ (fun l => unique_ids l /\ Forall salary_ok l)).
  - split; [decide_it|].
    repeat (apply List.Forall_cons; [split; [reflexivity|split; [reflexivity|split]];
      [simpl; eauto|unfold fields_ok; simpl; lia]|]).
    apply List.Forall_nil.
  - intros q now v Hi Hv Hf. unfold handleFormSubmit.
    destruct (find_teacher (v_teacherId v)) as [t|] eqn:Ht; [|done].
    apply editOrAppend_inv; [done|intros r _; by eapply merge_salary_ok|by eapply new_salary_ok| |done].
    by apply (Hf now v).
  - eauto with campus.
Qed.
End Facts.

Lemma by_period_desc_antisym localeCompare :
  (forall a b, Z.sgn (localeCompare a b) = (- Z.sgn (localeCompare b a))%Z) ->
  forall a b, Z.sgn (by_period_desc localeCompare a b) = (- Z.sgn (by_period_desc localeCompare b a))%Z.
Proof.
  intros Hlc a b. unfold by_period_desc.
  destruct (Z.eqb_spec (year b - year a) 0), (Z.eqb_spec (year a - year b) 0),
    (Z.eqb_spec (month b - month a) 0), (Z.eqb_spec (month a - month b) 0);
    simpl; try lia; first [apply Hlc | rewrite <- Z.sgn_opp; f_equal; lia].
Qed.

(** C23: every record the page reaches has its net salary equal
    to basic salary plus allowances minus deductions, a teacher of
    [sampleTeachersForSalary] with that teacher's name, a non-empty
    payment date exactly when it is paid, and a month and amounts within
    the schema's bounds; ids stay unique when each create draws a fresh
    id. *)
Theorem salaries_reachable_inv toISOString currentYear isAdmin p :
  (forall n, toISOString n <> ""%string) ->
  salaries_reachable toISOString currentYear isAdmin p ->
  unique_ids (items p) /\ Forall salary_ok (items p).
Proof. intros Hiso. by apply salaries_inv. Qed.

Lemma fill_form_locked_year inputs v : v_year (fill_form true inputs v) = v_year v.
Proof.
  unfold fill_form. revert v. induction inputs as [|i inputs IH]; intros v; [done|].
  simpl. rewrite IH. by destruct i.
Qed.

Lemma year_out_of_range_rejected currentYear v :
  (v_year v < currentYear - 5 \/ currentYear + 1 < v_year v)%Z ->
  valid_salary_values currentYear v = false.
Proof.
  intros Hy. apply not_true_iff_false. intros Hv.
  apply validate_salary_ok in Hv. lia.
Qed.

Lemma validate_salary_intro currentYear v :
  min_len 1 (v_teacherId v) = true -> (1 <= v_month v <= 12)%Z ->
  (currentYear - 5 <= v_year v <= currentYear + 1)%Z ->
  (0 < v_basicSalary v)%Z -> (0 <= v_totalAllowances v)%Z -> (0 <= v_totalDeductions v)%Z ->
  valid_salary_values currentYear v = true.
Proof.
  intros Ht Hm Hy Hb Ha Hd. unfold valid_salary_values, validate_salary. rewrite Ht.
  destruct (Z.leb_spec 1 (v_month v)), (Z.leb_spec (v_month v) 12),
    (Z.leb_spec (currentYear - 5) (v_year v)), (Z.leb_spec (v_year v) (currentYear + 1)),
    (Z.ltb_spec 0 (v_basicSalary v)), (Z.leb_spec 0 (v_totalAllowances v)),
    (Z.leb_spec 0 (v_totalDeductions v)); try lia; reflexivity.
Qed.

Lemma find_teacher_min_len tid t : find_teacher tid = Some t -> min_len 1 tid = true.
Proof.
  unfold find_teacher. intros H. apply find_some in H as [Hin Heq].
  apply streq_true_iff in Heq. subst tid.
  repeat destruct Hin as [<-|Hin]; [reflexivity..|done].
Qed.

(** A consistent record comes back from its own edit form. *)
Lemma merge_salary_edit_values toISOString now r :
  salary_ok r ->
  merge_salary toISOString now (mkTeacherRef (teacherId r) (teacherName r)) (edit_form_values r) r = r.
Proof.
  destruct r as [i tid tn m y b a d n st pd]. intros (Hn & _ & Hp & _). simpl in *.
  unfold merge_salary, net_of. simpl. rewrite <- Hn.
  destruct st; [destruct Hp as (x & -> & Hx); by rewrite (proj2 (streq_false_iff x "") Hx)|by rewrite Hp].
Qed.

(** The payment dates of the records parse as dates. *)
Definition paid_on_parses (dateParse : string -> option Z) (r : SalaryRecord) : Prop :=
  match paymentDate r with Some d => dateParse d <> None | None => True end.

Lemma salary_row_ok dateParse isAdmin r :
  paid_on_parses dateParse r -> is_Some (salary_row dateParse isAdmin r).
Proof.
  unfold paid_on_parses, salary_row, paid_on_text. destruct (paymentDate r) as [d|]; [|by eexists].
  intros Hd. destruct (d =ₛ ""); [by eexists|].
  destruct (dateParse d) as [t|]; [|done].
  destruct (format_pp_valid t) as [x ->]. by eexists.
Qed.

(** C13: an edit dialog cannot save a record whose year is outside the
    schema's window around the current year (a record more than five
    years old): the form is reset to the record's year, the year input
    is disabled while editing, and whatever else the user types the
    schema rejects the form. *)
Theorem old_record_edit_rejected currentMonth currentYear r inputs :
  (year r < currentYear - 5 \/ currentYear + 1 < year r)%Z ->
  period_locked (Some r) = true /\
  valid_salary_values currentYear
    (fill_form (period_locked (Some r)) inputs (form_reset currentMonth currentYear (Some r))) = false.
Proof.
  intros Hy. split; [done|]. apply year_out_of_range_rejected.
  cbn [period_locked form_reset]. by rewrite fill_form_locked_year.
Qed.

(** On a reachable page, opening Edit on a record of a year inside
    the schema's window and saving unchanged passes the schema and
    leaves the records as they were (teacher name, net salary and
    payment date included). *)
Theorem salary_edit_unchanged toISOString currentMonth currentYear isAdmin p r now :
  (forall n, toISOString n <> ""%string) ->
  salaries_reachable toISOString currentYear isAdmin p -> In r (items p) ->
  (currentYear - 5 <= year r <= currentYear + 1)%Z ->
  valid_salary_values currentYear (form_reset currentMonth currentYear (Some r)) = true /\
  items (handleFormSubmit toISOString now (form_reset currentMonth currentYear (Some r))
           (openEditModal r p)) = items p.
Proof.
  intros Hiso Hr Hin Hy. destruct (salaries_inv toISOString Hiso currentYear isAdmin p Hr) as [Hu Hok].
  pose proof (proj1 (List.Forall_forall _ _) Hok r Hin) as Hr_ok.
  pose proof Hr_ok as (_ & Ht & _ & Hm & Hb & Ha & Hd). cbn [form_reset].
  split.
  - apply validate_salary_intro; simpl; [by eapply find_teacher_min_len|lia..].
  - unfold handleFormSubmit. cbn [edit_form_values v_teacherId]. rewrite Ht.
    unfold editOrAppend, afterSubmit. cbn [items editing openEditModal].
    apply update_by_id_fixed; [done|done|]. by apply merge_salary_edit_values.
Qed.

(** The salary table renders on every reachable state when the
    clock's ISO strings and the seeded payment dates parse: no date cell
    throws, the empty message shows exactly when there is no record, and
    otherwise there is one row per record and an Actions column exactly
    for an administrator. *)
Theorem salaries_page_renders toISOString dateParse localeCompare currentYear isAdmin p :
  (forall n, toISOString n <> ""%string) -> (forall n, dateParse (toISOString n) <> None) ->
  Forall (paid_on_parses dateParse) initialSalaryRecords ->
  salaries_reachable toISOString currentYear isAdmin p ->
  exists v, render_salaries dateParse localeCompare isAdmin (items p) = Some v /\
    match v with
    | NoSalaryRecords _ => items p = []
    | SalaryTable a rows => a = isAdmin /\ length rows = length (items p)
    end.
Proof.
  intros Hiso Hparse Hseed Hr.
  assert (Hok : Forall (paid_on_parses dateParse) (items p)).
  { revert Hr. apply (crud_reachable_inv _ _ _ _ _ (Forall (paid_on_parses dateParse))); [done| |].
    - intros q now v Hi _ _. unfold handleFormSubmit.
      destruct (find_teacher (v_teacherId v)) as [t|]; [|done].
      unfold editOrAppend, afterSubmit. cbn [items]. destruct (editing q) as [e|].
      + apply Forall_update_by_id; [|done]. intros r. unfold paid_on_parses. simpl.
        destruct (v_paymentStatus v); [|done]. destruct (paymentDate r) as [d|]; [|intros _; apply Hparse].
        destruct (d =ₛ ""); [intros _; apply Hparse|done].
      + apply Forall_app. split; [done|]. constructor; [|done].
        unfold paid_on_parses. simpl. destruct (v_paymentStatus v); [apply Hparse|done].
    - intros id l. apply Forall_remove_by_id. }
  pose proof (js_sort_perm (by_period_desc localeCompare) (items p)) as Hp.
  unfold render_salaries, sortedSalaryRecords in *.
  destruct (js_sort _ (items p)) as [|e l] eqn:Es.
  - eexists. split; [reflexivity|]. by apply Permutation_nil.
  - destruct (mapM_rows_total (salary_row dateParse isAdmin) (items p) (e :: l) Hp) as (k & Hk & Hl).
    { intros r Hin. apply salary_row_ok. by eapply List.Forall_forall. }
    rewrite Hk. by eexists.
Qed.

(** When the selected teacher id is not in
    [sampleTeachersForSalary], the submit changes nothing: no record is
    added or edited and the dialog stays open. *)
Theorem handleFormSubmit_unknown_teacher toISOString now v p :
  find_teacher (v_teacherId v) = None -> handleFormSubmit toISOString now v p = p.
Proof. unfold handleFormSubmit. by intros ->. Qed.

(** The schema accepts deductions larger than the
    basic salary and allowances, so a record with a negative net salary
    is created. *)
Example negative_net_salary_accepted :
  let v := mkSalaryValues "T2001" 6 2024 1000 0 5000 Pending in
  valid_salary_values 2024 v = true /\
  exists t, find_teacher (v_teacherId v) = Some t /\
  (netSalary (new_salary (fun _ => "2024-06-30T00:00:00.000Z"%string) 1718000012345 t v) < 0)%Z.
Proof. split; [reflexivity|]. eexists. split; [reflexivity|]. vm_compute. reflexivity. Qed.

(** The table lists the records newest period first, and
    each record once, for any collation that is antisymmetric. *)
Theorem sortedSalaryRecords_order localeCompare l :
  (forall a b, Z.sgn (localeCompare a b) = (- Z.sgn (localeCompare b a))%Z) ->
  Sorted period_no_earlier (sortedSalaryRecords localeCompare l) /\
  Permutation (sortedSalaryRecords localeCompare l) l.
Proof.
  intros Hlc. split; [|apply js_sort_perm].
  eapply Sorted_weaken; [|apply js_sort_sorted, by_period_desc_antisym, Hlc].
  intros a b. unfold cmp_le, by_period_desc, period_no_earlier.
  destruct (Z.eqb_spec (year b - year a) 0); simpl; [|lia].
  destruct (Z.eqb_spec (month b - month a) 0); simpl; lia.
Qed.


Lemma salaries_reachable_inv_witness :
  let p := handleFormSubmit sample_iso 1718000012345 sample_salary_values
             (openAddModal (initialCrud initialSalaryRecords)) in
  salaries_reachable sample_iso 2024 true p /\ (unique_ids (items p) /\ Forall salary_ok (items p)).
Proof.
  assert (Hiso : forall n, sample_iso n <> ""%string) by (intros n; discriminate).
  assert (H0 : salaries_reachable sample_iso 2024 true (openAddModal (initialCrud initialSalaryRecords))).
  { eapply (reach_step _ _ _ _ _ _ OpenAdd); [constructor| |constructor; [done|split; done]].
    intros now v Habs. discriminate Habs. }
  assert (H1 : salaries_reachable sample_iso 2024 true
     (handleFormSubmit sample_iso 1718000012345 sample_salary_values
        (openAddModal (initialCrud initialSalaryRecords)))).
  { eapply (reach_step _ _ _ _ _ _ (Submit 1718000012345 sample_salary_values)); [exact H0| |].
    - intros now v [= <- <-] _. decide_it.
    - constructor; vm_compute; reflexivity. }
  split; [exact H1|]. exact (salaries_reachable_inv sample_iso 2024 true _ Hiso H1).
Defined.

Lemma handleFormSubmit_unknown_teacher_witness :
  let v := mkSalaryValues "T9999" 6 2024 52000 4000 1500 Paid in
  let p := openAddModal (initialCrud initialSalaryRecords) in
  find_teacher (v_teacherId v) = None /\ handleFormSubmit sample_iso 1718000012345 v p = p.
Proof.
  split; [reflexivity|]. apply handleFormSubmit_unknown_teacher. reflexivity.
Defined.

Lemma sortedSalaryRecords_order_witness :
  Sorted period_no_earlier (sortedSalaryRecords code_unit_compare initialSalaryRecords) /\
  Permutation (sortedSalaryRecords code_unit_compare initialSalaryRecords) initialSalaryRecords.
Proof. apply sortedSalaryRecords_order. exact code_unit_compare_antisym. Defined.

Lemma old_record_edit_rejected_witness :
  let r := hd (mkSalary "" "" "" 0 0 0 0 0 0 Pending None) initialSalaryRecords in
  (year r < 2030 - 5 \/ 2030 + 1 < year r)%Z /\
  period_locked (Some r) = true /\
  valid_salary_values 2030
    (fill_form (period_locked (Some r)) [SetYear 2029; SetBasic 60000] (form_reset 11 2030 (Some r))) = false.
Proof.
  intros r. assert (Hy : (year r < 2030 - 5 \/ 2030 + 1 < year r)%Z) by (left; simpl; lia).
  split; [exact Hy|]. exact (old_record_edit_rejected 11 2030 r _ Hy).
Defined.

Lemma salary_edit_unchanged_witness :
  let p := initialCrud initialSalaryRecords in
  let r := hd (mkSalary "" "" "" 0 0 0 0 0 0 Pending None) initialSalaryRecords in
  (forall n, sample_iso n <> ""%string) /\ salaries_reachable sample_iso 2026 true p /\
  In r (items p) /\ (2026 - 5 <= year r <= 2026 + 1)%Z /\
  valid_salary_values 2026 (form_reset 11 2026 (Some r)) = true /\
  items (handleFormSubmit sample_iso 1762646400000 (form_reset 11 2026 (Some r)) (openEditModal r p)) = items p.
Proof.
  intros p r.
  assert (H1 : forall n, sample_iso n <> ""%string) by (intros n; discriminate).
  assert (H2 : salaries_reachable sample_iso 2026 true p) by constructor.
  assert (H3 : In r (items p)) by (left; reflexivity).
  assert (H4 : (2026 - 5 <= year r <= 2026 + 1)%Z) by (simpl; lia).
  do 4 (split; [assumption|]).
  exact (salary_edit_unchanged sample_iso 11 2026 true p r 1762646400000 H1 H2 H3 H4).
Defined.

Lemma salaries_page_renders_witness :
  let p := initialCrud initialSalaryRecords in
  (forall n, sample_iso n <> ""%string) /\ (forall n, iso_day_parse (sample_iso n) <> None) /\
  Forall (paid_on_parses iso_day_parse) initialSalaryRecords /\
  salaries_reachable sample_iso 2026 true p /\
  exists v, render_salaries iso_day_parse code_unit_compare true (items p) = Some v /\
    match v with
    | NoSalaryRecords _ => items p = []
    | SalaryTable a rows => a = true /\ length rows = length (items p)
    end.
Proof.
  intros p.
  assert (H1 : forall n, sample_iso n <> ""%string) by (intros n; discriminate).
  assert (H2 : forall n, iso_day_parse (sample_iso n) <> None) by (intros n; vm_compute; discriminate).
  assert (H3 : Forall (paid_on_parses iso_day_parse) initialSalaryRecords).
  { repeat constructor; vm_compute; discriminate. }
  assert (H4 : salaries_reachable sample_iso 2026 true p) by constructor.
  do 4 (split; [assumption|]).
  exact (salaries_page_renders sample_iso iso_day_parse code_unit_compare 2026 true p H1 H2 H3 H4).
Defined.

End Salaries.
