(* ===== verification/Teachers.v ===== *)
(** * Teacher management (src/src/app/(app)/teachers/page.tsx)

    The [Teacher] record, the zod schema [teacherFormSchema]
    ([validate_teacher]: the phone must match the phone pattern, with no
    length fallback), the dialog's resets, inputs and texts, the seeded
    list sorted by name, and the page's
    [handleFormSubmit], which re-sorts the list by name after an edit and
    after a create (the new teacher is put first, then the list sorted).
    The delete handler does not re-sort.  [teachers_reachable_inv] shows the
    list stays sorted by name, keeps unique ids, and holds only seeded or
    schema-valid records; [seeded_phone_blocks_edit] shows that three of
    the four seeded teachers cannot be saved from the edit dialog without
    changing their phone number, while [teacher_edit_unchanged] shows
    that a teacher whose fields the schema accepts comes back unchanged,
    in place in the sorted list.  The dialog's resets, the table rows
    ([phone || '-']) and the delete confirmation are modelled as well.
    zod's [.email()] is the parameter [isEmail].
    [Module Page] holds the page's [openAddModal] with the values it resets
    the form to, [handleDeleteConfirm] with its toast, the delete
    confirmation and the heading. *)

From S2P Require Import Prelude JsRuntime EntityList Validation Crud.
From Stdlib Require Import Sorted Permutation.
Import EntityList Validation Crud.

Module Teachers.

(** [interface Teacher] (lines 49-55). *)
Record Teacher := mkTeacher {
  id : string;
  name : string;
  subject : string;
  email : string;
  phone : option string;
}.

#[global] Instance teacher_keyed : Keyed Teacher := id.

(** [TeacherFormValues] (line 66). *)
Record TeacherFormValues := mkTeacherValues {
  v_name : string;
  v_subject : string;
  v_email : string;
  v_phone : option string;
}.

Section Schema.
Variable isEmail : string -> bool.

(** [teacherFormSchema] (lines 57-64): the failing fields in order. *)
Definition validate_teacher (v : TeacherFormValues) : list string :=
  ((if min_len 2 (v_name v) then [] else ["name"]) ++
  (if min_len 2 (v_subject v) then [] else ["subject"]) ++
  (if isEmail (v_email v) then [] else ["email"]) ++
  (if js_falsy (v_phone v) ||
      match v_phone v with Some s => phone_regex_test s | None => false end
   then [] else ["phone"]))%list%string.

Definition valid_teacher_values (v : TeacherFormValues) : bool :=
  match validate_teacher v with [] => true | _ => false end.
End Schema.

(** [form.reset(editingTeacher)] (line 96): the edit dialog starts from
    the record's fields; zod drops [id]. *)
Definition values_of_teacher (t : Teacher) : TeacherFormValues :=
  mkTeacherValues (name t) (subject t) (email t) (phone t).

(** The seeded teachers (lines 68-72), before sorting. *)
Definition initialTeachers_seed : list Teacher :=
  [mkTeacher "T2001" "Dr. Eleanor Vance" "Physics" "eleanor.vance@example.com" (Some "555-0101");
   mkTeacher "T2002" "Mr. Samuel Green" "Mathematics" "samuel.green@example.com" (Some "555-0102");
   mkTeacher "T2003" "Ms. Olivia Chen" "Chemistry" "olivia.chen@example.com" None;
   mkTeacher "T2004" "Mr. David Lee" "History" "david.lee@example.com" (Some "555-0104")]%string.

Section Handlers.
Variable localeCompare : string -> string -> Z.

(** [(a,b) => a.name.localeCompare(b.name)] *)
Definition by_name (a b : Teacher) : Z := localeCompare (name a) (name b).

Definition sort_by_name (l : list Teacher) : list Teacher := js_sort by_name l.

(** [initialTeachers] (lines 68-73): the seed sorted by name. *)
Definition initialTeachers : list Teacher := sort_by_name initialTeachers_seed.

(** [{ ...t, ...values }] (line 106). *)
Definition merge_teacher (v : TeacherFormValues) (t : Teacher) : Teacher :=
  mkTeacher (id t) (v_name v) (v_subject v) (v_email v) (v_phone v).

(** [{ id: `T${Date.now().toString().slice(-4)}`, ...values }] (lines 114-117). *)
Definition new_teacher (now : N) (v : TeacherFormValues) : Teacher :=
  mkTeacher (gen_id "T" now) (v_name v) (v_subject v) (v_email v) (v_phone v).

(** [handleFormSubmit] (lines 102-127). *)
Definition handleFormSubmit (now : N) (v : TeacherFormValues) (p : CrudPage Teacher) : CrudPage Teacher :=
  afterSubmit
    (match editing p with
     | Some e => sort_by_name (update_by_id (id e) (merge_teacher v) (items p))
     | None => sort_by_name (prepend_record (new_teacher now v) (items p))
     end) p.
End Handlers.

Definition fresh_teacher (p : CrudPage Teacher) (e : event Teacher TeacherFormValues) : Prop :=
  forall now v, e = Submit now v -> editing p = None -> gen_id "T" now ∉ ids (items p).

Definition teachers_reachable localeCompare isEmail isAdmin :=
  reachable (handleFormSubmit localeCompare) (valid_teacher_values isEmail) isAdmin
    fresh_teacher (initialTeachers localeCompare).

(** A record is a seeded one or passes the schema. *)
Definition teacher_ok isEmail (t : Teacher) : Prop :=
  In t initialTeachers_seed \/ valid_teacher_values isEmail (values_of_teacher t) = true.

Definition teachers_inv localeCompare isEmail (l : list Teacher) : Prop :=
  unique_ids l /\ Sorted (cmp_le (by_name localeCompare)) l /\ Forall (teacher_ok isEmail) l.

Definition sample_teacher_values : TeacherFormValues :=
  mkTeacherValues "Mrs. Ada Byron" "Computing" "ada.byron@example.com" (Some "555-010-2030").

(** ** The dialog and the table *)

(** The [defaultValues] and the create reset (lines 86-91, 98 and 131). *)
Definition add_form_defaults : TeacherFormValues := mkTeacherValues "" "" "" (Some "").

(** The effect of lines 94-100. *)
Definition form_reset (editing : option Teacher) : TeacherFormValues :=
  match editing with Some t => values_of_teacher t | None => add_form_defaults end.

(** What the user can do in the dialog (lines 185-236): type the name,
    the subject, the email and the phone. *)
Inductive TeacherInput :=
  | SetTeacherName (s : string)
  | SetSubject (s : string)
  | SetEmail (s : string)
  | SetPhone (s : string).

Definition set_teacher_field (i : TeacherInput) (v : TeacherFormValues) : TeacherFormValues :=
  match i with
  | SetTeacherName s => mkTeacherValues s (v_subject v) (v_email v) (v_phone v)
  | SetSubject s => mkTeacherValues (v_name v) s (v_email v) (v_phone v)
  | SetEmail s => mkTeacherValues (v_name v) (v_subject v) s (v_phone v)
  | SetPhone s => mkTeacherValues (v_name v) (v_subject v) (v_email v) (Some s)
  end.

(** The dialog's title, description and submit label (lines 176-181
    and 244). *)
Definition dialog_title (editing : option Teacher) : string :=
  match editing with Some _ => "Edit Teacher Details" | None => "Add New Teacher" end.

Definition dialog_description (editing : option Teacher) : string :=
  match editing with
  | Some _ => "Update the teacher's information below."
  | None => "Fill in the details to register a new teacher."
  end.

Definition submit_label (editing : option Teacher) : string :=
  match editing with Some _ => "Save Changes" | None => "Add Teacher" end.

(** A table row (lines 295-311): id, name, subject, email,
    [teacher.phone || '-'], and the action buttons for an administrator. *)
Record TeacherRow := mkTeacherRow {
  tr_id : string;
  tr_name : string;
  tr_subject : string;
  tr_email : string;
  tr_phone : string;
  tr_actions : bool;
}.

Definition teacher_row (isAdmin : bool) (t : Teacher) : TeacherRow :=
  mkTeacherRow (id t) (name t) (subject t) (email t)
    (match phone t with Some s => if s =ₛ "" then "-" else s | None => "-" end) isAdmin.

Inductive TeachersView :=
  | NoTeachers
  | TeacherTable (actionsColumn : bool) (rows : list TeacherRow).

(** The card of lines 274-316: the state's list in its stored order. *)
Definition render_teachers (isAdmin : bool) (l : list Teacher) : TeachersView :=
  match l with
  | [] => NoTeachers
  | _ => TeacherTable isAdmin (List.map (teacher_row isAdmin) l)
  end.

(** The delete confirmation (line 256). *)
Definition delete_description (t : Teacher) : string :=
  "This action cannot be undone. This will permanently delete " ++ name t ++ "'s record.".

(** ** The page's own handlers and heading

    The page's copies of the shared handlers (see [Crud]), with the form
    values [openAddModal] resets and the toast [handleDeleteConfirm]
    shows, and the heading with its "Add" button. *)

Module Page.

(** [openAddModal] (lines 129-133). *)
Definition openAddModal (p : CrudPage Teacher) : CrudPage Teacher * TeacherFormValues :=
  openAddReset add_form_defaults p.

(** The toast of [handleDeleteConfirm] (lines 143-147). *)
Definition delete_toast (t : Teacher) : string * string :=
  ("Teacher Deleted", name t ++ " has been removed.")%string.

(** [handleDeleteConfirm] (lines 140-150). *)
Definition handleDeleteConfirm (p : CrudPage Teacher) : CrudPage Teacher * option (string * string) :=
  deleteConfirmToast delete_toast p.

(** The heading and its "Add Teacher" button (lines 154-168). *)
Definition header : PageHeader :=
  mkPageHeader "Teacher Management" "View, add, edit, and manage teacher records." "Add Teacher".


(** The delete confirmation (lines 251-266). *)
Definition confirm_dialog (a : AlertAction) (p : CrudPage Teacher) : CrudPage Teacher :=
  confirmDialog a p.

End Page.

(** ** Lemmas *)

Section Facts.
Variable localeCompare : string -> string -> Z.
Variable isEmail : string -> bool.
Hypothesis localeCompare_antisym :
  forall a b, Z.sgn (localeCompare a b) = (- Z.sgn (localeCompare b a))%Z.
Hypothesis localeCompare_trans :
  forall a b c, (localeCompare a b <= 0)%Z -> (localeCompare b c <= 0)%Z -> (localeCompare a c <= 0)%Z.

Lemma teacher_by_name_antisym a b :
  Z.sgn (by_name localeCompare a b) = (- Z.sgn (by_name localeCompare b a))%Z.
Proof. apply localeCompare_antisym. Qed.

Lemma teachers_sorted_inv l :
  unique_ids l -> Forall (teacher_ok isEmail) l ->
  teachers_inv localeCompare isEmail (sort_by_name localeCompare l).
Proof.
  intros Hu Hf. split; [|split].
  - eapply unique_ids_perm; [symmetry; apply js_sort_perm|done].
  - apply js_sort_sorted, teacher_by_name_antisym.
  - eapply Permutation_Forall; [symmetry; apply js_sort_perm|done].
Qed.

Lemma merge_teacher_ok v t :
  valid_teacher_values isEmail v = true -> teacher_ok isEmail (merge_teacher v t).
Proof. intros Hv. right. by destruct v. Qed.

Lemma teachers_remove_inv i l :
  teachers_inv localeCompare isEmail l -> teachers_inv localeCompare isEmail (remove_by_id i l).
Proof.
  intros (Hu & Hs & Hf). split; [by apply remove_by_id_unique|split].
  - apply Sorted_filter; [|done]. unfold cmp_le, by_name. intros x y z. apply localeCompare_trans.
  - by apply Forall_remove_by_id.
Qed.
Lemma teachers_inv_holds isAdmin p :
  teachers_reachable localeCompare isEmail isAdmin p ->
  teachers_inv localeCompare isEmail (items p).
Proof.
  apply crud_reachable_inv; [| |apply teachers_remove_inv].
  - apply teachers_sorted_inv; [decide_it|].
    apply List.Forall_forall. intros t Ht. by left.
  - intros q now v (Hu & _ & Hf) Hv Hfr. unfold handleFormSubmit, afterSubmit. simpl.
    destruct (editing q) as [e|] eqn:He; apply teachers_sorted_inv.
    + by apply update_by_id_unique.
    + apply Forall_update_by_id; [|done]. intros r _. by apply merge_teacher_ok.
    + apply unique_ids_cons. split; [by apply (Hfr now v)|done].
    + constructor; [right; by destruct v|done].
Qed.

(** C26: every list the teacher page reaches is sorted by name, has
    unique ids and holds only seeded or schema-valid records, for a
    collation that is antisymmetric and transitive and clocks that give
    each create a fresh id; the delete handler, which does not re-sort,
    keeps the order because removing elements from a sorted list leaves
    it sorted. *)
Theorem teachers_reachable_inv isAdmin p :
  teachers_reachable localeCompare isEmail isAdmin p ->
  teachers_inv localeCompare isEmail (items p).
Proof. apply teachers_inv_holds. Qed.

(** Sorting a list already sorted by name gives it back. *)
Lemma sort_by_name_sorted l :
  Sorted (cmp_le (by_name localeCompare)) l -> sort_by_name localeCompare l = l.
Proof.
  intros Hs. apply js_sort_strongly_sorted_id; [apply teacher_by_name_antisym|].
  apply Sorted_StronglySorted_in; [|exact Hs].
  intros x y z _ _ _. unfold cmp_le, by_name. apply localeCompare_trans.
Qed.

(** On a reachable teacher page, opening Edit on a teacher whose
    fields the schema accepts and saving unchanged leaves the list
    exactly as it was, order included: the edit re-sorts a list that is
    already sorted. *)
Theorem teacher_edit_unchanged isAdmin p t now :
  teachers_reachable localeCompare isEmail isAdmin p -> In t (items p) ->
  valid_teacher_values isEmail (form_reset (Some t)) = true ->
  items (handleFormSubmit localeCompare now (form_reset (Some t)) (openEditModal t p)) = items p.
Proof.
  intros Hr Hin _. destruct (teachers_inv_holds isAdmin p Hr) as (Hu & Hs & _).
  unfold handleFormSubmit, afterSubmit. cbn [items editing openEditModal form_reset].
  rewrite (update_by_id_fixed _ _ t Hu Hin).
  - by apply sort_by_name_sorted.
  - destruct t. reflexivity.
Qed.
End Facts.

(** C27: the edit dialog of a seeded teacher with a phone number cannot
    be saved unchanged: the seeded phones ("555-0101", ...) have seven
    digits, and the teacher schema requires the phone pattern, which
    needs ten. *)
Theorem seeded_phone_blocks_edit isEmail t :
  In t initialTeachers_seed -> phone t <> None ->
  valid_teacher_values isEmail (values_of_teacher t) = false.
Proof.
  intros Hin Hp. unfold valid_teacher_values, validate_teacher.
  repeat (destruct Hin as [<-|Hin]; [simpl in Hp |]); try done;
    destruct (isEmail _); vm_compute; reflexivity.
Qed.

(** The way out of [seeded_phone_blocks_edit]: in the edit dialog of a
    seeded teacher whose email the schema accepts, clearing the phone
    field makes the form pass, and saving it stores an empty phone, which
    the table shows as "-".  The phone is lost unless it is retyped in
    the ten-digit pattern. *)
Theorem seeded_phone_cleared isEmail t :
  In t initialTeachers_seed -> isEmail (email t) = true ->
  valid_teacher_values isEmail (set_teacher_field (SetPhone "") (form_reset (Some t))) = true /\
  tr_phone (teacher_row true (merge_teacher (set_teacher_field (SetPhone "") (form_reset (Some t))) t)) = "-"%string.
Proof.
  intros Hin He. split; [|reflexivity].
  unfold valid_teacher_values, validate_teacher. simpl. rewrite He.
  repeat (destruct Hin as [<-|Hin]; [reflexivity|]). destruct Hin.
Qed.

Lemma teachers_reachable_inv_witness :
  let p := handleFormSubmit code_unit_compare 1718000012345 sample_teacher_values
             (openAddModal (initialCrud (initialTeachers code_unit_compare))) in
  let isEmail := fun s => if String.index 0 "@" s is Some _ then true else false in
  teachers_reachable code_unit_compare isEmail true p /\
  teachers_inv code_unit_compare isEmail (items p).
Proof.
  intros p isEmail.
  assert (Htr : forall a b c, (code_unit_compare a b <= 0)%Z -> (code_unit_compare b c <= 0)%Z ->
                (code_unit_compare a c <= 0)%Z) by (exact code_unit_compare_trans).
  assert (H0 : teachers_reachable code_unit_compare isEmail true
                 (openAddModal (initialCrud (initialTeachers code_unit_compare)))).
  { eapply (reach_step _ _ _ _ _ _ OpenAdd); [constructor| |constructor; [done|split; done]].
    intros now v Habs. discriminate Habs. }
  assert (H1 : teachers_reachable code_unit_compare isEmail true p).
  { eapply (reach_step _ _ _ _ _ _ (Submit 1718000012345 sample_teacher_values)); [exact H0| |].
    - intros now v [= <- <-] _. decide_it.
    - constructor; vm_compute; reflexivity. }
  split; [exact H1|].
  exact (teachers_reachable_inv code_unit_compare isEmail code_unit_compare_antisym Htr true p H1).
Defined.

Lemma seeded_phone_blocks_edit_witness :
  let t := mkTeacher "T2001" "Dr. Eleanor Vance" "Physics" "eleanor.vance@example.com" (Some "555-0101") in
  In t initialTeachers_seed /\ phone t <> None /\
  valid_teacher_values (fun _ => true) (values_of_teacher t) = false.
Proof.
  intros t. assert (Hin : In t initialTeachers_seed) by (left; reflexivity).
  assert (Hp : phone t <> None) by discriminate.
  split; [exact Hin|split; [exact Hp|]]. exact (seeded_phone_blocks_edit (fun _ => true) t Hin Hp).
Defined.

Lemma teacher_edit_unchanged_witness :
  let p := initialCrud (initialTeachers code_unit_compare) in
  let t := mkTeacher "T2003" "Ms. Olivia Chen" "Chemistry" "olivia.chen@example.com" None in
  let isEmail := fun s => if String.index 0 "@" s is Some _ then true else false in
  teachers_reachable code_unit_compare isEmail true p /\ In t (items p) /\
  valid_teacher_values isEmail (form_reset (Some t)) = true /\
  items (handleFormSubmit code_unit_compare 1718000012345 (form_reset (Some t)) (openEditModal t p)) = items p.
Proof.
  intros p t isEmail.
  assert (H1 : teachers_reachable code_unit_compare isEmail true p) by constructor.
  assert (H2 : In t (items p)) by (vm_compute; right; right; right; left; reflexivity).
  assert (H3 : valid_teacher_values isEmail (form_reset (Some t)) = true) by reflexivity.
  split; [exact H1|]. split; [exact H2|]. split; [exact H3|].
  exact (teacher_edit_unchanged code_unit_compare isEmail code_unit_compare_antisym
           code_unit_compare_trans true p t 1718000012345 H1 H2 H3).
Defined.

Lemma seeded_phone_cleared_witness :
  let t := mkTeacher "T2001" "Dr. Eleanor Vance" "Physics" "eleanor.vance@example.com" (Some "555-0101") in
  let isEmail := fun s => if String.index 0 "@" s is Some _ then true else false in
  In t initialTeachers_seed /\ isEmail (email t) = true /\
  valid_teacher_values isEmail (set_teacher_field (SetPhone "") (form_reset (Some t))) = true /\
  tr_phone (teacher_row true (merge_teacher (set_teacher_field (SetPhone "") (form_reset (Some t))) t)) = "-"%string.
Proof.
  intros t isEmail. assert (Hin : In t initialTeachers_seed) by (left; reflexivity).
  assert (He : isEmail (email t) = true) by reflexivity.
  split; [exact Hin|]. split; [exact He|]. exact (seeded_phone_cleared isEmail t Hin He).
Defined.

End Teachers.
