(* ===== verification/Notices.v ===== *)
(** * School notices (src/src/app/(app)/notices/page.tsx)

    The [Notice] record (dates as JavaScript time values, [None] for an
    Invalid Date), the zod schema [noticeFormSchema] ([validate_notice],
    whose expiry check uses [Date.parse]), the page's [handleFormSubmit]
    (an edit keeps the issue date and re-parses the expiry date with
    date-fns' [parseISO]; a create is stamped with the clock and put first;
    both re-sort by issue date, newest first), and the two derived lists
    [activeNotices] and [expiredNotices].  [Date.parse] and [parseISO] are
    parameters; date-fns' [isPast] is [is_past].

    The theorems: the two lists split the notices; an edit keeps the id and
    the issue date; ids are distinct for distinct clocks; and an expiry
    date [Date.parse] accepts but [parseISO] does not becomes an Invalid
    Date, so the notice never expires.
    [Module Page] holds the page's [openAddModal] with the values it resets
    the form to, [handleDeleteConfirm] with its toast, the delete
    confirmation and the heading. *)

From S2P Require Import Prelude JsRuntime EntityList Validation Crud Students.
From Stdlib Require Import Sorted Permutation.
From stdpp Require Import list_monad.
Import EntityList Validation Crud.

Module Notices.

(** [NOTICE_TYPES] and [TARGET_AUDIENCES] (lines 39-40). *)
Inductive NoticeType := General | Academic | Event | Urgent | Administrative | Holiday.
Inductive Audience := All | Teachers | StudentsAud | Parents.

#[global] Instance audience_eq_dec : EqDecision Audience.
Proof. solve_decision. Defined.

(** A [Date] object: its time value, [None] when it is an Invalid Date. *)
Definition JsDate := option Z.

(** [interface Notice] (lines 42-51). *)
Record Notice := mkNotice {
  id : string;
  title : string;
  content : string;
  issuedDate : Z;
  expiryDate : option JsDate;
  author : string;
  noticeType : option NoticeType;
  targetAudience : option (list Audience);
}.

#[global] Instance notice_keyed : Keyed Notice := id.

(** [NoticeFormValues] (line 64); [targetAudience] has zod's default. *)
Record NoticeFormValues := mkNoticeValues {
  v_title : string;
  v_content : string;
  v_author : string;
  v_expiryDate : option string;
  v_noticeType : option NoticeType;
  v_targetAudience : list Audience;
}.

(** The [expiryDate] refinement (line 57): [!val || !isNaN(Date.parse(val))];
    [dateParse] is [Date.parse], [None] for [NaN]. *)
Definition expiry_ok (dateParse : string -> option Z) (v : NoticeFormValues) : bool :=
  js_falsy (v_expiryDate v) ||
  match v_expiryDate v with
  | Some s => match dateParse s with Some _ => true | None => false end
  | None => false
  end.

(** [noticeFormSchema] (lines 53-62). *)
Definition validate_notice (dateParse : string -> option Z) (v : NoticeFormValues) : list string :=
  ((if min_len 5 (v_title v) then [] else ["title"]) ++
  (if min_len 10 (v_content v) then [] else ["content"]) ++
  (if min_len 2 (v_author v) then [] else ["author"]) ++
  (if expiry_ok dateParse v then [] else ["expiryDate"]))%list%string.

Definition valid_notice_values dateParse (v : NoticeFormValues) : bool :=
  match validate_notice dateParse v with [] => true | _ => false end.

(** [new Date('yyyy-mm-dd')]: a date-only ISO string is read as UTC
    midnight; the seeded literals are all valid. *)
Definition date_utc (s : string) : Z := match parse_ymd s with Some t => t | None => 0%Z end.

(** [initialNotices] (lines 66-73); [loadTime] is the [new Date()] of the
    sixth notice. *)
Definition initialNotices (loadTime : Z) : list Notice :=
  [mkNotice "1" "Upcoming Parent-Teacher Meeting"
     "A parent-teacher meeting is scheduled for next Saturday, 10:00 AM - 01:00 PM. Please register your preferred time slot."
     (date_utc "2024-07-15") (Some (parse_ymd "2024-07-25")) "Admin Office" (Some Event)
     (Some [Parents; Teachers]);
   mkNotice "2" "Holiday Announcement: Summer Break"
     "The school will be closed for summer break from July 28th to August 15th. Enjoy your holidays!"
     (date_utc "2024-07-10") None "Admin Office" (Some Holiday) (Some [All]);
   mkNotice "3" "Library Books Due"
     "All library books issued before June 1st must be returned by July 20th to avoid fines."
     (date_utc "2024-07-05") (Some (parse_ymd "2024-07-20")) "Librarian" (Some Administrative)
     (Some [StudentsAud]);
   mkNotice "4" "Annual Science Fair Registration"
     "Registrations for the Annual Science Fair are now open. Last date to submit projects is August 5th."
     (date_utc "2024-06-20") (Some (parse_ymd "2024-08-05")) "Science Club" (Some Event)
     (Some [StudentsAud; Teachers]);
   mkNotice "5" "PTA Meeting (Expired)" "PTA meeting was held last month."
     (date_utc "2024-05-01") (Some (parse_ymd "2024-05-15")) "PTA Committee" (Some Event)
     (Some [Parents]);
   mkNotice "6" "Urgent: Water Supply Disruption Tomorrow"
     "Due to maintanence work, water supply will be disrupted tomorrow from 10 AM to 2 PM."
     loadTime None "Admin Office" (Some Urgent) (Some [All])]%string.

(** [isPast(date)] of date-fns: [date.getTime() < Date.now()], false for
    an Invalid Date. *)
Definition is_past (now : Z) (d : JsDate) : bool :=
  match d with Some t => (t <? now)%Z | None => false end.

(** [(a,b) => b.issuedDate.getTime() - a.issuedDate.getTime()] *)
Definition by_issued_desc (a b : Notice) : Z := (issuedDate b - issuedDate a)%Z.

Definition sort_by_issued (l : list Notice) : list Notice := js_sort by_issued_desc l.

Section Handlers.
(** date-fns' [parseISO], [None] for an Invalid Date. *)
Variable parseISO : string -> option Z.

(** [values.expiryDate ? parseISO(values.expiryDate) : undefined] *)
Definition expiry_of (v : NoticeFormValues) : option JsDate :=
  match v_expiryDate v with
  | Some s => if s =ₛ "" then None else Some (parseISO s)
  | None => None
  end.

(** [{ ...n, ...values, issuedDate: n.issuedDate, expiryDate }] (lines 115-120). *)
Definition merge_notice (v : NoticeFormValues) (n : Notice) : Notice :=
  mkNotice (id n) (v_title v) (v_content v) (issuedDate n) (expiry_of v) (v_author v)
    (v_noticeType v) (Some (v_targetAudience v)).

(** [{ id: Date.now().toString(), ...values, issuedDate: new Date(), expiryDate }]
    (lines 129-134). *)
Definition new_notice (now : N) (v : NoticeFormValues) : Notice :=
  mkNotice (js_number_to_string now) (v_title v) (v_content v) (Z.of_N now) (expiry_of v)
    (v_author v) (v_noticeType v) (Some (v_targetAudience v)).

(** [handleFormSubmit] (lines 110-143). *)
Definition handleFormSubmit (now : N) (v : NoticeFormValues) (p : CrudPage Notice) : CrudPage Notice :=
  afterSubmit
    (match editing p with
     | Some e => sort_by_issued (update_by_id (id e) (merge_notice v) (items p))
     | None => sort_by_issued (prepend_record (new_notice now v) (items p))
     end) p.
End Handlers.

(** [activeNotices] and [expiredNotices] (lines 168-169) at the clock [now]. *)
Definition is_active (now : Z) (n : Notice) : bool :=
  match expiryDate n with None => true | Some d => negb (is_past now d) end.

Definition activeNotices (now : Z) (l : list Notice) : list Notice :=
  sort_by_issued (List.filter (is_active now) l).

Definition expiredNotices (now : Z) (l : list Notice) : list Notice :=
  sort_by_issued (List.filter (fun n => match expiryDate n with
                                        | Some d => is_past now d
                                        | None => false
                                        end) l).

Definition sample_notice_values (expiry : option string) : NoticeFormValues :=
  mkNoticeValues "Sports Day" "Sports day is on Friday; classes end at noon." "Admin Office"
    expiry (Some Event) [All].

(** A [Date.parse] that, as browsers do, also reads the long English form. *)
Definition sample_date_parse (s : string) : option Z :=
  if s =ₛ "July 20, 2024" then Some 1721433600000%Z else parse_ymd s.

(** ** The dialog's form *)

(** The form's default values (lines 83-93 and 147): the signed-in user's
    name, or "Admin Office" when it is missing or empty. *)
Definition add_form_defaults (userName : option string) : NoticeFormValues :=
  mkNoticeValues "" ""
    (match userName with Some n => if n =ₛ "" then "Admin Office" else n | None => "Admin Office" end)
    (Some "") (Some General) [All].

(** The values the edit dialog is reset to (lines 95-105):
    [expiryDate ? format(expiryDate, 'yyyy-MM-dd') : ""], the type or
    'General', the audience or ['All'].  A [Date] object is truthy even
    when it is an Invalid Date, and [format] then throws ([None]). *)
Definition edit_form_values (n : Notice) : option NoticeFormValues :=
  let exp := match expiryDate n with
             | None => Some ""%string
             | Some None => None
             | Some (Some t) => Some (format_ymd t)
             end in
  match exp with
  | None => None
  | Some e =>
      Some (mkNoticeValues (title n) (content n) (author n) (Some e)
              (Some (match noticeType n with Some t => t | None => General end))
              (match targetAudience n with Some l => l | None => [All] end))
  end.

(** What the user can do in the dialog (lines 198-308).  The expiry field
    is an [<Input type="date">]: a browser's date picker gives [""] or the
    [yyyy-MM-dd] text of the picked day. *)
Inductive NoticeInput :=
  | SetNoticeTitle (s : string)
  | SetNoticeContent (s : string)
  | SetNoticeAuthor (s : string)
  | PickExpiry (d : option (Z * Z * Z))
  | SetNoticeType (t : NoticeType)
  | CheckAudience (checked : bool) (a : Audience).

Definition date_input_value (d : option (Z * Z * Z)) : string :=
  match d with Some (y, m, dd) => ymd_text y m dd | None => "" end.

(** A target-audience checkbox (lines 283-297): [checked] is
    [field.value?.includes(audience)]; ticking appends the audience and
    unticking filters it out. *)
Definition audience_checked (a : Audience) (l : list Audience) : bool :=
  existsb (fun x => bool_decide (x = a)) l.

Definition toggle_audience (checked : bool) (a : Audience) (l : list Audience) : list Audience :=
  if checked then l ++ [a] else List.filter (fun x => negb (bool_decide (x = a))) l.

Definition set_notice_field (i : NoticeInput) (v : NoticeFormValues) : NoticeFormValues :=
  match i with
  | SetNoticeTitle s => mkNoticeValues s (v_content v) (v_author v) (v_expiryDate v) (v_noticeType v) (v_targetAudience v)
  | SetNoticeContent s => mkNoticeValues (v_title v) s (v_author v) (v_expiryDate v) (v_noticeType v) (v_targetAudience v)
  | SetNoticeAuthor s => mkNoticeValues (v_title v) (v_content v) s (v_expiryDate v) (v_noticeType v) (v_targetAudience v)
  | PickExpiry d => mkNoticeValues (v_title v) (v_content v) (v_author v) (Some (date_input_value d))
                      (v_noticeType v) (v_targetAudience v)
  | SetNoticeType t => mkNoticeValues (v_title v) (v_content v) (v_author v) (v_expiryDate v) (Some t) (v_targetAudience v)
  | CheckAudience b a => mkNoticeValues (v_title v) (v_content v) (v_author v) (v_expiryDate v) (v_noticeType v)
                           (toggle_audience b a (v_targetAudience v))
  end.

(** The dialog's title, description and submit label (lines 191-194
    and 312), and the delete confirmation (line 324). *)
Definition dialog_title (editing : option Notice) : string :=
  match editing with Some _ => "Edit Notice" | None => "Create New Notice" end.

Definition dialog_description (editing : option Notice) : string :=
  match editing with
  | Some _ => "Update the details for this notice."
  | None => "Compose and publish a new school notice."
  end.

Definition submit_label (editing : option Notice) : string :=
  match editing with Some _ => "Save Changes" | None => "Publish Notice" end.

Definition delete_description (n : Notice) : string :=
  "This action cannot be undone. This will permanently delete the notice " ++
  String (ascii_of_nat 34) (title n ++ String (ascii_of_nat 34) ".").

(** ** The notice cards *)

Definition notice_type_name (t : NoticeType) : string :=
  match t with
  | General => "General" | Academic => "Academic" | Event => "Event" | Urgent => "Urgent"
  | Administrative => "Administrative" | Holiday => "Holiday"
  end.

Definition audience_name (a : Audience) : string :=
  match a with All => "All" | Teachers => "Teachers" | StudentsAud => "Students" | Parents => "Parents" end.

(** [array.join(', ')] *)
(** What a card shows: title, badge variant and text, the issue line, the
    audience line and the expiry line when present, and whether the Edit
    and Delete buttons are there. *)
Record NoticeCard := mkNoticeCard {
  nc_title : string;
  nc_badge_variant : string;
  nc_badge_text : string;
  nc_issued : string;
  nc_audience : option string;
  nc_expiry : option string;
  nc_actions : bool;
}.

(** [notice.targetAudience && notice.targetAudience.length > 0 && ...] *)
Definition audience_line (n : Notice) : option string :=
  match targetAudience n with
  | Some (a :: l) => Some ("For: " ++ js_join ", " (List.map audience_name (a :: l)))%string
  | _ => None
  end.

Definition type_text (n : Notice) : string :=
  match noticeType n with Some t => notice_type_name t | None => "General" end.

(** The card of an active notice (lines 352-395); [None] when a [format]
    call throws. *)
Definition active_card (isAdmin : bool) (n : Notice) : option NoticeCard :=
  match format_ppp (Some (issuedDate n)) with
  | None => None
  | Some issued =>
      let mk exp := mkNoticeCard (title n)
                      (match noticeType n with Some Urgent => "destructive" | _ => "default" end)
                      (type_text n) ("Issued by: " ++ author n ++ " on " ++ issued)%string
                      (audience_line n) exp isAdmin in
      match expiryDate n with
      | None => Some (mk None)
      | Some d => match format_ppp d with
                  | Some e => Some (mk (Some ("Expires on: " ++ e)%string))
                  | None => None
                  end
      end
  end.

(** The card of an expired notice (lines 404-444): no action buttons. *)
Definition expired_card (n : Notice) : option NoticeCard :=
  match format_ppp (Some (issuedDate n)) with
  | None => None
  | Some issued =>
      let mk exp := mkNoticeCard (title n) "secondary" (type_text n ++ " (Expired)")%string
                      ("Issued by: " ++ author n ++ " on " ++ issued)%string
                      (audience_line n) exp false in
      match expiryDate n with
      | None => Some (mk None)
      | Some d => match format_ppp d with
                  | Some e => Some (mk (Some ("Expired on: " ++ e)%string))
                  | None => None
                  end
      end
  end.

(** What the page shows (lines 337-447). *)
Inductive NoticesView :=
  | NoNoticesYet (admin_hint : string)
  | NoticeSections (active expired : list NoticeCard).

(** The page's body at the clock [now]; [None] when rendering throws. *)
Definition render_notices (isAdmin : bool) (now : Z) (l : list Notice) : option NoticesView :=
  match l with
  | [] => Some (NoNoticesYet (if isAdmin then "Try creating one!" else ""))
  | _ =>
      match mapM (active_card isAdmin) (activeNotices now l), mapM expired_card (expiredNotices now l) with
      | Some a, Some e => Some (NoticeSections a e)
      | _, _ => None
      end
  end.

(** ** The page's own handlers and heading

    The page's copies of the shared handlers (see [Crud]), with the form
    values [openAddModal] resets and the toast [handleDeleteConfirm]
    shows, and the heading with its "Add" button. *)

Module Page.

(** [openAddModal] (lines 145-149): the author is the user's name or
    "Admin Office". *)
Definition openAddModal (userName : option string) (p : CrudPage Notice) : CrudPage Notice * NoticeFormValues :=
  openAddReset (add_form_defaults userName) p.

(** The toast of [handleDeleteConfirm] (lines 159-163). *)
Definition delete_toast (n : Notice) : string * string :=
  ("Notice Deleted", "Notice " ++ dq ++ title n ++ dq ++ " has been removed.")%string.

(** [handleDeleteConfirm] (lines 156-166). *)
Definition handleDeleteConfirm (p : CrudPage Notice) : CrudPage Notice * option (string * string) :=
  deleteConfirmToast delete_toast p.

(** The heading and its "Create Notice" button (lines 173-183). *)
Definition header : PageHeader :=
  mkPageHeader "School Notices" "Stay informed with the latest announcements. Admins can manage notices."
    "Create Notice".


(** The delete confirmation (lines 319-334). *)
Definition confirm_dialog (a : AlertAction) (p : CrudPage Notice) : CrudPage Notice :=
  confirmDialog a p.

End Page.

(** ** Lemmas *)

Lemma filter_partition {A} (f : A -> bool) l :
  Permutation (List.filter f l ++ List.filter (fun x => negb (f x)) l) l.
Proof.
  induction l as [|x l IH]; [done|]. simpl.
  destruct (f x); simpl; [by rewrite IH|].
  rewrite <- Permutation_middle. by rewrite IH.
Qed.

(** At any clock, every notice is listed exactly once: in the active
    list or in the expired list. *)
Theorem notices_partition now l :
  Permutation (activeNotices now l ++ expiredNotices now l) l.
Proof.
  unfold activeNotices, expiredNotices, sort_by_issued.
  rewrite !js_sort_perm. etransitivity; [|apply (filter_partition (is_active now))].
  apply Permutation_app; [done|]. erewrite List.filter_ext; [done|].
  intros n. unfold is_active. by destruct (expiryDate n) as [d|]; [destruct (is_past now d)|].
Qed.

(** Editing a notice keeps its id and its issue date and takes the
    title from the form; the other notices are kept. *)
Theorem notice_edit_keeps_issued parseISO now v p e n :
  editing p = Some e -> In n (items p) -> id n = id e ->
  In (merge_notice parseISO v n) (items (handleFormSubmit parseISO now v p)) /\
  id (merge_notice parseISO v n) = id n /\
  issuedDate (merge_notice parseISO v n) = issuedDate n /\
  title (merge_notice parseISO v n) = v_title v.
Proof.
  intros He Hin Hid. split; [|done].
  unfold handleFormSubmit, afterSubmit. rewrite He. simpl.
  apply js_sort_In. unfold update_by_id. apply in_map_iff. exists n. split; [|done].
  unfold record_id, notice_keyed. by rewrite Hid, String.eqb_refl.
Qed.

(** Notices created at different clock values get different ids:
    the id is the whole [Date.now().toString()], unlike the pages that
    keep only its last four digits. *)
Theorem new_notice_ids_distinct parseISO now1 now2 v1 v2 :
  now1 <> now2 -> id (new_notice parseISO now1 v1) <> id (new_notice parseISO now2 v2).
Proof. intros Hne Heq. apply Hne. by apply Students.js_number_to_string_inj. Qed.

(** A created notice whose expiry [parseISO] rejects carries an Invalid Date. *)
Lemma new_notice_invalid_expiry parseISO now v s :
  v_expiryDate v = Some s -> s <> ""%string -> parseISO s = None ->
  expiryDate (new_notice parseISO now v) = Some None.
Proof.
  intros Hv Hs Hp. simpl. unfold expiry_of. rewrite Hv.
  apply String.eqb_neq in Hs. by rewrite Hs, Hp.
Qed.

(** C28: an expiry date that [Date.parse] reads but [parseISO] does not
    (such as "July 20, 2024") passes the schema, and the created notice
    then carries an Invalid Date: it is active at every clock and never
    moves to the expired list. *)
Theorem invalid_expiry_never_expires dateParse parseISO now v s t :
  v_expiryDate v = Some s -> s <> ""%string -> dateParse s = Some t -> parseISO s = None ->
  expiry_ok dateParse v = true /\
  forall clock l, In (new_notice parseISO now v) l ->
  In (new_notice parseISO now v) (activeNotices clock l) /\
  ~ In (new_notice parseISO now v) (expiredNotices clock l).
Proof.
  intros Hv Hs Hd Hp. split; [unfold expiry_ok; rewrite Hv, Hd; apply orb_true_r|].
  pose proof (new_notice_invalid_expiry parseISO now v s Hv Hs Hp) as Hexp.
  intros clock l Hin. unfold activeNotices, expiredNotices, sort_by_issued.
  rewrite !js_sort_In, !filter_In. unfold is_active. rewrite Hexp. simpl.
  split; [by split|]. intros [_ H]. discriminate H.
Qed.

Lemma notice_edit_keeps_issued_witness :
  let n1 := hd (mkNotice "" "" "" 0 None "" None None) (initialNotices 0) in
  let p := openEditModal n1 (initialCrud (initialNotices 0)) in
  let v := sample_notice_values (Some "2024-07-30") in
  editing p = Some n1 /\ In n1 (items p) /\ id n1 = id n1 /\
  In (merge_notice parse_ymd v n1) (items (handleFormSubmit parse_ymd 1718000012345 v p)) /\
  id (merge_notice parse_ymd v n1) = id n1 /\
  issuedDate (merge_notice parse_ymd v n1) = issuedDate n1 /\
  title (merge_notice parse_ymd v n1) = v_title v.
Proof.
  intros n1 p v.
  assert (He : editing p = Some n1) by reflexivity.
  assert (Hin : In n1 (items p)) by (left; reflexivity).
  split; [exact He|]. split; [exact Hin|]. split; [reflexivity|].
  exact (notice_edit_keeps_issued parse_ymd 1718000012345 v p n1 n1 He Hin eq_refl).
Defined.

Lemma new_notice_ids_distinct_witness :
  (1718000012345 <> 1718000022345)%N /\
  id (new_notice parse_ymd 1718000012345 (sample_notice_values None)) <>
  id (new_notice parse_ymd 1718000022345 (sample_notice_values None)).
Proof.
  assert (H : (1718000012345 <> 1718000022345)%N) by lia.
  split; [exact H|]. exact (new_notice_ids_distinct parse_ymd _ _ _ _ H).
Defined.

Lemma invalid_expiry_never_expires_witness :
  let v := sample_notice_values (Some "July 20, 2024") in
  v_expiryDate v = Some "July 20, 2024"%string /\ "July 20, 2024"%string <> ""%string /\
  sample_date_parse "July 20, 2024" = Some 1721433600000%Z /\ parse_ymd "July 20, 2024" = None /\
  expiry_ok sample_date_parse v = true /\
  (forall clock l, In (new_notice parse_ymd 1718000012345 v) l ->
   In (new_notice parse_ymd 1718000012345 v) (activeNotices clock l) /\
   ~ In (new_notice parse_ymd 1718000012345 v) (expiredNotices clock l)).
Proof.
  intros v.
  assert (H1 : v_expiryDate v = Some "July 20, 2024"%string) by reflexivity.
  assert (H2 : "July 20, 2024"%string <> ""%string) by discriminate.
  assert (H3 : sample_date_parse "July 20, 2024" = Some 1721433600000%Z) by reflexivity.
  assert (H4 : parse_ymd "July 20, 2024" = None) by reflexivity.
  do 4 (split; [assumption|]).
  exact (invalid_expiry_never_expires sample_date_parse parse_ymd 1718000012345 v _ _ H1 H2 H3 H4).
Defined.

Lemma format_ymd_nonempty t : (format_ymd t =ₛ "") = false.
Proof. unfold format_ymd. by destruct (civil_from_days (t / 86400000)) as [[y m] d]. Qed.

(** C15: a notice created with an expiry date that [parseISO] rejects makes
    the page throw: its card calls [format] on an Invalid Date
    ([RangeError: Invalid time value]) at every clock, and so does the
    edit dialog's reset.  A date picker never produces such a value
    ([date_input_expiry_renders]); a browser that shows the
    [type="date"] input as a text box lets the user type one, such as
    July 20, 2024, which [Date.parse] accepts. *)
Theorem invalid_expiry_crashes_page parseISO now v s p isAdmin clock :
  editing p = None -> v_expiryDate v = Some s -> s <> ""%string -> parseISO s = None ->
  render_notices isAdmin clock (items (handleFormSubmit parseISO now v p)) = None /\
  edit_form_values (new_notice parseISO now v) = None.
Proof.
  intros He Hv Hs Hp.
  pose proof (new_notice_invalid_expiry parseISO now v s Hv Hs Hp) as Hexp.
  split; [|unfold edit_form_values; by rewrite Hexp].
  set (n := new_notice parseISO now v) in *.
  assert (Hin : In n (items (handleFormSubmit parseISO now v p))).
  { unfold handleFormSubmit, afterSubmit. rewrite He. simpl. apply js_sort_In. by left. }
  assert (Hact : In n (activeNotices clock (items (handleFormSubmit parseISO now v p)))).
  { unfold activeNotices, sort_by_issued. apply js_sort_In, filter_In. split; [done|].
    unfold is_active. by rewrite Hexp. }
  assert (Hcard : active_card isAdmin n = None).
  { unfold active_card. simpl (format_ppp (Some _)). by rewrite Hexp. }
  assert (HN : mapM (active_card isAdmin) (activeNotices clock (items (handleFormSubmit parseISO now v p))) = None).
  { apply mapM_None_2, List.Exists_exists. eauto. }
  unfold render_notices. destruct (items (handleFormSubmit parseISO now v p)); [done|].
  by rewrite HN.
Qed.

(** Opening Edit on a notice and saving the form unchanged gives the
    notice back, when its expiry is absent or was set from a date string
    that [parseISO] accepts (as the form does) and its type and audience
    are set: the expiry survives [format(date, 'yyyy-MM-dd')] followed by
    [parseISO]. *)
Theorem edit_unchanged_keeps_notice n :
  (expiryDate n = None \/ exists s t, parse_ymd s = Some t /\ expiryDate n = Some (Some t)) ->
  noticeType n <> None -> targetAudience n <> None ->
  exists v, edit_form_values n = Some v /\ merge_notice parse_ymd v n = n.
Proof.
  destruct n as [i ti c iss e a ty au]; simpl.
  intros He Hty Hau. destruct ty as [ty|]; [|done]. destruct au as [au|]; [|done].
  destruct He as [->|(s & t & Hs & ->)]; eexists; (split; [reflexivity|]); unfold merge_notice, expiry_of; simpl.
  - reflexivity.
  - rewrite ?format_ymd_nonempty, (parse_format_ymd s t Hs), Hs. reflexivity.
Qed.

(** An expiry entered through the date input is always a valid date:
    the picked day's [yyyy-MM-dd] text is read by [parseISO] as that
    day's midnight, and the new notice's card renders, active or
    expired.  The crash of an Invalid Date expiry needs a value no date
    picker produces. *)
Theorem date_input_expiry_renders v y m d now isAdmin :
  (0 <= y < 10000)%Z -> valid_ymd y m d = true ->
  expiry_of parse_ymd (set_notice_field (PickExpiry (Some (y, m, d))) v) =
    Some (Some (days_from_civil y m d * 86400000)%Z) /\
  active_card isAdmin (new_notice parse_ymd now (set_notice_field (PickExpiry (Some (y, m, d))) v)) <> None /\
  expired_card (new_notice parse_ymd now (set_notice_field (PickExpiry (Some (y, m, d))) v)) <> None.
Proof.
  intros Hy Hv.
  assert (He : expiry_of parse_ymd (set_notice_field (PickExpiry (Some (y, m, d))) v) =
               Some (Some (days_from_civil y m d * 86400000)%Z)).
  { unfold expiry_of. cbn [set_notice_field v_expiryDate date_input_value].
    replace (ymd_text y m d =ₛ "") with false by (unfold ymd_text; reflexivity).
    by rewrite parse_ymd_text. }
  split; [exact He|].
  unfold active_card, expired_card, new_notice. cbn [expiryDate issuedDate]. rewrite He.
  destruct (format_ppp_valid (Z.of_N now)) as [a Ha]. rewrite Ha.
  destruct (format_ppp_valid (days_from_civil y m d * 86400000)) as [b Hb]. rewrite Hb.
  split; discriminate.
Qed.

(** Ticking an audience that is not selected checks it, and unticking it
    again gives back the selection the form had. *)
Theorem toggle_audience_roundtrip a l :
  ~ In a l ->
  audience_checked a l = false /\ audience_checked a (toggle_audience true a l) = true /\
  toggle_audience false a (toggle_audience true a l) = l.
Proof.
  intros Hn. unfold audience_checked, toggle_audience. split; [|split].
  - apply not_true_iff_false. rewrite existsb_exists. intros [x [Hx Hxa]].
    apply bool_decide_eq_true in Hxa. subst. done.
  - apply existsb_exists. exists a. split; [apply in_or_app; right; by left|]. by apply bool_decide_eq_true.
  - rewrite List.filter_app. simpl. rewrite bool_decide_true by done. simpl. rewrite app_nil_r.
    apply filter_all_true. intros x Hx. rewrite bool_decide_false; [done|]. intros ->. done.
Qed.

Lemma invalid_expiry_crashes_page_witness :
  let v := sample_notice_values (Some "July 20, 2024") in
  let p := openAddModal (initialCrud (initialNotices 0)) in
  editing p = None /\ v_expiryDate v = Some "July 20, 2024"%string /\
  "July 20, 2024"%string <> ""%string /\ parse_ymd "July 20, 2024" = None /\
  render_notices true 1731110400000 (items (handleFormSubmit parse_ymd 1718000012345 v p)) = None /\
  edit_form_values (new_notice parse_ymd 1718000012345 v) = None.
Proof.
  intros v p.
  assert (H1 : editing p = None) by reflexivity.
  assert (H2 : v_expiryDate v = Some "July 20, 2024"%string) by reflexivity.
  assert (H3 : "July 20, 2024"%string <> ""%string) by discriminate.
  assert (H4 : parse_ymd "July 20, 2024" = None) by reflexivity.
  do 4 (split; [assumption|]).
  exact (invalid_expiry_crashes_page parse_ymd 1718000012345 v _ p true 1731110400000 H1 H2 H3 H4).
Defined.

Lemma edit_unchanged_keeps_notice_witness :
  let n := hd (mkNotice "" "" "" 0 None "" None None) (initialNotices 0) in
  (expiryDate n = None \/ exists s t, parse_ymd s = Some t /\ expiryDate n = Some (Some t)) /\
  noticeType n <> None /\ targetAudience n <> None /\
  exists v, edit_form_values n = Some v /\ merge_notice parse_ymd v n = n.
Proof.
  intros n.
  assert (H1 : expiryDate n = None \/ exists s t, parse_ymd s = Some t /\ expiryDate n = Some (Some t)).
  { right. exists "2024-07-25"%string, 1721865600000%Z. split; reflexivity. }
  assert (H2 : noticeType n <> None) by discriminate.
  assert (H3 : targetAudience n <> None) by discriminate.
  split; [exact H1|]. split; [exact H2|]. split; [exact H3|].
  exact (edit_unchanged_keeps_notice n H1 H2 H3).
Defined.

Lemma toggle_audience_roundtrip_witness :
  ~ In Parents [All] /\
  audience_checked Parents [All] = false /\ audience_checked Parents (toggle_audience true Parents [All]) = true /\
  toggle_audience false Parents (toggle_audience true Parents [All]) = [All].
Proof.
  assert (H : ~ In Parents [All]) by (intros [H|[]]; discriminate).
  split; [exact H|]. exact (toggle_audience_roundtrip Parents [All] H).
Defined.

Lemma date_input_expiry_renders_witness :
  let v := sample_notice_values None in
  (0 <= 2024 < 10000)%Z /\ valid_ymd 2024 7 25 = true /\
  expiry_of parse_ymd (set_notice_field (PickExpiry (Some (2024, 7, 25)%Z)) v) =
    Some (Some (days_from_civil 2024 7 25 * 86400000)%Z) /\
  active_card true (new_notice parse_ymd 1718000012345 (set_notice_field (PickExpiry (Some (2024, 7, 25)%Z)) v)) <> None /\
  expired_card (new_notice parse_ymd 1718000012345 (set_notice_field (PickExpiry (Some (2024, 7, 25)%Z)) v)) <> None.
Proof.
  intros v.
  assert (H1 : (0 <= 2024 < 10000)%Z) by lia.
  assert (H2 : valid_ymd 2024 7 25 = true) by reflexivity.
  split; [exact H1|]. split; [exact H2|].
  exact (date_input_expiry_renders v 2024 7 25 1718000012345 true H1 H2).
Defined.

End Notices.
