(* ===== verification/Gallery.v ===== *)
(** * Photo gallery (src/src/app/(app)/gallery/page.tsx)

    The [GalleryItem] record, the zod schema [galleryFormSchema]
    ([validate_gallery], with the one-or-two-word image hint check written
    with [trim] and [split(/\s+/)]), the page state (the management page
    pattern of [Crud] plus the event filter and the sort order), the submit
    handler (placeholder image for an empty URL, the item's date kept on
    edit, today's UTC date and the first place on create), the filter
    options [uniqueEventTags], the displayed list [processedGalleryItems],
    the dialog's form resets, field inputs and texts, and the rendered grid of cards with its
    empty-state message.  [gstep] is the page as a transition system: the
    management events (Edit and Delete only on the cards the filter
    lets through), the filter select (which offers the values of
    [uniqueEventTags] only) and the sort button.

    [gallery_edit_unchanged] shows that saving an edit unchanged keeps
    every card; [stale_filter_hides_items] that the filter can keep a tag
    no item has any more, so the grid shows nothing although the gallery
    holds items; [gallery_card_date] that a card's date,
    [new Date(item.date).toLocaleDateString()], is the item's day east of
    Greenwich and the day before west of it.  [new Date(s).getTime()] and
    zod's [.url()] are parameters.
    [Module Page] holds the page's [openCreateModal] with the values it resets
    the form to, [handleDeleteConfirm] with its toast, the delete
    confirmation and the heading. *)

From S2P Require Import Prelude JsRuntime EntityList Validation Crud.
From Stdlib Require Import Sorted Permutation.
Import EntityList Validation Crud.

Module Gallery.

(** [interface GalleryItem] (lines 36-43). *)
Record GalleryItem := mkItem {
  id : string;
  title : string;
  imageUrl : string;
  imageHint : string;
  date : string;
  eventTag : option string;
}.

#[global] Instance gallery_keyed : Keyed GalleryItem := id.

(** [GalleryFormValues] (line 58). *)
Record GalleryFormValues := mkGalleryValues {
  v_title : string;
  v_imageUrl : option string;
  v_imageHint : string;
  v_eventTag : option string;
}.

(** [s.split(/\s+/)]: the pieces between maximal runs of whitespace; a
    leading or trailing run gives an empty piece, and [""] gives [[""]]. *)
Fixpoint split_ws_aux (l : list ascii) (cur : list ascii) (in_space : bool) : list (list ascii) :=
  match l with
  | [] => [rev cur]
  | c :: l' =>
      if is_js_space c then
        (if in_space then split_ws_aux l' cur true else rev cur :: split_ws_aux l' [] true)
      else split_ws_aux l' (c :: cur) false
  end.

Definition js_split_ws (s : string) : list string :=
  List.map string_of_list_ascii (split_ws_aux (list_ascii_of_string s) [] false).

(** The [imageHint] refinement (lines 48-54): [const words =
    value.trim().split(/\s+/); return words.length >= 1 && words.length <= 2]. *)
Definition hint_words_ok (s : string) : bool :=
  let n := length (js_split_ws (js_trim s)) in (1 <=? n) && (n <=? 2).

(** [galleryFormSchema] (lines 45-56); [isUrl] is zod's [.url()]. *)
Definition validate_gallery (isUrl : string -> bool) (v : GalleryFormValues) : list string :=
  ((if min_len 3 (v_title v) then [] else ["title"]) ++
  (if match v_imageUrl v with Some u => isUrl u || (u =ₛ "") | None => true end
   then [] else ["imageUrl"]) ++
  (if min_len 1 (v_imageHint v) && hint_words_ok (v_imageHint v) then [] else ["imageHint"]))%list%string.

(** [initialGalleryItems] (lines 60-67). *)
Definition placeholder : string := "https://placehold.co/600x400.png".

Definition initialGalleryItems : list GalleryItem :=
  [mkItem "1" "Annual Sports Day" placeholder "sports children" "2024-03-15" (Some "Sports");
   mkItem "2" "Science Fair Exhibition" placeholder "science experiment" "2024-04-22" (Some "Academics");
   mkItem "3" "Art & Craft Workshop" placeholder "art craft" "2024-05-10" (Some "Workshop");
   mkItem "4" "Graduation Ceremony" placeholder "graduation students" "2024-06-01" (Some "Ceremony");
   mkItem "5" "Cultural Fest" placeholder "cultural dance" "2023-11-20" (Some "Culture");
   mkItem "6" "Tree Plantation Drive" placeholder "tree planting" "2023-09-05" (Some "Social")]%string.

Inductive SortOrder := Newest | Oldest.

(** The page state (lines 72-77). *)
Record GalleryPage := mkGalleryPage {
  crud : CrudPage GalleryItem;
  eventFilter : string;
  sortOrder : SortOrder;
}.

Definition initialGalleryPage : GalleryPage :=
  mkGalleryPage (initialCrud initialGalleryItems) "all" Newest.

(** [values.imageUrl || 'https://placehold.co/600x400.png'] (line 114). *)
Definition finalImageUrl (v : GalleryFormValues) : string :=
  match v_imageUrl v with
  | Some u => if u =ₛ "" then placeholder else u
  | None => placeholder
  end.

(** [{ ...item, ...values, imageUrl: finalImageUrl, date: item.date }] (line 119). *)
Definition merge_item (v : GalleryFormValues) (item : GalleryItem) : GalleryItem :=
  mkItem (id item) (v_title v) (finalImageUrl v) (v_imageHint v) (date item) (v_eventTag v).

(** [{ id: Date.now().toString(), ...values, imageUrl: finalImageUrl,
    date: new Date().toISOString().split('T')[0] }] (lines 127-132);
    [today] is that date string. *)
Definition new_item (now : N) (today : string) (v : GalleryFormValues) : GalleryItem :=
  mkItem (js_number_to_string now) (v_title v) (finalImageUrl v) (v_imageHint v) today (v_eventTag v).

(** The list and dialog part of [handleFormSubmit] (lines 113-142). *)
Definition submit_crud (now : N) (today : string) (v : GalleryFormValues)
    (c : CrudPage GalleryItem) : CrudPage GalleryItem :=
  afterSubmit
    (match editing c with
     | Some e => update_by_id (id e) (merge_item v) (items c)
     | None => prepend_record (new_item now today v) (items c)
     end) c.

(** [handleFormSubmit] (lines 113-142). *)
Definition handleFormSubmit (now : N) (today : string) (v : GalleryFormValues)
    (p : GalleryPage) : GalleryPage :=
  mkGalleryPage (submit_crud now today v (crud p)) (eventFilter p) (sortOrder p).

(** [new Set(items.map(i => i.eventTag).filter(Boolean))]: the truthy
    tags, each once, in order of first appearance. *)
Fixpoint dedup (seen : list string) (l : list string) : list string :=
  match l with
  | [] => []
  | x :: l' => if existsb (String.eqb x) seen then dedup seen l' else x :: dedup (x :: seen) l'
  end.

Definition truthy_tags (l : list GalleryItem) : list string :=
  flat_map (fun i => match eventTag i with Some t => if t =ₛ "" then [] else [t] | None => [] end) l.

(** [uniqueEventTags] (lines 156-159): ["all", ...tags]. *)
Definition uniqueEventTags (l : list GalleryItem) : list string :=
  "all"%string :: dedup [] (truthy_tags l).

(** [processedGalleryItems] (lines 161-172); [dateValue] is
    [new Date(s).getTime()], [None] for [NaN] (a [NaN] difference counts
    as [+0]). *)
Definition by_date (dateValue : string -> option Z) (o : SortOrder) (a b : GalleryItem) : Z :=
  match dateValue (date a), dateValue (date b) with
  | Some da, Some db => match o with Newest => (db - da)%Z | Oldest => (da - db)%Z end
  | _, _ => 0%Z
  end.

(** The filter step of [processedGalleryItems] (lines 162-165):
    [item.eventTag === eventFilter] unless the filter is "all". *)
Definition tag_filtered (p : GalleryPage) : list GalleryItem :=
  let l := items (crud p) in
  if eventFilter p =ₛ "all" then l
  else List.filter (fun i => match eventTag i with
                             | Some t => t =ₛ eventFilter p
                             | None => false end) l.

Definition processedGalleryItems (dateValue : string -> option Z) (p : GalleryPage) : list GalleryItem :=
  js_sort (by_date dateValue (sortOrder p)) (tag_filtered p).

(** [toggleSortOrder] (lines 174-176). *)
Definition toggleSortOrder (p : GalleryPage) : GalleryPage :=
  mkGalleryPage (crud p) (eventFilter p)
    (match sortOrder p with Newest => Oldest | Oldest => Newest end).

(** [setEventFilter] of the filter select (line 194). *)
Definition setEventFilter (f : string) (p : GalleryPage) : GalleryPage :=
  mkGalleryPage (crud p) f (sortOrder p).

(** In the displayed list, [a] comes before [b] only if its date is not
    earlier (newest first) or not later (oldest first). *)
Definition date_order (dateValue : string -> option Z) (o : SortOrder) (a b : GalleryItem) : Prop :=
  match dateValue (date a), dateValue (date b) with
  | Some da, Some db => match o with Newest => (db <= da)%Z | Oldest => (da <= db)%Z end
  | _, _ => True
  end.

Definition valid_gallery_values (isUrl : string -> bool) (v : GalleryFormValues) : bool :=
  match validate_gallery isUrl v with [] => true | _ => false end.

(** [new Date().toISOString().split('T')[0]]: the UTC date of the clock. *)
Definition iso_date_part (now : N) : string := format_ymd (Z.of_N now).

(** ** The dialog *)

(** The form resets (lines 89-100 and 104). *)
Definition edit_form_values (i : GalleryItem) : GalleryFormValues :=
  mkGalleryValues (title i) (Some (imageUrl i)) (imageHint i)
    (Some (match eventTag i with Some t => t | None => "" end)).

Definition add_form_defaults : GalleryFormValues :=
  mkGalleryValues "" (Some "") "" (Some "").

Definition form_reset (editing : option GalleryItem) : GalleryFormValues :=
  match editing with Some i => edit_form_values i | None => add_form_defaults end.

(** What the user can do in the dialog (lines 227-278): type the title,
    the image URL, the hint and the event tag. *)
Inductive GalleryInput :=
  | SetTitle (s : string)
  | SetImageUrl (s : string)
  | SetImageHint (s : string)
  | SetEventTag (s : string).

Definition set_gallery_field (i : GalleryInput) (v : GalleryFormValues) : GalleryFormValues :=
  match i with
  | SetTitle s => mkGalleryValues s (v_imageUrl v) (v_imageHint v) (v_eventTag v)
  | SetImageUrl s => mkGalleryValues (v_title v) (Some s) (v_imageHint v) (v_eventTag v)
  | SetImageHint s => mkGalleryValues (v_title v) (v_imageUrl v) s (v_eventTag v)
  | SetEventTag s => mkGalleryValues (v_title v) (v_imageUrl v) (v_imageHint v) (Some s)
  end.

(** The dialog's title, description and submit label (lines 220-222
    and 281), and the delete confirmation (line 293). *)
Definition dialog_title (editing : option GalleryItem) : string :=
  match editing with Some _ => "Edit Gallery Item" | None => "Create New Gallery Item" end.

Definition dialog_description (editing : option GalleryItem) : string :=
  match editing with
  | Some _ => "Update the details for this gallery item."
  | None => "Provide details for your new gallery item. You can specify an image URL or a placeholder will be used."
  end.

Definition submit_label (editing : option GalleryItem) : string :=
  match editing with Some _ => "Save Changes" | None => "Create Item" end.

Definition delete_description (i : GalleryItem) : string :=
  "This action cannot be undone. This will permanently delete the gallery item " ++
  String (ascii_of_nat 34) (title i ++ String (ascii_of_nat 34) ".").

(** ** The page as a transition system *)

Inductive gallery_event :=
  | GCrud (e : event GalleryItem GalleryFormValues)  (* the dialogs and buttons *)
  | GFilter (f : string)                             (* an option of the filter select *)
  | GToggleSort.                                     (* the sort button *)

Section GStep.
Variable isUrl : string -> bool.
Variable isAdmin : bool.

(** The filter select offers the values of [uniqueEventTags] (lines
    194-204); a submit dates a new item with the clock's UTC day. *)
Inductive gstep : GalleryPage -> gallery_event -> GalleryPage -> Prop :=
  | gstep_crud p e c' :
      (* Edit and Delete are buttons of the cards the grid shows (lines
         348-356): the items the filter lets through. *)
      (forall x, e = OpenEdit x \/ e = AskDelete x -> In x (tag_filtered p)) ->
      step (fun now v c => submit_crud now (iso_date_part now) v c) (valid_gallery_values isUrl)
        isAdmin (crud p) e c' ->
      gstep p (GCrud e) (mkGalleryPage c' (eventFilter p) (sortOrder p))
  | gstep_filter p f :
      In f (uniqueEventTags (items (crud p))) -> gstep p (GFilter f) (setEventFilter f p)
  | gstep_sort p : gstep p GToggleSort (toggleSortOrder p).

(** A create draws an id ([Date.now().toString()]) not yet taken. *)
Definition gfresh (p : GalleryPage) (e : gallery_event) : Prop :=
  forall now v, e = GCrud (Submit now v) -> editing (crud p) = None ->
  js_number_to_string now ∉ ids (items (crud p)).

Inductive gallery_reachable : GalleryPage -> Prop :=
  | g_init : gallery_reachable initialGalleryPage
  | g_step p e p' : gallery_reachable p -> gfresh p e -> gstep p e p' -> gallery_reachable p'.
End GStep.

(** ** The cards *)

(** What a card shows (lines 323-362): the image, its alt text and hint,
    the tag badge for a truthy tag, the title, the date, and the Edit and
    Delete buttons. *)
Record GalleryCard := mkGalleryCard {
  gc_src : string;
  gc_alt : string;
  gc_hint : string;
  gc_badge : option string;
  gc_title : string;
  gc_date : string;
  gc_actions : bool;
}.

(** A card, with [new Date(item.date).toLocaleDateString()] (line 346) at
    the local time zone's [offset]. *)
Definition gallery_card (dateValue : string -> option Z) (offset : Z) (isAdmin : bool)
    (i : GalleryItem) : GalleryCard :=
  mkGalleryCard (imageUrl i) (title i) (imageHint i)
    (match eventTag i with Some t => if t =ₛ "" then None else Some t | None => None end)
    (title i) (to_locale_date_string offset (dateValue (date i))) isAdmin.

(** The message of the empty grid (lines 313-317). *)
Definition empty_message (p : GalleryPage) : string :=
  if (eventFilter p =ₛ "all") && (length (items (crud p)) =? 0)%nat
  then "Start by creating a new gallery item to share school memories."
  else "No gallery items match the current filter " ++ dq ++
       (if eventFilter p =ₛ "all" then "All Events" else eventFilter p) ++ dq ++ ".".

Inductive GalleryView :=
  | NoGalleryItems (message : string)
  | GalleryGrid (cards : list GalleryCard).

(** The body of the page (lines 306-365). *)
Definition render_gallery (dateValue : string -> option Z) (offset : Z) (isAdmin : bool)
    (p : GalleryPage) : GalleryView :=
  match processedGalleryItems dateValue p with
  | [] => NoGalleryItems (empty_message p)
  | l => GalleryGrid (List.map (gallery_card dateValue offset isAdmin) l)
  end.

(** The filter select's option labels (line 202) and the sort button's
    label (line 210). *)
Definition filter_label (tag : string) : string := if tag =ₛ "all" then "All Events" else tag.

Definition sort_label (o : SortOrder) : string :=
  "Sort by Date (" ++ (match o with Newest => "Newest First" | Oldest => "Oldest First" end) ++ ")".

(** ** The page's own handlers and heading

    The page's copies of the shared handlers (see [Crud]), with the form
    values [openAddModal] resets and the toast [handleDeleteConfirm]
    shows, and the heading with its "Add" button. *)

Module Page.

(** [openCreateModal] (lines 102-106). *)
Definition openCreateModal (p : GalleryPage) : GalleryPage * GalleryFormValues :=
  let '(c, v) := openAddReset add_form_defaults (crud p) in
  (mkGalleryPage c (eventFilter p) (sortOrder p), v).

(** The toast of [handleDeleteConfirm] (lines 147-151). *)
Definition delete_toast (i : GalleryItem) : string * string :=
  ("Gallery Item Deleted", dq ++ title i ++ dq ++ " has been removed.")%string.

(** [handleDeleteConfirm] (lines 144-154). *)
Definition handleDeleteConfirm (p : GalleryPage) : GalleryPage * option (string * string) :=
  let '(c, t) := deleteConfirmToast delete_toast (crud p) in
  (mkGalleryPage c (eventFilter p) (sortOrder p), t).

(** The heading and its "Create Gallery Item" button (lines 180-190). *)
Definition header : PageHeader :=
  mkPageHeader "School Gallery" "Memories from school events and activities." "Create Gallery Item".


(** The delete confirmation (lines 288-303). *)
Definition confirm_dialog (a : AlertAction) (p : GalleryPage) : GalleryPage :=
  mkGalleryPage (confirmDialog a (crud p)) (eventFilter p) (sortOrder p).

End Page.

(** ** Lemmas *)

Lemma In_dedup seen l x :
  In x (dedup seen l) <-> In x l /\ ~ In x seen.
Proof.
  revert seen. induction l as [|y l IH]; intros seen; simpl; [tauto|].
  destruct (existsb (String.eqb y) seen) eqn:E.
  - rewrite IH. apply existsb_exists in E as [z [Hz Hyz]]. apply String.eqb_eq in Hyz as <-.
    split; [tauto|]. intros [[<-|Hx] Hn]; tauto.
  - simpl. rewrite IH. simpl.
    assert (Hy : ~ In y seen).
    { intros Hin. assert (existsb (String.eqb y) seen = true) as H'
        by (apply existsb_exists; exists y; split; [done|apply String.eqb_refl]).
      congruence. }
    split; [intros [<-|[Hx Hn]]; tauto|].
    intros [[<-|Hx] Hn]; [by left|]. destruct (String.eqb_spec y x) as [<-|Hne]; [by left|].
    right. split; [done|]. intros [?|?]; [congruence|done].
Qed.

Lemma NoDup_dedup seen l : List.NoDup (dedup seen l).
Proof.
  revert seen. induction l as [|y l IH]; intros seen; simpl; [constructor|].
  destruct (existsb (String.eqb y) seen); [apply IH|].
  constructor; [|apply IH]. rewrite In_dedup. intros [_ Hn]. apply Hn. by left.
Qed.

Lemma In_truthy_tags l t :
  In t (truthy_tags l) <-> exists i, In i l /\ eventTag i = Some t /\ t <> ""%string.
Proof.
  unfold truthy_tags. rewrite in_flat_map. split.
  - intros [i [Hi Ht]]. exists i. split; [done|].
    destruct (eventTag i) as [u|]; [|done]. destruct (String.eqb_spec u "") as [_|Hu]; [done|].
    destruct Ht as [<-|[]]. done.
  - intros [i [Hi [Ht Hne]]]. exists i. split; [done|]. rewrite Ht.
    apply String.eqb_neq in Hne. rewrite Hne. by left.
Qed.

Lemma by_date_antisym dateValue o a b :
  Z.sgn (by_date dateValue o a b) = (- Z.sgn (by_date dateValue o b a))%Z.
Proof.
  unfold by_date. destruct (dateValue (date a)), (dateValue (date b)), o; try reflexivity;
    rewrite <- Z.sgn_opp; f_equal; lia.
Qed.

(** A hint made only of whitespace passes the "Image hint is
    required" check: [min(1)] counts the blanks, and after [trim] the
    split yields the single word [""]. *)
Theorem blank_hint_accepted s :
  s <> ""%string -> (forall c, In c (list_ascii_of_string s) -> is_js_space c = true) ->
  min_len 1 s && hint_words_ok s = true.
Proof.
  intros Hne Hsp. unfold hint_words_ok. rewrite (proj2 (js_trim_empty_iff s) Hsp).
  destruct s as [|c s]; [done|]. reflexivity.
Qed.

(** The displayed list holds exactly the items whose tag is the
    selected filter, or all items under "all". *)
Theorem processed_filter dateValue p i :
  In i (processedGalleryItems dateValue p) <->
  In i (items (crud p)) /\ (eventFilter p = "all"%string \/ eventTag i = Some (eventFilter p)).
Proof.
  unfold processedGalleryItems. rewrite js_sort_In. unfold tag_filtered.
  destruct (String.eqb_spec (eventFilter p) "all") as [Ha|Ha]; [tauto|].
  rewrite filter_In. destruct (eventTag i) as [t|].
  - rewrite streq_true_iff. split; [intros [H1 ->]; auto|intros [H1 [?|[= ->]]]; done].
  - split; [intros [_ ?]; done|intros [_ [?|?]]; done].
Qed.

(** The displayed list is in date order, newest first or oldest first
    as the toggle says, whatever the filter. *)
Theorem processed_order dateValue p :
  Sorted (date_order dateValue (sortOrder p)) (processedGalleryItems dateValue p).
Proof.
  unfold processedGalleryItems.
  eapply Sorted_weaken; [|apply js_sort_sorted, by_date_antisym].
  intros a b. unfold cmp_le, by_date, date_order.
  destruct (dateValue (date a)), (dateValue (date b)), (sortOrder p); lia.
Qed.

(** The filter menu lists "all" and then every non-empty tag of the
    items once; choosing a tag other than "all" shows at least one item. *)
Theorem uniqueEventTags_sound dateValue p t :
  In t (uniqueEventTags (items (crud p))) -> t <> "all"%string ->
  List.NoDup (tl (uniqueEventTags (items (crud p)))) /\
  processedGalleryItems dateValue (setEventFilter t p) <> [].
Proof.
  intros Hin Hall. split; [apply NoDup_dedup|].
  destruct Hin as [?|Hin]; [congruence|].
  apply In_dedup in Hin as [Hin _]. apply In_truthy_tags in Hin as [i [Hi [Ht _]]].
  intros Hnil. assert (Hp : In i (processedGalleryItems dateValue (setEventFilter t p))).
  { unfold processedGalleryItems, tag_filtered. simpl. apply String.eqb_neq in Hall.
    rewrite Hall, js_sort_In, filter_In, Ht, String.eqb_refl. done. }
  rewrite Hnil in Hp. done.
Qed.

(** An item the page can hold: a title and hint the schema accepts, and
    a non-empty image URL that zod's [.url()] accepts. *)
Definition item_ok (isUrl : string -> bool) (i : GalleryItem) : Prop :=
  min_len 3 (title i) = true /\ imageUrl i <> ""%string /\ isUrl (imageUrl i) = true /\
  min_len 1 (imageHint i) && hint_words_ok (imageHint i) = true.

(** The item an unchanged edit gives back: an undefined tag becomes the
    empty string the form holds. *)
Definition blank_tag (i : GalleryItem) : GalleryItem :=
  mkItem (id i) (title i) (imageUrl i) (imageHint i) (date i)
    (Some (match eventTag i with Some t => t | None => "" end)).

Section Inv.
Variable isUrl : string -> bool.
Hypothesis isUrl_placeholder : isUrl placeholder = true.

Lemma validate_gallery_ok v :
  valid_gallery_values isUrl v = true ->
  min_len 3 (v_title v) = true /\ isUrl (finalImageUrl v) = true /\ finalImageUrl v <> ""%string /\
  min_len 1 (v_imageHint v) && hint_words_ok (v_imageHint v) = true.
Proof.
  unfold valid_gallery_values, validate_gallery, finalImageUrl.
  destruct (min_len 3 (v_title v)); [|discriminate].
  destruct (min_len 1 (v_imageHint v) && hint_words_ok (v_imageHint v));
    [|destruct (v_imageUrl v) as [u|]; [destruct (isUrl u || (u =ₛ ""))|]; discriminate].
  destruct (v_imageUrl v) as [u|]; [|intros _; split_and!; first [done|discriminate]].
  destruct (String.eqb_spec u "") as [->|Hne]; [intros _; split_and!; first [done|discriminate]|].
  rewrite orb_false_r. destruct (isUrl u) eqn:Hu; [|discriminate]. intros _. split_and!; done.
Qed.

Lemma gallery_submit_inv now v c :
  valid_gallery_values isUrl v = true ->
  (editing c = None -> js_number_to_string now ∉ ids (items c)) ->
  unique_ids (items c) /\ Forall (item_ok isUrl) (items c) ->
  unique_ids (items (submit_crud now (iso_date_part now) v c)) /\
  Forall (item_ok isUrl) (items (submit_crud now (iso_date_part now) v c)).
Proof.
  intros Hv Hf [Hu Hok]. apply validate_gallery_ok in Hv as (Ht & Hurl & Hne & Hh).
  unfold submit_crud, afterSubmit. cbn [items]. destruct (editing c) as [e|].
  - split; [by apply update_by_id_unique|]. apply Forall_update_by_id; [|done].
    intros r _. by split_and!.
  - split.
    + apply (unique_ids_perm (items c ++ [new_item now (iso_date_part now) v])); [symmetry; apply Permutation_cons_append|].
      by apply append_record_unique, Hf.
    + constructor; [by split_and!|done].
Qed.

Lemma gallery_inv isAdmin p :
  gallery_reachable isUrl isAdmin p ->
  unique_ids (items (crud p)) /\ Forall (item_ok isUrl) (items (crud p)).
Proof.
  induction 1 as [|p e p' _ IH Hf Hs].
  - split; [decide_it|]. repeat constructor; by rewrite ?isUrl_placeholder.
  - destruct Hs as [p e c' _ Hc|p f _|p]; [|done|done].
    refine (step_preserves_crud_inv _ _ isAdmin
      (fun c e => forall now v, e = Submit now v -> editing c = None -> js_number_to_string now ∉ ids (items c))
      (fun l => unique_ids l /\ Forall (item_ok isUrl) l) _ _ (crud p) e c' IH _ Hc).
    + intros q now v Hi Hv Hq. apply gallery_submit_inv; [done| |done]. exact (Hq now v eq_refl).
    + eauto with campus.
    + intros now v Heq He. subst e. exact (Hf now v eq_refl He).
Qed.
End Inv.

Lemma gallery_card_blank_tag dateValue offset isAdmin i :
  gallery_card dateValue offset isAdmin (blank_tag i) = gallery_card dateValue offset isAdmin i.
Proof. unfold gallery_card, blank_tag. simpl. by destruct (eventTag i). Qed.

(** On a reachable gallery, opening Edit on an item and saving
    unchanged passes the schema, changes only that item (an undefined
    tag becomes the empty string), and leaves every card as it was. *)
Theorem gallery_edit_unchanged isUrl isAdmin p i now dateValue offset :
  isUrl placeholder = true -> gallery_reachable isUrl isAdmin p -> In i (items (crud p)) ->
  valid_gallery_values isUrl (form_reset (Some i)) = true /\
  items (submit_crud now (iso_date_part now) (form_reset (Some i)) (openEditModal i (crud p))) =
    update_by_id (id i) blank_tag (items (crud p)) /\
  List.map (gallery_card dateValue offset isAdmin)
    (items (submit_crud now (iso_date_part now) (form_reset (Some i)) (openEditModal i (crud p)))) =
  List.map (gallery_card dateValue offset isAdmin) (items (crud p)).
Proof.
  intros Hph Hr Hin. destruct (gallery_inv isUrl Hph isAdmin p Hr) as [Hu Hok].
  destruct (proj1 (List.Forall_forall _ _) Hok i Hin) as (Ht & Hne & Hurl & Hh).
  assert (Hitems : items (submit_crud now (iso_date_part now) (form_reset (Some i)) (openEditModal i (crud p))) =
                   update_by_id (id i) blank_tag (items (crud p))).
  { unfold submit_crud, afterSubmit. cbn [items editing openEditModal form_reset].
    apply (update_by_id_ext_unique _ _ _ i Hu Hin).
    unfold merge_item, edit_form_values, finalImageUrl, blank_tag. simpl.
    by rewrite (proj2 (streq_false_iff _ _) Hne). }
  split_and!; [|done|].
  - unfold valid_gallery_values, validate_gallery. simpl. rewrite Ht, Hurl, Hh. reflexivity.
  - rewrite Hitems. unfold update_by_id. rewrite List.map_map. apply map_ext. intros r.
    destruct (record_id r =ₛ id i); [apply gallery_card_blank_tag|done].
Qed.

(** C16: the event filter can point at a tag no item has any more: after
    filtering on Sports and editing the only Sports item to another tag,
    the page holds six items, the filter's value is not among the
    select's options, and the grid is replaced by the message that no
    item matches Sports. *)
Theorem stale_filter_hides_items isUrl dateValue offset :
  isUrl placeholder = true ->
  exists p, gallery_reachable isUrl true p /\ length (items (crud p)) = 6%nat /\
    ~ In (eventFilter p) (uniqueEventTags (items (crud p))) /\
    render_gallery dateValue offset true p =
      NoGalleryItems ("No gallery items match the current filter " ++ dq ++ "Sports" ++ dq ++ ".").
Proof.
  intros Hph.
  set (i1 := mkItem "1" "Annual Sports Day" placeholder "sports children" "2024-03-15" (Some "Sports")).
  set (v := mkGalleryValues "Annual Sports Day" (Some placeholder) "sports children" (Some "Athletics")).
  set (p1 := setEventFilter "Sports" initialGalleryPage).
  set (p2 := mkGalleryPage (openEditModal i1 (crud p1)) (eventFilter p1) (sortOrder p1)).
  set (p3 := mkGalleryPage (submit_crud 1718000012345 (iso_date_part 1718000012345) v (crud p2))
               (eventFilter p2) (sortOrder p2)).
  assert (R1 : gallery_reachable isUrl true p1).
  { apply (g_step _ _ initialGalleryPage (GFilter "Sports")); [constructor|intros ? ? [=]|].
    constructor. simpl. auto. }
  assert (R2 : gallery_reachable isUrl true p2).
  { apply (g_step _ _ p1 (GCrud (OpenEdit i1))); [done|intros ? ? [=]|].
    constructor; [intros x [[= <-]|[=]]; left; reflexivity|].
    constructor; [done|split; done|left; reflexivity]. }
  assert (R3 : gallery_reachable isUrl true p3).
  { apply (g_step _ _ p2 (GCrud (Submit 1718000012345 v))); [done|intros ? ? _ Habs; cbv [p2 p1] in Habs; simpl in Habs; discriminate Habs|].
    constructor; [intros x [[=]|[=]]|]. constructor; [done|]. unfold valid_gallery_values, validate_gallery. simpl.
    by rewrite Hph. }
  exists p3. split_and!; [done|reflexivity|..].
  - vm_compute. not_in_it.
  - reflexivity.
Qed.

(** C17: [new Date('yyyy-MM-dd')] is UTC midnight but
    [toLocaleDateString()] shows the local day: a card shows its item's
    date east of Greenwich and the day before west of it. *)
Theorem gallery_card_date offset isAdmin i y m d :
  ymd_fields (date i) = Some (y, m, d) -> valid_ymd y m d = true ->
  (-86400000 <= offset < 86400000)%Z ->
  gc_date (gallery_card parse_ymd offset isAdmin i) =
    if (offset <? 0)%Z then us_date (civil_from_days (days_from_civil y m d - 1)) else us_date (y, m, d).
Proof.
  intros Hf Hv Ho. unfold gallery_card, to_locale_date_string. cbn [gc_date].
  unfold parse_ymd. rewrite Hf, Hv, local_day_of_midnight by done.
  destruct (Z.ltb_spec offset 0); [reflexivity|].
  by rewrite Z.add_0_r, civil_from_days_from_civil.
Qed.

Lemma blank_hint_accepted_witness :
  "   "%string <> ""%string /\
  (forall c, In c (list_ascii_of_string "   ") -> is_js_space c = true) /\
  min_len 1 "   " && hint_words_ok "   " = true.
Proof.
  assert (H1 : "   "%string <> ""%string) by discriminate.
  assert (H2 : forall c, In c (list_ascii_of_string "   ") -> is_js_space c = true)
    by (intros c Hc; repeat destruct Hc as [<-|Hc]; done).
  split; [exact H1|]. split; [exact H2|]. exact (blank_hint_accepted _ H1 H2).
Defined.

Lemma uniqueEventTags_sound_witness :
  In "Sports"%string (uniqueEventTags (items (crud initialGalleryPage))) /\
  "Sports"%string <> "all"%string /\
  List.NoDup (tl (uniqueEventTags (items (crud initialGalleryPage)))) /\
  processedGalleryItems parse_ymd (setEventFilter "Sports" initialGalleryPage) <> [].
Proof.
  assert (H1 : In "Sports"%string (uniqueEventTags (items (crud initialGalleryPage))))
    by (right; left; reflexivity).
  assert (H2 : "Sports"%string <> "all"%string) by discriminate.
  split; [exact H1|]. split; [exact H2|].
  exact (uniqueEventTags_sound parse_ymd initialGalleryPage _ H1 H2).
Defined.

Lemma gallery_edit_unchanged_witness :
  let p := initialGalleryPage in
  let i := hd (mkItem "" "" "" "" "" None) initialGalleryItems in
  (fun _ => true) placeholder = true /\ gallery_reachable (fun _ => true) true p /\ In i (items (crud p)) /\
  valid_gallery_values (fun _ => true) (form_reset (Some i)) = true /\
  items (submit_crud 1718000012345 (iso_date_part 1718000012345) (form_reset (Some i)) (openEditModal i (crud p))) =
    update_by_id (id i) blank_tag (items (crud p)) /\
  List.map (gallery_card parse_ymd 0 true)
    (items (submit_crud 1718000012345 (iso_date_part 1718000012345) (form_reset (Some i)) (openEditModal i (crud p)))) =
  List.map (gallery_card parse_ymd 0 true) (items (crud p)).
Proof.
  intros p i.
  assert (H1 : (fun _ : string => true) placeholder = true) by reflexivity.
  assert (H2 : gallery_reachable (fun _ => true) true p) by constructor.
  assert (H3 : In i (items (crud p))) by (left; reflexivity).
  do 3 (split; [assumption|]).
  exact (gallery_edit_unchanged (fun _ => true) true p i 1718000012345 parse_ymd 0 H1 H2 H3).
Defined.

Lemma stale_filter_hides_items_witness :
  (fun _ => true) placeholder = true /\
  exists p, gallery_reachable (fun _ => true) true p /\ length (items (crud p)) = 6%nat /\
    ~ In (eventFilter p) (uniqueEventTags (items (crud p))) /\
    render_gallery parse_ymd 0 true p =
      NoGalleryItems ("No gallery items match the current filter " ++ dq ++ "Sports" ++ dq ++ ".").
Proof.
  assert (H : (fun _ : string => true) placeholder = true) by reflexivity.
  split; [exact H|]. exact (stale_filter_hides_items (fun _ => true) parse_ymd 0 H).
Defined.

(** Five hours west of Greenwich, the Annual Sports Day of 2024-03-15
    is shown as 3/14/2024. *)
Lemma gallery_card_date_witness :
  let i := hd (mkItem "" "" "" "" "" None) initialGalleryItems in
  ymd_fields (date i) = Some (2024, 3, 15)%Z /\ valid_ymd 2024 3 15 = true /\
  (-86400000 <= -18000000 < 86400000)%Z /\
  gc_date (gallery_card parse_ymd (-18000000) true i) =
    (if (-18000000 <? 0)%Z then us_date (civil_from_days (days_from_civil 2024 3 15 - 1))
     else us_date (2024, 3, 15)%Z) /\
  gc_date (gallery_card parse_ymd (-18000000) true i) = "3/14/2024".
Proof.
  intros i.
  assert (H1 : ymd_fields (date i) = Some (2024, 3, 15)%Z) by reflexivity.
  assert (H2 : valid_ymd 2024 3 15 = true) by reflexivity.
  assert (H3 : (-86400000 <= -18000000 < 86400000)%Z) by lia.
  split; [exact H1|]. split; [exact H2|]. split; [exact H3|].
  split; [exact (gallery_card_date (-18000000) true i 2024 3 15 H1 H2 H3)|].
  vm_compute. reflexivity.
Defined.

End Gallery.
