(* ===== verification/Timetable.v ===== *)
(** * Class timetable (src/src/app/(app)/timetable/page.tsx)

    The [TimetableEntry] record, the zod schema [timetableEntrySchema]
    ([validate_entry]), the fixed lists of time slots, days, classes,
    subjects, teachers and rooms, the page state (the management page
    pattern of [Crud] plus the selected class), the submit handler
    ([editOrAppend] with ids [`tt${Date.now()}`]), the dialog's form
    resets and its six Selects ([set_entry_field]; [add_dialog_valid_iff]
    characterises the add forms the schema accepts), and the grid: [getCellData] returns the first entry of the
    selected class at a time slot and day, and [render_grid] shows one
    cell per slot and day, LUNCH BREAK in the 12:00 - 13:00 row.  [tstep]
    is the page as a transition system whose Edit and Delete buttons
    exist only on the entries the grid shows.

    Nothing checks that a slot is free, so [double_booking_hidden] shows
    that a second entry for an occupied cell is stored but never shown;
    [lunch_entry_stuck] shows that an entry booked at 12:00 - 13:00,
    which the time select offers, is hidden behind LUNCH BREAK for every
    class and survives every sequence of events: it can never be edited
    or deleted.
    [Module Page] holds the page's [openAddModal] with the values it resets
    the form to, [handleDeleteConfirm] with its toast, the delete
    confirmation and the heading. *)

From S2P Require Import Prelude JsRuntime EntityList Validation Crud.
Import EntityList Validation Crud.

Module Timetable.

(** [TimetableEntry['day']] (line 38). *)
Inductive Day := monday | tuesday | wednesday | thursday | friday | saturday.

#[global] Instance day_eq_dec : EqDecision Day.
Proof. solve_decision. Defined.

Definition day_eqb (a b : Day) : bool := bool_decide (a = b).

(** [interface TimetableEntry] (lines 35-43). *)
Record TimetableEntry := mkEntry {
  id : string;
  classId : string;
  day : Day;
  time : string;
  subject : string;
  teacher : string;
  room : string;
}.

#[global] Instance entry_keyed : Keyed TimetableEntry := id.

(** [TimetableEntryFormValues] (line 54). *)
Record TimetableEntryFormValues := mkEntryValues {
  v_classId : string;
  v_day : Day;
  v_time : string;
  v_subject : string;
  v_teacher : string;
  v_room : string;
}.

(** [timetableEntrySchema] (lines 45-52); [day] is an enum, which the
    type enforces. *)
Definition validate_entry (v : TimetableEntryFormValues) : list string :=
  ((if min_len 1 (v_classId v) then [] else ["classId"]) ++
  (if min_len 1 (v_time v) then [] else ["time"]) ++
  (if min_len 1 (v_subject v) then [] else ["subject"]) ++
  (if min_len 1 (v_teacher v) then [] else ["teacher"]) ++
  (if min_len 1 (v_room v) then [] else ["room"]))%list%string.

(** [timeSlots], [daysOfWeek] and [sampleClasses] (lines 57-64). *)
Definition timeSlots : list string :=
  ["09:00 - 10:00"; "10:00 - 11:00"; "11:00 - 12:00"; "12:00 - 13:00";
   "13:00 - 14:00"; "14:00 - 15:00"]%string.

Definition daysOfWeek : list Day := [monday; tuesday; wednesday; thursday; friday; saturday].

Definition sampleClasses : list string := ["NC-A"; "1A"; "5B"; "10C"; "12A"]%string.

(** [initialTimetableData] (lines 69-75). *)
Definition initialTimetableData : list TimetableEntry :=
  [mkEntry "tt1" "10C" monday "09:00 - 10:00" "Mathematics" "Ms. Smith" "Room 101";
   mkEntry "tt2" "10C" monday "10:00 - 11:00" "History" "Mr. Brown" "Room 102";
   mkEntry "tt3" "10C" tuesday "09:00 - 10:00" "Physics" "Mr. Jones" "Lab A";
   mkEntry "tt4" "5B" wednesday "11:00 - 12:00" "Art" "Mr. Green" "Studio 1";
   mkEntry "tt5" "10C" saturday "10:00 - 11:00" "Extra Curricular" "Ms. Taylor" "Hall A"]%string.

(** The page state (lines 81-85); the selected class starts at
    [sampleClasses[2]]. *)
Record TimetablePage := mkTimetablePage {
  crud : CrudPage TimetableEntry;
  selectedClass : string;
}.

Definition initialTimetablePage : TimetablePage :=
  mkTimetablePage (initialCrud initialTimetableData) "5B".

(** [{ ...entry, ...values }] (line 118). *)
Definition merge_entry (v : TimetableEntryFormValues) (e : TimetableEntry) : TimetableEntry :=
  mkEntry (id e) (v_classId v) (v_day v) (v_time v) (v_subject v) (v_teacher v) (v_room v).

(** [{ id: `tt${Date.now()}`, ...values }] (lines 125-128). *)
Definition new_entry (now : N) (v : TimetableEntryFormValues) : TimetableEntry :=
  mkEntry ("tt" ++ js_number_to_string now) (v_classId v) (v_day v) (v_time v)
    (v_subject v) (v_teacher v) (v_room v).

(** [handleFormSubmit] (lines 115-137). *)
Definition handleFormSubmit (now : N) (v : TimetableEntryFormValues) (p : TimetablePage) : TimetablePage :=
  mkTimetablePage (editOrAppend (merge_entry v) (new_entry now v) (crud p)) (selectedClass p).

(** [getCellData(time, day)] (lines 162-164). *)
Definition getCellData (p : TimetablePage) (t : string) (d : Day) : option TimetableEntry :=
  List.find (fun e => (classId e =ₛ selectedClass p) && (time e =ₛ t) && day_eqb (day e) d)
    (items (crud p)).

(** The entries the grid shows (lines 327-374): one cell per time slot
    and day; the 12:00 - 13:00 row shows "LUNCH BREAK", every other cell
    [getCellData(time, day)] when there is one.  The Edit and Delete
    buttons are inside the cells that show an entry. *)
Definition isLunch (t : string) : bool := t =ₛ "12:00 - 13:00".

Definition grid_entries (p : TimetablePage) : list TimetableEntry :=
  flat_map (fun t => flat_map (fun d =>
                       if isLunch t then []
                       else match getCellData p t d with
                            | Some e => [e]
                            | None => [] end) daysOfWeek) timeSlots.

(** [setSelectedClass] of the class select (line 176). *)
Definition setSelectedClass (c : string) (p : TimetablePage) : TimetablePage :=
  mkTimetablePage (crud p) c.

Definition valid_entry_values (v : TimetableEntryFormValues) : bool :=
  match validate_entry v with [] => true | _ => false end.

(** ** The dialog *)

(** [form.reset(editingEntry)] and the create reset (lines 99-112 and
    141): the selected class, Monday, the first slot. *)
Definition edit_form_values (e : TimetableEntry) : TimetableEntryFormValues :=
  mkEntryValues (classId e) (day e) (time e) (subject e) (teacher e) (room e).

Definition add_form_defaults (selected : string) : TimetableEntryFormValues :=
  mkEntryValues selected monday "09:00 - 10:00" "" "" "".

Definition form_reset (selected : string) (editing : option TimetableEntry) : TimetableEntryFormValues :=
  match editing with Some e => edit_form_values e | None => add_form_defaults selected end.

(** The options of the subject, teacher and room selects (lines 65-67). *)
Definition sampleSubjects : list string :=
  ["Mathematics"; "Physics"; "Chemistry"; "English"; "History"; "Art"; "Music";
   "Physical Education"; "Extra Curricular"]%string.

Definition sampleTeachers : list string :=
  ["Ms. Smith"; "Mr. Jones"; "Mr. Brown"; "Ms. White"; "Ms. Davis"; "Mr. Wilson"; "Mr. Green";
   "Ms. Taylor"; "Mr. Harris"; "Ms. Lee"; "Mr. Clark"]%string.

Definition sampleRooms : list string :=
  ["Room 101"; "Lab A"; "Room 102"; "Lab B"; "Studio 1"; "Hall A"; "Gym"; "CS Lab"]%string.

(** What the user can do in the dialog (lines 207-280): every field is
    a Select over its option list. *)
Inductive EntryInput :=
  | SelectEntryClass (c : string)
  | SelectDay (d : Day)
  | SelectTime (t : string)
  | SelectSubject (s : string)
  | SelectTeacher (t : string)
  | SelectRoom (r : string).

(** The options each Select offers (lines 213, 226, 238, 251, 263, 275). *)
Definition entry_input_offered (i : EntryInput) : bool :=
  match i with
  | SelectEntryClass c => existsb (String.eqb c) sampleClasses
  | SelectDay _ => true
  | SelectTime t => existsb (String.eqb t) timeSlots
  | SelectSubject s => existsb (String.eqb s) sampleSubjects
  | SelectTeacher t => existsb (String.eqb t) sampleTeachers
  | SelectRoom r => existsb (String.eqb r) sampleRooms
  end.

Definition set_entry_field (i : EntryInput) (v : TimetableEntryFormValues) : TimetableEntryFormValues :=
  let 'mkEntryValues c d t s te r := v in
  match i with
  | SelectEntryClass x => mkEntryValues x d t s te r
  | SelectDay x => mkEntryValues c x t s te r
  | SelectTime x => mkEntryValues c d x s te r
  | SelectSubject x => mkEntryValues c d t x te r
  | SelectTeacher x => mkEntryValues c d t s x r
  | SelectRoom x => mkEntryValues c d t s te x
  end.

(** The user's picks, in order, applied to the form. *)
Definition apply_inputs (picks : list EntryInput) (v : TimetableEntryFormValues) : TimetableEntryFormValues :=
  fold_left (fun v i => set_entry_field i v) picks v.

(** The dialog's title, description and submit label (lines 198-203
    and 283), and the delete confirmation (lines 295-296). *)
Definition dialog_title (editing : option TimetableEntry) : string :=
  match editing with Some _ => "Edit Timetable Entry" | None => "Add New Timetable Entry" end.

Definition dialog_description (editing : option TimetableEntry) : string :=
  match editing with
  | Some _ => "Update the details for this schedule."
  | None => "Fill in the details for the new class schedule."
  end.

Definition submit_label (editing : option TimetableEntry) : string :=
  match editing with Some _ => "Save Changes" | None => "Add Entry" end.

Definition day_text (d : Day) : string :=
  match d with
  | monday => "monday" | tuesday => "tuesday" | wednesday => "wednesday"
  | thursday => "thursday" | friday => "friday" | saturday => "saturday"
  end.

Definition delete_description (e : TimetableEntry) : string :=
  "This action cannot be undone. This will permanently delete the timetable entry: " ++
  subject e ++ " for Class " ++ classId e ++ " on " ++ day_text (day e) ++ " at " ++ time e ++ ".".

(** ** The grid *)

Inductive Cell :=
  | LunchCell
  | EntryCell (subject teacher room : string) (actions : bool)
  | EmptyCell.

(** A cell (lines 331-371). *)
Definition cell (isAdmin : bool) (p : TimetablePage) (t : string) (d : Day) : Cell :=
  if isLunch t then LunchCell
  else match getCellData p t d with
       | Some e => EntryCell (subject e) (teacher e) (room e) isAdmin
       | None => EmptyCell
       end.

(** The table body (lines 327-376): a row per time slot, a cell per day. *)
Definition render_grid (isAdmin : bool) (p : TimetablePage) : list (string * list Cell) :=
  List.map (fun t => (t, List.map (cell isAdmin p t) daysOfWeek)) timeSlots.

Definition grid_title (p : TimetablePage) : string := "Weekly Schedule for " ++ selectedClass p.

(** ** The page as a transition system *)

Inductive tt_event :=
  | TCrud (e : event TimetableEntry TimetableEntryFormValues)
  | TSelect (c : string).

(** The Edit and Delete buttons of an entry are inside the cell that shows
    it (lines 355-364). *)
Definition cell_button (p : TimetablePage) (e : event TimetableEntry TimetableEntryFormValues) : Prop :=
  match e with
  | OpenEdit x | AskDelete x => In x (grid_entries p)
  | _ => True
  end.

Section TStep.
Variable isAdmin : bool.

Inductive tstep : TimetablePage -> tt_event -> TimetablePage -> Prop :=
  | tstep_crud p e c' :
      step (fun now v c => editOrAppend (merge_entry v) (new_entry now v) c) valid_entry_values
        isAdmin (crud p) e c' ->
      cell_button p e -> tstep p (TCrud e) (mkTimetablePage c' (selectedClass p))
  | tstep_select p c : In c sampleClasses -> tstep p (TSelect c) (setSelectedClass c p).

(** A create draws an id [`tt${Date.now()}`] not yet taken. *)
Definition tfresh (p : TimetablePage) (e : tt_event) : Prop :=
  forall now v, e = TCrud (Submit now v) -> editing (crud p) = None ->
  ("tt" ++ js_number_to_string now)%string ∉ ids (items (crud p)).

Definition tt_step (p p' : TimetablePage) : Prop := exists e, tfresh p e /\ tstep p e p'.

Definition tt_steps : TimetablePage -> TimetablePage -> Prop := star tt_step.

Definition tt_reachable (p : TimetablePage) : Prop := tt_steps initialTimetablePage p.
End TStep.

(** ** The page's own handlers and heading

    The page's copies of the shared handlers (see [Crud]), with the form
    values [openAddModal] resets and the toast [handleDeleteConfirm]
    shows, and the heading with its "Add" button. *)

Module Page.

(** [openAddModal] (lines 139-143): the form gets the selected class. *)
Definition openAddModal (p : TimetablePage) : TimetablePage * TimetableEntryFormValues :=
  let '(c, v) := openAddReset (add_form_defaults (selectedClass p)) (crud p) in
  (mkTimetablePage c (selectedClass p), v).

(** The toast of [handleDeleteConfirm] (lines 153-157). *)
Definition delete_toast (e : TimetableEntry) : string * string :=
  ("Timetable Entry Deleted", "The entry for " ++ subject e ++ " on " ++ day_text (day e) ++
     " at " ++ time e ++ " has been removed.")%string.

(** [handleDeleteConfirm] (lines 150-160). *)
Definition handleDeleteConfirm (p : TimetablePage) : TimetablePage * option (string * string) :=
  let '(c, t) := deleteConfirmToast delete_toast (crud p) in (mkTimetablePage c (selectedClass p), t).

(** The heading and its "Add Timetable Entry" button (lines 167-189). *)
Definition header : PageHeader :=
  mkPageHeader "Class Timetable Management"
    "View and manage weekly class schedules. Lists for classes, subjects, teachers, and rooms are predefined for demonstration."
    "Add Timetable Entry".


(** The delete confirmation (lines 290-306). *)
Definition confirm_dialog (a : AlertAction) (p : TimetablePage) : TimetablePage :=
  mkTimetablePage (confirmDialog a (crud p)) (selectedClass p).

End Page.

(** ** Lemmas *)

Lemma find_app_Some {A} (f : A -> bool) l1 l2 x :
  List.find f l1 = Some x -> List.find f (l1 ++ l2) = Some x.
Proof.
  induction l1 as [|y l1 IH]; simpl; [done|]. destruct (f y); [done|]. exact IH.
Qed.

Lemma In_grid_entries p e :
  In e (grid_entries p) -> exists t d, getCellData p t d = Some e.
Proof.
  unfold grid_entries. rewrite in_flat_map. intros [t [_ Hd]].
  apply in_flat_map in Hd as [d [_ He]]. destruct (isLunch t); [done|].
  destruct (getCellData p t d) as [e'|] eqn:E; [|done]. destruct He as [<-|[]]. eauto.
Qed.

Lemma getCellData_matches p t d e :
  getCellData p t d = Some e -> classId e = selectedClass p /\ time e = t /\ day e = d.
Proof.
  unfold getCellData. intros H. apply find_some in H as [_ H].
  apply andb_true_iff in H as [H Hd]. apply andb_true_iff in H as [Hc Ht].
  apply streq_true_iff in Hc, Ht. unfold day_eqb in Hd. apply bool_decide_eq_true in Hd. done.
Qed.

Lemma grid_not_lunch p x : In x (grid_entries p) -> isLunch (time x) = false.
Proof.
  unfold grid_entries. rewrite in_flat_map. intros [t [_ Hd]].
  apply in_flat_map in Hd as [d [_ He]]. destruct (isLunch t) eqn:Hl; [done|].
  destruct (getCellData p t d) as [e'|] eqn:E; [|done]. destruct He as [<-|[]].
  apply getCellData_matches in E as (_ & -> & _). exact Hl.
Qed.

Lemma grid_in_items p x : In x (grid_entries p) -> In x (items (crud p)).
Proof.
  intros Hg. apply In_grid_entries in Hg as (t & d & Hg).
  unfold getCellData in Hg. by apply find_some in Hg as [Hin _].
Qed.

(** The dialog being edited and the entry awaiting deletion are entries
    of the list shown in the grid, never both at once. *)
Definition tt_inv (p : TimetablePage) : Prop :=
  unique_ids (items (crud p)) /\
  (forall x, editing (crud p) = Some x ->
     showModal (crud p) = true /\ In x (items (crud p)) /\ isLunch (time x) = false) /\
  (forall x, toDelete (crud p) = Some x ->
     showModal (crud p) = false /\ In x (items (crud p)) /\ isLunch (time x) = false) /\
  (showModal (crud p) = true -> toDelete (crud p) = None).

Lemma tstep_inv isAdmin p e p' : tt_inv p -> tfresh p e -> tstep isAdmin p e p' -> tt_inv p'.
Proof.
  intros (Hu & He & Hd & Hm) Hf Hs.
  destruct Hs as [p e c' Hc Hb|p c _]; [|done]. unfold tt_inv. cbn [crud].
  remember (crud p) as c0 eqn:Ec.
  destruct Hc as [q _ [Hq1 Hq2]|q x _ [Hq1 Hq2] _|q Hq|q now v Hq _|q x _ [Hq1 Hq2] _|q Hq|q Hq];
    cbn [cell_button] in Hb; cbn [items editing toDelete showModal openAddModal openEditModal
      closeModal setToDelete] in *.
  - split_and!; [done|intros ? [=]|intros y Hy; rewrite Hq2 in Hy; done|done].
  - split_and!; [done|intros y [= <-]; split_and!; [done|rewrite Ec; by apply grid_in_items|by eapply grid_not_lunch]
                 |intros y Hy; rewrite Hq2 in Hy; done|done].
  - split_and!; [done|intros ? [=]| |done].
    intros y Hy. by rewrite (Hm Hq) in Hy.
  - unfold editOrAppend, afterSubmit. cbn [items editing toDelete showModal].
    rewrite (Hm Hq). split_and!; [|intros ? [=]|intros ? [=]|done].
    destruct (editing q) as [x|] eqn:Eed; [by apply update_by_id_unique|].
    apply append_record_unique; [done|]. subst q. exact (Hf now v eq_refl Eed).
  - split_and!; [done| |intros y [= <-]; split_and!; [done|rewrite Ec; by apply grid_in_items|by eapply grid_not_lunch]
                 |by rewrite Hq1].
    intros y Hy. destruct (He y Hy) as [Hs _]. by rewrite Hs in Hq1.
  - split_and!; [done| |intros ? [=]|done].
    intros y Hy. destruct (toDelete q) as [z|] eqn:Ez; [|done].
    destruct (He y Hy) as [Hs _]. by destruct (Hd z eq_refl) as [Hs' _]; rewrite Hs in Hs'.
  - unfold handleDeleteConfirm. destruct (toDelete q) as [z|] eqn:Ez; [|done].
    destruct (Hd z eq_refl) as (Hs & _). cbn [items editing toDelete showModal].
    split_and!; [by apply remove_by_id_unique| |intros ? [=]|intros ?; by rewrite Hs in *].
    intros y Hy. destruct (He y Hy) as [Hs' _]. by rewrite Hs in Hs'.
Qed.

Lemma tt_steps_inv isAdmin p p' : tt_inv p -> tt_steps isAdmin p p' -> tt_inv p'.
Proof. intros Hi Hs. induction Hs as [|a b c [e [Hf Hs]] _ IH]; [done|]. eauto using tstep_inv. Qed.

(** Different entries of a list with unique ids have different ids. *)
Lemma unique_ids_neq l (x y : TimetableEntry) :
  unique_ids l -> In x l -> In y l -> x <> y -> id x <> id y.
Proof. intros Hu Hx Hy Hne Heq. apply Hne. by apply (unique_ids_In_eq l x y). Qed.

Lemma tstep_keeps_lunch isAdmin p e p' x :
  tt_inv p -> isLunch (time x) = true -> In x (items (crud p)) ->
  tstep isAdmin p e p' -> In x (items (crud p')).
Proof.
  intros (Hu & He & Hd & Hm) Hl Hx Hs.
  destruct Hs as [p e c' Hc _|p c _]; [|done]. cbn [crud].
  destruct Hc as [q|q|q|q now v Hq _|q|q|q]; cbn [items openAddModal openEditModal closeModal setToDelete];
    try done.
  - unfold editOrAppend, afterSubmit. cbn [items]. destruct (editing q) as [y|] eqn:Ey.
    + destruct (He y eq_refl) as (_ & Hy & Hyl). apply In_update_by_id_other; [done|].
      apply (unique_ids_neq (items q)); [done..|]. intros ->. by rewrite Hl in Hyl.
    + apply in_or_app. by left.
  - unfold handleDeleteConfirm. destruct (toDelete q) as [z|] eqn:Ez; [|done].
    destruct (Hd z eq_refl) as (_ & Hz & Hzl). cbn [items]. apply In_remove_by_id. split; [done|].
    apply (unique_ids_neq (items q)); [done..|]. intros ->. by rewrite Hl in Hzl.
Qed.

(** C12: an entry booked in the 12:00 - 13:00 slot, which the time select
    offers, is stored but the grid shows LUNCH BREAK there for every
    class: from every reachable state it stays in the list and out of
    the grid whatever the user does next, so it can never be edited or
    deleted. *)
Theorem lunch_entry_stuck isAdmin p p' e :
  tt_reachable isAdmin p -> isLunch (time e) = true -> In e (items (crud p)) ->
  tt_steps isAdmin p p' ->
  In e (items (crud p')) /\ ~ In e (grid_entries p').
Proof.
  intros Hr Hl Hin Hs.
  assert (Hi : tt_inv p).
  { apply (tt_steps_inv isAdmin initialTimetablePage); [|done].
    split_and!; [decide_it|intros ? [=]|intros ? [=]|discriminate]. }
  split; [|intros Hg; apply grid_not_lunch in Hg; by rewrite Hl in Hg].
  clear Hr. induction Hs as [|a b c [ev [Hf Hab]] _ IH]; [done|].
  apply IH; [by eapply tstep_keeps_lunch|by eapply tstep_inv].
Qed.

(** C30: adding an entry for a cell of the selected class that already
    shows an entry keeps showing the old entry; the new entry is stored
    but appears in no cell of the grid, so no button can edit or delete
    it. *)
Theorem double_booking_hidden now v p e0 :
  editing (crud p) = None ->
  v_classId v = selectedClass p ->
  getCellData p (v_time v) (v_day v) = Some e0 ->
  record_id (new_entry now v) ∉ ids (items (crud p)) ->
  let p' := handleFormSubmit now v p in
  In (new_entry now v) (items (crud p')) /\
  getCellData p' (v_time v) (v_day v) = Some e0 /\
  ~ In (new_entry now v) (grid_entries p').
Proof.
  intros He Hc Hcell Hfresh p'.
  assert (Hitems : items (crud p') = items (crud p) ++ [new_entry now v]).
  { unfold p', handleFormSubmit, editOrAppend, afterSubmit. simpl. by rewrite He. }
  assert (Hcell' : getCellData p' (v_time v) (v_day v) = Some e0).
  { unfold getCellData. rewrite Hitems. by apply find_app_Some. }
  split; [rewrite Hitems; apply in_or_app; right; by left|]. split; [exact Hcell'|].
  intros Hg. apply In_grid_entries in Hg as [t [d Hg]].
  destruct (getCellData_matches _ _ _ _ Hg) as (_ & Ht & Hd). simpl in Ht, Hd. subst t d.
  rewrite Hcell' in Hg. injection Hg as Heq.
  apply Hfresh. unfold getCellData in Hcell. apply find_some in Hcell as [Hin _].
  rewrite <- Heq. by apply In_ids.
Qed.

(** ** The dialog's picks *)

Lemma valid_entry_values_iff v :
  valid_entry_values v = true <->
  (1 <= String.length (v_classId v) /\ 1 <= String.length (v_time v) /\
   1 <= String.length (v_subject v) /\ 1 <= String.length (v_teacher v) /\
   1 <= String.length (v_room v))%nat.
Proof.
  unfold valid_entry_values, validate_entry, min_len.
  destruct (Nat.leb_spec 1 (String.length (v_classId v)));
  destruct (Nat.leb_spec 1 (String.length (v_time v)));
  destruct (Nat.leb_spec 1 (String.length (v_subject v)));
  destruct (Nat.leb_spec 1 (String.length (v_teacher v)));
  destruct (Nat.leb_spec 1 (String.length (v_room v))); simpl;
  split; (done || lia).
Qed.

(** An option of a Select is never empty. *)
Lemma offered_nonempty (l : list string) x :
  forallb (fun o => 1 <=? String.length o)%nat l = true -> existsb (String.eqb x) l = true ->
  (1 <= String.length x)%nat.
Proof.
  intros Hl Hx. apply existsb_exists in Hx as (o & Ho & Heq).
  apply String.eqb_eq in Heq as ->. apply forallb_forall with (x := o) in Hl; [|done].
  by apply Nat.leb_le.
Qed.

Section Field.
(** A text field of the form and the Select that writes it. *)
Variable proj : TimetableEntryFormValues -> string.
Variable setter : string -> EntryInput.
Hypothesis proj_set : forall x v, proj (set_entry_field (setter x) v) = x.
Hypothesis proj_other : forall i v,
  proj (set_entry_field i v) = proj v \/ exists x, i = setter x.
Hypothesis setter_offered : forall x, entry_input_offered (setter x) = true -> (1 <= String.length x)%nat.

(** After a sequence of offered picks the field is filled exactly when
    it was filled before or one of the picks wrote it. *)
Lemma apply_inputs_field picks v :
  Forall (fun i => entry_input_offered i = true) picks ->
  (1 <= String.length (proj (apply_inputs picks v)))%nat <->
  (1 <= String.length (proj v))%nat \/ exists x, In (setter x) picks.
Proof.
  revert v. induction picks as [|i picks IH]; intros v Hf; simpl.
  - split; [auto|intros [H|(x & [])]; done].
  - apply List.Forall_cons_iff in Hf as [Hi Hf]. unfold apply_inputs in IH. rewrite IH by done.
    split.
    + intros [H|(x & Hx)]; [|eauto].
      destruct (proj_other i v) as [E|(x & ->)]; [left; congruence|eauto].
    + intros [H|(x & [->|Hx])]; [|left; rewrite proj_set; auto|eauto].
      destruct (proj_other i v) as [E|(x & ->)]; [left; congruence|].
      left. rewrite proj_set. auto.
Qed.
End Field.

(** The three hypotheses of [apply_inputs_field] for one field. *)
Ltac field_side :=
  first [ intros ? []; reflexivity
        | intros [] []; simpl; first [left; reflexivity | right; eexists; reflexivity]
        | intros ? H; refine (offered_nonempty _ _ _ H); reflexivity ].

(** C36: the add dialog accepts exactly the forms in which a subject, a
    teacher and a room have been picked: whatever else the user picks
    from the Selects, the class and the slot stay filled, and the
    schema's errors name the three Selects left on their empty default. *)
Theorem add_dialog_valid_iff (sel : string) (picks : list EntryInput) :
  In sel sampleClasses -> Forall (fun i => entry_input_offered i = true) picks ->
  valid_entry_values (apply_inputs picks (form_reset sel None)) = true <->
  (exists s, In (SelectSubject s) picks) /\ (exists t, In (SelectTeacher t) picks) /\
  (exists r, In (SelectRoom r) picks).
Proof.
  intros Hsel Hf. rewrite valid_entry_values_iff.
  rewrite (apply_inputs_field v_classId SelectEntryClass), (apply_inputs_field v_time SelectTime),
    (apply_inputs_field v_subject SelectSubject), (apply_inputs_field v_teacher SelectTeacher),
    (apply_inputs_field v_room SelectRoom) by (done || field_side).
  assert (1 <= String.length sel)%nat.
  { repeat (destruct Hsel as [<-|Hsel]; [simpl; lia|]). destruct Hsel. }
  simpl. split.
  - intros (_ & _ & [H1|H1] & [H2|H2] & [H3|H3]); simpl in *; try lia. auto.
  - intros (H1 & H2 & H3). repeat split; auto; lia.
Qed.

Lemma double_booking_hidden_witness :
  let v := mkEntryValues "5B" wednesday "11:00 - 12:00" "Music" "Ms. Lee" "Studio 1" in
  let e0 := mkEntry "tt4" "5B" wednesday "11:00 - 12:00" "Art" "Mr. Green" "Studio 1" in
  let p := openAddModal (crud initialTimetablePage) in
  let q := mkTimetablePage p "5B" in
  editing (crud q) = None /\ v_classId v = selectedClass q /\
  getCellData q (v_time v) (v_day v) = Some e0 /\
  (record_id (new_entry 1718000012345 v) ∉ ids (items (crud q))) /\
  (let p' := handleFormSubmit 1718000012345 v q in
   In (new_entry 1718000012345 v) (items (crud p')) /\
   getCellData p' (v_time v) (v_day v) = Some e0 /\
   ~ In (new_entry 1718000012345 v) (grid_entries p')).
Proof.
  intros v e0 p q.
  assert (H1 : editing (crud q) = None) by reflexivity.
  assert (H2 : v_classId v = selectedClass q) by reflexivity.
  assert (H3 : getCellData q (v_time v) (v_day v) = Some e0) by reflexivity.
  assert (H4 : record_id (new_entry 1718000012345 v) ∉ ids (items (crud q))) by decide_it.
  do 4 (split; [assumption|]).
  exact (double_booking_hidden 1718000012345 v q e0 H1 H2 H3 H4).
Defined.

Lemma lunch_entry_stuck_witness :
  let v := mkEntryValues "5B" monday "12:00 - 13:00" "Music" "Ms. Lee" "Studio 1" in
  let p1 := mkTimetablePage (openAddModal (crud initialTimetablePage)) "5B" in
  let p := mkTimetablePage (editOrAppend (merge_entry v) (new_entry 1718000012345 v) (crud p1)) "5B" in
  let e := new_entry 1718000012345 v in
  tt_reachable true p /\ isLunch (time e) = true /\ In e (items (crud p)) /\ tt_steps true p p /\
  In e (items (crud p)) /\ ~ In e (grid_entries p).
Proof.
  intros v p1 p e.
  assert (R1 : tt_step true initialTimetablePage p1).
  { exists (TCrud OpenAdd). split; [intros ? ? [=]|].
    apply (tstep_crud true initialTimetablePage OpenAdd); [constructor; [done|split; done]|exact I]. }
  assert (R2 : tt_step true p1 p).
  { exists (TCrud (Submit 1718000012345 v)). split.
    - intros now w [= <- <-] _. decide_it.
    - apply (tstep_crud true p1 (Submit 1718000012345 v)); [constructor; reflexivity|exact I]. }
  assert (Hr : tt_reachable true p) by (eapply star_step; [exact R1|]; eapply star_step; [exact R2|constructor]).
  assert (Hl : isLunch (time e) = true) by reflexivity.
  assert (Hin : In e (items (crud p))) by (simpl; right; right; right; right; right; left; reflexivity).
  assert (Hs : tt_steps true p p) by constructor.
  split_and!; [exact Hr|exact Hl|exact Hin|exact Hs|..];
    [exact (proj1 (lunch_entry_stuck true p p e Hr Hl Hin Hs))|exact (proj2 (lunch_entry_stuck true p p e Hr Hl Hin Hs))].
Defined.

Lemma add_dialog_valid_iff_witness :
  let picks := [SelectSubject "Art"; SelectTeacher "Mr. Green"; SelectRoom "Studio 1"]%string in
  In "5B"%string sampleClasses /\ Forall (fun i => entry_input_offered i = true) picks /\
  (valid_entry_values (apply_inputs picks (form_reset "5B" None)) = true <->
   (exists s, In (SelectSubject s) picks) /\ (exists t, In (SelectTeacher t) picks) /\
   (exists r, In (SelectRoom r) picks)).
Proof.
  intros picks. assert (H1 : In "5B"%string sampleClasses) by (simpl; tauto).
  assert (H2 : Forall (fun i => entry_input_offered i = true) picks) by (repeat constructor).
  split; [exact H1|]. split; [exact H2|]. exact (add_dialog_valid_iff "5B" picks H1 H2).
Defined.

End Timetable.
