(* ===== verification/Leave.v ===== *)
(** * Leave requests (src/src/app/(app)/attendance-leave/page.tsx)

    The [LeaveRequest] record, the seeded requests, the page state (the
    requests and the pending confirmation [requestToProcess]), the handler
    [handleProcessRequest] and the render, which sorts the state array in
    place by applied date ([leaveRequests.sort(...)] on the array React
    holds, line 133).  [step] is the page as a transition system: an
    administrator asks to approve or reject a request whose row shows the
    buttons (Pending requests only), cancels or confirms, and every render
    re-sorts the shared array.

    [leave_reachable_inv] shows the Pending -> Approved/Rejected machine:
    every request of a reachable state is a seeded request whose status is
    unchanged or was Pending, and a request awaiting confirmation is
    Pending.  [processed_is_final] shows that no event changes an approved
    or rejected request, and [render_sort_idempotent] that the in-place
    sort only reorders the array and leaves a sorted array as it is. *)

From S2P Require Import Prelude JsRuntime EntityList.
From Stdlib Require Import Sorted Permutation.
Import EntityList.

Module Leave.

(** [LeaveRequestStatus] (line 38) and the leave types (line 44). *)
Inductive LeaveRequestStatus := Pending | Approved | Rejected.
Inductive LeaveType := Annual | Sick | Casual | Unpaid.
Inductive Action := approve | reject.

#[global] Instance leave_status_eq_dec : EqDecision LeaveRequestStatus.
Proof. solve_decision. Defined.

(** [interface LeaveRequest] (lines 40-50). *)
Record LeaveRequest := mkLeave {
  id : string;
  employeeName : string;
  employeeId : string;
  leaveType : LeaveType;
  startDate : string;
  endDate : string;
  reason : string;
  status : LeaveRequestStatus;
  appliedDate : string;
}.

#[global] Instance leave_keyed : Keyed LeaveRequest := id.

(** [initialLeaveRequests] (lines 52-57). *)
Definition initialLeaveRequests : list LeaveRequest :=
  [mkLeave "LR001" "Mr. Samuel Green" "T2002" Annual "2024-08-05" "2024-08-07" "Family vacation" Pending "2024-07-20";
   mkLeave "LR002" "Ms. Olivia Chen" "T2003" Sick "2024-07-22" "2024-07-23" "Flu symptoms" Approved "2024-07-21";
   mkLeave "LR003" "Dr. Eleanor Vance" "T2001" Casual "2024-08-10" "2024-08-10" "Personal appointment" Pending "2024-07-25";
   mkLeave "LR004" "Mr. David Lee" "T2004" Unpaid "2024-07-28" "2024-07-29" "Urgent travel" Rejected "2024-07-26"]%string.

(** The page state (lines 62-63). *)
Record LeavePage := mkLeavePage {
  leaveRequests : list LeaveRequest;
  requestToProcess : option (string * Action);
}.

Definition initialLeavePage : LeavePage := mkLeavePage initialLeaveRequests None.

(** [{ ...req, status: action === 'approve' ? 'Approved' : 'Rejected' }] (line 71). *)
Definition set_status (a : Action) (r : LeaveRequest) : LeaveRequest :=
  mkLeave (id r) (employeeName r) (employeeId r) (leaveType r) (startDate r) (endDate r)
    (reason r) (match a with approve => Approved | reject => Rejected end) (appliedDate r).

(** [handleProcessRequest] (lines 65-79). *)
Definition handleProcessRequest (p : LeavePage) : LeavePage :=
  match requestToProcess p with
  | None => p
  | Some (i, a) => mkLeavePage (update_by_id i (set_status a) (leaveRequests p)) None
  end.

(** [setRequestToProcess(...)] (lines 153, 161, 181, 190). *)
Definition setRequestToProcess (r : option (string * Action)) (p : LeavePage) : LeavePage :=
  mkLeavePage (leaveRequests p) r.

(** [getStatusBadgeVariant] (lines 81-88). *)
Definition getStatusBadgeVariant (s : LeaveRequestStatus) : string :=
  match s with Approved => "default" | Pending => "secondary" | Rejected => "destructive" end.

Section Render.
(** [new Date(s).getTime()], [None] for [NaN] (a [NaN] difference counts as [+0]). *)
Variable dateValue : string -> option Z.

(** [(a, b) => new Date(b.appliedDate).getTime() - new Date(a.appliedDate).getTime()] *)
Definition by_applied_desc (a b : LeaveRequest) : Z :=
  match dateValue (appliedDate b), dateValue (appliedDate a) with
  | Some x, Some y => (x - y)%Z
  | _, _ => 0%Z
  end.

(** The render's [leaveRequests.sort(...)] (line 133): the array held in
    React state is sorted in place, so the state itself is reordered. *)
Definition render (p : LeavePage) : LeavePage :=
  mkLeavePage (js_sort by_applied_desc (leaveRequests p)) (requestToProcess p).
End Render.

Inductive event :=
  | AskProcess (i : string) (a : Action)   (* Approve / Reject on a row *)
  | CancelProcess                          (* Cancel, or the dialog closed *)
  | ConfirmProcess                         (* the dialog's action button *)
  | Render.                                (* any re-render of the page *)

Section Step.
Variable dateValue : string -> option Z.
Variable isAdmin : bool.

Inductive step : LeavePage -> event -> LeavePage -> Prop :=
| step_ask p r a :
    isAdmin = true -> requestToProcess p = None -> In r (leaveRequests p) -> status r = Pending ->
    step p (AskProcess (id r) a) (setRequestToProcess (Some (id r, a)) p)
| step_cancel p :
    requestToProcess p <> None -> step p CancelProcess (setRequestToProcess None p)
| step_confirm p :
    requestToProcess p <> None -> step p ConfirmProcess (handleProcessRequest p)
| step_render p : step p Render (render dateValue p).

Inductive reachable : LeavePage -> Prop :=
| reach_init : reachable initialLeavePage
| reach_step p e p' : reachable p -> step p e p' -> reachable p'.
(** Any number of events of the page. *)
Definition steps (p p' : LeavePage) : Prop :=
  star (fun x y => exists e, step x e y) p p'.
End Step.

(** [r'] is [r] with its status unchanged, or decided from Pending. *)
Definition evolved (r r' : LeaveRequest) : Prop :=
  r' = r \/ (status r = Pending /\ exists a, r' = set_status a r).

(** The invariant: ids unique; every request evolved from the seeded one
    with its id; a request awaiting confirmation is there and Pending. *)
Definition leave_inv (p : LeavePage) : Prop :=
  unique_ids (leaveRequests p) /\
  (forall r', In r' (leaveRequests p) -> exists r, In r initialLeaveRequests /\ evolved r r') /\
  (forall i a, requestToProcess p = Some (i, a) ->
     exists r, In r (leaveRequests p) /\ id r = i /\ status r = Pending).

(** The first two seeded requests, for the examples. *)
Definition lr001 : LeaveRequest :=
  mkLeave "LR001" "Mr. Samuel Green" "T2002" Annual "2024-08-05" "2024-08-07" "Family vacation" Pending "2024-07-20".

Definition lr002 : LeaveRequest :=
  mkLeave "LR002" "Ms. Olivia Chen" "T2003" Sick "2024-07-22" "2024-07-23" "Flu symptoms" Approved "2024-07-21".

(** ** Lemmas *)

Lemma set_status_keeps_id a : keeps_id (set_status a).
Proof. done. Qed.

Lemma evolved_set_status r r' a :
  evolved r r' -> status r' = Pending -> evolved r (set_status a r').
Proof.
  intros [->|[Hp [b ->]]] Hs; [right; eauto|]. by destruct b.
Qed.

Lemma In_update_by_id_inv {A} `{Keyed A} i f (l : list A) x :
  In x (update_by_id i f l) -> exists y, In y l /\ (x = y \/ (record_id y = i /\ x = f y)).
Proof.
  unfold update_by_id. rewrite in_map_iff. intros [y [<- Hy]]. exists y. split; [done|].
  destruct (String.eqb_spec (record_id y) i); auto.
Qed.

Section Facts.
Variable dateValue : string -> option Z.
Variable isAdmin : bool.

Lemma step_preserves_leave_inv p e p' :
  leave_inv p -> step dateValue isAdmin p e p' -> leave_inv p'.
Proof.
  intros (Hu & Hev & Hreq) Hs. destruct Hs as [p r a _ Hnone Hin Hpend|p Hne|p Hne|p].
  - split; [done|]. split; [done|]. intros i b [= <- <-]. eauto.
  - split; [done|]. split; [done|]. done.
  - unfold handleProcessRequest. destruct (requestToProcess p) as [[i a]|] eqn:Er; [|done].
    destruct (Hreq i a eq_refl) as [r0 [Hr0 [Hid Hpend]]].
    split; [by apply update_by_id_unique|]. split; [|done]. simpl.
    intros r' Hr'. apply In_update_by_id_inv in Hr' as [y [Hy [->|[Hyi ->]]]]; [by apply Hev|].
    destruct (Hev y Hy) as [r [Hr Hevo]]. exists r. split; [done|].
    apply evolved_set_status; [done|].
    assert (y = r0) as ->
      by (apply (unique_ids_In_eq _ y r0 Hu Hy Hr0); change (record_id y = id r0); congruence).
    exact Hpend.
  - split; [by eapply unique_ids_perm; [symmetry; apply js_sort_perm|]|].
    split; simpl.
    + intros r' Hr'. apply Hev. by apply js_sort_In in Hr'.
    + intros i a Hia. destruct (Hreq i a Hia) as [r [Hr Hrest]]. exists r.
      split; [by apply js_sort_In|done].
Qed.

(** The Pending -> Approved/Rejected machine: in every reachable state
    the ids are unique, every request is a seeded one whose status is
    unchanged or was decided from Pending, and a request awaiting
    confirmation is present and Pending. *)
Theorem leave_reachable_inv p :
  reachable dateValue isAdmin p -> leave_inv p.
Proof.
  induction 1 as [|p e p' _ IH Hs]; [|by eapply step_preserves_leave_inv].
  split; [decide_it|]. split; [|done].
  intros r' Hr'. exists r'. split; [done|]. by left.
Qed.
(** An approved or rejected request is final: from a state satisfying
    the invariant no event changes or removes it. *)
Theorem processed_is_final p e p' r :
  leave_inv p -> step dateValue isAdmin p e p' ->
  In r (leaveRequests p) -> status r <> Pending -> In r (leaveRequests p').
Proof.
  intros (Hu & _ & Hreq) Hs Hr Hst. destruct Hs as [p r1 a _ _ _ _|p _|p _|p]; try done.
  - unfold handleProcessRequest. destruct (requestToProcess p) as [[i a]|] eqn:Er; [|done].
    destruct (Hreq i a eq_refl) as [r0 [Hr0 [Hid Hpend]]]. simpl.
    assert (Hne : record_id r <> i).
    { intros Heq. assert (r = r0) as ->
        by (apply (unique_ids_In_eq _ r r0 Hu Hr Hr0); change (record_id r = id r0); congruence).
      congruence. }
    unfold update_by_id. apply in_map_iff. exists r. split; [|done].
    apply String.eqb_neq in Hne. by rewrite Hne.
  - simpl. by apply js_sort_In.
Qed.
End Facts.

(** C18: every pending request can still be decided: from any state, an
    administrator can close an open confirmation, press Approve or
    Reject on the request and confirm, after which the request carries
    the chosen status and no confirmation is open. *)
Theorem pending_can_be_decided dateValue isAdmin p r a :
  isAdmin = true -> In r (leaveRequests p) -> status r = Pending ->
  exists p', steps dateValue isAdmin p p' /\
    In (set_status a r) (leaveRequests p') /\ requestToProcess p' = None.
Proof.
  intros Ha Hin Hpend.
  set (p1 := setRequestToProcess None p).
  assert (H1 : steps dateValue isAdmin p p1).
  { destruct (requestToProcess p) as [q|] eqn:Eq.
    - apply star_one. exists CancelProcess. apply step_cancel. by rewrite Eq.
    - destruct p as [l q]. simpl in Eq. subst q. apply star_refl. }
  set (p2 := setRequestToProcess (Some (id r, a)) p1).
  exists (handleProcessRequest p2). split; [|split; [by apply (In_update_by_id_self (set_status a))|done]].
  eapply star_trans; [exact H1|]. eapply star_step.
  - exists (AskProcess (id r) a). by apply step_ask.
  - apply star_one. exists ConfirmProcess. apply step_confirm. discriminate.
Qed.

Lemma by_applied_desc_antisym dateValue a b :
  Z.sgn (by_applied_desc dateValue a b) = (- Z.sgn (by_applied_desc dateValue b a))%Z.
Proof.
  unfold by_applied_desc.
  destruct (dateValue (appliedDate a)), (dateValue (appliedDate b)); try reflexivity.
  rewrite <- Z.sgn_opp. f_equal. lia.
Qed.

(** The render's in-place sort only reorders the requests, and a
    second render leaves the array as the first one left it (when the
    applied dates parse), so re-rendering does not keep changing the
    state it mutates. *)
Theorem render_sort_idempotent dateValue p :
  (forall r, In r (leaveRequests p) -> dateValue (appliedDate r) <> None) ->
  Permutation (leaveRequests (render dateValue p)) (leaveRequests p) /\
  render dateValue (render dateValue p) = render dateValue p.
Proof.
  intros Hv. split; [apply js_sort_perm|]. unfold render. simpl. f_equal.
  apply js_sort_strongly_sorted_id; [apply by_applied_desc_antisym|].
  apply Sorted_StronglySorted_in; [|apply js_sort_sorted, by_applied_desc_antisym].
  intros x y z Hx Hy Hz. apply js_sort_In in Hx, Hy, Hz.
  apply Hv in Hx, Hy, Hz. unfold cmp_le, by_applied_desc.
  destruct (dateValue (appliedDate x)), (dateValue (appliedDate y)), (dateValue (appliedDate z));
    try done; lia.
Qed.

Lemma leave_reachable_inv_witness :
  let p := handleProcessRequest (setRequestToProcess (Some (id lr001, approve)) initialLeavePage) in
  reachable parse_ymd true p /\ leave_inv p.
Proof.
  intros p.
  assert (H1 : reachable parse_ymd true (setRequestToProcess (Some (id lr001, approve)) initialLeavePage)).
  { eapply reach_step; [apply reach_init|]. apply step_ask; [done|done|left; reflexivity|done]. }
  assert (H2 : reachable parse_ymd true p).
  { eapply reach_step; [exact H1|]. apply step_confirm. discriminate. }
  split; [exact H2|]. exact (leave_reachable_inv parse_ymd true p H2).
Defined.

Lemma processed_is_final_witness :
  leave_inv initialLeavePage /\ In lr002 (leaveRequests initialLeavePage) /\ status lr002 <> Pending /\
  In lr002 (leaveRequests (render parse_ymd initialLeavePage)).
Proof.
  assert (Hinv : leave_inv initialLeavePage).
  { split; [decide_it|]. split; [|done]. intros r' Hr'. exists r'. split; [done|by left]. }
  assert (Hin : In lr002 (leaveRequests initialLeavePage)) by (right; left; reflexivity).
  assert (Hst : status lr002 <> Pending) by discriminate.
  split; [exact Hinv|]. split; [exact Hin|]. split; [exact Hst|].
  exact (processed_is_final parse_ymd true initialLeavePage Render _ lr002 Hinv
           (step_render parse_ymd true initialLeavePage) Hin Hst).
Defined.

Lemma render_sort_idempotent_witness :
  (forall r, In r (leaveRequests initialLeavePage) -> parse_ymd (appliedDate r) <> None) /\
  Permutation (leaveRequests (render parse_ymd initialLeavePage)) (leaveRequests initialLeavePage) /\
  render parse_ymd (render parse_ymd initialLeavePage) = render parse_ymd initialLeavePage.
Proof.
  assert (Hv : forall r, In r (leaveRequests initialLeavePage) -> parse_ymd (appliedDate r) <> None).
  { intros r Hr. repeat destruct Hr as [<-|Hr]; try done; vm_compute; discriminate. }
  split; [exact Hv|]. exact (render_sort_idempotent parse_ymd initialLeavePage Hv).
Defined.

Lemma pending_can_be_decided_witness :
  true = true /\ In lr001 (leaveRequests initialLeavePage) /\ status lr001 = Pending /\
  exists p', steps parse_ymd true initialLeavePage p' /\
    In (set_status reject lr001) (leaveRequests p') /\ requestToProcess p' = None.
Proof.
  assert (Hin : In lr001 (leaveRequests initialLeavePage)) by (left; reflexivity).
  split; [reflexivity|]. split; [exact Hin|]. split; [reflexivity|].
  exact (pending_can_be_decided parse_ymd true initialLeavePage lr001 reject eq_refl Hin eq_refl).
Defined.

End Leave.
