(* ===== verification/Auth.v ===== *)
(** * Mock session and navigation

    - [Auth]: src/src/contexts/AuthContext.tsx.  The provider's state
      ([user], [isLoading]), the shared [localStorage] entry
      [campusHubUser] and the router's location are one record
      [AuthState]; [restore] is the mount effect (lines 52-97), [login]
      and [logout] the two actions (lines 100-138).  A page reload keeps
      the storage and resets the rest ([reload]).  [useAuth] returns the
      provider's value ([provider_value]) and throws outside a provider.
    - [LoginPage]: src/src/app/login/page.tsx, the schema
      [loginFormSchema] and [onSubmit], which passes the form's role to
      [login]: the password is required by the schema and never checked.
      [lstep] is the page with the session as a state machine: the
      form's inputs, Sign In (disabled while loading), the timer that
      ends [onSubmit] as an event of its own, and the OTP section.
    - [Nav]: src/src/components/layout/AppSidebar.tsx (the [navItems]
      table and its role filter, the active-link test, the rendered
      sidebar [render_sidebar] and the mounted [app_sidebar]) and
      src/src/app/(app)/layout.tsx (the guard that redirects to /login
      and renders a page for any signed-in user, whatever the role).

    [session_persists] shows that a login survives a reload; the
    navigation theorems show the sidebar lists exactly the pages of the
    user's role, while the layout renders every page for any role, and
    [sidebar_one_active] that at most one entry is highlighted.  On
    the login page, a user can always sign in ([sign_in_run]), [login]
    is called at most once per visit ([login_at_most_once]) and the OTP
    section is never shown ([otp_section_unreachable]). *)

From S2P Require Import Prelude JsRuntime Validation.
Import Validation.

Module Auth.

(** [UserRole] (line 21). *)
Inductive UserRole := admin | teacher | student | parent | accountant | principal | librarian.

#[global] Instance user_role_eq_dec : EqDecision UserRole.
Proof. solve_decision. Defined.

(** [interface User] (lines 23-29). *)
Record User := mkUser {
  id : string;
  name : option string;
  email : option string;
  role : UserRole;
}.

#[global] Instance user_eq_dec : EqDecision User.
Proof. solve_decision. Defined.

(** The [localStorage] entry [campusHubUser]: a user as [JSON.stringify]
    wrote it, or text that does not parse back to a user object. *)
Inductive Stored := StoredUser (u : User) | Unparsable.

(** The provider's state, the shared storage and the location. *)
Record AuthState := mkAuth {
  user : option User;
  isLoading : bool;
  storage : option Stored;
  route : string;
}.

(** A fresh load of the application at [path]: [useState(null)],
    [useState(true)], the storage as the previous session left it. *)
Definition reload (storage0 : option Stored) (path : string) : AuthState :=
  mkAuth None true storage0 path.

(** The mount effect (lines 52-97): restore a stored user with an id,
    drop anything else, and stop loading. *)
Definition restore (s : AuthState) : AuthState :=
  match storage s with
  | None => mkAuth (user s) false None (route s)
  | Some (StoredUser u) =>
      if id u =ₛ "" then mkAuth (user s) false None (route s)
      else mkAuth (Some u) false (storage s) (route s)
  | Some Unparsable => mkAuth (user s) false None (route s)
  end.

(** [email.split('@')[0]] *)
Fixpoint before_at (s : string) : string :=
  match s with
  | EmptyString => EmptyString
  | String c s' => if Ascii.eqb c "@"%char then EmptyString else String c (before_at s')
  end.

(** [login(email, password, role)] (lines 100-114): the password is not
    used; the role defaults to student. *)
Definition login (now : N) (em : string) (password : option string) (r : option UserRole)
    (s : AuthState) : AuthState :=
  let determinedRole := match r with Some r => r | None => student end in
  let newUser := mkUser (js_number_to_string now) (Some (before_at em)) (Some em) determinedRole in
  mkAuth (Some newUser) (isLoading s) (Some (StoredUser newUser)) "/dashboard".

(** [logout()] (lines 132-138). *)
Definition logout (s : AuthState) : AuthState :=
  mkAuth None (isLoading s) None "/login".

(** The string literals of [UserRole] (line 21). *)
Definition role_name (r : UserRole) : string :=
  match r with
  | admin => "admin" | teacher => "teacher" | student => "student" | parent => "parent"
  | accountant => "accountant" | principal => "principal" | librarian => "librarian"
  end.

(** [interface AuthContextType] (lines 31-40): what a consumer of the
    context receives, the provider's two state fields and its two
    functions, [login] and [logout] above. *)
Record AuthContextType := mkAuthContext {
  ctx_user : option User;
  ctx_isLoading : bool;
  ctx_login : N -> string -> option string -> option UserRole -> AuthState -> AuthState;
  ctx_logout : AuthState -> AuthState;
}.

(** [<AuthContext.Provider value={{ user, isLoading, login, logout }}>]
    (lines 145-149). *)
Definition provider_value (s : AuthState) : AuthContextType :=
  mkAuthContext (user s) (isLoading s) login logout.

(** [useAuth] (lines 152-158): under a provider with state [s] it returns
    that provider's value; outside any provider [useContext] gives the
    default [undefined] of [createContext] (line 42) and the hook throws. *)
Definition useAuth (provider : option AuthState) : AuthContextType + string :=
  match provider with
  | Some s => inl (provider_value s)
  | None => inr "useAuth must be used within an AuthProvider"
  end.

End Auth.

Module LoginPage.
Import Auth.

(** [roles] (line 18). *)
Definition roles : list UserRole := [admin; teacher; student; parent; accountant; principal; librarian].

Record LoginFormValues := mkLoginValues {
  v_email : string;
  v_password : string;
  v_role : option UserRole;
}.

(** [loginFormSchema] (lines 20-24); [isEmail] is zod's [.email()]. *)
Definition validate_login (isEmail : string -> bool) (v : LoginFormValues) : list string :=
  ((if isEmail (v_email v) then [] else ["email"]) ++
  (if min_len 1 (v_password v) then [] else ["password"]) ++
  (match v_role v with Some _ => [] | None => ["role"] end))%list%string.

(** [onSubmit] (lines 43-55), after the one-second delay. *)
Definition onSubmit (now : N) (v : LoginFormValues) (s : AuthState) : AuthState :=
  login now (v_email v) (Some (v_password v)) (v_role v) s.

(** ** The page as a state machine (lines 28-175) *)

(** The page's state (lines 30-41): the form, [isLoading],
    [showOtpInput] and [otp]; [pending] holds the values captured by an
    [onSubmit] awaiting its one-second timer (line 46), [otpPending]
    the OTP handler's (line 60). *)
Record LoginState := mkLoginState {
  form : LoginFormValues;
  loading : bool;
  showOtpInput : bool;
  otp : string;
  pending : option LoginFormValues;
  otpPending : bool;
}.

(** The form's [defaultValues] (lines 36-40) and the first render. *)
Definition login_defaults : LoginFormValues := mkLoginValues "" "" None.

Definition initialLogin : LoginState := mkLoginState login_defaults false false "" None false.

(** What the user can do in the form (lines 79-128). *)
Inductive LoginInput :=
  | SetLoginEmail (s : string)
  | SetLoginPassword (s : string)
  | SelectRole (r : UserRole).

Definition set_login_field (i : LoginInput) (v : LoginFormValues) : LoginFormValues :=
  match i with
  | SetLoginEmail s => mkLoginValues s (v_password v) (v_role v)
  | SetLoginPassword s => mkLoginValues (v_email v) s (v_role v)
  | SelectRole r => mkLoginValues (v_email v) (v_password v) (Some r)
  end.

(** A role's label in the Select (line 120):
    [role.charAt(0).toUpperCase() + role.slice(1)]. *)
Definition role_label (r : UserRole) : string :=
  match role_name r with
  | String c s => String (js_upper_char c) s
  | EmptyString => EmptyString
  end.

(** The two buttons' texts (lines 135 and 159). *)
Definition sign_in_label (st : LoginState) : string :=
  if loading st then "Signing In..." else "Sign In".

Definition otp_button_label (st : LoginState) : string :=
  if loading st then "Verifying..." else "Verify OTP & Login".

Inductive login_event :=
  | LInput (i : LoginInput)   (* typing in a field, picking a role *)
  | LSubmit                   (* "Sign In" on a form zod accepts *)
  | LTimer (now : N)          (* [onSubmit]'s timer fires at clock [now] *)
  | LSetOtp (s : string)      (* typing in the OTP field *)
  | LOtpSubmit                (* "Verify OTP & Login" *)
  | LOtpTimer                 (* [handleOtpSubmit]'s timer fires *)
  | LBack.                    (* "Back to Login" *)

Section LoginStep.
Variable isEmail : string -> bool.

(** The page and the session together: [onSubmit] ends in [login].
    The form (lines 76-138) is rendered while [showOtpInput] is false,
    the OTP section (lines 141-164) while it is true; the two submit
    buttons are [disabled={isLoading}], and the OTP input has
    [maxLength={6}].  No handler calls [setShowOtpInput(true)]: the call
    on line 53 is commented out. *)
Inductive lstep : LoginState * AuthState -> login_event -> LoginState * AuthState -> Prop :=
  | lstep_input st a i :
      showOtpInput st = false ->
      lstep (st, a) (LInput i)
        (mkLoginState (set_login_field i (form st)) (loading st) (showOtpInput st) (otp st) (pending st) (otpPending st), a)
  | lstep_submit st a :
      showOtpInput st = false -> loading st = false -> validate_login isEmail (form st) = [] ->
      lstep (st, a) LSubmit
        (mkLoginState (form st) true (showOtpInput st) (otp st) (Some (form st)) (otpPending st), a)
  | lstep_timer st a v now :
      pending st = Some v ->
      lstep (st, a) (LTimer now)
        (mkLoginState (form st) (loading st) (showOtpInput st) (otp st) None (otpPending st), onSubmit now v a)
  | lstep_set_otp st a s :
      showOtpInput st = true -> (String.length s <= 6)%nat ->
      lstep (st, a) (LSetOtp s)
        (mkLoginState (form st) (loading st) true s (pending st) (otpPending st), a)
  | lstep_otp_submit st a :
      showOtpInput st = true -> loading st = false ->
      lstep (st, a) LOtpSubmit
        (mkLoginState (form st) true true (otp st) (pending st) true, a)
  | lstep_otp_timer st a :
      otpPending st = true ->
      lstep (st, a) LOtpTimer
        (mkLoginState (form st) false (showOtpInput st) (otp st) (pending st) false, a)
  | lstep_back st a :
      showOtpInput st = true ->
      lstep (st, a) LBack
        (mkLoginState (form st) (loading st) false (otp st) (pending st) (otpPending st), a).

(** A run of the page: the events in order. *)
Definition lsteps : LoginState * AuthState -> list login_event -> LoginState * AuthState -> Prop :=
  run lstep.
End LoginStep.

(** The number of [LTimer] events of a run: the calls to [login]. *)
Definition login_calls (es : list login_event) : nat :=
  length (List.filter (fun e => match e with LTimer _ => true | _ => false end) es).
End LoginPage.

Module Nav.
Import Auth.

(** [interface NavItem] (lines 19-24), without the icon. *)
Record NavItem := mkNavItem { href : string; label : string; allowedRoles : list UserRole }.

(** [navItems] (lines 26-44). *)
Definition navItems : list NavItem :=
  [mkNavItem "/dashboard" "Dashboard" [admin; teacher; student; parent; accountant; principal; librarian];
   mkNavItem "/students" "Students" [admin; principal; teacher];
   mkNavItem "/teachers" "Teachers" [admin; principal];
   mkNavItem "/timetable" "Timetable" [admin; teacher; student; parent; principal];
   mkNavItem "/exams" "Exams" [admin; teacher; student; parent; principal];
   mkNavItem "/library" "Library" [admin; librarian; teacher; student; principal];
   mkNavItem "/transport" "Transport" [admin; principal];
   mkNavItem "/gallery" "Gallery" [admin; teacher; student; parent; principal; librarian; accountant];
   mkNavItem "/notices" "Notices" [admin; teacher; student; parent; principal; librarian; accountant];
   mkNavItem "/fees" "Fees Mgt." [admin; accountant; principal];
   mkNavItem "/salaries" "Salaries Mgt." [admin; accountant; principal];
   mkNavItem "/attendance-leave" "Attendance & Leave" [admin; principal; teacher];
   mkNavItem "/study-questions" "Study Questions" [admin; teacher; student; principal];
   mkNavItem "/form-admin" "Form Admin" [admin]]%string.

(** [filteredNavItems] (line 50):
    [navItems.filter(item => user && item.allowedRoles.includes(user.role))]. *)
Definition filteredNavItems (u : option User) : list NavItem :=
  List.filter (fun item => match u with
                           | Some u => existsb (fun r => bool_decide (r = role u)) (allowedRoles item)
                           | None => false
                           end) navItems.

(** [isActive] (line 66): [pathname === item.href || (item.href !==
    '/dashboard' && pathname.startsWith(item.href))]. *)
Definition isActive (pathname : string) (item : NavItem) : bool :=
  (pathname =ₛ href item) || (negb (href item =ₛ "/dashboard") && String.prefix (href item) pathname).

(** The guard of the authenticated layout (lines 17-21):
    [if (!isLoading && !user) router.replace('/login')]. *)
Definition layout_guard (s : AuthState) : AuthState :=
  if negb (isLoading s) && match user s with Some _ => false | None => true end
  then mkAuth (user s) (isLoading s) (storage s) "/login" else s.

(** The layout renders the page (lines 23-51) when it is not loading and
    a user is signed in; the page's role is not consulted. *)
Definition renders_page (s : AuthState) : bool :=
  negb (isLoading s) && match user s with Some _ => true | None => false end.

(** ** The sidebar (lines 52-111) *)

(** A menu entry as the sidebar renders it (lines 62-75): its link,
    label and whether it is highlighted. *)
Record MenuEntry := mkMenuEntry {
  entry_href : string;
  entry_label : string;
  entry_active : bool;
}.

(** The rendered sidebar: the header's title (line 57), the menu, the
    signed-in user's name and role in the footer (lines 79-84), and the
    footer's Settings link (to "#", lines 87-95) and Logout button
    (lines 97-106). *)
Record SidebarView := mkSidebarView {
  sidebar_title : string;
  menu : list MenuEntry;
  footer_user : option (string * string);
  settings_href : string;
  logout_label : string;
}.

Definition render_sidebar (pathname : string) (u : option User) : SidebarView :=
  mkSidebarView "Campus Hub"
    (List.map (fun item => mkMenuEntry (href item) (label item) (isActive pathname item))
       (filteredNavItems u))
    (match u with
     | Some u => Some (match name u with Some n => n | None => "" end, role_name (role u))
     | None => None
     end)
    "#" "Logout".

(** The Logout button's [onClick={logout}] (line 99). *)
Definition sidebar_logout (s : AuthState) : AuthState := logout s.

(** [AppSidebar] as mounted: [const { user, logout } = useAuth()]
    (line 48), then the render; outside a provider the hook's error. *)
Definition app_sidebar (provider : option AuthState) (pathname : string) : SidebarView + string :=
  match useAuth provider with
  | inl c => inl (render_sidebar pathname (ctx_user c))
  | inr err => inr err
  end.

(** ** Theorems *)

Lemma in_roles_existsb (r : UserRole) l : existsb (fun r' => bool_decide (r' = r)) l = true <-> In r l.
Proof.
  rewrite existsb_exists. split; [intros [r' [Hin Heq]]; apply bool_decide_eq_true in Heq; by subst|].
  intros Hin. exists r. split; [done|]. by apply bool_decide_eq_true.
Qed.

(** The sidebar lists exactly the pages whose [allowedRoles] contain
    the user's role, and nothing when no one is signed in. *)
Theorem filteredNavItems_spec u item :
  (In item (filteredNavItems (Some u)) <-> In item navItems /\ In (role u) (allowedRoles item)) /\
  filteredNavItems None = [].
Proof.
  split; [|reflexivity]. unfold filteredNavItems. rewrite filter_In. by rewrite in_roles_existsb.
Qed.

(** C32: the layout checks only that someone is signed in: a student whose
    session is restored at /fees gets the fees page rendered and stays
    there, although the sidebar offers no /fees link to a student. *)
Theorem route_not_role_guarded u :
  role u = student -> id u <> ""%string ->
  let s := restore (reload (Some (StoredUser u)) "/fees") in
  renders_page s = true /\ layout_guard s = s /\ route s = "/fees"%string /\
  ~ In "/fees"%string (List.map href (filteredNavItems (user s))).
Proof.
  intros Hr Hid s. destruct u as [i n e ro]. simpl in Hr, Hid. subst ro.
  unfold s, restore, reload. simpl.
  apply String.eqb_neq in Hid. rewrite Hid. simpl.
  split; [done|]. split; [done|]. split; [done|]. intuition discriminate.
Qed.

(** Two strings both prefixes of a third are prefixes of one another. *)
Lemma prefix_comparable (a b p : string) :
  String.prefix a p = true -> String.prefix b p = true ->
  String.prefix a b = true \/ String.prefix b a = true.
Proof.
  revert b p. induction a as [|x a IH]; intros b p Ha Hb; [left; by destruct b|].
  destruct b as [|y b]; [right; done|]. destruct p as [|z p]; [done|]. simpl in *.
  destruct (ascii_dec x z) as [->|]; [|done]. destruct (ascii_dec y z) as [->|]; [|done].
  destruct (ascii_dec z z); [|done]. eauto.
Qed.

Lemma prefix_self (s : string) : String.prefix s s = true.
Proof. induction s as [|c s IH]; simpl; [done|]. by destruct (ascii_dec c c). Qed.

Lemma isActive_prefix pathname item :
  isActive pathname item = true -> String.prefix (href item) pathname = true.
Proof.
  unfold isActive. intros [H|H]%orb_true_iff.
  - apply String.eqb_eq in H as <-. apply prefix_self.
  - by apply andb_true_iff in H as [_ H].
Qed.

(** No two links of [navItems] have hrefs of which one is a prefix of
    the other. *)
Lemma navItems_prefix_free :
  forallb (fun a => forallb (fun b => (href a =? href b)%string ||
            negb (String.prefix (href a) (href b)) && negb (String.prefix (href b) (href a)))
          navItems) navItems = true.
Proof. vm_compute. reflexivity. Qed.

Lemma navItems_hrefs_nodup : NoDup (List.map href navItems).
Proof. decide_it. Qed.

(** In a list of items with distinct hrefs, at most one item satisfies
    a predicate that no two of its items satisfy together. *)
Lemma filter_at_most_one (P : NavItem -> bool) (l : list NavItem) :
  NoDup (List.map href l) ->
  (forall x y, In x l -> In y l -> P x = true -> P y = true -> href x = href y) ->
  (length (List.filter P l) <= 1)%nat.
Proof.
  induction l as [|x l IH]; intros Hnd Hu; simpl; [lia|].
  inversion Hnd as [|? ? Hx Hnd']; subst.
  destruct (P x) eqn:Px; simpl.
  - assert (List.filter P l = []) as ->; [|simpl; lia].
    destruct (List.filter P l) as [|y l'] eqn:E; [done|]. exfalso.
    assert (Hy : In y (List.filter P l)) by (rewrite E; left; done).
    apply filter_In in Hy as [Hy Py]. apply Hx. rewrite (Hu x y) by (simpl; auto).
    apply list_elem_of_In. by apply in_map.
  - apply IH; [done|]. intros; apply Hu; simpl; auto.
Qed.

(** The sidebar highlights at most one link, whatever the path and the
    user: [isActive] holds of a link whose href is a prefix of the path,
    and no href of [navItems] is a prefix of another. *)
Lemma filter_filter_length {A} (P Q : A -> bool) (l : list A) :
  (length (List.filter P (List.filter Q l)) <= length (List.filter P l))%nat.
Proof.
  induction l as [|x l IH]; simpl; [lia|].
  destruct (Q x); simpl; destruct (P x); simpl; lia.
Qed.

Lemma active_entries_length pathname (l : list NavItem) :
  length (List.filter entry_active
    (List.map (fun item => mkMenuEntry (href item) (label item) (isActive pathname item)) l)) =
  length (List.filter (isActive pathname) l).
Proof. induction l as [|x l IH]; simpl; [done|]. destruct (isActive pathname x); simpl; lia. Qed.

(** C34: The sidebar highlights at most one link, whatever the path and
    the user: [isActive] holds only of a link whose href is a prefix of
    the path, and no href of [navItems] is a prefix of another. *)
Theorem sidebar_one_active (pathname : string) (u : option User) :
  (length (List.filter entry_active (menu (render_sidebar pathname u))) <= 1)%nat.
Proof.
  unfold render_sidebar. cbn [menu]. rewrite active_entries_length. unfold filteredNavItems.
  etransitivity; [apply filter_filter_length|].
  apply filter_at_most_one; [exact navItems_hrefs_nodup|]. intros x y Hx Hy Px Py.
  pose proof navItems_prefix_free as H. rewrite forallb_forall in H.
  specialize (H x Hx). rewrite forallb_forall in H. specialize (H y Hy).
  destruct (String.eqb_spec (href x) (href y)) as [E|]; [done|]. simpl in H.
  apply andb_true_iff in H as [H1 H2]. apply negb_true_iff in H1, H2.
  destruct (prefix_comparable _ _ _ (isActive_prefix _ _ Px) (isActive_prefix _ _ Py)); congruence.
Qed.
End Nav.

Import Auth Nav.

(** A login survives a page reload: the mount effect restores from
    [localStorage] exactly the user [login] stored, because the mock id
    [Date.now().toString()] is never empty. *)
Theorem session_persists now em pw r s path :
  let s1 := login now em pw r s in
  restore (reload (storage s1) path) = mkAuth (user s1) false (storage s1) path.
Proof.
  intros s1. unfold s1, login, restore, reload. simpl.
  destruct (String.eqb_spec (js_number_to_string now) "") as [He|He]; [|done].
  pose proof (js_number_to_string_nonempty now) as Hl. rewrite He in Hl. simpl in Hl. lia.
Qed.

(** After a logout, the next load restores no user and the layout
    sends the browser to /login without rendering the page. *)
Theorem logout_then_reload s path :
  let s1 := layout_guard (restore (reload (storage (logout s)) path)) in
  user s1 = None /\ route s1 = "/login"%string /\ renders_page s1 = false.
Proof. done. Qed.


(** ** The login page *)

Section LoginFacts.
Import LoginPage.
Variable isEmail : string -> bool.

(** While the OTP section is hidden and no OTP check is pending, a run
    keeps it so: only the OTP section's own buttons could change it. *)
Lemma lsteps_no_otp s es s' :
  lsteps isEmail s es s' -> showOtpInput (fst s) = false -> otpPending (fst s) = false ->
  showOtpInput (fst s') = false /\ otpPending (fst s') = false.
Proof.
  unfold lsteps. induction 1 as [s|s e es s1 s2 Hs _ IH]; [done|]. intros Ho Hp. apply IH;
    destruct Hs; simpl in *; congruence.
Qed.

(** The OTP section of the login page (lines 139-165) is dead code:
    no run of the page from its first render ever shows it, since the
    only call of [setShowOtpInput(true)] is commented out. *)
Theorem otp_section_unreachable (a : AuthState) es st a' :
  lsteps isEmail (initialLogin, a) es (st, a') -> showOtpInput st = false.
Proof. intros H. exact (proj1 (lsteps_no_otp _ _ _ H eq_refl eq_refl)). Qed.

(** The calls to [login] a run can still make: one per pending submit,
    and one more while the Sign In button is enabled. *)
Lemma lsteps_login_calls s es s' :
  lsteps isEmail s es s' -> showOtpInput (fst s) = false -> otpPending (fst s) = false ->
  (loading (fst s) = false -> pending (fst s) = None) ->
  (login_calls es <= (if loading (fst s) then 0 else 1) +
     match pending (fst s) with Some _ => 1 | None => 0 end)%nat.
Proof.
  unfold lsteps. induction 1 as [s|s e es s1 s2 Hs Hr IH]; intros Ho Hp Hl; [apply Nat.le_0_l|].
  destruct Hs as [st a0 i|st a0 Ho' Hl' Hv|st a0 v now Hpd|st a0 x Ho'|st a0 Ho'|st a0 Hp'|st a0 Ho'];
    simpl in *; try congruence; unfold login_calls in *; simpl.
  - exact (IH Ho Hp Hl).
  - rewrite Hl', (Hl Hl'). specialize (IH Ho Hp ltac:(discriminate)). simpl in IH. lia.
  - rewrite Hpd. specialize (IH Ho Hp ltac:(done)). destruct (loading st); simpl in *; lia.
Qed.

(** C24: Sign In logs in at most once per visit of the login page: the
    button is disabled from the first accepted submit on and nothing
    enables it again, so however often it is clicked, at most one
    [login] call happens in any run from the first render. *)
Theorem login_at_most_once (a : AuthState) es s' :
  lsteps isEmail (initialLogin, a) es s' -> (login_calls es <= 1)%nat.
Proof. intros H. pose proof (lsteps_login_calls _ _ _ H eq_refl eq_refl (fun _ => eq_refl)). simpl in *. lia. Qed.

(** C38: a user can always sign in: typing an email the schema accepts,
    a non-empty password and picking a role, then Sign In, signs in
    with exactly those values once the timer fires, whatever is typed
    in the meantime; the page then shows "Signing In..." and the route
    is /dashboard. *)
Theorem sign_in_run (a : AuthState) (e pw e' : string) (r : UserRole) (now : N) :
  isEmail e = true -> pw <> ""%string ->
  exists st,
    lsteps isEmail (initialLogin, a)
      [LInput (SetLoginEmail e); LInput (SetLoginPassword pw); LInput (SelectRole r); LSubmit;
       LInput (SetLoginEmail e'); LTimer now]
      (st, login now e (Some pw) (Some r) a) /\
    sign_in_label st = "Signing In..."%string /\ route (login now e (Some pw) (Some r) a) = "/dashboard"%string.
Proof.
  intros He Hpw. eexists. split.
  - do 3 (eapply run_cons; [apply lstep_input; reflexivity|]).
    eapply run_cons; [apply lstep_submit; [reflexivity|reflexivity|]|].
    { unfold validate_login. simpl. rewrite He. destruct pw; [done|reflexivity]. }
    eapply run_cons; [apply lstep_input; reflexivity|].
    eapply run_cons; [apply lstep_timer; reflexivity|]. apply run_nil.
  - split; reflexivity.
Qed.
End LoginFacts.

Lemma route_not_role_guarded_witness :
  let u := mkUser "1718000012345" (Some "sam") (Some "sam@example.com") student in
  role u = student /\ id u <> ""%string /\
  (let s := restore (reload (Some (StoredUser u)) "/fees") in
   renders_page s = true /\ layout_guard s = s /\ route s = "/fees"%string /\
   ~ In "/fees"%string (List.map href (filteredNavItems (user s)))).
Proof.
  intros u. assert (H1 : role u = student) by reflexivity.
  assert (H2 : id u <> ""%string) by discriminate.
  split; [exact H1|]. split; [exact H2|]. exact (route_not_role_guarded u H1 H2).
Defined.

Lemma otp_section_unreachable_witness :
  let a := mkAuth None false None "/login" in
  let st := LoginPage.mkLoginState (LoginPage.mkLoginValues "sam@example.com" "" None) false false ""
              None false in
  LoginPage.lsteps (fun _ => true) (LoginPage.initialLogin, a)
    [LoginPage.LInput (LoginPage.SetLoginEmail "sam@example.com")] (st, a) /\
  LoginPage.showOtpInput st = false.
Proof.
  intros a st.
  assert (H : LoginPage.lsteps (fun _ => true) (LoginPage.initialLogin, a)
    [LoginPage.LInput (LoginPage.SetLoginEmail "sam@example.com")] (st, a)).
  { eapply run_cons; [apply LoginPage.lstep_input; reflexivity|]. apply run_nil. }
  split; [exact H|]. exact (otp_section_unreachable (fun _ => true) a _ st a H).
Defined.

Lemma login_at_most_once_witness :
  let a := mkAuth None false None "/login" in
  let v := LoginPage.mkLoginValues "sam@example.com" "pw" (Some student) in
  let es := [LoginPage.LInput (LoginPage.SetLoginEmail "sam@example.com");
             LoginPage.LInput (LoginPage.SetLoginPassword "pw");
             LoginPage.LInput (LoginPage.SelectRole student); LoginPage.LSubmit;
             LoginPage.LTimer 1718000012345] in
  LoginPage.lsteps (fun _ => true) (LoginPage.initialLogin, a) es
    (LoginPage.mkLoginState v true false "" None false, LoginPage.onSubmit 1718000012345 v a) /\
  (LoginPage.login_calls es <= 1)%nat.
Proof.
  intros a v es.
  assert (H : LoginPage.lsteps (fun _ => true) (LoginPage.initialLogin, a) es
    (LoginPage.mkLoginState v true false "" None false, LoginPage.onSubmit 1718000012345 v a)).
  { do 3 (eapply run_cons; [apply LoginPage.lstep_input; reflexivity|]).
    eapply run_cons; [apply LoginPage.lstep_submit; reflexivity|].
    eapply run_cons; [apply LoginPage.lstep_timer; reflexivity|].
    apply run_nil. }
  split; [exact H|]. exact (login_at_most_once (fun _ => true) a es _ H).
Defined.

Lemma sign_in_run_witness :
  (fun _ : string => true) "sam@example.com"%string = true /\ "pw"%string <> ""%string /\
  exists st,
    LoginPage.lsteps (fun _ => true) (LoginPage.initialLogin, mkAuth None false None "/login")
      [LoginPage.LInput (LoginPage.SetLoginEmail "sam@example.com");
       LoginPage.LInput (LoginPage.SetLoginPassword "pw");
       LoginPage.LInput (LoginPage.SelectRole student); LoginPage.LSubmit;
       LoginPage.LInput (LoginPage.SetLoginEmail "x"); LoginPage.LTimer 1718000012345]
      (st, login 1718000012345 "sam@example.com" (Some "pw") (Some student) (mkAuth None false None "/login")) /\
    LoginPage.sign_in_label st = "Signing In..."%string /\
    route (login 1718000012345 "sam@example.com" (Some "pw") (Some student) (mkAuth None false None "/login")) =
      "/dashboard"%string.
Proof.
  split; [reflexivity|]. split; [discriminate|].
  exact (sign_in_run (fun _ => true) (mkAuth None false None "/login") "sam@example.com" "pw" "x"
           student 1718000012345 eq_refl ltac:(discriminate)).
Defined.
