(* ===== verification/Dashboard.v ===== *)
(** * Role dashboards (src/src/app/(app)/dashboard/page.tsx)

    The page shows, for the signed-in user, the cards of the dashboard of
    the user's role.  A card is the props record of [DashboardCard]
    without its icon; the seven role dashboards and the default one are
    the card lists the components render, [roleDashboards] the table from
    role to dashboard, and [DashboardPage] the page (a loading message
    while no user is known).  [card_shows_image], [card_shows_metric] and
    [card_href] are the three conditions of [DashboardCard]'s markup.

    The theorems show that the [|| DefaultDashboard] fallback is dead
    code, that every card a role sees links only to a page the sidebar
    offers to that role, that each card shows its image or its metric and
    never both, and that the administrator's metrics are constants that
    disagree with the seeded notices and leave requests the other pages
    show. *)

From S2P Require Import Prelude JsRuntime EntityList Validation Crud Students Notices Leave Auth.
Import Auth Nav.

Module Dashboard.

(** [MOCK_TOTAL_STUDENTS], [MOCK_TOTAL_TEACHERS], [MOCK_ACTIVE_NOTICES]
    and [MOCK_PENDING_LEAVE] (lines 11-14). *)
Definition MOCK_TOTAL_STUDENTS : Z := 250.
Definition MOCK_TOTAL_TEACHERS : Z := 25.
Definition MOCK_ACTIVE_NOTICES : Z := 5.
Definition MOCK_PENDING_LEAVE : Z := 3.

(** [interface DashboardCardProps] (lines 17-26), without the icon; every
    [metricValue] of the page is a number. *)
Record DashboardCard := mkCard {
  title : string;
  description : string;
  imageUrl : option string;
  imageHint : option string;
  link : option string;
  metricValue : option Z;
  metricLabel : option string;
}.

(** The conditions of [DashboardCard] (lines 28-74): the image is shown
    when [imageUrl && !metricValue] (a metric of 0 is falsy), the metric
    when [metricValue !== undefined], and the card is wrapped in a link
    when [link] is a non-empty string. *)
Definition card_shows_image (c : DashboardCard) : bool :=
  match imageUrl c with
  | Some u => negb (u =ₛ "") && match metricValue c with Some z => (z =? 0)%Z | None => true end
  | None => false
  end.

Definition card_shows_metric (c : DashboardCard) : bool :=
  match metricValue c with Some _ => true | None => false end.

Definition card_href (c : DashboardCard) : option string :=
  match link c with Some l => if l =ₛ "" then None else Some l | None => None end.

(** The [data-ai-hint] of the image: [imageHint || "abstract background"]. *)
Definition card_image_hint (c : DashboardCard) : string :=
  match imageHint c with
  | Some h => if h =ₛ "" then "abstract background" else h
  | None => "abstract background"
  end.

(** [AdminDashboard] (line 79). *)
Definition AdminDashboard : list DashboardCard :=
  [mkCard "Total Students"
     "Current student enrollment across all classes."
     None None
     (Some "/students") (Some MOCK_TOTAL_STUDENTS) (Some "Students Enrolled");
   mkCard "Total Teachers"
     "Current teaching staff count."
     None None
     (Some "/teachers") (Some MOCK_TOTAL_TEACHERS) (Some "Faculty Members");
   mkCard "Active Notices"
     "Important announcements currently live."
     None None
     (Some "/notices") (Some MOCK_ACTIVE_NOTICES) (Some "Active Announcements");
   mkCard "Pending Leave Requests"
     "Leave applications awaiting approval."
     None None
     (Some "/attendance-leave") (Some MOCK_PENDING_LEAVE) (Some "Requests Awaiting Action");
   mkCard "User Management"
     "Manage all user accounts (teachers, students, parents, etc.)."
     (Some "https://placehold.co/600x400.png") (Some "team management")
     None None None;
   mkCard "System Settings"
     "Configure global settings for Campus Hub (e.g., roles, permissions - conceptual)."
     (Some "https://placehold.co/600x400.png") (Some "system gears")
     None None None;
   mkCard "Overall Analytics"
     "View school-wide statistics and performance metrics."
     (Some "https://placehold.co/600x400.png") (Some "analytics chart")
     None None None]%string.

(** [TeacherDashboard] (line 139). *)
Definition TeacherDashboard : list DashboardCard :=
  [mkCard "My Classes"
     "Access your class schedules, student lists, and assignments."
     (Some "https://placehold.co/600x400.png") (Some "classroom teacher")
     None None None;
   mkCard "Gradebook"
     "Manage and submit student grades."
     (Some "https://placehold.co/600x400.png") (Some "grading papers")
     None None None;
   mkCard "Announcements"
     "Post announcements for your students."
     (Some "https://placehold.co/600x400.png") (Some "communication megaphone")
     None None None;
   mkCard "My Salary"
     "View your salary slips and payment history (Conceptual)."
     (Some "https://placehold.co/600x400.png") (Some "money payment")
     None None None]%string.

(** [StudentDashboard] (line 172). *)
Definition StudentDashboard : list DashboardCard :=
  [mkCard "My Courses"
     "View your enrolled courses, materials, and upcoming assignments."
     (Some "https://placehold.co/600x400.png") (Some "student studying")
     None None None;
   mkCard "My Grades"
     "Check your academic performance and grades."
     (Some "https://placehold.co/600x400.png") (Some "report card")
     None None None;
   mkCard "School Timetable"
     "Access your personalized class schedule."
     (Some "https://placehold.co/600x400.png") (Some "calendar schedule")
     (Some "/timetable") None None;
   mkCard "My Fee Status"
     "Check your outstanding fees and payment history (Conceptual)."
     (Some "https://placehold.co/600x400.png") (Some "financial document")
     None None None]%string.

(** [ParentDashboard] (line 206). *)
Definition ParentDashboard : list DashboardCard :=
  [mkCard "Child's Progress"
     "Monitor your child's academic performance and attendance."
     (Some "https://placehold.co/600x400.png") (Some "child learning")
     None None None;
   mkCard "School Notices"
     "Stay updated with important announcements from the school."
     (Some "https://placehold.co/600x400.png") (Some "school announcement")
     (Some "/notices") None None;
   mkCard "Teacher Communication"
     "Communicate with your child's teachers (Conceptual)."
     (Some "https://placehold.co/600x400.png") (Some "parent teacher meeting")
     None None None;
   mkCard "Child's Fee Status"
     "View your child's fee payment status and history (Conceptual)."
     (Some "https://placehold.co/600x400.png") (Some "money transaction")
     None None None]%string.

(** [AccountantDashboard] (line 240). *)
Definition AccountantDashboard : list DashboardCard :=
  [mkCard "Fee Management"
     "Manage fee structures, track student payments, and generate reports."
     (Some "https://placehold.co/600x400.png") (Some "accounting ledger")
     (Some "/fees") None None;
   mkCard "Salary Processing"
     "Process teacher salaries, manage deductions, and view payment history."
     (Some "https://placehold.co/600x400.png") (Some "payroll money")
     (Some "/salaries") None None;
   mkCard "Financial Reports"
     "Generate various financial statements and reports (Conceptual)."
     (Some "https://placehold.co/600x400.png") (Some "financial graph")
     None None None]%string.

(** [PrincipalDashboard] (line 268). *)
Definition PrincipalDashboard : list DashboardCard :=
  [mkCard "School Overview"
     "View key metrics, academic performance, and staff activity."
     (Some "https://placehold.co/600x400.png") (Some "school building")
     None None None;
   mkCard "Staff Management"
     "Oversee teacher and staff records, performance, and assignments."
     (Some "https://placehold.co/600x400.png") (Some "leadership team")
     (Some "/teachers") None None;
   mkCard "Academic Planning"
     "Plan academic year, curriculum, and school events."
     (Some "https://placehold.co/600x400.png") (Some "planning calendar")
     None None None;
   mkCard "Student Management"
     "Access and manage student records and admissions."
     (Some "https://placehold.co/600x400.png") (Some "student records")
     (Some "/students") None None]%string.

(** [LibrarianDashboard] (line 303). *)
Definition LibrarianDashboard : list DashboardCard :=
  [mkCard "Library Catalog"
     "Manage book inventory, add new books, and track copies."
     (Some "https://placehold.co/600x400.png") (Some "library books")
     (Some "/library") None None;
   mkCard "Book Issue/Return"
     "Track borrowed books, manage due dates, and handle returns."
     (Some "https://placehold.co/600x400.png") (Some "book checkout")
     None None None;
   mkCard "Member Management"
     "Manage library member profiles and borrowing history."
     (Some "https://placehold.co/600x400.png") (Some "library users")
     None None None]%string.

(** [DefaultDashboard] (line 330). *)
Definition DefaultDashboard : list DashboardCard :=
  [mkCard "Welcome!"
     "Your personalized dashboard is being set up. Please check back later or contact administration if you believe this is an error."
     (Some "https://placehold.co/600x400.png") (Some "under construction")
     None None None]%string.

(** [roleDashboards: Record<UserRole, React.FC | undefined>] (lines 341-349). *)
Definition roleDashboards (r : UserRole) : option (list DashboardCard) :=
  match r with
  | admin => Some AdminDashboard
  | teacher => Some TeacherDashboard
  | student => Some StudentDashboard
  | parent => Some ParentDashboard
  | accountant => Some AccountantDashboard
  | principal => Some PrincipalDashboard
  | librarian => Some LibrarianDashboard
  end.

(** [roleDashboards[user.role] || DefaultDashboard] (line 358). *)
Definition RoleSpecificDashboard (r : UserRole) : list DashboardCard :=
  match roleDashboards r with Some cs => cs | None => DefaultDashboard end.

(** What [DashboardPage] renders (lines 351-375): the loading message
    without a user, otherwise the greeting with [user.name] and the cards. *)
Inductive DashboardView :=
  | LoadingUserData
  | DashboardGrid (greeting : option string) (cards : list DashboardCard).

Definition DashboardPage (u : option User) : DashboardView :=
  match u with
  | None => LoadingUserData
  | Some u => DashboardGrid (name u) (RoleSpecificDashboard (role u))
  end.

(** The metric a dashboard shows under a card title. *)
Definition card_metric (t : string) (cs : list DashboardCard) : option Z :=
  match List.find (fun c => title c =ₛ t) cs with Some c => metricValue c | None => None end.

(** The cards the page shows to a signed-in user. *)
Definition shown_cards (u : User) : list DashboardCard :=
  match DashboardPage (Some u) with DashboardGrid _ cs => cs | LoadingUserData => [] end.

(** ** Theorems *)

(** The table covers every role, so for a user whose role is one of the
    [UserRole] union the [|| DefaultDashboard] fallback never runs; a
    session restored from tampered storage can still reach it
    (Session.stored_role_unchecked). *)
Theorem default_dashboard_unreachable r :
  exists cs, roleDashboards r = Some cs /\ RoleSpecificDashboard r = cs /\ cs <> DefaultDashboard.
Proof. destruct r; eexists; repeat split; discriminate. Qed.

(** Every card of the dashboard a signed-in user sees links, when it
    links at all, to a page that the sidebar offers to the user's role. *)
Theorem dashboard_links_in_sidebar u c l :
  In c (shown_cards u) -> card_href c = Some l ->
  In l (List.map href (filteredNavItems (Some u))).
Proof.
  destruct u as [i n e r]. unfold shown_cards. simpl.
  destruct r; simpl; intros Hin Hl;
    repeat (destruct Hin as [<-|Hin]; [vm_compute in Hl; try discriminate; injection Hl as <-; simpl; tauto|]);
    destruct Hin.
Qed.

(** Each card a user sees shows either its image or its metric,
    never both and never neither, as the comment of line 37 intends. *)
Theorem card_image_xor_metric u c :
  In c (shown_cards u) -> card_shows_image c = negb (card_shows_metric c).
Proof.
  destruct u as [i n e r]. unfold shown_cards. simpl.
  destruct r; simpl; intros Hin;
    repeat (destruct Hin as [<-|Hin]; [reflexivity|]); destruct Hin.
Qed.

(** The administrator's metrics are constants: once the last seeded
    notice expiry (2024-08-05) has passed, the notices page lists 2 active
    notices while the dashboard says 5, and the leave page holds 2 pending
    requests while the dashboard says 3. *)
Theorem admin_metrics_disagree now loadTime :
  (Notices.date_utc "2024-08-05" < now)%Z ->
  card_metric "Active Notices" AdminDashboard = Some 5%Z /\
  length (Notices.activeNotices now (Notices.initialNotices loadTime)) = 2 /\
  card_metric "Pending Leave Requests" AdminDashboard = Some 3%Z /\
  length (List.filter (fun r => bool_decide (Leave.status r = Leave.Pending))
            Leave.initialLeaveRequests) = 2.
Proof.
  intros Hnow. split; [reflexivity|]. split; [|split; reflexivity].
  unfold Notices.activeNotices, Notices.sort_by_issued. rewrite js_sort_length.
  assert (E1 : parse_ymd "2024-07-25" = Some 1721865600000%Z) by reflexivity.
  assert (E2 : parse_ymd "2024-07-20" = Some 1721433600000%Z) by reflexivity.
  assert (E3 : parse_ymd "2024-08-05" = Some 1722816000000%Z) by reflexivity.
  assert (E4 : parse_ymd "2024-05-15" = Some 1715731200000%Z) by reflexivity.
  unfold Notices.date_utc in Hnow. rewrite E3 in Hnow.
  unfold Notices.initialNotices. rewrite E1, E2, E3, E4.
  unfold Notices.is_active, Notices.is_past. simpl.
  repeat rewrite (proj2 (Z.ltb_lt _ _)) by lia. reflexivity.
Qed.

Lemma dashboard_links_in_sidebar_witness :
  let u := mkUser "1718000012345" (Some "ada") (Some "ada@example.com") accountant in
  let c := mkCard "Fee Management"
     "Manage fee structures, track student payments, and generate reports."
     (Some "https://placehold.co/600x400.png") (Some "accounting ledger")
     (Some "/fees") None None in
  In c (shown_cards u) /\ card_href c = Some "/fees"%string /\
  In "/fees"%string (List.map href (filteredNavItems (Some u))).
Proof.
  intros u c. assert (H1 : In c (shown_cards u)) by (simpl; tauto).
  assert (H2 : card_href c = Some "/fees"%string) by reflexivity.
  split; [exact H1|]. split; [exact H2|]. exact (dashboard_links_in_sidebar u c _ H1 H2).
Defined.

Lemma card_image_xor_metric_witness :
  let u := mkUser "1718000012345" (Some "root") (Some "root@example.com") admin in
  let c := mkCard "Total Students" "Current student enrollment across all classes."
     None None (Some "/students") (Some MOCK_TOTAL_STUDENTS) (Some "Students Enrolled") in
  In c (shown_cards u) /\ card_shows_image c = negb (card_shows_metric c).
Proof.
  intros u c. assert (H : In c (shown_cards u)) by (simpl; tauto).
  split; [exact H|]. exact (card_image_xor_metric u c H).
Defined.

Lemma admin_metrics_disagree_witness :
  let now := 1731110400000%Z in
  (Notices.date_utc "2024-08-05" < now)%Z /\
  card_metric "Active Notices" AdminDashboard = Some 5%Z /\
  length (Notices.activeNotices now (Notices.initialNotices now)) = 2 /\
  card_metric "Pending Leave Requests" AdminDashboard = Some 3%Z /\
  length (List.filter (fun r => bool_decide (Leave.status r = Leave.Pending))
            Leave.initialLeaveRequests) = 2.
Proof.
  intros now. assert (H : (Notices.date_utc "2024-08-05" < now)%Z) by (vm_compute; reflexivity).
  split; [exact H|]. exact (admin_metrics_disagree now now H).
Defined.

End Dashboard.
