(* ===== verification/Session.v ===== *)
(** * The session as text in [localStorage]

    src/src/contexts/AuthContext.tsx stores the user as the text
    [JSON.stringify(newUser)] under [campusHubUser] (line 112) and its
    mount effect (lines 52-97) reads it back with [JSON.parse], keeping any
    parsed value with a truthy [id] and [role]: the annotation
    [const parsedUser: User] is not checked at run time.  [Auth] models the
    session with a typed [User]; this file models the text and the
    parsed value ([Json]), and the consumers of the parsed value: the
    sidebar's [allowedRoles.includes(user.role)] (AppSidebar.tsx line 50),
    the layout's guard and [roleDashboards[user.role] || DefaultDashboard]
    (dashboard/page.tsx line 358).

    [rt_restore_refines] shows that on every text the application writes
    the text-level session behaves as the typed one; [stored_role_unchecked]
    shows what the typed model cannot express: a stored role outside the
    union signs the user in, with an empty sidebar, the default dashboard
    and every page rendered. *)

From S2P Require Import Prelude JsRuntime EntityList Validation Crud Students Notices Leave Auth Dashboard Json.
Import Auth Nav Json Dashboard.

Module Session.

Definition role_of_name (s : string) : option UserRole :=
  List.find (fun r => role_name r =ₛ s) LoginPage.roles.

(** [newUser] of [login] (lines 100-110). *)
Definition new_user (now : N) (em : string) (r : option UserRole) : User :=
  mkUser (js_number_to_string now) (Some (before_at em)) (Some em)
    (match r with Some r => r | None => student end).

(** The object [JSON.stringify] serialises: its fields in the order
    [newUser] lists them, a [null] name or email written as [null]. *)
Definition user_fields (u : User) : list (string * option string) :=
  [("id", Some (id u)); ("name", name u); ("email", email u); ("role", Some (role_name (role u)))].

Definition user_to_json (u : User) : json := opt_obj (user_fields u).

(** [JSON.stringify(newUser)] (line 112). *)
Definition user_text (u : User) : string :=
  string_of_list_ascii (json_stringify (user_to_json u)).

(** The provider's state with the stored text and the parsed user. *)
Record RtAuth := mkRt {
  rt_user : option json;
  rt_loading : bool;
  rt_storage : option string;
  rt_route : string;
}.

Definition rt_reload (storage0 : option string) (path : string) : RtAuth :=
  mkRt None true storage0 path.

(** The mount effect (lines 52-97): [getItem] gives [null] or the text;
    an empty text is falsy and left alone; [JSON.parse] throwing and a
    value without a truthy [id] and [role] both remove the entry. *)
Definition rt_restore (s : RtAuth) : RtAuth :=
  match rt_storage s with
  | None => mkRt (rt_user s) false None (rt_route s)
  | Some text =>
      if text =ₛ "" then mkRt (rt_user s) false (Some text) (rt_route s)
      else match json_parse text with
           | None => mkRt (rt_user s) false None (rt_route s)
           | Some v =>
               if truthy v && truthy_opt (get_prop v "id") && truthy_opt (get_prop v "role")
               then mkRt (Some v) false (Some text) (rt_route s)
               else mkRt (rt_user s) false None (rt_route s)
           end
  end.

(** [login] (lines 100-114) on the text-level state. *)
Definition rt_login (now : N) (em : string) (r : option UserRole) (s : RtAuth) : RtAuth :=
  let u := new_user now em r in
  mkRt (Some (user_to_json u)) (rt_loading s) (Some (user_text u)) "/dashboard".

(** [item.allowedRoles.includes(user.role)]: [includes] compares with
    [SameValueZero], so only a string equal to a role name matches. *)
Definition rt_filteredNavItems (u : option json) : list NavItem :=
  List.filter (fun item =>
    match u with
    | Some j => truthy j &&
        match get_prop j "role" with
        | Some (JStr s) => existsb (fun r => role_name r =ₛ s) (allowedRoles item)
        | _ => false
        end
    | None => false
    end) navItems.

(** The layout renders the page for a truthy user when not loading. *)
Definition rt_renders_page (s : RtAuth) : bool :=
  negb (rt_loading s) && match rt_user s with Some j => truthy j | None => false end.

(** The property names an object literal inherits from [Object.prototype]:
    indexing [roleDashboards] with one of them does not give [undefined]. *)
Definition object_prototype_names : list string :=
  ["constructor"; "hasOwnProperty"; "isPrototypeOf"; "propertyIsEnumerable";
   "toLocaleString"; "toString"; "valueOf"; "__proto__"; "__defineGetter__";
   "__defineSetter__"; "__lookupGetter__"; "__lookupSetter__"]%string.

(** The string a role value becomes as a property key, when it can be a
    role name: [ToString] of a string is itself and of a one-element
    array its element's; [ToString] of null, booleans, numbers, objects
    and other arrays contains no letter or a comma, so it is never a role
    name or an inherited name. *)
Fixpoint key_name (j : json) : option string :=
  match j with
  | JStr s => Some s
  | JArr [x] => key_name x
  | _ => None
  end.

(** What [roleDashboards[user.role]] finds. *)
Inductive DashLookup := RoleDash (r : UserRole) | Inherited (name : string) | Missing.

Definition lookup_dashboard (role : option json) : DashLookup :=
  match role with
  | Some j =>
      match key_name j with
      | Some k =>
          match role_of_name k with
          | Some r => RoleDash r
          | None => if existsb (fun n => n =ₛ k) object_prototype_names then Inherited k else Missing
          end
      | None => Missing
      end
  | None => Missing
  end.

(** [roleDashboards[user.role] || DefaultDashboard]; [None] when an
    inherited member of [Object.prototype] is rendered as a component,
    which this model does not follow. *)
Definition rt_dashboard (j : json) : option (list DashboardCard) :=
  match lookup_dashboard (get_prop j "role") with
  | RoleDash r => Some (RoleSpecificDashboard r)
  | Missing => Some DefaultDashboard
  | Inherited _ => None
  end.

(** A stored text a user can write in the browser's storage. *)
Definition tampered_text : string :=
  string_of_list_ascii (json_stringify (str_obj [("id", "1"); ("role", "superuser")]%string)).

(** ** Lemmas *)

Lemma role_name_eqb r r' : (role_name r =ₛ role_name r') = bool_decide (r = r').
Proof. destruct r, r'; reflexivity. Qed.

Lemma role_name_nonempty r : (role_name r =ₛ "") = false.
Proof. by destruct r. Qed.

Lemma get_prop_user_id u : get_prop (user_to_json u) "id" = Some (JStr (id u)).
Proof. destruct u as [i [n|] [e|] r]; reflexivity. Qed.

Lemma get_prop_user_role u : get_prop (user_to_json u) "role" = Some (JStr (role_name (role u))).
Proof. destruct u as [i [n|] [e|] r]; reflexivity. Qed.

Lemma user_text_parse u : json_parse (user_text u) = Some (user_to_json u).
Proof. apply stringify_parse_opt_obj. Qed.

Lemma user_text_nonempty u : (user_text u =ₛ "") = false.
Proof. unfold user_text, user_to_json. by rewrite stringify_opt_obj. Qed.

Lemma rt_filteredNavItems_user u :
  rt_filteredNavItems (Some (user_to_json u)) = filteredNavItems (Some u).
Proof.
  unfold rt_filteredNavItems, filteredNavItems. apply List.filter_ext. intros item.
  rewrite get_prop_user_role. simpl.
  induction (allowedRoles item) as [|r l IH]; simpl; [done|]. by rewrite role_name_eqb, IH.
Qed.

Lemma rt_dashboard_user u : rt_dashboard (user_to_json u) = Some (RoleSpecificDashboard (role u)).
Proof.
  unfold rt_dashboard, lookup_dashboard. rewrite get_prop_user_role. simpl.
  by destruct (role u).
Qed.

(** C20: on every text the application writes, the text-level session is
    the typed one: restoring [JSON.stringify(u)] gives the parsed [u]
    exactly when the typed mount effect restores [u], the same storage,
    loading flag and route, the same sidebar, the same rendering decision
    and the dashboard of [u]'s role. *)
Theorem rt_restore_refines u path :
  let t := restore (reload (Some (StoredUser u)) path) in
  let s := rt_restore (rt_reload (Some (user_text u)) path) in
  rt_user s = option_map user_to_json (user t) /\ rt_loading s = isLoading t /\
  rt_route s = route t /\ (rt_storage s = None <-> storage t = None) /\
  rt_filteredNavItems (rt_user s) = filteredNavItems (user t) /\
  rt_renders_page s = renders_page t /\
  (forall j, rt_user s = Some j -> exists u', user t = Some u' /\ j = user_to_json u' /\
     rt_dashboard j = Some (RoleSpecificDashboard (role u'))).
Proof.
  intros t s. unfold t, s, rt_restore, restore, rt_reload, reload. cbn [rt_storage storage].
  rewrite user_text_nonempty, user_text_parse, get_prop_user_id, get_prop_user_role.
  cbn [truthy truthy_opt]. rewrite role_name_nonempty. simpl.
  destruct (id u =ₛ "") eqn:E; simpl.
  - repeat split; done.
  - repeat split; try done; [apply rt_filteredNavItems_user|].
    intros j [= <-]. exists u. split; [done|]. split; [done|]. apply rt_dashboard_user.
Qed.

(** C11: the type of the stored user is not checked: a text with a truthy
    id and a role outside [UserRole], which no login writes, signs the
    user in; every page is rendered, the sidebar lists no page (not even
    the dashboard) and the dashboard falls back to [DefaultDashboard]. *)
Theorem stored_role_unchecked path :
  let s := rt_restore (rt_reload (Some tampered_text) path) in
  (forall u, user_text u <> tampered_text) /\
  rt_user s <> None /\ rt_renders_page s = true /\ rt_route s = path /\
  rt_filteredNavItems (rt_user s) = [] /\
  (forall j, rt_user s = Some j -> rt_dashboard j = Some DefaultDashboard).
Proof.
  intros s.
  assert (Hp : json_parse tampered_text = Some (str_obj [("id", "1"); ("role", "superuser")]%string))
    by apply stringify_parse_str_obj.
  assert (Hs : s = mkRt (Some (str_obj [("id", "1"); ("role", "superuser")]%string)) false
                      (Some tampered_text) path).
  { unfold s, rt_restore, rt_reload. cbn [rt_storage]. rewrite Hp. reflexivity. }
  split.
  - intros u Heq. assert (Hj : user_to_json u = str_obj [("id", "1"); ("role", "superuser")]%string).
    { pose proof (user_text_parse u) as Hu. rewrite Heq, Hp in Hu.
      apply (f_equal (fun o => match o with Some x => x | None => JNull end)) in Hu.
      exact (eq_sym Hu). }
    pose proof (get_prop_user_role u) as Hr. rewrite Hj in Hr.
    destruct u as [i n e []]; vm_compute in Hr; discriminate Hr.
  - rewrite Hs. repeat split; try done. intros j [= <-]. reflexivity.
Qed.

(** A stored text that does not parse, or parses to a value without a
    truthy [id] and [role], is removed and signs no one in, as the typed
    model's [Unparsable] entry is. *)
Theorem rt_restore_rejects text path :
  text <> ""%string ->
  (forall v, json_parse text = Some v ->
     truthy v && truthy_opt (get_prop v "id") && truthy_opt (get_prop v "role") = false) ->
  let s := rt_restore (rt_reload (Some text) path) in
  let t := restore (reload (Some Unparsable) path) in
  rt_user s = None /\ rt_storage s = None /\ user t = None /\ storage t = None /\
  rt_loading s = isLoading t.
Proof.
  intros Hne Hv s t. unfold s, t, rt_restore, rt_reload. cbn [rt_storage].
  apply String.eqb_neq in Hne. rewrite Hne.
  destruct (json_parse text) as [v|] eqn:E; [|done]. by rewrite (Hv v eq_refl).
Qed.

Lemma rt_restore_rejects_witness :
  "null"%string <> ""%string /\
  (forall v, json_parse "null" = Some v ->
     truthy v && truthy_opt (get_prop v "id") && truthy_opt (get_prop v "role") = false) /\
  (let s := rt_restore (rt_reload (Some "null"%string) "/dashboard") in
   let t := restore (reload (Some Unparsable) "/dashboard") in
   rt_user s = None /\ rt_storage s = None /\ user t = None /\ storage t = None /\
   rt_loading s = isLoading t).
Proof.
  assert (H1 : "null"%string <> ""%string) by discriminate.
  assert (H2 : forall v, json_parse "null" = Some v ->
     truthy v && truthy_opt (get_prop v "id") && truthy_opt (get_prop v "role") = false)
    by (intros v Hv; vm_compute in Hv; injection Hv as <-; reflexivity).
  split; [exact H1|]. split; [exact H2|]. exact (rt_restore_rejects "null" "/dashboard" H1 H2).
Defined.

End Session.
