(* ===== verification/Site.v ===== *)
(** * The site: routes, public home page and the placeholder pages

    - [Routes]: the pages of the Next.js app router, one per
      [page.tsx] under src/src/app, and the resolution of a link: a route
      is a page, an in-page anchor [#id] a section of the home page, a
      [tel:] or [mailto:] link is handled by the browser.
    - [PublicSite]: src/src/app/page.tsx (the order of the sections of the
      home page), the [id] of each section component under
      src/src/components/public, the links of [PublicHeader] (with its
      mobile menu state), [HeroSection], [AdmissionInfoSection],
      [ContactUsSection], [PublicNoticeboardPreview] and [PublicFooter],
      the forms of [ActiveFormsSection] with the button each one renders,
      and the cards of [HighlightsSection], [PublicEventsPreview],
      [PublicNoticeboardPreview] (with its local-time dates) and
      [PublicGalleryPreview], and the year of [PublicFooter].
    - [FormAdmin]: src/src/app/(app)/form-admin/page.tsx, the only page
      that checks the role itself.
    - [Transport]: src/src/app/(app)/transport/page.tsx, whose buttons
      only the administrator sees, all of them disabled.

    The theorems find the two links of the home page that lead nowhere,
    that the noticeboard dates its notices a day early west of
    Greenwich, that the gallery preview's link leads a visitor to the
    login page, that every list of the page has distinct React keys,
    show that every other link resolves, that the sidebar and the
    dashboards link only to existing pages, and that the form-admin page
    admits exactly the role the sidebar offers it to. *)

From S2P Require Import Prelude JsRuntime EntityList Validation Crud Students Notices Leave Auth Gallery Dashboard.
Import Auth Nav.

Module Routes.

(** The pages of the app router: src/src/app/page.tsx, login/page.tsx
    and the fourteen pages of the (app) group (the group's name is not
    part of the path). *)
Definition appRoutes : list string :=
  ["/"; "/login"; "/dashboard"; "/students"; "/teachers"; "/timetable"; "/exams";
   "/library"; "/transport"; "/gallery"; "/notices"; "/fees"; "/salaries";
   "/attendance-leave"; "/study-questions"; "/form-admin"]%string.

End Routes.

Module PublicSite.

(** The section components of the home page. *)
Inductive PublicSection :=
  | HeroSection | HighlightsSection | AdmissionInfoSection | EnquiryFormSection
  | ActiveFormsSection | PublicNoticeboardPreview | PublicEventsPreview
  | PublicGalleryPreview | ContactUsSection.

(** The [id] of the [<section>] each component renders. *)
Definition section_id (s : PublicSection) : string :=
  match s with
  | HeroSection => "hero"
  | HighlightsSection => "highlights"
  | AdmissionInfoSection => "admission"
  | EnquiryFormSection => "admission-enquiry"
  | ActiveFormsSection => "active-forms"
  | PublicNoticeboardPreview => "notices"
  | PublicEventsPreview => "events"
  | PublicGalleryPreview => "gallery-preview"
  | ContactUsSection => "contact"
  end.

(** [HomePage] (src/src/app/page.tsx, lines 14-32): the sections of
    [<main>] in order. *)
Definition HomePage : list PublicSection :=
  [HeroSection; HighlightsSection; AdmissionInfoSection; EnquiryFormSection;
   ActiveFormsSection; PublicNoticeboardPreview; PublicEventsPreview;
   PublicGalleryPreview; ContactUsSection].

(** Where a link leads: an anchor of the home page, a route, or a
    [tel:]/[mailto:] address the browser handles. *)
Definition link_resolves (h : string) : bool :=
  match h with
  | String "#" target => existsb (fun s => section_id s =ₛ target) HomePage
  | _ => existsb (fun r => r =ₛ h) Routes.appRoutes
         || String.prefix "tel:" h || String.prefix "mailto:" h
  end.

(** [navLinks] of [PublicHeader] (lines 10-16). *)
Definition navLinks : list (string * string) :=
  [("#hero", "Home"); ("#highlights", "About Us"); ("#admission", "Admissions");
   ("#notices", "Notices"); ("#contact", "Contact")]%string.

(** The mobile menu of [PublicHeader] (lines 19-73): the sheet opens and
    closes with its trigger, and a click on a link closes it. *)
Inductive MenuEvent := OpenChange (open : bool) | ClickLink (href : string).

Definition header_step (isMobileMenuOpen : bool) (e : MenuEvent) : bool :=
  match e with
  | OpenChange b => b
  | ClickLink _ => false
  end.

(** The links each component renders, in the order of the page: the
    header (logo, [navLinks], login button), the hero's two buttons
    (lines 22-27), the admission button (line 32), the contact links
    (lines 27 and 35), the noticeboard's button (line 45) and the footer
    (lines 19-21). *)
Definition header_links : list string := ("/" :: List.map fst navLinks ++ ["/login"])%string.
Definition hero_links : list string := ["#admission"; "#contact"]%string.
Definition admission_links : list string := ["/admission-form"]%string.
Definition contact_links : list string := ["tel:+1234567890"; "mailto:info@campushubschool.example.com"]%string.
Definition noticeboard_links : list string := ["/login"]%string.
Definition footer_links : list string := ["#admission"; "#notices"; "/login"]%string.
(** The "View Full Gallery" button of [PublicGalleryPreview] (lines 62-68). *)
Definition gallery_preview_links : list string := ["/gallery"]%string.

(** [ConceptualFormLink['status']] and the interface (lines 16-24),
    without the icon. *)
Inductive FormLinkStatus := Active | ComingSoon.

Record ConceptualFormLink := mkFormLink {
  form_id : string;
  form_title : string;
  form_description : string;
  form_href : option string;
  form_sectionId : option string;
  form_status : FormLinkStatus;
}.

(** [conceptualForms] of [ActiveFormsSection] (lines 26-51). *)
Definition conceptualForms : list ConceptualFormLink :=
  [mkFormLink "admission-enquiry" "Admission Enquiry"
     "Have questions about admissions? Submit an enquiry." None (Some "enquiry") Active;
   mkFormLink "science-fair-reg" "Science Fair Registration 2025"
     "Register your project for the upcoming annual Science Fair." (Some "#") None ComingSoon;
   mkFormLink "alumni-signup" "Alumni Network Signup"
     "Join our alumni network to stay connected and receive updates." (Some "#") None ComingSoon]%string.

(** JavaScript truthiness of an optional string. *)
Definition truthy (s : option string) : option string :=
  match s with Some x => if x =ₛ "" then None else Some x | None => None end.

(** What the card's button holds (lines 94-102). *)
Inductive ButtonContent :=
  | OpenFormLink (href : string)
  | GoToSection (href : string)
  | ComingSoonText
  | OpenFormText.

(** The button of a form (lines 89-103): disabled when the form is
    coming soon; its content by the chain of conditionals. *)
Definition form_button (f : ConceptualFormLink) : bool * ButtonContent :=
  let active := match form_status f with Active => true | ComingSoon => false end in
  (negb active,
   match truthy (form_href f), truthy (form_sectionId f), form_status f with
   | Some h, _, Active => OpenFormLink h
   | None, Some sid, Active => GoToSection ("#" ++ sid)
   | _, _, ComingSoon => ComingSoonText
   | None, None, Active => OpenFormText
   end).

(** The link an enabled button follows. *)
Definition button_link (b : bool * ButtonContent) : option string :=
  match b with
  | (false, OpenFormLink h) | (false, GoToSection h) => Some h
  | _ => None
  end.

Definition active_form_links : list string :=
  flat_map (fun f => match button_link (form_button f) with Some h => [h] | None => [] end)
    conceptualForms.

(** Every link of the home page, in the order of the page. *)
Definition home_links : list string :=
  header_links ++ hero_links ++ admission_links ++ active_form_links ++
  noticeboard_links ++ gallery_preview_links ++ contact_links ++ footer_links.

(** [initialGalleryItems] of [PublicGalleryPreview] (lines 11-16) and
    [previewItems = initialGalleryItems.slice(0, 4)] (line 18). *)
Definition publicGalleryItems : list Gallery.GalleryItem :=
  [Gallery.mkItem "1" "Annual Sports Day" Gallery.placeholder "sports children" "2024-03-15" (Some "Sports");
   Gallery.mkItem "2" "Science Fair Exhibition" Gallery.placeholder "science experiment" "2024-04-22" (Some "Academics");
   Gallery.mkItem "3" "Art & Craft Workshop" Gallery.placeholder "art craft" "2024-05-10" (Some "Workshop");
   Gallery.mkItem "4" "Graduation Ceremony" Gallery.placeholder "graduation students" "2024-06-01" (Some "Ceremony")]%string.

Definition previewItems : list Gallery.GalleryItem := firstn 4 publicGalleryItems.

(** ** The cards of the static sections *)

(** A card of a list the home page renders: its React [key], its title,
    its badge if any and its lines of text. *)
Record InfoCard := mkInfoCard {
  ic_key : string;
  ic_title : string;
  ic_badge : option string;
  ic_lines : list string;
}.

(** [highlights] of [HighlightsSection] (lines 5-30), without the icons. *)
Record Highlight := mkHighlight { hl_title : string; hl_description : string; hl_imageHint : string }.

Definition highlights : list Highlight :=
  [mkHighlight "Academic Excellence"
     "Consistently achieving top results and fostering a love for learning." "students graduation";
   mkHighlight "Modern Facilities"
     "State-of-the-art labs, smart classrooms, and extensive sports infrastructure." "science lab";
   mkHighlight "Experienced Faculty"
     "Dedicated and qualified educators committed to student success." "teacher classroom";
   mkHighlight "Holistic Development"
     "Focus on co-curricular activities, sports, and arts for overall growth." "students sports"]%string.

(** [highlights.map((highlight, index) => <Card key={index}>)] (lines 40-52). *)
Definition highlight_cards : list InfoCard :=
  imap (fun i h => mkInfoCard (js_number_to_string (N.of_nat i)) (hl_title h) None [hl_description h])
    highlights.

(** The events of [PublicEventsPreview] (lines 13-17). *)
Record PublicEvent := mkPublicEvent { ev_title : string; ev_date : string; ev_imageHint : string }.

Definition publicEvents : list PublicEvent :=
  [mkPublicEvent "Annual Day Celebration" "April 15, 2024" "stage performance";
   mkPublicEvent "Science Fair" "May 5, 2024" "science experiment";
   mkPublicEvent "Summer Camp Registration" "Starts May 20, 2024" "children playing"]%string.

(** [.map(event => <Card key={event.title}>)] (lines 17-30). *)
Definition event_cards : list InfoCard :=
  List.map (fun e => mkInfoCard (ev_title e) (ev_title e) None
    [ev_date e; "More details will be available soon. Check the noticeboard or login to the ERP."%string])
    publicEvents.

(** [sampleNotices] of [PublicNoticeboardPreview] (lines 9-13); the
    issue date is the text given to [new Date]. *)
Record SampleNotice := mkSampleNotice {
  sn_id : string; sn_title : string; sn_content : string; sn_issuedDate : string; sn_type : string;
}.

Definition sampleNotices : list SampleNotice :=
  [mkSampleNotice "pub1" "Annual Sports Day Rescheduled"
     "The Annual Sports Day will now be held on March 25th. All students are requested to note the change."
     "2024-03-10" "Event";
   mkSampleNotice "pub2" "Parent-Teacher Meeting - Junior Wing"
     "PTM for classes Nursery to V will be on March 18th. Please book your slots." "2024-03-08" "Academic";
   mkSampleNotice "pub3" "Science Exhibition Entries Open"
     "Submit your projects for the upcoming Science Exhibition by April 5th." "2024-03-05" "Event"]%string.

(** A notice card (lines 24-41): title, type badge,
    [Posted on: {format(notice.issuedDate, 'PPP')}], the content and the
    Read More button. [new Date(text)] gives the time value [dateValue
    text]; [format] reads the local fields, those of the time shifted by
    the time zone's [offset]; it throws on an Invalid Date. *)
Definition notice_card (dateValue : string -> option Z) (offset : Z) (n : SampleNotice) : option InfoCard :=
  match format_ppp (option_map (fun t => t + offset)%Z (dateValue (sn_issuedDate n))) with
  | Some d => Some (mkInfoCard (sn_id n) (sn_title n) (Some (sn_type n))
                     ["Posted on: " ++ d; sn_content n; "Read More"]%string)
  | None => None
  end.

(** [sampleNotices.map(...)] (lines 23-42). *)
Definition notice_cards (dateValue : string -> option Z) (offset : Z) : option (list InfoCard) :=
  mapM (notice_card dateValue offset) sampleNotices.

(** The body of [PublicGalleryPreview] (lines 29-60): the empty message,
    or one card per preview item. A card shows what a card of the gallery
    page shows to a user who is not an administrator: the image, the
    event tag when it is truthy, the title and
    [new Date(item.date).toLocaleDateString()]. *)
Inductive PreviewView :=
  | PreviewEmpty (message : string)
  | PreviewGrid (cards : list Gallery.GalleryCard).

Definition gallery_preview (dateValue : string -> option Z) (offset : Z) : PreviewView :=
  match previewItems with
  | [] => PreviewEmpty "Our gallery is currently empty. Check back soon for exciting moments!"
  | _ => PreviewGrid (List.map (Gallery.gallery_card dateValue offset false) previewItems)
  end.

(** The copyright line of [PublicFooter] (lines 34-36): the local year of
    [new Date()] at the clock [now]. *)
Definition copyright_line (offset now : Z) : string :=
  let '(y, _, _) := civil_from_days ((now + offset) / 86400000) in
  ("© " ++ js_int_to_string y ++ " Campus Hub School. All Rights Reserved.")%string.

End PublicSite.

Module FormAdmin.

(** [ConceptualForm] (lines 17-22) and [conceptualForms] (lines 24-43). *)
Inductive FormStatus := Published | Draft.

Record ConceptualForm := mkForm {
  cf_id : string;
  cf_title : string;
  cf_description : string;
  cf_status : FormStatus;
}.

Definition conceptualForms : list ConceptualForm :=
  [mkForm "enquiry-form" "Admission Enquiry Form"
     "Standard form for prospective students to make initial enquiries. (Existing)" Published;
   mkForm "event-reg-annual" "Event Registration: Annual Day 2025"
     "Form for students and parents to register for the Annual Day event." Draft;
   mkForm "feedback-survey-2024" "Parent Feedback Survey 2024"
     "Collect feedback from parents on school operations and academics." Draft]%string.

(** A card of the list (lines 86-112): its title, the status line and
    its three buttons, each with its [disabled] flag. *)
Record FormCard := mkFormCard {
  card_title : string;
  card_status_line : string;
  card_buttons : list (string * bool);
}.

Definition status_text (s : FormStatus) : string :=
  match s with Published => "Published" | Draft => "Draft" end.

Definition form_card (f : ConceptualForm) : FormCard :=
  mkFormCard (cf_title f) ("Status: " ++ status_text (cf_status f))
    [("View Submissions", true); ("Edit Form", true);
     (match cf_status f with Draft => "Publish" | Published => "Unpublish" end, true)]%string.

(** What the page shows: the access-denied message, or the page with its
    (disabled) "Create New Form" button and either the "No forms created
    yet" message or the cards. *)
Inductive FormAdminView :=
  | AccessDenied
  | NoFormsYet (create_disabled : bool)
  | FormsList (create_disabled : bool) (cards : list FormCard).

(** [FormAdminPage] (lines 45-145): [user?.role !== 'admin'] denies
    access; [conceptualForms.length === 0] selects the message. *)
Definition FormAdminPage (u : option User) : FormAdminView :=
  match u with
  | Some u => if bool_decide (role u = admin)
              then if (length conceptualForms =? 0)%nat then NoFormsYet true
                   else FormsList true (List.map form_card conceptualForms)
              else AccessDenied
  | None => AccessDenied
  end.

End FormAdmin.

Module Transport.

(** The cards of [TransportManagementPage] (lines 36-162): the title and
    the label of the button of the card (the last card has none). *)
Definition transport_cards : list (string * option string) :=
  [("Vehicle Management", Some "Manage Vehicles (Coming Soon)");
   ("Route Management", Some "Manage Routes (Coming Soon)");
   ("Driver & Helper Management", Some "Manage Staff (Coming Soon)");
   ("Student Pickup/Drop", Some "Manage Schedules (Coming Soon)");
   ("Maintenance Records", Some "View Records (Coming Soon)");
   ("Transport Fee Reports", Some "Generate Reports (Coming Soon)");
   ("Parent Notifications", None)]%string.

(** The buttons the page renders for a user, each with its [disabled]
    flag: a button is rendered when [user?.role === 'admin']. *)
Definition transport_buttons (u : option User) : list (string * bool) :=
  match u with
  | Some u => if bool_decide (role u = admin)
              then flat_map (fun c => match snd c with Some b => [(b, true)] | None => [] end) transport_cards
              else []
  | None => []
  end.

End Transport.

Module AppHeader.

(** [name.split(' ')]: the pieces between single spaces, empty pieces
    included, and [[""]] for the empty string. *)
Fixpoint js_split_char (c : Ascii.ascii) (s : string) : list string :=
  match s with
  | EmptyString => [EmptyString]
  | String a s' =>
      let rest := js_split_char c s' in
      if Ascii.eqb a c then EmptyString :: rest
      else match rest with
           | r :: rs => String a r :: rs
           | [] => [String a EmptyString]
           end
  end.

(** [s[0]]: the first character, [undefined] for the empty string. *)
Definition first_char (s : string) : option Ascii.ascii :=
  match s with String a _ => Some a | EmptyString => None end.

(** [x + y] on two values that are each a one-character string or
    [undefined]: [undefined] turns into the text ["undefined"], and
    [undefined + undefined] is [NaN]. *)
Definition js_concat_chars (a b : option Ascii.ascii) : string :=
  match a, b with
  | Some a, Some b => String a (String b EmptyString)
  | Some a, None => String a "undefined"
  | None, Some b => "undefined" ++ String b EmptyString
  | None, None => "NaN"
  end.

(** [getInitials] (lines 17-24). *)
Definition getInitials (name : option string) : string :=
  match name with
  | None => "U"
  | Some n =>
      if n =ₛ "" then "U"
      else let names := js_split_char " " n in
           if (1 <? length names)%nat
           then js_concat_chars (first_char (hd EmptyString names)) (first_char (List.last names EmptyString))
           else match first_char n with
                | Some a => String a EmptyString
                | None => "U" (* [n] is not empty here *)
                end
  end.

(** The theme menu (lines 46-58): [setTheme] of next-themes. *)
Inductive Theme := light | dark | system.

Definition setTheme (t : Theme) (_ : Theme) : Theme := t.

(** The user menu of the header (lines 61-93), shown when a user is
    signed in: the avatar's image and its fallback, the label with the
    user's name and role; "Profile" has no handler and "Sign Out" calls
    [logout]. *)
Record UserMenu := mkUserMenu {
  avatar_src : string;
  avatar_alt : string;
  avatar_fallback : string;
  label_name : option string;
  label_role : UserRole;
}.

Definition user_menu (u : option User) : option UserMenu :=
  match u with
  | None => None
  | Some u =>
      Some (mkUserMenu ("https://placehold.co/100x100.png?text=" ++ getInitials (name u))
              (match name u with Some n => if n =ₛ "" then "User" else n | None => "User" end)
              (getInitials (name u)) (name u) (role u))
  end.

(** "Sign Out" of the header and "Logout" of the sidebar (AppSidebar.tsx
    line 99) both call [logout]. *)
Definition sign_out (s : AuthState) : AuthState := logout s.

End AppHeader.

(** ** Theorems *)

Module SiteFacts.
Import Routes PublicSite FormAdmin Transport Dashboard AppHeader.

(** The sections of the home page have distinct ids, so an anchor names
    at most one of them. *)
Theorem home_section_ids_distinct : NoDup (List.map section_id HomePage).
Proof. decide_it. Qed.

(** Of all the links of the home page exactly two lead nowhere: the
    admission button's [/admission-form], a page that does not exist, and
    the enabled "Go to Section" button of the admission enquiry card,
    [#enquiry], while the enquiry form's section is [admission-enquiry]. *)
Theorem home_broken_links :
  List.filter (fun h => negb (link_resolves h)) home_links = ["/admission-form"; "#enquiry"]%string /\
  form_button (hd (mkFormLink "" "" "" None None ComingSoon) PublicSite.conceptualForms) =
    (false, GoToSection "#enquiry") /\
  section_id EnquiryFormSection = "admission-enquiry"%string.
Proof. split; [vm_compute; reflexivity|]. split; reflexivity. Qed.

(** Every form card's button is disabled exactly when the form is coming
    soon; an enabled button follows the form's [href] if it has one, its
    section anchor otherwise, and an active form with neither renders an
    enabled "Open Form" button that leads nowhere. *)
Theorem form_button_spec f :
  fst (form_button f) = match form_status f with ComingSoon => true | Active => false end /\
  (form_status f = Active ->
   button_link (form_button f) =
     match truthy (form_href f), truthy (form_sectionId f) with
     | Some h, _ => Some h
     | None, Some sid => Some ("#" ++ sid)%string
     | None, None => None
     end).
Proof.
  unfold form_button. destruct (form_status f); split; try done; intros _.
  destruct (truthy (form_href f)), (truthy (form_sectionId f)); reflexivity.
Qed.

(** Every link of the sidebar and every link of a role's dashboard
    leads to a page of the application. *)
Theorem app_links_resolve :
  (forall item, In item navItems -> In (href item) appRoutes) /\
  (forall r c l, In c (RoleSpecificDashboard r) -> card_href c = Some l -> In l appRoutes).
Proof.
  split.
  - intros item Hin. repeat (destruct Hin as [<-|Hin]; [simpl; tauto|]). destruct Hin.
  - intros r c l. destruct r; simpl; intros Hin Hl;
      repeat (destruct Hin as [<-|Hin]; [vm_compute in Hl; try discriminate; injection Hl as <-; simpl; tauto|]);
      destruct Hin.
Qed.

(** The form-admin page admits exactly the users the sidebar offers
    it to: it denies access unless the role is admin. *)
Theorem form_admin_guard_matches_sidebar u :
  FormAdminPage (Some u) <> AccessDenied <->
  In "/form-admin"%string (List.map href (filteredNavItems (Some u))).
Proof.
  destruct u as [i n e r]. unfold FormAdminPage. simpl.
  destruct r; simpl; split; intros H; try congruence; intuition discriminate.
Qed.

(** Only the administrator sees buttons on the transport page, and all of
    them are disabled: a principal, to whom the sidebar offers the page,
    sees none. *)
Theorem transport_buttons_disabled u :
  Forall (fun b => snd b = true) (transport_buttons u) /\
  (transport_buttons u <> [] <-> exists v, u = Some v /\ role v = admin).
Proof.
  destruct u as [[i n e r]|]; simpl.
  - destruct r; simpl; (split; [repeat constructor|]);
      split; intros H; try congruence; try (destruct H as [v [Hv Hr]]; injection Hv as <-; discriminate);
      eauto.
  - split; [constructor|]. split; [congruence|]. intros [v [Hv _]]. discriminate.
Qed.

(** The public gallery preview shows the first four seeded items of the
    gallery page, as its comment says. *)
Theorem preview_matches_gallery_seed : previewItems = firstn 4 Gallery.initialGalleryItems.
Proof. reflexivity. Qed.

(** The characters of a string that contains no [c]. *)
Definition no_char (c : Ascii.ascii) (s : string) : Prop :=
  forall x, In x (list_ascii_of_string s) -> x <> c.

Lemma no_char_cons c a s : no_char c (String a s) <-> a <> c /\ no_char c s.
Proof.
  unfold no_char. simpl. split; [intros H; split; [apply H; by left|intros x Hx; apply H; by right]|].
  intros [Ha Hs] x [<-|Hx]; [done|by apply Hs].
Qed.

Lemma js_split_char_none c s : no_char c s -> js_split_char c s = [s].
Proof.
  induction s as [|a s IH]; [done|]. intros [Ha Hs]%no_char_cons. simpl.
  rewrite IH by done. destruct (Ascii.eqb_spec a c); [done|reflexivity].
Qed.

Lemma js_split_char_app c s1 s2 :
  no_char c s1 -> js_split_char c (s1 ++ String c s2) = s1 :: js_split_char c s2.
Proof.
  induction s1 as [|a s1 IH]; simpl.
  - intros _. by rewrite Ascii.eqb_refl.
  - intros [Ha Hs]%no_char_cons. rewrite IH by done. destruct (Ascii.eqb_spec a c); [done|reflexivity].
Qed.

Lemma before_at_cons a s : a <> "@"%char -> before_at (String a s) = String a (before_at s).
Proof. intros Ha. simpl. destruct (Ascii.eqb_spec a "@"); [done|reflexivity]. Qed.

Lemma before_at_no_char c s : no_char c s -> no_char c (before_at s).
Proof.
  induction s as [|a s IH]; [done|]. intros [Ha Hs]%no_char_cons. simpl.
  destruct (Ascii.eqb a "@"); [intros x []|]. apply no_char_cons. auto.
Qed.

Lemma getInitials_one_word a w :
  no_char " " (String a w) -> getInitials (Some (String a w)) = String a EmptyString.
Proof. intros H. unfold getInitials. rewrite js_split_char_none by done. reflexivity. Qed.

(** The initials of a name of two words separated by one space are the
    first letters of the two words. *)
Theorem getInitials_two_words a w1 b w2 :
  no_char " " (String a w1) -> no_char " " (String b w2) ->
  getInitials (Some (String a w1 ++ " " ++ String b w2)%string) = String a (String b EmptyString).
Proof.
  intros H1 H2. unfold getInitials. simpl String.eqb.
  change (" " ++ String b w2)%string with (String " " (String b w2)).
  rewrite js_split_char_app, js_split_char_none by done. reflexivity.
Qed.

(** A name with a leading or trailing space splits into a piece that
    is empty, whose [[0]] is [undefined]: the avatar shows "Aundefined" or
    "undefinedA" instead of one initial. *)
Example getInitials_stray_space :
  getInitials (Some "Ada "%string) = "Aundefined"%string /\
  getInitials (Some " Ada"%string) = "undefinedA"%string /\
  getInitials (Some " "%string) = "NaN"%string.
Proof. repeat split; reflexivity. Qed.

(** After a login with an e-mail address without spaces, the header's
    avatar shows the first character of the address, the label its part
    before the [@], and the role chosen at login. *)
Theorem login_user_menu now em pw r s a rest :
  em = String a rest -> a <> "@"%char -> no_char " " em ->
  user_menu (user (login now em pw r s)) =
  Some (mkUserMenu ("https://placehold.co/100x100.png?text=" ++ String a EmptyString)
          (before_at em) (String a EmptyString) (Some (before_at em))
          (match r with Some r => r | None => student end)).
Proof.
  intros -> Ha Hs. rewrite !before_at_cons by done.
  unfold user_menu, login. cbn [user name role]. rewrite !before_at_cons by done.
  assert (Hb : no_char " " (String a (before_at rest))).
  { rewrite <- before_at_cons by done. by apply before_at_no_char. }
  rewrite getInitials_one_word by done. reflexivity.
Qed.

(** Every list the home page renders with [map] gives its elements
    distinct React keys: the header's links (by label), the highlights
    (by index), the form cards, the notices (by id), the events (by
    title) and the gallery preview (by id). *)
Theorem home_keys_distinct :
  NoDup (List.map snd navLinks) /\ NoDup (List.map ic_key highlight_cards) /\
  NoDup (List.map form_id PublicSite.conceptualForms) /\ NoDup (List.map sn_id sampleNotices) /\
  NoDup (List.map ic_key event_cards) /\ NoDup (List.map Gallery.id previewItems).
Proof. split_and!; decide_it. Qed.

(** [format] of a UTC midnight shifted by the time zone's offset is the
    format of the local day's midnight. *)
Lemma format_ppp_local k offset :
  (-86400000 <= offset < 86400000)%Z ->
  format_ppp (Some (k * 86400000 + offset)%Z) =
    format_ppp (Some ((k + if (offset <? 0)%Z then -1 else 0) * 86400000)%Z).
Proof. intros Ho. unfold format_ppp. by rewrite local_day_of_midnight, Z.div_mul. Qed.

Lemma notice_card_midnight offset n y m d :
  ymd_fields (sn_issuedDate n) = Some (y, m, d) -> valid_ymd y m d = true ->
  (-86400000 <= offset < 86400000)%Z ->
  notice_card parse_ymd offset n =
    match format_ppp (Some ((days_from_civil y m d + if (offset <? 0)%Z then -1 else 0) * 86400000)%Z) with
    | Some t => Some (mkInfoCard (sn_id n) (sn_title n) (Some (sn_type n))
                       ["Posted on: " ++ t; sn_content n; "Read More"]%string)
    | None => None
    end.
Proof.
  intros Hf Hv Ho. unfold notice_card, parse_ymd. rewrite Hf, Hv. cbn [option_map].
  by rewrite format_ppp_local.
Qed.

(** C31: The public noticeboard shows each sample notice's date one day
    early west of Greenwich: [new Date('2024-03-10')] is UTC midnight and
    [format(..., 'PPP')] prints the local day, so the cards read March
    9th, 7th and 4th there and March 10th, 8th and 5th elsewhere. *)
Theorem public_notice_posted_day offset :
  (-86400000 <= offset < 86400000)%Z ->
  option_map (List.map (fun c => hd ""%string (ic_lines c))) (notice_cards parse_ymd offset) =
    Some (if (offset <? 0)%Z
          then ["Posted on: March 9th, 2024"; "Posted on: March 7th, 2024"; "Posted on: March 4th, 2024"]%string
          else ["Posted on: March 10th, 2024"; "Posted on: March 8th, 2024"; "Posted on: March 5th, 2024"]%string).
Proof.
  intros Ho. unfold notice_cards, sampleNotices. cbn [mapM].
  do 3 (erewrite notice_card_midnight; [|reflexivity|reflexivity|exact Ho]).
  destruct (offset <? 0)%Z; vm_compute; reflexivity.
Qed.

(** A visitor who follows the gallery preview's "View Full Gallery" link
    without a stored session is sent on to the login page: the
    authenticated layout redirects and renders nothing. *)
Theorem gallery_preview_link_needs_login h :
  In h gallery_preview_links ->
  route (layout_guard (restore (reload None h))) = "/login"%string /\
  renders_page (layout_guard (restore (reload None h))) = false.
Proof. intros [<-|[]]. split; reflexivity. Qed.

Lemma getInitials_two_words_witness :
  no_char " " "Ada"%string /\ no_char " " "Lovelace"%string /\
  getInitials (Some ("Ada" ++ " " ++ "Lovelace")%string) = "AL"%string.
Proof.
  assert (H1 : no_char " " "Ada"%string) by (intros x Hx; repeat destruct Hx as [<-|Hx]; done).
  assert (H2 : no_char " " "Lovelace"%string) by (intros x Hx; repeat destruct Hx as [<-|Hx]; done).
  split; [exact H1|]. split; [exact H2|].
  exact (getInitials_two_words "A" "da" "L" "ovelace" H1 H2).
Defined.

Lemma public_notice_posted_day_witness :
  (-86400000 <= -18000000 < 86400000)%Z /\
  option_map (List.map (fun c => hd ""%string (ic_lines c))) (notice_cards parse_ymd (-18000000)) =
    Some ["Posted on: March 9th, 2024"; "Posted on: March 7th, 2024"; "Posted on: March 4th, 2024"]%string.
Proof. split; [lia|]. apply (public_notice_posted_day (-18000000)). lia. Defined.

Lemma gallery_preview_link_needs_login_witness :
  In "/gallery"%string gallery_preview_links /\
  route (layout_guard (restore (reload None "/gallery"))) = "/login"%string.
Proof. split; [left; reflexivity|]. apply (gallery_preview_link_needs_login "/gallery"). left; reflexivity. Defined.

Lemma login_user_menu_witness :
  let em := "ada@example.com"%string in
  em = String "a" "da@example.com" /\ "a"%char <> "@"%char /\ no_char " " em /\
  user_menu (user (login 1718000012345 em None (Some teacher) (reload None "/login"))) =
  Some (mkUserMenu ("https://placehold.co/100x100.png?text=" ++ String "a" EmptyString)
          (before_at em) (String "a" EmptyString) (Some (before_at em)) teacher).
Proof.
  intros em. assert (H1 : em = String "a" "da@example.com") by reflexivity.
  assert (H2 : "a"%char <> "@"%char) by discriminate.
  assert (H3 : no_char " " em) by (intros x Hx; repeat destruct Hx as [<-|Hx]; done).
  split; [exact H1|]. split; [exact H2|]. split; [exact H3|].
  exact (login_user_menu 1718000012345 em None (Some teacher) (reload None "/login") "a" _ H1 H2 H3).
Defined.

End SiteFacts.
