(* ===== verification/Flows.v ===== *)
(** * The two server flows and their client pages

    - [StudyQuestions]: src/src/ai/flows/generate-study-questions.ts and
      src/src/app/(app)/study-questions/page.tsx.  The flow hands the
      document to the language model and returns its structured output
      ([output!]: a missing output is returned as [null]).  The page's
      [handleGenerateQuestions] is asynchronous: [start] is the part before
      the [await] (the blank-input guard and the loading state), [finish]
      the part after it (success, or the [catch] branch), and the page's
      transition system [sq_step] interleaves them with the button, which
      is disabled while a request is in flight.  [render_sq] is the
      page's render: the button's text and state, the login hint, the
      error line and the results card (three skeleton rows, or the
      accordion of questions with their 100-character previews).
    - [Enquiry]: src/src/ai/flows/types/enquiry-form-types.ts,
      src/src/ai/flows/handle-enquiry-submission.ts and the form of
      src/src/components/public/EnquiryFormSection.tsx.  The flow checks
      its input schema and returns a fixed acknowledgement with
      [success: true].
    - [EnquiryForm]: the form component as a state machine [estep]
      (inputs, the button disabled while a submission is in flight, the
      server's answer or a thrown error, the toasts, [form.reset()], and
      the class the uncontrolled Select shows);
      [stale_class_after_success] shows the Select keeps showing a class
      the reset has removed from the form.

    The language model is the parameter of [finish]: any answer, including
    a failure, is an input of the theorems. *)

From S2P Require Import Prelude JsRuntime Validation.
Import Validation.

Module StudyQuestions.

(** What the model call gives back: an output object, no output
    ([null]), or a thrown error (its [message] when it is an [Error]). *)
Inductive ModelAnswer :=
  | Output (questions : list string)
  | NoOutput
  | Thrown (message : option string).

(** [generateStudyQuestionsFlow] (lines 37-47): [const {output} = await
    prompt(input); return output!]; [None] is the [null] the non-null
    assertion lets through, and an exception propagates. *)
Definition generateStudyQuestions (a : ModelAnswer) : option (option (list string)) :=
  match a with
  | Output qs => Some (Some qs)
  | NoOutput => Some None
  | Thrown _ => None
  end.

(** The page state (lines 17-20). *)
Record SQPage := mkSQ {
  documentContent : string;
  questions : list string;
  isLoading : bool;
  error : option string;
}.

Definition initialSQ : SQPage := mkSQ "" [] false None.

(** [setDocumentContent] of the text area. *)
Definition setDocumentContent (c : string) (p : SQPage) : SQPage :=
  mkSQ c (questions p) (isLoading p) (error p).

(** [handleGenerateQuestions] up to the [await] (lines 23-39): a blank
    document sets the error and returns; otherwise loading starts, the
    error and the old questions are cleared, and a request is sent (the
    [bool]). *)
Definition start (p : SQPage) : SQPage * bool :=
  if js_trim (documentContent p) =ₛ "" then
    (mkSQ (documentContent p) (questions p) (isLoading p) (Some "Please enter some document content."), false)
  else (mkSQ (documentContent p) [] true None, true).

(** The message [result.questions] throws when the flow returned [null]. *)
Definition null_result_message : string := "Cannot read properties of null (reading 'questions')".

(** [handleGenerateQuestions] after the [await] (lines 40-57). *)
Definition finish (a : ModelAnswer) (p : SQPage) : SQPage :=
  let fail (msg : string) := mkSQ (documentContent p) (questions p) false
                    (Some ("Failed to generate questions: " ++ msg)%string) in
  match generateStudyQuestions a with
  | Some (Some qs) => mkSQ (documentContent p) qs false (error p)
  | Some None => fail null_result_message
  | None => fail (match a with
                  | Thrown (Some m) => m
                  | _ => "An unknown error occurred."
                  end)
  end.

Inductive sq_event := Type_ (c : string) | Click | Answer (a : ModelAnswer).

(** The page with a signed-in user: typing in the text area and the
    button (both disabled while loading, lines 84-99), and the model's
    answer to the request in flight. *)
Inductive sq_step : SQPage -> sq_event -> SQPage -> Prop :=
| sq_type p c : isLoading p = false -> sq_step p (Type_ c) (setDocumentContent c p)
| sq_click p : isLoading p = false -> sq_step p Click (fst (start p))
| sq_answer p a : isLoading p = true -> sq_step p (Answer a) (finish a p).

Inductive sq_reachable : SQPage -> Prop :=
| sq_reach_init : sq_reachable initialSQ
| sq_reach_step p e p' : sq_reachable p -> sq_step p e p' -> sq_reachable p'.

(** A document for the examples. *)
Definition sample_document : string :=
  "Photosynthesis turns light into chemical energy.".

(** ** The rendered page (lines 60-154) *)

(** The toast of an answer (lines 42-54): its title and description. *)
Definition answer_toast (a : ModelAnswer) : string * string :=
  match a with
  | Output qs => ("Success!", js_number_to_string (N.of_nat (length qs)) ++ " study questions generated.")
  | NoOutput => ("Error Generating Questions", "An error occurred: " ++ null_result_message)
  | Thrown m => ("Error Generating Questions", "An error occurred: " ++
                 match m with Some m => m | None => "An unknown error occurred." end)
  end%string.

(** The toast of a blank document (lines 26-30). *)
Definition blank_toast : string * string := ("Input Required", "Document content cannot be empty.")%string.

(** [q.substring(0,100)] followed by [...] when the question is longer
    (line 139). *)
Definition question_preview (q : string) : string :=
  substring 0 100 q ++ (if (100 <? String.length q)%nat then "..." else "").

(** An accordion item (lines 135-145): its trigger text and content. *)
Definition question_item (index : nat) (q : string) : string * string :=
  ("Question " ++ js_number_to_string (N.of_nat (S index)) ++ ": " ++ question_preview q, q)%string.

Fixpoint question_items (index : nat) (qs : list string) : list (string * string) :=
  match qs with
  | [] => []
  | q :: qs' => question_item index q :: question_items (S index) qs'
  end.

(** The content of the results card (lines 123-148): three placeholder
    rows while loading with no questions, the accordion of questions, or
    nothing. *)
Inductive ResultsContent :=
  | Skeleton (rows : nat)
  | QuestionList (items : list (string * string))
  | NoContent.

(** The card is rendered when there are questions or a request is in
    flight (line 116). *)
Definition results_card (p : SQPage) : option ResultsContent :=
  if (0 <? length (questions p))%nat || isLoading p then
    Some (if isLoading p && (length (questions p) =? 0)%nat then Skeleton 3
          else if (0 <? length (questions p))%nat then QuestionList (question_items 0 (questions p))
          else NoContent)
  else None.

(** The page as rendered for a signed-in user or not: the button's text
    and whether it is disabled ([isLoading || !user], line 99), the login
    hint (line 112), the error line (lines 93-97) and the results card. *)
Record SQView := mkSQView {
  button_label : string;
  button_disabled : bool;
  login_hint : bool;
  error_line : option string;
  results : option ResultsContent;
}.

Definition render_sq (signedIn : bool) (p : SQPage) : SQView :=
  mkSQView (if isLoading p then "Generating..." else "Generate Questions")
    (isLoading p || negb signedIn) (negb signedIn)
    (match error p with Some e => if e =ₛ "" then None else Some e | None => None end)
    (results_card p).

(** ** Theorems *)

(** The result is all or nothing: after the answer, loading has
    stopped and either the questions are exactly the model's (the error
    cleared by [start] stays cleared) or an error is shown and no
    question is (the list [start] emptied stays empty). *)
Theorem finish_all_or_nothing p a :
  snd (start p) = true ->
  let p1 := finish a (fst (start p)) in
  isLoading p1 = false /\
  ((exists qs, a = Output qs /\ questions p1 = qs /\ error p1 = None) \/
   (questions p1 = [] /\ exists msg, error p1 = Some msg)).
Proof.
  unfold start. destruct (js_trim (documentContent p) =ₛ "") eqn:E; simpl; [discriminate|].
  intros _. destruct a as [qs| |m]; simpl; split; auto.
  - left. eauto.
  - right. eauto.
  - right. eauto.
Qed.

(** A blank document (empty or only whitespace) sends no request:
    the page shows the input error and keeps its questions and loading
    state. *)
Theorem blank_document_no_request p :
  (forall c, In c (list_ascii_of_string (documentContent p)) -> is_js_space c = true) ->
  snd (start p) = false /\
  fst (start p) = mkSQ (documentContent p) (questions p) (isLoading p)
                    (Some "Please enter some document content."%string).
Proof.
  intros Hb. unfold start. rewrite (proj2 (js_trim_empty_iff _) Hb). done.
Qed.

(** In every reachable state of the page, while a request is in
    flight no question and no error is shown: the click that started it
    cleared both, and the button stays disabled until the answer. *)
Theorem sq_reachable_inv p :
  sq_reachable p -> isLoading p = true -> questions p = [] /\ error p = None.
Proof.
  induction 1 as [|p e p' _ IH Hs]; [done|].
  destruct Hs as [p c Hl|p Hl|p a Hl]; simpl.
  - congruence.
  - unfold start. destruct (js_trim (documentContent p) =ₛ ""); simpl; [congruence|done].
  - unfold finish. destruct (generateStudyQuestions a) as [[qs|]|]; simpl; discriminate.
Qed.

(** C37: the page never gets stuck and a request in flight ends: every
    state has a next event, and while loading the only events are the
    model's answers, each of which stops the loading whatever it is. *)
Theorem sq_progress p :
  (exists e p', sq_step p e p') /\
  (isLoading p = true -> forall e p', sq_step p e p' ->
     (exists a, e = Answer a) /\ isLoading p' = false).
Proof.
  split.
  - destruct (isLoading p) eqn:El.
    + exists (Answer NoOutput), (finish NoOutput p). by apply sq_answer.
    + exists Click, (fst (start p)). by apply sq_click.
  - intros Hl e p' Hs. destruct Hs as [p0 c Hl0|p0 Hl0|p0 a _]; [congruence|congruence|].
    split; [eauto|]. unfold finish. by destruct (generateStudyQuestions a) as [[qs|]|].
Qed.

Lemma substring_prefix_length n (q : string) : (String.length (substring 0 n q) <= n)%nat.
Proof. revert n. induction q as [|c q IH]; intros [|n]; simpl; try lia. specialize (IH n). lia. Qed.

Lemma substring_prefix_full n (q : string) : (String.length q <= n)%nat -> substring 0 n q = q.
Proof.
  revert n. induction q as [|c q IH]; intros [|n] Hl; simpl in *; try done; [lia|]. f_equal. apply IH. lia.
Qed.

(** The title of a generated question shows at most 103 characters
    of it, the question itself when it has at most 100 characters and
    otherwise its first 100 characters followed by "...". *)
Theorem question_preview_bounds (q : string) :
  (String.length (question_preview q) <= 103)%nat /\
  ((String.length q <= 100)%nat -> question_preview q = q) /\
  ((100 < String.length q)%nat -> question_preview q = (substring 0 100 q ++ "...")%string).
Proof.
  unfold question_preview. split; [|split].
  - rewrite string_length_app. pose proof (substring_prefix_length 100 q).
    destruct (Nat.ltb _ _); simpl; lia.
  - intros Hl. rewrite (substring_prefix_full 100 q Hl).
    destruct (Nat.ltb_spec 100 (String.length q)); [lia|]. apply string_app_nil_r.
  - intros Hl. by destruct (Nat.ltb_spec 100 (String.length q)); [|lia].
Qed.

(** While a request is in flight the results card shows the three
    placeholder rows, never questions of an earlier request. *)
Lemma loading_shows_skeleton p :
  sq_reachable p -> isLoading p = true -> results_card p = Some (Skeleton 3).
Proof.
  intros Hr Hl. destruct (sq_reachable_inv p Hr Hl) as [Hq _]. unfold results_card. by rewrite Hq, Hl.
Qed.

Lemma finish_all_or_nothing_witness :
  let p := setDocumentContent sample_document initialSQ in
  snd (start p) = true /\
  (let p1 := finish NoOutput (fst (start p)) in
   isLoading p1 = false /\
   ((exists qs, NoOutput = Output qs /\ questions p1 = qs /\ error p1 = None) \/
    (questions p1 = [] /\ exists msg, error p1 = Some msg))).
Proof.
  intros p. assert (H : snd (start p) = true) by reflexivity.
  split; [exact H|]. exact (finish_all_or_nothing p NoOutput H).
Defined.

Lemma blank_document_no_request_witness :
  let p := setDocumentContent "  " initialSQ in
  (forall c, In c (list_ascii_of_string (documentContent p)) -> is_js_space c = true) /\
  snd (start p) = false /\
  fst (start p) = mkSQ (documentContent p) (questions p) (isLoading p)
                    (Some "Please enter some document content."%string).
Proof.
  intros p.
  assert (H : forall c, In c (list_ascii_of_string (documentContent p)) -> is_js_space c = true)
    by (intros c Hc; repeat destruct Hc as [<-|Hc]; done).
  split; [exact H|]. exact (blank_document_no_request p H).
Defined.

Lemma sq_reachable_inv_witness :
  let p := fst (start (setDocumentContent sample_document initialSQ)) in
  sq_reachable p /\ isLoading p = true /\ questions p = [] /\ error p = None.
Proof.
  intros p.
  assert (H0 : sq_reachable (setDocumentContent sample_document initialSQ)).
  { eapply sq_reach_step; [apply sq_reach_init|apply sq_type; reflexivity]. }
  assert (H1 : sq_reachable p).
  { eapply sq_reach_step; [exact H0|]. apply sq_click. reflexivity. }
  assert (H2 : isLoading p = true) by reflexivity.
  split; [exact H1|]. split; [exact H2|]. exact (sq_reachable_inv p H1 H2).
Defined.

End StudyQuestions.

Module Enquiry.

(** [EnquiryFormInputSchema] (lines 4-10 of enquiry-form-types.ts). *)
Record EnquiryFormInput := mkEnquiry {
  fullName : string;
  email : string;
  phone : option string;
  classInterested : string;
  message : string;
}.

(** [EnquiryFormOutputSchema] (lines 13-16). *)
Record EnquiryFormOutput := mkEnquiryOutput { success : bool; out_message : string }.

Definition validate_enquiry (isEmail : string -> bool) (v : EnquiryFormInput) : list string :=
  ((if min_len 1 (fullName v) then [] else ["fullName"]) ++
  (if isEmail (email v) then [] else ["email"]) ++
  (if min_len 1 (classInterested v) then [] else ["classInterested"]) ++
  (if min_len 1 (message v) then [] else ["message"]))%list%string.

Definition valid_enquiry isEmail (v : EnquiryFormInput) : bool :=
  match validate_enquiry isEmail v with [] => true | _ => false end.

(** [enquiryHandlerFlow] (lines 26-61) behind [handleEnquirySubmission]
    (lines 63-70): the flow parses its input with the schema (a failure
    throws, [None]) and acknowledges. *)
Definition handleEnquirySubmission (isEmail : string -> bool) (v : EnquiryFormInput)
    : option EnquiryFormOutput :=
  if valid_enquiry isEmail v then
    Some (mkEnquiryOutput true
      ("Thank you for your enquiry, " ++ fullName v ++
       ". We have received your message regarding class " ++ classInterested v ++
       " and will get back to you shortly.")%string)
  else None.

(** The toast [onSubmit] shows (lines 38-65) and whether the form is reset. *)
Inductive Toast := Submitted (description : string) | SubmissionFailed (description : string) | ErrorToast.

Definition onSubmit_result (r : option EnquiryFormOutput) : Toast * bool :=
  match r with
  | Some o => if success o then (Submitted (out_message o), true)
              else (SubmissionFailed (if out_message o =ₛ "" then "An unexpected error occurred."
                                      else out_message o), false)
  | None => (ErrorToast, false)
  end.

(** Every enquiry the client form accepts is acknowledged with
    [success: true] and the message naming the sender and the class, the
    form is reset, and so the "Submission Failed" branch of [onSubmit]
    never runs. *)
Theorem enquiry_always_succeeds isEmail v :
  valid_enquiry isEmail v = true ->
  onSubmit_result (handleEnquirySubmission isEmail v) =
  (Submitted ("Thank you for your enquiry, " ++ fullName v ++
              ". We have received your message regarding class " ++ classInterested v ++
              " and will get back to you shortly.")%string, true).
Proof. intros Hv. unfold handleEnquirySubmission. by rewrite Hv. Qed.

Lemma enquiry_always_succeeds_witness :
  let isEmail := fun s => if String.index 0 "@" s is Some _ then true else false in
  let v := mkEnquiry "Asha Rao" "asha@example.com" None "5" "Is there a school bus?" in
  valid_enquiry isEmail v = true /\
  onSubmit_result (handleEnquirySubmission isEmail v) =
  (Submitted ("Thank you for your enquiry, " ++ fullName v ++
              ". We have received your message regarding class " ++ classInterested v ++
              " and will get back to you shortly.")%string, true).
Proof.
  intros isEmail v. assert (H : valid_enquiry isEmail v = true) by reflexivity.
  split; [exact H|]. exact (enquiry_always_succeeds isEmail v H).
Defined.

End Enquiry.

Module EnquiryForm.
Import Enquiry.

(** [CLASS_OPTIONS] (line 21 of EnquiryFormSection.tsx). *)
Definition CLASS_OPTIONS : list string :=
  ["Nursery"; "LKG"; "UKG"; "1"; "2"; "3"; "4"; "5"; "6"; "7"; "8"; "9"; "10"; "11"; "12"]%string.

(** The form's [defaultValues] (lines 29-35), which [form.reset()]
    restores (line 47). *)
Definition enquiry_defaults : EnquiryFormInput := mkEnquiry "" "" (Some "") "" "".

(** The component's state: the form's values, [isLoading] (line 25),
    the values of a submission awaiting the server ([pending]), the
    toasts shown so far, and the option the class Select displays.  The
    Select is uncontrolled ([defaultValue={field.value}], line 125):
    Radix reads [defaultValue] when the Select mounts and afterwards
    shows the last option picked, so [form.reset()] empties the form's
    value but not what the Select shows. *)
Record EnquiryState := mkEnquiryState {
  values : EnquiryFormInput;
  loading : bool;
  pending : option EnquiryFormInput;
  toasts : list Toast;
  shownClass : string;
}.

Definition initialEnquiry : EnquiryState := mkEnquiryState enquiry_defaults false None [] "".

(** What the user can do in the form (lines 78-155). *)
Inductive EnquiryInput :=
  | SetFullName (s : string)
  | SetEmail (s : string)
  | SetPhone (s : string)
  | PickClass (c : string)
  | SetMessage (s : string).

(** The class Select offers [CLASS_OPTIONS] (lines 132-136). *)
Definition enquiry_input_offered (i : EnquiryInput) : bool :=
  match i with PickClass c => existsb (String.eqb c) CLASS_OPTIONS | _ => true end.

Definition set_enquiry_field (i : EnquiryInput) (v : EnquiryFormInput) : EnquiryFormInput :=
  let 'mkEnquiry n e p c m := v in
  match i with
  | SetFullName x => mkEnquiry x e p c m
  | SetEmail x => mkEnquiry n x p c m
  | SetPhone x => mkEnquiry n e (Some x) c m
  | PickClass x => mkEnquiry n e p x m
  | SetMessage x => mkEnquiry n e p c x
  end.

Definition apply_enquiry_input (i : EnquiryInput) (st : EnquiryState) : EnquiryState :=
  mkEnquiryState (set_enquiry_field i (values st)) (loading st) (pending st) (toasts st)
    (match i with PickClass c => c | _ => shownClass st end).

(** The submit button's text (lines 156-168). *)
Definition submit_label (st : EnquiryState) : string :=
  if loading st then "Submitting..." else "Submit Enquiry".

(** The rest of [onSubmit] once the server answers (lines 41-64): the
    toast, [form.reset()] after a success, and [setIsLoading(false)] in
    the [finally] block.  [None] is a thrown error. *)
Definition finish_submit (r : option EnquiryFormOutput) (st : EnquiryState) : EnquiryState :=
  let '(t, reset) := onSubmit_result r in
  mkEnquiryState (if reset then enquiry_defaults else values st) false None (toasts st ++ [t])
    (shownClass st).

Inductive enquiry_event :=
  | EInput (i : EnquiryInput)   (* typing, picking a class *)
  | ESubmit                     (* "Submit Enquiry" on a form zod accepts *)
  | EAnswer                     (* the server's answer arrives *)
  | ENetworkError.              (* the server action throws *)

Section EnquiryStep.
Variable isEmail : string -> bool.

(** The component as a state machine: [form.handleSubmit(onSubmit)]
    runs [onSubmit] only on values the schema accepts, and the button is
    [disabled={isLoading}] (line 156); the inputs stay editable while a
    submission is in flight. *)
Inductive estep : EnquiryState -> enquiry_event -> EnquiryState -> Prop :=
  | estep_input st i :
      enquiry_input_offered i = true -> estep st (EInput i) (apply_enquiry_input i st)
  | estep_submit st :
      loading st = false -> validate_enquiry isEmail (values st) = [] ->
      estep st ESubmit (mkEnquiryState (values st) true (Some (values st)) (toasts st) (shownClass st))
  | estep_answer st v :
      pending st = Some v -> estep st EAnswer (finish_submit (handleEnquirySubmission isEmail v) st)
  | estep_network_error st v :
      pending st = Some v -> estep st ENetworkError (finish_submit None st).
End EnquiryStep.

(** ** Theorems *)

Section EnquiryFacts.
Variable isEmail : string -> bool.

Lemma finish_submit_idle r st :
  loading (finish_submit r st) = false /\ pending (finish_submit r st) = None.
Proof. unfold finish_submit. by destruct (onSubmit_result r). Qed.

(** The button is disabled exactly while a submission awaits the server. *)
Lemma run_loading_pending st es st' :
  run (estep isEmail) st es st' -> (loading st = true <-> pending st <> None) ->
  (loading st' = true <-> pending st' <> None).
Proof.
  induction 1 as [s|s e es s1 s2 Hs _ IH]; [done|]. intros H. apply IH.
  destruct Hs as [st i _|st Hl _|st v Hp|st v Hp]; [exact H|simpl; done| |];
    [destruct (finish_submit_idle (handleEnquirySubmission isEmail v) st) as [-> ->]
    |destruct (finish_submit_idle None st) as [-> ->]]; done.
Qed.

(** An answer to an accepted form is the acknowledgement: the form is
    reset, the button enabled and the success toast added. *)
Lemma finish_success v st :
  validate_enquiry isEmail v = [] ->
  finish_submit (handleEnquirySubmission isEmail v) st =
  mkEnquiryState enquiry_defaults false None
    (toasts st ++ [Submitted ("Thank you for your enquiry, " ++ fullName v ++
                   ". We have received your message regarding class " ++ classInterested v ++
                   " and will get back to you shortly.")%string])
    (shownClass st).
Proof. intros Hv. unfold finish_submit, handleEnquirySubmission, valid_enquiry. by rewrite Hv. Qed.

(** C29: after a successful enquiry the class Select keeps showing the
    class the user picked while [form.reset()] has emptied the form's
    value, so an enquiry written next without picking the class again is
    refused with "Class interested in is required." although the Select
    shows a class. *)
Theorem stale_class_after_success (n e m c : string) :
  isEmail e = true -> n <> ""%string -> m <> ""%string -> In c CLASS_OPTIONS ->
  exists st,
    run (estep isEmail) initialEnquiry
      [EInput (SetFullName n); EInput (SetEmail e); EInput (PickClass c); EInput (SetMessage m);
       ESubmit; EAnswer; EInput (SetFullName n); EInput (SetEmail e); EInput (SetMessage m)] st /\
    shownClass st = c /\ validate_enquiry isEmail (values st) = ["classInterested"%string] /\
    loading st = false /\ length (toasts st) = 1%nat.
Proof.
  intros He Hn Hm Hc.
  assert (Hoff : enquiry_input_offered (PickClass c) = true).
  { apply existsb_exists. exists c. split; [done|apply String.eqb_refl]. }
  assert (Hv : validate_enquiry isEmail (mkEnquiry n e (Some "") c m) = []).
  { unfold validate_enquiry. cbn [fullName email classInterested message]. rewrite He.
    destruct n; [done|]. destruct m; [done|].
    destruct c; [exfalso; simpl in Hc; repeat (destruct Hc as [Hc|Hc]; [discriminate|]); exact Hc|].
    reflexivity. }
  eexists. split.
  - do 4 (eapply run_cons; [apply estep_input; first [exact Hoff|reflexivity]|]).
    eapply run_cons; [apply estep_submit; [reflexivity|exact Hv]|].
    eapply run_cons; [apply estep_answer; reflexivity|].
    rewrite finish_success by exact Hv.
    do 3 (eapply run_cons; [apply estep_input; reflexivity|]). apply run_nil.
  - simpl. unfold validate_enquiry. simpl. rewrite He.
    destruct n; [done|]. destruct m; [done|]. repeat split.
Qed.
End EnquiryFacts.

Lemma stale_class_after_success_witness :
  let isEmail := fun s => if String.index 0 "@" s is Some _ then true else false in
  isEmail "asha@example.com"%string = true /\ "Asha Rao"%string <> ""%string /\
  "Is there a school bus?"%string <> ""%string /\ In "5"%string CLASS_OPTIONS /\
  exists st,
    run (estep isEmail) initialEnquiry
      [EInput (SetFullName "Asha Rao"); EInput (SetEmail "asha@example.com"); EInput (PickClass "5");
       EInput (SetMessage "Is there a school bus?"); ESubmit; EAnswer;
       EInput (SetFullName "Asha Rao"); EInput (SetEmail "asha@example.com");
       EInput (SetMessage "Is there a school bus?")] st /\
    shownClass st = "5"%string /\ validate_enquiry isEmail (values st) = ["classInterested"%string] /\
    loading st = false /\ length (toasts st) = 1%nat.
Proof.
  intros isEmail. split; [reflexivity|]. split; [discriminate|]. split; [discriminate|].
  split; [simpl; tauto|].
  exact (stale_class_after_success isEmail "Asha Rao" "asha@example.com" "Is there a school bus?" "5"
           eq_refl ltac:(discriminate) ltac:(discriminate) ltac:(simpl; tauto)).
Defined.

End EnquiryForm.
